(* ===== verification/_CoqProject ===== *)
-Q . S2P
Prelude.v
Registry.v
PyString.v
Regex.v
Csv.v
StableSort.v
NameParser.v
PdfProcessor.v
Mismatch.v
MismatchScenarios.v
DocumentParser.v
RateLimiter.v
Scanner.v
ScannerFrame.v
ScannerProps.v
ScannerTrace.v
PostAnalysis.v
Clusters.v
ApiClient.v
ClientProps.v
ClientScenarios.v
Scenarios.v
BatchProcessor.v
Config.v
BatchProps.v
BatchScenarios.v
CsvExport.v
Reports.v
ExportScenarios.v
RepoTests.v
Base64.v
Json.v
AiExtraction.v
AiScenarios.v
GitHub.v
GitHubProps.v
GitHubScenarios.v
Cli.v
CliScenarios.v
