(* ===== verification/Prelude.v ===== *)
(** * SignalWatchUK: a verification development

    This library models, in Rocq, the Python code of the SignalWatchUK
    repository (src/) that has algorithmic content: the breadth-first
    "director network" crawler, the rate-limited Companies House client it
    runs on, the analyses of the crawl's snapshot, and the document side of
    the system: the company-name parser, the PDF processor, the document
    parser and the mismatch detector that compares the names found in
    filed documents with the registry's name history, and the batch
    processor that runs this pipeline over a list of companies with
    checkpoint files.

    ** The program and how its parts interact

    - [RateLimiter.acquire] (src/core/rate_limiter.py) keeps a deque of
      request timestamps and delays its caller until a sliding window of
      [period] seconds holds fewer than [max_requests] entries.
    - [CompaniesHouseClient] (src/api_client.py) takes a limiter token for
      every HTTP round trip in [_make_request] (three attempts, 429 handling,
      re-raised errors), caches profiles, and pages through officer lists,
      officer searches, filing histories and company searches.
    - [NetworkScanner.scan_network] (src/network_scanner.py) pulls
      [(company_number, depth)] items from a FIFO list, fetches each
      company's profile and officers through the client, records the
      company, one director entry per officer identity and one connection
      per appointment, and, below [max_depth], searches every natural-person
      officer and enqueues the companies of its other appointments;
      [find_shared_directors] and [find_company_clusters] analyse the result.
    - [Config] (src/core/config.py) reads the environment once, at
      import; every other part reads its attributes.
    - [PDFProcessor] (src/pdf_processor.py) extracts the text of a filed
      PDF (text layer, OCR fallback, or the vision model of
      [extract_with_ai], which posts page images to XAI or OpenAI), cleans
      it and classifies the document; [NameParser] (src/parsers/name_parser.py) extracts company
      names and name changes with regular expressions, normalises and
      compares them; [DocumentParser.parse_document]
      (src/parsers/document_parser.py) chains the two into the dictionary
      that [MismatchDetector.detect_mismatches] (src/mismatch_detector.py)
      checks against the company's profile.
    - [BatchProcessor.process_companies] (src/core/batch_processor.py) runs
      the document pipeline over a list of companies with a checkpoint
      file, and optionally the crawler over them; [CSVExporter]
      (src/exporters/csv_exporter.py) writes its results, their summary
      and the crawler's connections as CSV files; [GitHubStorage]
      (src/core/github_storage.py) keeps scan results in a GitHub
      repository through the contents API.
    - [main] (src/core/cli.py) checks the API key ([Config]) and runs one
      command: [scan] (the batch processor, its summary, the results file
      and an optional export), [export], [resume], [network] (the crawler
      and its report) or [search] (the client's company search).

    ** Files, modules and what they model

    - [Prelude] (this file): the Python semantics shared by the models: an
      insertion-ordered [dict] ([pydict], [dict_get], [dict_set]),
      [str.upper], [in], [str.split], negative indexing, [str(n)] of an
      integer, truthiness, exceptions as values of [result]; the notations of
      [py_scope], the tactics and the hint database [pyd].
    - [Registry]: the JSON records of the API and the class [Registry] of
      the four fallible calls the crawler makes, threading the client's
      state; a recording wrapper and a table-driven registry.
    - [PyString]: [str] methods on ASCII character lists ([isspace], [\w],
      [upper], [lower], [strip], [split()], [' '.join], [endswith], [find])
      and their lemmas ([split()]/[join] round trip, fixed points).
    - [Regex]: Python's [re] as a backtracking matcher over an inductive
      syntax (classes, sequence, alternation, greedy star, groups, [^]/[$]
      in MULTILINE mode, look-arounds): the reference list of matches in
      engine order [matches], the continuation-passing engine [bt] proved
      equal to its first accepted match ([bt_first]), [re.search],
      [re.finditer], IGNORECASE as a class transformer.
    - [StableSort]: Python's stable [sort(key=..., reverse=True)] as an
      insertion sort, with the theorem that it is the unique stable sort.
    - [NameParser]: [normalize_name], [_is_valid_name], [_remove_suffix],
      [_extract_name_with_suffix], [compare_names], and the extractors
      [extract_names], [_extract_from_sections], [extract_name_changes]
      with their patterns written in the syntax of [Regex].
    - [PdfProcessor]: [_parse_pdf_date], [analyze_document_type] and
      [clean_text], each [re] pattern written out as the scan [re] makes.
    - [Mismatch]: [detect_mismatches] and its checks (names, dates, multiple
      name changes, names missing from the history, the report message).
    - [MismatchScenarios]: the data of src/test_mismatch.py and further
      companies, evaluated by [vm_compute].
    - [DocumentParser]: [extract_text_from_pdf] with the page loops of
      [_extract_native_text] and [_extract_with_ocr], [extract_metadata],
      [parse_document], [parse_batch], [extract_for_mismatch_detection];
      PyPDF2, Tesseract, the vision model and [DateParser] are parameters
      returning [result] values, and a change-of-name resolution runs
      through the whole pipeline into [detect_mismatches].
    - [RateLimiter]: the deque, [acquire], [get_remaining_requests],
      [get_reset_time], [reset], with the clock as an input.
    - [Scanner], [ScannerFrame], [ScannerProps], [ScannerTrace]:
      [scan_network] as explicit state passing (per-officer step, search
      expansion, per-company step, one loop iteration [scan_step], the
      fuelled loop), frame lemmas of the steps, the crawl invariant by rule
      induction on the reachability relation [scan_reach], and the trace of
      registry calls.
    - [PostAnalysis], [Clusters]: [find_shared_directors], the adjacency of
      [find_company_clusters] and its depth-first traversal, with the set
      iteration order as a parameter.
    - [ApiClient], [ClientProps], [ClientScenarios]: every method of the
      client as a state-and-exception function [CM] over an arbitrary
      server, the client's step relation [client_step], and concrete runs.
    - [Scenarios]: the crawler scenarios of the specification (section 8).
    - [BatchProcessor], [BatchProps], [BatchScenarios]:
      [process_companies] over an arbitrary client state, with the
      checkpoint file as a value [option batch] and a crash as the loop cut
      after an iteration; [resume_from_checkpoint];
      [_process_single_company] composing the client's calls, the document
      parser and [detect_mismatches]; [_filter_relevant_filings];
      [get_processing_summary]; the liveness combinator [eventually] over
      a step relation that quantifies every outcome of a resumed run.
    - [Csv]: the writer of Python's [csv] module in its default dialect
      ([QUOTE_MINIMAL] quoting, doubled quotes, CRLF rows) and a reader
      proved to invert it ([read_write_csv]).
    - [CsvExport]: [export_mismatches], [export_network],
      [export_summary], [_format_expected] and [_format_found]; the content
      of the file an export writes is its value ([None] when no file is
      written), next to the returned path.
    - [Reports]: [generate_report] and [generate_network_report] as their
      lists of lines joined by a line feed.
    - [ExportScenarios]: the exports and the reports on concrete runs.
    - [RepoTests]: the assertions of src/tests/test_name_parser.py and the
      run of src/test_mismatch.py with what it prints, on the model.
    - [Base64]: [base64.b64encode] with its bit operations, and a decoder
      proved to invert it.
    - [GitHub], [GitHubProps], [GitHubScenarios]: every method of
      [GitHubStorage] over a model of the contents API (files by path
      with base64 content and sha, directory listings, sha-checked
      updates, network failures), the repositories reachable by pushes as
      a step relation, and a concrete repository.
    - [Config]: [Config.from_env], every class attribute computed from
      an environment dict, with [int()] and [Path(...)] written out, and
      [ensure_directories].
    - [Json]: JSON values and Python's subscripts on them.
    - [AiExtraction], [AiScenarios]: [extract_with_ai],
      [_extract_with_xai], [_extract_with_openai] and [_encode_image] in a
      state-and-exception monad over the cache files, the posted
      requests, the [openai] module key and the printed lines; concrete
      servers and configurations.
    - [Cli], [CliScenarios]: the commands of cli.py over a world of files
      (a dict from path to content), printed lines and the client state,
      the components they create composed as their models; concrete
      command lines and their error paths.

    ** What the theorems show

    - The crawler: the loop terminates: every iteration decreases the pair
      (companies [max_companies] still allows, frontier length)
      lexicographically, so some fuel suffices, and more fuel changes
      nothing; every company is
      recorded once, at most [max_companies] of them, at depths within
      [0..max_depth], in breadth-first order; connections carry their
      company's depth; corporate officers are never searched; the
      statistics are exact; a dequeued company is marked visited exactly
      when its profile and officers are fetched, so after a failed fetch
      its next copy in the frontier is expanded again, whatever the
      registry ([scan_step_visits]).  Scenarios show the failure paths
      that re-fetch companies and repeat searches.
    - The analyses: [find_shared_directors] is the unique stable descending
      sort of the directors with two or more appointments;
      [find_company_clusters] returns, for every set iteration order, the
      connected components of size at least two of the shared-director
      graph, with fuel one more than the number of companies in the graph.
    - The limiter and the client: no window of [period] seconds holds more
      than [max_requests] grants in runs whose clock advances, for the
      limiter alone and for the whole client from [__init__] (composition
      through [client_step]); the boundary burst that breaks it when calls
      read the same instant, for every limit and period, with arbitrarily
      many grants in one window; [_make_request] sends at most three round
      trips, escalates 429s and retries every HTTP error; the profile cache
      is a round trip; the paginated searches terminate within
      [ceil(200 / items_per_page) + 1] and 1001 pages; [get_officers]
      sends no paging parameter, so a server answering by the request
      returns the first page repeated and never a later officer.
    - The batch processor: when every company succeeds, repeated resumes
      eventually complete the run whatever the crashes, provided each
      crashed run reached its next checkpoint (liveness, by well-founded
      induction on the companies left); a crashed and restarted run ends
      with the same results as an uninterrupted one, for a company list
      without duplicates; a fresh run records every company once, as a
      result or an error; the results stay aligned with the processed
      companies in every checkpoint; at most ten documents are parsed per
      company; the summary's counts add up; a run on a checkpoint retries
      every failed company and appends its error again.  A scenario shows
      the network depth lost on resume and a duplicated company processed
      twice.
    - The documents: [normalize_name] produces upper-case words joined by
      single spaces and is idempotent except on names ending in [LTD] (where
      it is not, by an example); [compare_names] matches names whose
      stripped forms are contained in each other; for every set iteration
      order the regex extractors return distinct valid normalised names and
      name changes between suffixed names; [parse_document] fails with an
      error and no names, or succeeds with the type, length, names and
      name changes computed from the non-empty text [document_text]
      chose; it consults the paid vision model only when
      enabled and OCR gave fewer than fifty characters; OCR never shortens
      the native text; on a real change-of-name resolution the
      case-insensitive patterns return sentence fragments that the detector
      reports as missing names; [clean_text] leaves no double space and no surrounding
      whitespace; [_parse_pdf_date] round-trips PDF dates; the mismatch
      checks report exactly the unmatched names (never with severity
      ['low']), one issue per name change and disagreeing previous name, and
      the names missing from the history, plus a dummy name.
    - The exports: reading back the mismatch export gives one row per
      mismatch, or a single "None" row for a clean company, whatever the
      fields hold; on every snapshot of the crawler, the network export
      has one row per connection and the director lookup of its date of
      birth never misses; every exporter returns its path and writes no
      file exactly when it has no row.  A scenario shows the quoting and
      two people merged into one identity sharing the first one's date of
      birth.
    - The reports: the lines of the mismatch report that begin with a line
      feed are exactly the issue headers, in order; the network report
      always returns and, when the network's names, numbers and roles hold
      no line feed, prints on at most 160 lines whatever the network
      (145 entries, fifteen of which begin with a line feed).
    - The GitHub storage: base64 decoding inverts [b64encode]; a push with
      a token succeeds whatever the repository holds, because the update
      carries the sha read first, and the pushed dict reads back; in every
      repository pushes produce, [get_company_history] finds no scan
      (it lists one level too high).  A scenario shows the in-place update
      of the caller's dict and the push without a token.
    - The command line: [scan] runs the batch processor on the numbers of
      [--companies] (else [--company]) from no checkpoint, keeps the
      client state of that run, saves its results, and its CSV export
      reads back as the rows of those results.  A scenario shows the
      error paths (no API key, no companies, a search hit without a
      number, a missing results file) and the empty company number a
      blank field of [--companies] gives.
    - The configuration: [int()] reads back every [str(n)]; [str(Path)]
      is idempotent; the import fails exactly when one of the three
      integer variables is not a decimal literal; without environment
      variables it holds the constants the other models are written with.
    - The vision-model extraction: with a key and readable replies the XAI
      extractor posts one request per page of the first three, in order,
      returns the numbered texts of the 200 replies and leaves the cache
      directory without its temporary images; one unreadable reply or
      failed post discards every page and leaves that page's image
      behind; each request's [data:] URL decodes to the page image; the
      OpenAI extractor sends the first page only, removes its image when
      the call answers and leaves it behind when the call raises.
    - The repository's tests: the assertions of test_name_parser.py hold
      of the model for every similarity measure scoring ACME against XYZ
      below 0.85 and every set order; test_mismatch.py prints one block of
      four lines per mismatch.

    ** Modelling choices

    - Integers the code compares or adds are [Z]; lengths are [nat]; the
      similarity scores are exact rationals [Q].
    - JSON objects and the code's dicts are records with an [option] field
      per key read; [.get(k, d)] is written out with [default].
    - Text is ASCII: [str.upper] and [str.lower] map only letters, [\w] is
      letters, digits and [_].
    - Effects are explicit: state passing, the monad [CM] of the client,
      logs for [print], traces for registry calls.  The [difflib] ratio,
      the missing [DateParser] and the clock are parameters.
    - A file the code writes with [json.dump] and reads back with
      [json.load] is the value written (the checkpoint of the batch
      processor); writes do not fail.

    ** Not modelled

    The libraries behind the PDF text (PyPDF2's page text and document
    information, pdf2image's rendering, Tesseract, [requests.post] and
    [openai.ChatCompletion.create] behind [extract_with_ai]), which are
    parameters; the traceback the XAI extractor prints to stderr; the
    Windows Tesseract-path probing of [PDFProcessor.__init__] and
    [load_dotenv] reading the .env file (their result is the environment
    the configuration is computed from); the [DateParser] the
    parsers import, which has no source in the repository; Python's [re]
    beyond the constructs the patterns use (the engine of [Regex] has no
    backreferences or lazy quantifiers, which no pattern of the code
    uses); the JSON and HTML exporters the exporters package imports,
    which have no source in the repository; the directory creation and timestamped
    default names of the exports (the path is an argument); the GitHub
    server itself, modelled by its documented behaviour; the progress
    callbacks of the batch processor and of the CLI (printing);
    [argparse] itself (the command line is taken as parsed, its defaults
    filled in); the packaging. *)

From Stdlib Require Export ZArith Lia String Ascii Sorted.
From stdpp Require Export base gmap sets list strings.

Declare Scope py_scope.
Delimit Scope py_scope with py.

(** ** Python exceptions as values *)

(** An exception keeps the text that [str(e)] shows. *)
Record exn := Exn { exn_msg : string }.

(** The outcome of a call that may raise. *)
Inductive result (A : Type) : Type :=
| Ok (a : A)
| Err (e : exn).
Arguments Ok {A} _.
Arguments Err {A} _.

#[export] Instance result_ret : MRet result := @Ok.
#[export] Instance result_bind : MBind result := fun A B f r =>
  match r with Ok a => f a | Err e => Err e end.
#[export] Instance result_fmap : FMap result := fun A B f r =>
  match r with Ok a => Ok (f a) | Err e => Err e end.

(** ** Strings *)

(** Truthiness of a Python [str]: only [""] is false. *)
Definition truthy_str (s : string) : bool := negb (bool_decide (s = ""%string)).

(** Truthiness of [d.get(k)] for a string field: [None] and [""] are false. *)
Definition truthy_opt (o : option string) : bool :=
  match o with Some s => truthy_str s | None => false end.

(** [str.upper] on ASCII letters. *)
Definition ascii_upper (c : ascii) : ascii :=
  let n := nat_of_ascii c in
  if (97 <=? n)%nat && (n <=? 122)%nat then ascii_of_nat (n - 32) else c.

Fixpoint str_upper (s : string) : string :=
  match s with
  | EmptyString => EmptyString
  | String c s' => String (ascii_upper c) (str_upper s')
  end.

(** The Python test [needle in hay] on strings. *)
Fixpoint str_contains (needle hay : string) : bool :=
  String.prefix needle hay ||
  match hay with
  | EmptyString => false
  | String _ hay' => str_contains needle hay'
  end.

Notation "needle 'in_str' hay" := (str_contains needle hay)
  (at level 70, no associativity) : py_scope.

(** [s.split(sep)] for a one-character separator: never empty, and empty
    fields are kept ([""].split gives [[""]]). *)
Fixpoint str_split (sep : ascii) (s : string) : list string :=
  match s with
  | EmptyString => [""%string]
  | String c s' =>
      let rest := str_split sep s' in
      if bool_decide (c = sep) then ""%string :: rest
      else match rest with
           | r :: rs => String c r :: rs
           | [] => [String c EmptyString]
           end
  end.

(** [l[-k]] for [k >= 1]: [None] is Python's [IndexError]. *)
Definition py_index_neg {A} (k : nat) (l : list A) : option A :=
  if (1 <=? k)%nat && (k <=? length l)%nat then nth_error l (length l - k) else None.

(** [str(n)] for an integer: decimal digits, [-] for negatives; [fuel]
    bounds the number of digits ([Z.log2 |n| + 1] of them suffice). *)
Fixpoint digits_of_pos (fuel : nat) (n : Z) (acc : string) : string :=
  match fuel with
  | O => acc
  | S f =>
      let acc' := String (ascii_of_nat (48 + Z.to_nat (n mod 10))) acc in
      if (n <? 10)%Z then acc' else digits_of_pos f (n / 10)%Z acc'
  end.

Definition str_of_Z (n : Z) : string :=
  let fuel := S (Z.to_nat (Z.log2 (Z.abs n))) in
  if (n <? 0)%Z then String "-" (digits_of_pos fuel (- n) "") else digits_of_pos fuel n "".

(** ** Strings: concatenation and splitting *)

(** The string holds no ['/']. *)
Fixpoint slash_free (s : string) : bool :=
  match s with EmptyString => true | String c s' => negb (bool_decide (c = "/"%char)) && slash_free s' end.

Lemma str_app_cons c (a b : string) : String c a +:+ b = String c (a +:+ b).
Proof. reflexivity. Qed.

Lemma str_app_nil (b : string) : "" +:+ b = b.
Proof. reflexivity. Qed.

Lemma str_app_assoc (a b c : string) : (a +:+ b) +:+ c = a +:+ b +:+ c.
Proof. induction a as [|x a IH]; [done|]. by rewrite !str_app_cons, IH. Qed.

Lemma str_split_nonempty sep s : str_split sep s <> [].
Proof. destruct s as [|c s]; cbn; [done|]. case_bool_decide; [done|]. by destruct (str_split sep s). Qed.

Lemma str_split_slash a b : slash_free a = true -> str_split "/" (a +:+ String "/" b) = a :: str_split "/" b.
Proof.
  induction a as [|c a IH]; intros Ha; [rewrite str_app_nil; cbn [str_split]; by rewrite bool_decide_true|].
  cbn [slash_free] in Ha. apply andb_true_iff in Ha as [Hc Ha]. apply negb_true_iff in Hc.
  rewrite str_app_cons. cbn [str_split]. rewrite Hc, IH by done. done.
Qed.

Lemma str_app_cancel p a b : p +:+ a = p +:+ b -> a = b.
Proof. induction p as [|c p IH]; [done|]. rewrite !str_app_cons. intros [= H]. by apply IH. Qed.

(** [s.removeprefix(p)] when [s] starts with [p]. *)
Fixpoint strip_prefix (p s : string) : option string :=
  match p, s with
  | EmptyString, _ => Some s
  | String c p', String c' s' => if bool_decide (c = c') then strip_prefix p' s' else None
  | String _ _, EmptyString => None
  end.

Lemma strip_prefix_app p a b : strip_prefix (p +:+ a) (p +:+ b) = strip_prefix a b.
Proof. induction p as [|c p IH]; [done|]. rewrite !str_app_cons. cbn. by rewrite bool_decide_true. Qed.

Lemma str_split_single a : slash_free a = true -> str_split "/" a = [a].
Proof.
  induction a as [|c a IH]; intros Ha; [done|]. cbn [slash_free] in Ha.
  apply andb_true_iff in Ha as [Hc Ha]. apply negb_true_iff in Hc. cbn [str_split]. by rewrite Hc, IH.
Qed.

Lemma str_split_free s : Forall (fun p => slash_free p = true) (str_split "/" s).
Proof.
  induction s as [|c s IH]; [by repeat constructor|]. cbn [str_split]. case_bool_decide as E.
  - by constructor.
  - destruct (str_split "/" s) as [|r rs];
      [repeat constructor; cbn; by rewrite bool_decide_false|].
    apply Forall_cons in IH as [Hr Hrs].
    constructor; [|done]. cbn. rewrite bool_decide_false by done. done.
Qed.

(** [sep.join(parts).split(sep)] gives the parts back. *)
Lemma str_split_concat parts :
  parts <> [] -> Forall (fun p => slash_free p = true) parts -> str_split "/" (String.concat "/" parts) = parts.
Proof.
  induction parts as [|p [|q ps] IH]; intros Hne Hf; [done| |].
  - apply Forall_cons in Hf as [Hp _]. cbn. by apply str_split_single.
  - apply Forall_cons in Hf as [Hp Hf].
    change (String.concat "/" (p :: q :: ps)) with (p +:+ String "/" (String.concat "/" (q :: ps))).
    rewrite str_split_slash by done. by rewrite IH.
Qed.

(** ** Python's [dict] with insertion order *)

Section PyDict.
Context {K V : Type} `{EqDecision K}.

(** A dictionary is the list of its items in insertion order. *)
Definition pydict := list (K * V).

(** [d.get(k)] *)
Fixpoint dict_get (d : pydict) (k : K) : option V :=
  match d with
  | [] => None
  | (k', v) :: d' => if decide (k = k') then Some v else dict_get d' k
  end.

(** [k in d] *)
Definition dict_mem (d : pydict) (k : K) : bool :=
  match dict_get d k with Some _ => true | None => false end.

(** [d[k] = v]: an existing key keeps its position, a new key goes last. *)
Fixpoint dict_set (d : pydict) (k : K) (v : V) : pydict :=
  match d with
  | [] => [(k, v)]
  | (k', v') :: d' =>
      if decide (k = k') then (k, v) :: d' else (k', v') :: dict_set d' k v
  end.

(** [del d[k]] of a present key, or the removal of a file. *)
Definition dict_del (d : pydict) (k : K) : pydict := @filter (K * V) (list (K * V)) _ (fun kv => kv.1 <> k) _ d.

Definition dict_keys (d : pydict) : list K := map fst d.
Definition dict_values (d : pydict) : list V := map snd d.

Lemma dict_get_set_eq d k v : dict_get (dict_set d k v) k = Some v.
Proof.
  induction d as [|[k' v'] d IH]; simpl; [by rewrite decide_True|].
  destruct (decide (k = k')); simpl; [by rewrite decide_True|].
  by rewrite decide_False.
Qed.

Lemma dict_get_set_ne d k k' v :
  k <> k' -> dict_get (dict_set d k v) k' = dict_get d k'.
Proof.
  intros Hne. induction d as [|[k0 v0] d IH]; simpl.
  - by rewrite decide_False.
  - destruct (decide (k = k0)) as [->|]; simpl.
    + by rewrite !decide_False.
    + by destruct (decide (k' = k0)).
Qed.

Lemma dict_del_set d k v : dict_del (dict_set d k v) k = dict_del d k.
Proof.
  unfold dict_del. induction d as [|[k' v'] d IH]; cbn [dict_set].
  - rewrite filter_cons_False by naive_solver. done.
  - destruct (decide (k = k')) as [->|Hne]; rewrite !filter_cons.
    + rewrite !decide_False by naive_solver. done.
    + rewrite !decide_True by naive_solver. by rewrite IH.
Qed.

Lemma dict_get_del_ne d k k' : k <> k' -> dict_get (dict_del d k) k' = dict_get d k'.
Proof.
  unfold dict_del. intros Hne. induction d as [|[k0 v0] d IH]; [done|].
  rewrite filter_cons. case_decide as H; cbn [dict_get].
  - by destruct (decide (k' = k0)).
  - cbn in H. destruct (decide (k0 = k)) as [->|]; [|tauto]. by rewrite decide_False by naive_solver.
Qed.

Lemma dict_get_del_eq d k : dict_get (dict_del d k) k = None.
Proof.
  unfold dict_del. induction d as [|[k0 v0] d IH]; [done|].
  rewrite filter_cons. case_decide as H; cbn [dict_get]; [|done].
  rewrite decide_False by (cbn in H; congruence). done.
Qed.

Lemma dict_get_None_not_in d k : dict_get d k = None <-> k ∉ dict_keys d.
Proof.
  induction d as [|[k' v'] d IH]; simpl; [set_solver|].
  rewrite elem_of_cons. destruct (decide (k = k')); naive_solver.
Qed.

Lemma dict_mem_keys d k : dict_mem d k = true <-> k ∈ dict_keys d.
Proof.
  unfold dict_mem. pose proof (dict_get_None_not_in d k) as Hn.
  destruct (dict_get d k); split; intros Hx; try done.
  - destruct (decide (k ∈ dict_keys d)) as [|Hk]; [done|].
    apply Hn in Hk. discriminate.
  - exfalso. by apply Hn.
Qed.

Lemma dict_set_fresh d k v : k ∉ dict_keys d -> dict_set d k v = d ++ [(k, v)].
Proof.
  induction d as [|[k' v'] d IH]; simpl; [done|].
  rewrite elem_of_cons. intros Hk. rewrite decide_False by naive_solver.
  f_equal. apply IH. naive_solver.
Qed.

Lemma dict_keys_set_in d k v : k ∈ dict_keys d -> dict_keys (dict_set d k v) = dict_keys d.
Proof.
  induction d as [|[k' v'] d IH]; simpl; [set_solver|].
  rewrite elem_of_cons. destruct (decide (k = k')) as [->|]; simpl; [done|].
  intros [?|?]; [done|]. by rewrite IH.
Qed.

Lemma dict_keys_set d k v : k ∈ dict_keys (dict_set d k v) /\
  (forall k', k' ∈ dict_keys (dict_set d k v) <-> k' = k \/ k' ∈ dict_keys d).
Proof.
  induction d as [|[k' v'] d IH]; simpl.
  - split; [set_solver|]. intros. rewrite list_elem_of_singleton. set_solver.
  - destruct (decide (k = k')) as [->|]; simpl.
    + split; [set_solver|]. intros. rewrite !elem_of_cons. naive_solver.
    + destruct IH as [IH1 IH2]. split; [set_solver|].
      intros k''. rewrite !elem_of_cons, IH2. naive_solver.
Qed.

Lemma dict_set_NoDup d k v : NoDup (dict_keys d) -> NoDup (dict_keys (dict_set d k v)).
Proof.
  intros Hnd. destruct (decide (k ∈ dict_keys d)).
  - by rewrite dict_keys_set_in.
  - rewrite dict_set_fresh by done. unfold dict_keys. rewrite map_app.
    apply NoDup_app. split_and!; [done| |by apply NoDup_singleton].
    intros x Hx. simpl. rewrite list_elem_of_singleton. by intros ->.
Qed.

Lemma dict_get_in d k v : dict_get d k = Some v -> (k, v) ∈ d.
Proof.
  induction d as [|[k' v'] d IH]; simpl; [done|].
  destruct (decide (k = k')) as [->|]; intros H; [simplify_eq; left|right; auto].
Qed.

Lemma dict_in_get d k v : NoDup (dict_keys d) -> (k, v) ∈ d -> dict_get d k = Some v.
Proof.
  induction d as [|[k' v'] d IH]; simpl; [set_solver|].
  rewrite NoDup_cons, elem_of_cons. intros [Hn Hnd] [Heq|Hin].
  - simplify_eq. by rewrite decide_True.
  - rewrite decide_False; [by apply IH|]. intros ->. apply Hn.
    apply list_elem_of_fmap. by exists (k', v).
Qed.

Lemma dict_get_app d1 d2 k :
  dict_get (d1 ++ d2) k = match dict_get d1 k with Some v => Some v | None => dict_get d2 k end.
Proof.
  induction d1 as [|[k' v'] d1 IH]; simpl; [done|]. by destruct (decide (k = k')).
Qed.

Lemma dict_set_values_in d k v x :
  x ∈ dict_values (dict_set d k v) -> x = v \/ x ∈ dict_values d.
Proof.
  induction d as [|[k' v'] d IH]; simpl.
  - rewrite list_elem_of_singleton. auto.
  - destruct (decide (k = k')); simpl; rewrite !elem_of_cons; naive_solver.
Qed.
End PyDict.
Arguments pydict : clear implicits.

Create HintDb pyd.
Create Rewrite HintDb pyd_rw.
#[export] Hint Rewrite @dict_get_set_eq : pyd_rw.
#[export] Hint Resolve dict_set_NoDup dict_get_in : pyd.

(** ** Shared list and integer lemmas *)

Lemma Forall_app_single {A} (P : A -> Prop) l x :
  Forall P l -> P x -> Forall P (l ++ [x]).
Proof. intros. apply Forall_app. by split; [|constructor]. Qed.

#[export] Hint Resolve Forall_app_single : pyd.

Lemma filter_none {A} (P : A -> Prop) `{forall x, Decision (P x)} (l : list A) :
  Forall (fun x => ~ P x) l -> filter P l = [].
Proof.
  induction l as [|x l IH]; intros Hf; [done|]. apply Forall_cons in Hf as [Hx Hf].
  rewrite filter_cons, decide_False by done. by apply IH.
Qed.

Lemma elem_of_concat {A} (x : A) (ls : list (list A)) :
  x ∈ concat ls <-> exists K, K ∈ ls /\ x ∈ K.
Proof.
  rewrite list_elem_of_In, in_concat. setoid_rewrite list_elem_of_In. naive_solver.
Qed.

Lemma omap_cons_eq {A B} (f : A -> option B) x l :
  omap f (x :: l) = match f x with Some y => y :: omap f l | None => omap f l end.
Proof. reflexivity. Qed.

Lemma filter_all {A} (P : A -> Prop) `{forall x, Decision (P x)} (l : list A) :
  Forall P l -> filter P l = l.
Proof.
  induction l as [|x l IH]; intros Hf; [done|]. apply Forall_cons in Hf as [Hx Hf].
  rewrite filter_cons, decide_True by done. by rewrite IH.
Qed.

Lemma filter_length_mono {A} (P Q : A -> Prop) `{forall x, Decision (P x)}
    `{forall x, Decision (Q x)} (l : list A) :
  (forall x, x ∈ l -> P x -> Q x) -> length (filter P l) <= length (filter Q l).
Proof.
  induction l as [|x l IH]; intros HPQ; simpl; [lia|].
  rewrite !filter_cons.
  assert (IH' : length (filter P l) <= length (filter Q l))
    by (apply IH; intros y Hy; apply HPQ; by right).
  destruct (decide (P x)) as [Hp|]; destruct (decide (Q x)) as [|Hq]; simpl; try lia.
  exfalso. apply Hq, HPQ; [by left|done].
Qed.

(** A list of integers is in nondecreasing order. *)
Definition nondecreasing (l : list Z) : Prop := Sorted Z.le l.

Lemma nondecreasing_snoc l x :
  nondecreasing l -> Forall (fun y => y <= x)%Z l -> nondecreasing (l ++ [x]).
Proof.
  unfold nondecreasing. induction l as [|y l IH]; simpl; intros Hs Hf.
  - by repeat constructor.
  - apply Sorted_inv in Hs as [Hs Hhd]. apply Forall_cons in Hf as [Hy Hf].
    constructor; [by apply IH|].
    destruct l as [|z l]; simpl; constructor; [done|]. by inversion Hhd.
Qed.

Lemma nondecreasing_app l1 l2 :
  nondecreasing l1 -> nondecreasing l2 ->
  (forall x y, x ∈ l1 -> y ∈ l2 -> x <= y)%Z -> nondecreasing (l1 ++ l2).
Proof.
  unfold nondecreasing. induction l1 as [|x l1 IH]; simpl; intros H1 H2 Hxy; [done|].
  apply Sorted_inv in H1 as [H1 Hhd]. constructor.
  - apply IH; [done|done|]. intros a b Ha Hb. apply Hxy; [by right|done].
  - destruct l1 as [|z l1]; simpl.
    + destruct l2 as [|w l2]; constructor. apply Hxy; apply elem_of_cons; by left.
    + constructor. by inversion Hhd.
Qed.

Lemma nondecreasing_const l k : Forall (fun y => y = k) l -> nondecreasing l.
Proof.
  unfold nondecreasing. induction l as [|x l IH]; intros Hf; [constructor|].
  apply Forall_cons in Hf as [-> Hf]. constructor; [by apply IH|].
  destruct l as [|y l]; constructor. apply Forall_cons in Hf as [-> _]. lia.
Qed.

Lemma nondecreasing_cons_le x l : nondecreasing (x :: l) -> forall y, y ∈ l -> (x <= y)%Z.
Proof.
  unfold nondecreasing. intros Hs. apply Sorted_StronglySorted in Hs; [|intros ???; lia].
  apply StronglySorted_inv in Hs as [_ Hf]. intros y Hy.
  rewrite Forall_forall in Hf. by apply Hf.
Qed.

Lemma nondecreasing_tail x l : nondecreasing (x :: l) -> nondecreasing l.
Proof. unfold nondecreasing. by intros [? _]%Sorted_inv. Qed.

#[export] Hint Resolve nondecreasing_tail : pyd.

(** A duplicate-free list and a set with the same elements have the same size. *)
Lemma length_NoDup_set `{Countable K} (l : list K) (X : gset K) :
  NoDup l -> (forall k, k ∈ l <-> k ∈ X) -> length l = size X.
Proof.
  intros Hnd Hl. rewrite <- (size_list_to_set (C:=gset K) l) by done. f_equal.
  apply set_eq. intros k. by rewrite elem_of_list_to_set, Hl.
Qed.

(** ** Tactics *)

(** Split the pairs produced by the registry's state-passing calls. *)
Ltac destruct_call :=
  repeat match goal with
  | |- context [let '(_, _) := ?e in _] => destruct e eqn:?
  | H : context [let '(_, _) := ?e in _] |- _ => destruct e eqn:?
  end.

(** Case on a boolean test of the code and turn it into its proposition. *)
Ltac case_test b :=
  let E := fresh "E" in destruct b eqn:E; simpl in *.
