(* ===== verification/Registry.v ===== *)
(** * The Companies House registry as the crawler sees it

    The records the client's four calls return (only the keys
    src/network_scanner.py reads), the class [Registry] that states what the
    client ([CompaniesHouseClient] of src/api_client.py) offers the crawler,
    a wrapper that records every call in a trace, and a registry built from
    finite tables for concrete runs. *)

From S2P Require Import Prelude.

(** ** JSON records returned by the API *)

(** [get_company_profile]: the keys read at network_scanner.py:75-94. *)
Record profile := Profile {
  p_company_name : option string;
  p_company_status : option string;
  p_type : option string;
  p_date_of_creation : option string
}.

(** A partial date of birth, [officer['date_of_birth']]. *)
Record dob := Dob { dob_month : option Z; dob_year : option Z }.

(** One item of [get_officers]: the keys read at network_scanner.py:85-129. *)
Record officer := Officer {
  o_name : option string;
  o_officer_role : option string;
  o_appointed_on : option string;
  o_resigned_on : option string;
  o_date_of_birth : option dob
}.

(** One item of [search_officers]: [title] and [links.self]. *)
Record search_hit := SearchHit {
  h_title : option string;
  h_links_self : option string
}.

(** One item of [get_officer_appointments]: [appointed_to.company_number],
    [appointed_to.company_status] and [resigned_on]. *)
Record appointment := Appointment {
  a_company_number : option string;
  a_company_status : option string;
  a_resigned_on : option string
}.

(** ** The interface the crawler consumes *)

(** Each call threads the client's state (cache, rate limiter, server) and
    either returns the decoded JSON or raises. *)
Class Registry (RS : Type) := {
  get_company_profile : string -> RS -> result profile * RS;
  get_officers : string -> RS -> result (list officer) * RS;
  search_officers : string -> RS -> result (list search_hit) * RS;
  get_officer_appointments : string -> RS -> result (list appointment) * RS
}.

(** ** Call traces *)

Inductive api_call :=
| CallProfile (company_number : string)
| CallOfficers (company_number : string)
| CallSearch (officer_name : string)
| CallAppointments (officer_id : string).

#[export] Instance api_call_eq_dec : EqDecision api_call.
Proof. solve_decision. Qed.

Section Recording.
Context {RS : Type} (api : Registry RS).

Definition record_call {A} (c : api_call) (f : RS -> result A * RS)
    (s : RS * list api_call) : result A * (RS * list api_call) :=
  let '(r, rs') := f s.1 in (r, (rs', s.2 ++ [c])).

(** The same registry, with every call appended to a trace. *)
Definition recording : Registry (RS * list api_call) := {|
  get_company_profile c := record_call (CallProfile c) (@get_company_profile _ api c);
  get_officers c := record_call (CallOfficers c) (@get_officers _ api c);
  search_officers n := record_call (CallSearch n) (@search_officers _ api n);
  get_officer_appointments i :=
    record_call (CallAppointments i) (@get_officer_appointments _ api i)
|}.

Lemma record_call_trace {A} c (f : RS -> result A * RS) s :
  (record_call c f s).2.2 = s.2 ++ [c].
Proof. unfold record_call. by destruct (f s.1). Qed.
End Recording.

(** ** A registry given by finite tables *)

(** What a table registry knows; a missing key answers like the API's 404. *)
Record registry_db := RegistryDb {
  db_profiles : pydict string profile;
  db_officers : pydict string (list officer);
  db_search : pydict string (list search_hit);
  db_appointments : pydict string (list appointment)
}.

Definition not_found : exn := Exn "404 Client Error: Not Found".

Definition db_answer {A} (o : option A) : result A :=
  match o with Some a => Ok a | None => Err not_found end.

(** A stateless registry answering from [db]. *)
Definition table_registry (db : registry_db) : Registry unit := {|
  get_company_profile c u := (db_answer (dict_get (db_profiles db) c), u);
  get_officers c u := (db_answer (dict_get (db_officers db) c), u);
  search_officers n u := (db_answer (dict_get (db_search db) n), u);
  get_officer_appointments i u := (db_answer (dict_get (db_appointments db) i), u)
|}.
