(* ===== verification/PyString.v ===== *)
(** * Python's [str] methods on ASCII text

    The whitespace of Python's [str.isspace], [str.split()] and the regular
    expression class [\s] (on ASCII: tab, newline, vertical tab, form feed,
    carriage return, the separators 0x1c-0x1f and space), [\w], and the
    methods [upper], [strip], [split()], [' '.join], [endswith] and
    [find] on lists of characters, with the lemmas the name parser's
    proofs share: the [split()]/[join] round trip and the fixed points of
    each step of the normaliser. *)

From S2P Require Import Prelude.

Notation text := (list ascii).

(** A Python [str] literal as text. *)
Definition tx (s : string) : text := list_ascii_of_string s.

Definition is_space (c : ascii) : bool :=
  let n := nat_of_ascii c in ((9 <=? n) && (n <=? 13)) || ((28 <=? n) && (n <=? 32)).

Definition is_upper (c : ascii) : bool := let n := nat_of_ascii c in (65 <=? n) && (n <=? 90).
Definition is_lower (c : ascii) : bool := let n := nat_of_ascii c in (97 <=? n) && (n <=? 122).
Definition is_alpha (c : ascii) : bool := is_upper c || is_lower c.
Definition is_digit (c : ascii) : bool := let n := nat_of_ascii c in (48 <=? n) && (n <=? 57).

(** [\w]: letters, digits and the underscore. *)
Definition is_word (c : ascii) : bool := is_alpha c || is_digit c || bool_decide (c = "_"%char).

Definition upper_t (l : text) : text := map ascii_upper l.

Definition ascii_lower (c : ascii) : ascii :=
  if is_upper c then ascii_of_nat (nat_of_ascii c + 32) else c.

Definition lower_t (l : text) : text := map ascii_lower l.

Fixpoint lstrip_t (l : text) : text :=
  match l with
  | c :: l' => if is_space c then lstrip_t l' else l
  | [] => []
  end.

(** [str.strip()]. *)
Definition strip_t (l : text) : text := rev (lstrip_t (rev (lstrip_t l))).

(** [re.sub(r'\s+', ' ', s)]: each run of whitespace becomes one space. *)
Fixpoint collapse_ws (in_ws : bool) (l : text) : text :=
  match l with
  | [] => []
  | c :: l' =>
      if is_space c then (if in_ws then collapse_ws true l' else " "%char :: collapse_ws true l')
      else c :: collapse_ws false l'
  end.

(** The longest prefix whose characters satisfy [p]. *)
Fixpoint take_while (p : ascii -> bool) (l : text) : text :=
  match l with
  | c :: l' => if p c then c :: take_while p l' else []
  | [] => []
  end.

(** [str.split()] with the current word [cur] (reversed) pending. *)
Fixpoint split_ws_acc (cur : text) (l : text) : list text :=
  match l with
  | [] => match cur with [] => [] | _ => [rev cur] end
  | c :: l' =>
      if is_space c then
        match cur with [] => split_ws_acc [] l' | _ => rev cur :: split_ws_acc [] l' end
      else split_ws_acc (c :: cur) l'
  end.

Definition split_ws (l : text) : list text := split_ws_acc [] l.

(** [' '.join(words)]. *)
Fixpoint join_sp (ws : list text) : text :=
  match ws with
  | [] => []
  | [w] => w
  | w :: ws' => w ++ " "%char :: join_sp ws'
  end.

Definition ends_with (suf l : text) : bool := bool_decide (suffix suf l).

(** [s[:-len(old)] + new] when [s.endswith(old)]. *)
Definition replace_suffix (old new : text) (l : text) : text :=
  if ends_with old l then take (length l - length old) l ++ new else l.

(** [hay.find(needle)]: the first index, [None] for [-1]. *)
Fixpoint find_t (needle hay : text) : option nat :=
  if bool_decide (prefix needle hay) then Some 0%nat
  else match hay with
       | [] => None
       | _ :: hay' => S <$> find_t needle hay'
       end.

(** [needle in hay]. *)
Definition contains_t (needle hay : text) : bool := bool_decide (is_Some (find_t needle hay)).

(** ** The [split()]/[join] round trip *)

(** A word of [split()]: non-empty, without whitespace. *)
Definition word_ok (w : text) : Prop := w <> [] /\ Forall (fun c => is_space c = false) w.

Lemma split_ws_acc_app cur w l :
  Forall (fun c => is_space c = false) w ->
  split_ws_acc cur (w ++ l) = split_ws_acc (rev w ++ cur) l.
Proof.
  revert cur. induction w as [|c w IH]; intros cur Hw; simpl; [done|].
  apply Forall_cons in Hw as [Hc Hw]. rewrite Hc, IH by done. by rewrite <- app_assoc.
Qed.

Lemma split_ws_acc_nil cur : cur <> [] -> split_ws_acc cur [] = [rev cur].
Proof. by destruct cur. Qed.

Lemma split_ws_acc_space cur c l :
  is_space c = true -> cur <> [] -> split_ws_acc cur (c :: l) = rev cur :: split_ws_acc [] l.
Proof. intros Hc Hcur. simpl. rewrite Hc. by destruct cur. Qed.

Lemma rev_neq_nil {A} (l : list A) : l <> [] -> rev l <> [].
Proof. intros Hl E. apply Hl. by apply (f_equal (@rev _)) in E; rewrite rev_involutive in E. Qed.

(** [split()] of words joined by single spaces gives the words back. *)
Lemma split_join ws : Forall word_ok ws -> split_ws (join_sp ws) = ws.
Proof.
  unfold split_ws. induction ws as [|w ws IH]; intros Hws; [done|].
  apply Forall_cons in Hws as [[Hne Hw] Hws].
  destruct ws as [|w' ws'].
  - simpl. rewrite <- (app_nil_r w) at 1. rewrite split_ws_acc_app by done. rewrite app_nil_r.
    rewrite split_ws_acc_nil by (by apply rev_neq_nil). by rewrite rev_involutive.
  - change (join_sp (w :: w' :: ws')) with (w ++ " "%char :: join_sp (w' :: ws')).
    rewrite split_ws_acc_app by done. rewrite app_nil_r.
    rewrite split_ws_acc_space by (done || by apply rev_neq_nil).
    rewrite rev_involutive. f_equal. by apply IH.
Qed.

(** ** Characters of the results *)

Lemma ascii_upper_not_lower c : is_lower (ascii_upper c) = false.
Proof. destruct c as [[] [] [] [] [] [] [] []]; reflexivity. Qed.

Lemma ascii_upper_id c : is_lower c = false -> ascii_upper c = c.
Proof. destruct c as [[] [] [] [] [] [] [] []]; by vm_compute. Qed.

Lemma upper_t_id l : Forall (fun c => is_lower c = false) l -> upper_t l = l.
Proof.
  induction l as [|c l IH]; intros Hl; [done|]. apply Forall_cons in Hl as [Hc Hl].
  simpl. by rewrite ascii_upper_id, IH.
Qed.

Lemma elem_of_upper_t c l : c ∈ upper_t l -> is_lower c = false.
Proof. unfold upper_t. intros (c' & -> & _)%list_elem_of_fmap. apply ascii_upper_not_lower. Qed.

Lemma lstrip_t_sublist l : sublist (lstrip_t l) l.
Proof.
  induction l as [|c l IH]; simpl; [done|].
  destruct (is_space c); [by apply sublist_cons|done].
Qed.

Lemma elem_of_rev {A} (x : A) l : x ∈ rev l <-> x ∈ l.
Proof. rewrite !list_elem_of_In. symmetry. apply in_rev. Qed.

Lemma elem_of_strip_t c l : c ∈ strip_t l -> c ∈ l.
Proof.
  unfold strip_t. rewrite elem_of_rev. intros H.
  apply (fun H => elem_of_sublist _ _ _ H (lstrip_t_sublist _)) in H. rewrite elem_of_rev in H.
  by apply (fun H => elem_of_sublist _ _ _ H (lstrip_t_sublist _)) in H.
Qed.

Lemma elem_of_collapse_ws c b l : c ∈ collapse_ws b l -> c ∈ l \/ c = " "%char.
Proof.
  revert b. induction l as [|x l IH]; intros b; simpl; [set_solver|].
  destruct (is_space x); [destruct b|]; rewrite ?elem_of_cons;
    intros H; repeat destruct H as [->|H]; try (by right); try (by left; left);
    destruct (IH _ H); auto; left; by right.
Qed.

Lemma elem_of_replace_suffix c old new l : c ∈ replace_suffix old new l -> c ∈ l \/ c ∈ new.
Proof.
  unfold replace_suffix. destruct (ends_with _ _); [|auto].
  rewrite elem_of_app. intros [H|H]; [left|by right].
  exact (elem_of_sublist _ _ _ H (sublist_take _ _)).
Qed.

(** Every word of [split()] is non-empty, without whitespace, and made of
    characters of the text. *)
Lemma split_ws_acc_words cur l :
  Forall (fun c => is_space c = false) cur ->
  Forall (fun w => w <> [] /\ Forall (fun c => is_space c = false /\ (c ∈ cur \/ c ∈ l)) w)
    (split_ws_acc cur l).
Proof.
  revert cur. induction l as [|x l IH]; intros cur Hcur; simpl.
  - destruct cur as [|y cur]; [constructor|]. repeat constructor; [by apply rev_neq_nil|].
    apply Forall_forall. intros c Hc. rewrite elem_of_rev in Hc. split; [|by left].
    by apply (proj1 (Forall_forall _ _) Hcur).
  - assert (Hw : forall k, Forall (fun w => w <> [] /\ Forall (fun c => is_space c = false /\ (c ∈ k \/ c ∈ l)) w)
                   (split_ws_acc k l) -> Forall (fun c => is_space c = false) k ->
                 (forall c, c ∈ k -> c ∈ cur \/ c ∈ x :: l) ->
                 Forall (fun w => w <> [] /\ Forall (fun c => is_space c = false /\ (c ∈ cur \/ c ∈ x :: l)) w)
                   (split_ws_acc k l)).
    { intros k Hk _ Hsub. eapply Forall_impl; [exact Hk|]. intros w [Hne Hws]. split; [done|].
      eapply Forall_impl; [exact Hws|]. intros c [Hs [Hc|Hc]]; split; [done|auto|done|].
      right. apply elem_of_cons. by right. }
    destruct (is_space x) eqn:Hx.
    + assert (Hrest : Forall (fun w => w <> [] /\ Forall (fun c => is_space c = false /\ (c ∈ cur \/ c ∈ x :: l)) w)
                        (split_ws_acc [] l)) by (apply Hw; [by apply IH|constructor|set_solver]).
      destruct cur as [|y cur']; [done|]. constructor; [|done]. split; [by apply rev_neq_nil|].
      apply Forall_forall. intros c Hc. rewrite elem_of_rev in Hc. split; [|by left].
      by apply (proj1 (Forall_forall _ _) Hcur).
    + apply Hw; [apply IH; by constructor|by constructor|]. intros c Hc.
      apply elem_of_cons in Hc as [->|Hc]; [right; apply elem_of_cons; by left|by left].
Qed.

Lemma split_ws_words l :
  Forall (fun w => w <> [] /\ Forall (fun c => is_space c = false /\ c ∈ l) w) (split_ws l).
Proof.
  eapply Forall_impl; [apply split_ws_acc_words; constructor|].
  intros w [Hne Hw]. split; [done|]. eapply Forall_impl; [done|]. intros c [Hs [Hc|Hc]]; [set_solver|done].
Qed.

(** ** Fixed points of the normaliser's steps on words joined by spaces *)

Lemma is_space_sp : is_space " "%char = true.
Proof. reflexivity. Qed.

Lemma join_sp_snoc ws w : ws <> [] -> join_sp (ws ++ [w]) = join_sp ws ++ " "%char :: w.
Proof.
  induction ws as [|w1 ws IH]; intros Hne; [done|].
  destruct ws as [|w2 ws]; [done|].
  change ((w1 :: w2 :: ws) ++ [w]) with (w1 :: (w2 :: ws) ++ [w]).
  change (join_sp (w1 :: (w2 :: ws) ++ [w])) with (w1 ++ " "%char :: join_sp ((w2 :: ws) ++ [w])).
  rewrite IH by done.
  change (join_sp (w1 :: w2 :: ws)) with (w1 ++ " "%char :: join_sp (w2 :: ws)).
  by rewrite <- app_assoc.
Qed.

Lemma join_sp_rev ws : rev (join_sp ws) = join_sp (rev (@rev ascii <$> ws)).
Proof.
  induction ws as [|w ws IH]; [done|]. destruct ws as [|w2 ws]; [done|].
  change (join_sp (w :: w2 :: ws)) with (w ++ " "%char :: join_sp (w2 :: ws)).
  rewrite rev_app_distr. cbn [rev]. rewrite IH.
  change (@rev ascii <$> w :: w2 :: ws) with (rev w :: (@rev ascii <$> w2 :: ws)). cbn [rev].
  rewrite join_sp_snoc, <- app_assoc; [done|].
  cbn. intros E. by apply app_eq_nil in E as [_ ?].
Qed.

Lemma word_ok_rev ws : Forall word_ok ws -> Forall word_ok (rev (@rev ascii <$> ws)).
Proof.
  intros Hws. apply Forall_rev, Forall_fmap. eapply Forall_impl; [done|].
  intros w [Hne Hw]. split; [by apply rev_neq_nil|by apply Forall_rev].
Qed.

Lemma lstrip_join ws : Forall word_ok ws -> lstrip_t (join_sp ws) = join_sp ws.
Proof.
  intros Hws. destruct ws as [|w ws]; [done|].
  apply Forall_cons in Hws as [[Hne Hw] _]. destruct w as [|c w]; [done|].
  apply Forall_cons in Hw as [Hc _]. destruct ws; simpl; by rewrite Hc.
Qed.

(** [strip()] leaves words joined by single spaces alone. *)
Lemma strip_join ws : Forall word_ok ws -> strip_t (join_sp ws) = join_sp ws.
Proof.
  intros Hws. unfold strip_t.
  rewrite lstrip_join, join_sp_rev, lstrip_join, <- join_sp_rev by auto using word_ok_rev.
  apply rev_involutive.
Qed.

Lemma collapse_app w r :
  Forall (fun c => is_space c = false) w -> collapse_ws false (w ++ r) = w ++ collapse_ws false r.
Proof.
  induction w as [|c w IH]; intros Hw; [done|]. apply Forall_cons in Hw as [Hc Hw].
  simpl. rewrite Hc. by rewrite IH.
Qed.

Lemma collapse_word b w r : word_ok w -> collapse_ws b (w ++ r) = w ++ collapse_ws false r.
Proof.
  intros [Hne Hw]. destruct w as [|c w]; [done|]. apply Forall_cons in Hw as [Hc Hw].
  simpl. rewrite Hc. by rewrite collapse_app.
Qed.

(** [re.sub(r'\s+', ' ', s)] leaves words joined by single spaces alone. *)
Lemma collapse_join b ws : Forall word_ok ws -> collapse_ws b (join_sp ws) = join_sp ws.
Proof.
  revert b. induction ws as [|w ws IH]; intros b Hws; [by destruct b|].
  apply Forall_cons in Hws as [Hw Hws]. destruct ws as [|w2 ws].
  - simpl. rewrite <- (app_nil_r w) at 1. rewrite collapse_word by done. apply app_nil_r.
  - change (join_sp (w :: w2 :: ws)) with (w ++ " "%char :: join_sp (w2 :: ws)).
    rewrite collapse_word by done. cbn [collapse_ws]. rewrite is_space_sp. by rewrite IH.
Qed.

Lemma Forall_join_sp (P : ascii -> Prop) ws :
  P " "%char -> Forall (Forall P) ws -> Forall P (join_sp ws).
Proof.
  intros Hsp. induction ws as [|w ws IH]; intros Hws; [constructor|].
  apply Forall_cons in Hws as [Hw Hws]. destruct ws as [|w2 ws]; [done|].
  change (join_sp (w :: w2 :: ws)) with (w ++ " "%char :: join_sp (w2 :: ws)).
  apply Forall_app. split; [done|]. constructor; [done|]. by apply IH.
Qed.

(** A suffix of the text has its characters in the text. *)
Lemma ends_with_elem suf l c : ends_with suf l = true -> c ∈ suf -> c ∈ l.
Proof. unfold ends_with. rewrite bool_decide_eq_true. intros [k ->] Hc. set_solver. Qed.
