(* ===== verification/Regex.v ===== *)
(** * Python's [re] on ASCII text

    The regular expressions of src/parsers/name_parser.py as syntax trees
    ([regex]) and the two matchers the development uses:
    - [matches], the reference semantics: every way the pattern matches at
      a position, as the list of end positions (with the groups captured),
      in the order Python's backtracking engine tries them (left branch of
      [|] first, greedy repetition longest first);
    - [bt], the backtracking matcher in continuation-passing style that
      [re] runs: it stops at the first alternative the continuation
      accepts.
    The theorem [bt_first] states that the two agree: [bt] returns the
    first success in the order of [matches].  On top of them, [re.search]
    (leftmost match) and [re.finditer] (successive non-overlapping
    matches), and [group(n)].  A repetition whose iteration matches the
    empty string stops there (the guard of [sre]); the patterns of the code
    never match the empty string.  [re.IGNORECASE] turns every class into
    its case-insensitive closure; [re.MULTILINE] makes [^] and [$] match at
    line boundaries. *)

From S2P Require Import Prelude PyString.

(** A character class: a test on one character. *)
Definition cls := ascii -> bool.

Inductive regex :=
| Cls (p : cls)
| Seq (r1 r2 : regex)
| Alt (r1 r2 : regex)
| Star (r : regex)
| Eps
| Group (g : nat) (r : regex)
| Bol
| Eol
| LookAhead (p : cls)
| LookBehind (p : cls).

(** The groups captured so far, the latest first. *)
Definition caps := list (nat * (nat * nat)).

Definition nl_char : ascii := ascii_of_nat 10.

Section Match.
Variable t : text.

Definition cls_at (p : cls) (i : nat) : bool :=
  match t !! i with Some x => p x | None => false end.

Definition bol_at (i : nat) : bool :=
  match i with O => true | S k => bool_decide (t !! k = Some nl_char) end.

Definition eol_at (i : nat) : bool :=
  bool_decide (i = length t) || bool_decide (t !! i = Some nl_char).

Definition behind_at (p : cls) (i : nat) : bool :=
  match i with O => false | S k => cls_at p k end.

(** Greedy repetition: iterate [m] while it consumes characters, longest
    first, then stop. *)
Fixpoint star_list (m : nat -> caps -> list (nat * caps)) (fuel i : nat) (c : caps) : list (nat * caps) :=
  match fuel with
  | O => [(i, c)]
  | S f => flat_map (fun jc => if (i <? jc.1)%nat then star_list m f jc.1 jc.2 else []) (m i c) ++ [(i, c)]
  end.

(** Every match of [r] at [i], in the engine's order. *)
Fixpoint matches (r : regex) (i : nat) (c : caps) : list (nat * caps) :=
  match r with
  | Cls p => if cls_at p i then [(S i, c)] else []
  | Seq r1 r2 => flat_map (fun jc => matches r2 jc.1 jc.2) (matches r1 i c)
  | Alt r1 r2 => matches r1 i c ++ matches r2 i c
  | Star r1 => star_list (matches r1) (S (length t)) i c
  | Eps => [(i, c)]
  | Group g r1 => (fun jc => (jc.1, (g, (i, jc.1)) :: jc.2)) <$> matches r1 i c
  | Bol => if bol_at i then [(i, c)] else []
  | Eol => if eol_at i then [(i, c)] else []
  | LookAhead p => if cls_at p i then [(i, c)] else []
  | LookBehind p => if behind_at p i then [(i, c)] else []
  end.

Context {R : Type}.

Fixpoint star_bt (m : nat -> caps -> (nat -> caps -> option R) -> option R) (fuel i : nat) (c : caps)
    (k : nat -> caps -> option R) : option R :=
  match fuel with
  | O => k i c
  | S f =>
      match m i c (fun j c1 => if (i <? j)%nat then star_bt m f j c1 k else None) with
      | Some x => Some x
      | None => k i c
      end
  end.

(** The backtracking matcher: [k] is the rest of the pattern. *)
Fixpoint bt (r : regex) (i : nat) (c : caps) (k : nat -> caps -> option R) : option R :=
  match r with
  | Cls p => if cls_at p i then k (S i) c else None
  | Seq r1 r2 => bt r1 i c (fun j c1 => bt r2 j c1 k)
  | Alt r1 r2 => match bt r1 i c k with Some x => Some x | None => bt r2 i c k end
  | Star r1 => star_bt (bt r1) (S (length t)) i c k
  | Eps => k i c
  | Group g r1 => bt r1 i c (fun j c1 => k j ((g, (i, j)) :: c1))
  | Bol => if bol_at i then k i c else None
  | Eol => if eol_at i then k i c else None
  | LookAhead p => if cls_at p i then k i c else None
  | LookBehind p => if behind_at p i then k i c else None
  end.
End Match.

(** The first element of [l] that [f] accepts. *)
Fixpoint first_some {A B} (f : A -> option B) (l : list A) : option B :=
  match l with
  | [] => None
  | x :: l' => match f x with Some y => Some y | None => first_some f l' end
  end.

(** A match: start, end and groups. *)
Record rmatch := RMatch { m_start : nat; m_end : nat; m_caps : caps }.

(** [re.match] at position [i]: the first way to match, as [sre] finds it. *)
Definition match_at (t : text) (r : regex) (i : nat) : option rmatch :=
  bt t r i [] (fun j c => Some (RMatch i j c)).

(** [re.search] from position [i]: the leftmost position where [r] matches. *)
Fixpoint search_from (t : text) (r : regex) (fuel i : nat) : option rmatch :=
  match fuel with
  | O => None
  | S f => match match_at t r i with Some m => Some m | None => search_from t r f (S i) end
  end.

Definition re_search (r : regex) (t : text) : option rmatch := search_from t r (S (length t)) 0.

(** [re.finditer]: after a match, the next search starts at its end (one
    further after an empty match). *)
Fixpoint finditer_from (t : text) (r : regex) (fuel i : nat) : list rmatch :=
  match fuel with
  | O => []
  | S f =>
      match search_from t r (S (length t) - i) i with
      | Some m => m :: finditer_from t r f (if (m_start m <? m_end m)%nat then m_end m else S (m_end m))
      | None => []
      end
  end.

Definition re_finditer (r : regex) (t : text) : list rmatch := finditer_from t r (S (length t)) 0.

(** [match.group(g)]. *)
Definition group (t : text) (m : rmatch) (g : nat) : option text :=
  (fun ij => take (ij.2 - ij.1) (drop ij.1 t)) <$> (snd <$> List.find (fun e => (e.1 =? g)%nat) (m_caps m)).

(** ** Building patterns *)

Definition lit_char (a : ascii) : cls := fun c => bool_decide (c = a).

Fixpoint seq_all (rs : list regex) : regex :=
  match rs with [] => Eps | [r] => r | r :: rs' => Seq r (seq_all rs') end.

Fixpoint alt_all (rs : list regex) : regex :=
  match rs with [] => Cls (fun _ => false) | [r] => r | r :: rs' => Alt r (alt_all rs') end.

(** A literal string. *)
Definition lit (s : string) : regex := seq_all (Cls ∘ lit_char <$> tx s).

Definition plus (r : regex) : regex := Seq r (Star r).

Definition opt (r : regex) : regex := Alt r Eps.

Fixpoint rep_exact (r : regex) (n : nat) : regex :=
  match n with O => Eps | S k => Seq r (rep_exact r k) end.

Fixpoint rep_upto (r : regex) (n : nat) : regex :=
  match n with O => Eps | S k => Alt (Seq r (rep_upto r k)) Eps end.

(** [r{lo,hi}], greedy. *)
Definition rep (r : regex) (lo hi : nat) : regex := Seq (rep_exact r lo) (rep_upto r (hi - lo)).

(** [r{lo,}], greedy. *)
Definition at_least (r : regex) (lo : nat) : regex := Seq (rep_exact r lo) (Star r).

(** [re.IGNORECASE] on ASCII: a character matches a class when it or its
    other case does. *)
Definition icase_cls (p : cls) : cls := fun c => p c || p (ascii_upper c) || p (ascii_lower c).

Fixpoint icase (r : regex) : regex :=
  match r with
  | Cls p => Cls (icase_cls p)
  | Seq r1 r2 => Seq (icase r1) (icase r2)
  | Alt r1 r2 => Alt (icase r1) (icase r2)
  | Star r1 => Star (icase r1)
  | Group g r1 => Group g (icase r1)
  | LookAhead p => LookAhead (icase_cls p)
  | LookBehind p => LookBehind (icase_cls p)
  | r' => r'
  end.

(** Some classes. *)
Definition c_space : cls := is_space.
Definition c_upper : cls := is_upper.
Definition c_not_nl : cls := fun c => negb (bool_decide (c = nl_char)).
Definition c_union (p q : cls) : cls := fun c => p c || q c.

(** ** The backtracking matcher agrees with the reference semantics *)

Section FirstSome.
Context {A B : Type}.

Lemma first_some_ext (f g : A -> option B) l :
  (forall x, f x = g x) -> first_some f l = first_some g l.
Proof. intros H. induction l as [|x l IH]; simpl; [done|]. by rewrite H, IH. Qed.

Lemma first_some_app (f : A -> option B) l1 l2 :
  first_some f (l1 ++ l2) = match first_some f l1 with Some y => Some y | None => first_some f l2 end.
Proof. induction l1 as [|x l1 IH]; simpl; [done|]. by destruct (f x). Qed.

Lemma first_some_flat_map {C} (f : A -> option B) (g : C -> list A) l :
  first_some f (flat_map g l) = first_some (fun x => first_some f (g x)) l.
Proof.
  induction l as [|x l IH]; simpl; [done|]. rewrite first_some_app, IH. by destruct (first_some f (g x)).
Qed.

Lemma first_some_fmap {C} (f : A -> option B) (g : C -> A) l :
  first_some f (g <$> l) = first_some (f ∘ g) l.
Proof. induction l as [|x l IH]; [done|]. rewrite fmap_cons. cbn [first_some]. by rewrite IH. Qed.
End FirstSome.

Section Agree.
Variable t : text.
Context {R : Type}.

Lemma star_bt_first (m : nat -> caps -> list (nat * caps))
    (mb : nat -> caps -> (nat -> caps -> option R) -> option R) fuel i c k :
  (forall i c k, mb i c k = first_some (fun jc => k jc.1 jc.2) (m i c)) ->
  star_bt mb fuel i c k = first_some (fun jc => k jc.1 jc.2) (star_list m fuel i c).
Proof.
  intros Hm. revert i c. induction fuel as [|f IH]; intros i c; simpl; [by destruct (k i c)|].
  rewrite Hm, first_some_app, first_some_flat_map.
  assert (H : forall jc : nat * caps,
    (if (i <? jc.1)%nat then star_bt mb f jc.1 jc.2 k else None) =
    first_some (fun jc => k jc.1 jc.2) (if (i <? jc.1)%nat then star_list m f jc.1 jc.2 else [])).
  { intros jc. destruct (i <? jc.1)%nat; [apply IH|done]. }
  rewrite (first_some_ext _ _ _ H). destruct (first_some _ (m i c)); [done|]. simpl. by destruct (k i c).
Qed.

(** The matcher [re] runs returns the first match of the reference
    semantics that the rest of the pattern accepts. *)
Lemma bt_first r i c (k : nat -> caps -> option R) :
  bt t r i c k = first_some (fun jc => k jc.1 jc.2) (matches t r i c).
Proof.
  revert i c k. induction r as [p|r1 IH1 r2 IH2|r1 IH1 r2 IH2|r1 IH1| |g r1 IH1| | |p|p];
    intros i c k; cbn [bt matches].
  - destruct (cls_at t p i); simpl; [by destruct (k (S i) c)|done].
  - rewrite IH1, first_some_flat_map. apply first_some_ext. intros jc. apply IH2.
  - by rewrite IH1, IH2, first_some_app.
  - apply star_bt_first. intros; apply IH1.
  - simpl. by destruct (k i c).
  - rewrite IH1. symmetry. apply first_some_fmap.
  - destruct (bol_at t i); simpl; [by destruct (k i c)|done].
  - destruct (eol_at t i); simpl; [by destruct (k i c)|done].
  - destruct (cls_at t p i); simpl; [by destruct (k i c)|done].
  - destruct (behind_at t p i); simpl; [by destruct (k i c)|done].
Qed.
End Agree.
