(* ===== verification/Csv.v ===== *)
(** * Python's [csv] module: the writer of the default [excel] dialect

    [csv.DictWriter] with the default dialect writes each row as its fields
    separated by commas and terminated by ["\r\n"]; with [QUOTE_MINIMAL] a
    field is quoted when it contains a comma, a double quote, a carriage
    return or a line feed, and a double quote inside a quoted field is
    doubled; a row made of one empty field is written as two double quotes.
    The exporters of src/exporters/csv_exporter.py rely on this writer.  The
    reader [read_csv] is the inverse the writer is meant to have: the
    theorem [read_write_csv] shows that reading back what was written
    gives the rows, whatever characters the fields hold. *)

From S2P Require Import Prelude PyString.

Definition QUOTE : ascii := ascii_of_nat 34.
Definition COMMA : ascii := ascii_of_nat 44.
Definition CR : ascii := ascii_of_nat 13.
Definition LF : ascii := ascii_of_nat 10.

(** The characters that make [QUOTE_MINIMAL] quote a field. *)
Definition special (c : ascii) : bool :=
  bool_decide (c = COMMA) || bool_decide (c = QUOTE) || bool_decide (c = CR) || bool_decide (c = LF).

Fixpoint double_quotes (l : text) : text :=
  match l with
  | [] => []
  | c :: l' => if bool_decide (c = QUOTE) then QUOTE :: QUOTE :: double_quotes l' else c :: double_quotes l'
  end.

Definition write_field (f : text) : text :=
  if existsb special f then QUOTE :: double_quotes f ++ [QUOTE] else f.

Fixpoint join_fields (fs : list text) : text :=
  match fs with
  | [] => []
  | [f] => write_field f
  | f :: fs' => write_field f ++ COMMA :: join_fields fs'
  end.

Definition write_row (fs : list text) : text :=
  match fs with
  | [f] => if bool_decide (f = []) then [QUOTE; QUOTE] else write_field f
  | _ => join_fields fs
  end ++ [CR; LF].

Definition write_rows (rows : list (list text)) : text := concat (write_row <$> rows).

(** ** The reader *)

(** The rest of a quoted field, after its opening quote. *)
Fixpoint read_quoted (l : text) : option (text * text) :=
  match l with
  | [] => None
  | c :: l' =>
      if bool_decide (c = QUOTE) then
        match l' with
        | c' :: l'' =>
            if bool_decide (c' = QUOTE) then (fun p => (QUOTE :: p.1, p.2)) <$> read_quoted l''
            else Some ([], l')
        | [] => Some ([], [])
        end
      else (fun p => (c :: p.1, p.2)) <$> read_quoted l'
  end.

(** An unquoted field: up to the next comma or carriage return. *)
Fixpoint read_plain (l : text) : text * text :=
  match l with
  | [] => ([], [])
  | c :: l' =>
      if bool_decide (c = COMMA) || bool_decide (c = CR) then ([], l)
      else let p := read_plain l' in (c :: p.1, p.2)
  end.

Definition read_field (l : text) : option (text * text) :=
  match l with
  | c :: l' => if bool_decide (c = QUOTE) then read_quoted l' else Some (read_plain l)
  | [] => Some ([], [])
  end.

(** The fields of a row, up to its ["\r\n"]; [fuel] bounds their number. *)
Fixpoint read_fields (fuel : nat) (l : text) : option (list text * text) :=
  match fuel with
  | O => None
  | S fuel' =>
      match read_field l with
      | None => None
      | Some (f, r) =>
          match r with
          | c :: r' =>
              if bool_decide (c = COMMA) then (fun p => (f :: p.1, p.2)) <$> read_fields fuel' r'
              else if bool_decide (c = CR) then
                match r' with
                | c' :: r'' => if bool_decide (c' = LF) then Some ([f], r'') else None
                | [] => None
                end
              else None
          | [] => None
          end
      end
  end.

Fixpoint read_rows (fuel : nat) (l : text) : option (list (list text)) :=
  match l with
  | [] => Some []
  | _ =>
      match fuel with
      | O => None
      | S fuel' =>
          match read_fields (length l) l with
          | Some (fs, r) => cons fs <$> read_rows fuel' r
          | None => None
          end
      end
  end.

Definition read_csv (l : text) : option (list (list text)) := read_rows (length l) l.

(** ** Reading back what was written *)

Lemma read_quoted_double f r :
  (forall c r', r = c :: r' -> c <> QUOTE) -> read_quoted (double_quotes f ++ QUOTE :: r) = Some (f, r).
Proof.
  intros Hr. induction f as [|c f IH]; cbn [double_quotes app read_quoted].
  - rewrite bool_decide_true by done. destruct r as [|c' r']; [done|].
    rewrite bool_decide_false by (by eapply Hr). done.
  - case_bool_decide as Hc; cbn [app read_quoted].
    + rewrite !bool_decide_true by done. rewrite IH. cbn. by subst.
    + rewrite bool_decide_false by done. by rewrite IH.
Qed.

(** [r] begins with the separator that ends a field. *)
Definition field_end (r : text) : Prop := exists c r', r = c :: r' /\ (c = COMMA \/ c = CR).

Lemma field_end_not_quote r : field_end r -> forall c r', r = c :: r' -> c <> QUOTE.
Proof. intros (c & r' & -> & Hc) c' r'' [= <- <-]. by destruct Hc as [->| ->]. Qed.

Lemma special_false c : special c = false -> c <> COMMA /\ c <> QUOTE /\ c <> CR /\ c <> LF.
Proof. unfold special. rewrite !orb_false_iff, !bool_decide_eq_false. tauto. Qed.

Lemma read_plain_app f r :
  existsb special f = false -> field_end r -> read_plain (f ++ r) = (f, r).
Proof.
  intros Hf Hr. induction f as [|c f IH]; cbn [app read_plain].
  - destruct Hr as (c & r' & -> & [-> | ->]); cbn [read_plain]; [by rewrite bool_decide_true|].
    by rewrite (bool_decide_true (CR = CR)), orb_true_r.
  - cbn [existsb] in Hf. apply orb_false_iff in Hf as [(Hc1 & _ & Hc3 & _)%special_false Hf].
    rewrite !bool_decide_false by done. cbn. by rewrite IH.
Qed.

Lemma read_field_write f r : field_end r -> read_field (write_field f ++ r) = Some (f, r).
Proof.
  intros Hr. unfold write_field. destruct (existsb special f) eqn:Hs.
  - cbn [app read_field]. rewrite bool_decide_true by done. rewrite <- app_assoc. cbn [app].
    by apply read_quoted_double, field_end_not_quote.
  - destruct f as [|c f'].
    + destruct Hr as (c & r' & -> & Hc). cbn [app read_field].
      rewrite bool_decide_false by (by destruct Hc as [-> | ->]).
      exact (f_equal Some (read_plain_app [] (c :: r') eq_refl ltac:(by exists c, r'))).
    + cbn [existsb] in Hs. pose proof Hs as Hs'. apply orb_false_iff in Hs' as [(_ & Hq & _)%special_false _].
      cbn [app read_field]. rewrite bool_decide_false by done.
      exact (f_equal Some (read_plain_app (c :: f') r Hs Hr)).
Qed.

Lemma read_fields_join fs fuel rest :
  fs <> [] -> length fs <= fuel -> read_fields fuel (join_fields fs ++ CR :: LF :: rest) = Some (fs, rest).
Proof.
  revert fuel. induction fs as [|f fs IH]; intros fuel Hne Hfuel; [done|].
  destruct fuel as [|fuel]; cbn [length] in Hfuel; [lia|]. cbn [read_fields].
  destruct fs as [|f2 fs].
  - cbn [join_fields]. rewrite read_field_write by (eexists _, _; split; [done|by right]).
    by rewrite bool_decide_false, !bool_decide_true by done.
  - cbn [join_fields]. fold (join_fields (f2 :: fs)). rewrite <- app_assoc, <- app_comm_cons.
    rewrite read_field_write by (eexists _, _; split; [done|by left]).
    rewrite bool_decide_true by done. rewrite IH by (done || cbn in *; lia). done.
Qed.

Lemma read_fields_row fs fuel rest :
  fs <> [] -> length fs <= fuel -> read_fields fuel (write_row fs ++ rest) = Some (fs, rest).
Proof.
  intros Hne Hfuel. unfold write_row. rewrite <- app_assoc. cbn [app].
  destruct fs as [|f [|f2 fs]]; [done| |by apply read_fields_join].
  case_bool_decide as Hf; [|by apply (read_fields_join [f])].
  subst f. destruct fuel as [|fuel]; cbn in Hfuel; [lia|]. cbn [read_fields read_field app].
  rewrite bool_decide_true by done. cbn [read_quoted]. rewrite bool_decide_true by done.
  rewrite bool_decide_false by done. by rewrite bool_decide_false, !bool_decide_true by done.
Qed.

Lemma length_join_fields fs : length fs <= S (length (join_fields fs)).
Proof.
  induction fs as [|f fs IH]; [cbn; lia|]. destruct fs as [|f2 fs]; [cbn; lia|].
  change (join_fields (f :: f2 :: fs)) with (write_field f ++ COMMA :: join_fields (f2 :: fs)).
  rewrite length_app. cbn [length] in *. lia.
Qed.

Lemma length_write_row fs : length fs + 1 <= length (write_row fs).
Proof.
  unfold write_row. rewrite length_app. cbn [length].
  destruct fs as [|f [|f2 fs]]; [cbn; lia| |pose proof (length_join_fields (f :: f2 :: fs)); lia].
  case_bool_decide; cbn; lia.
Qed.

Lemma read_rows_write rows fuel :
  Forall (fun fs => fs <> []) rows -> length rows <= fuel -> read_rows fuel (write_rows rows) = Some rows.
Proof.
  revert fuel. induction rows as [|fs rows IH]; intros fuel Hne Hfuel; [by destruct fuel|].
  apply Forall_cons in Hne as [Hfs Hne]. destruct fuel as [|fuel]; cbn [length] in Hfuel; [lia|].
  unfold write_rows. cbn [fmap list_fmap concat]. fold (write_rows rows).
  pose proof (length_write_row fs) as Hl.
  destruct (write_row fs ++ write_rows rows) as [|c l] eqn:E.
  { apply (f_equal length) in E. rewrite length_app in E. cbn in E. lia. }
  cbn [read_rows]. rewrite <- E, read_fields_row by (rewrite ?length_app; lia || done).
  cbn. by rewrite IH by (done || lia).
Qed.

(** Reading back the rows written by the writer gives them back, when no
    row is empty. *)
Theorem read_write_csv rows :
  Forall (fun fs => fs <> []) rows -> read_csv (write_rows rows) = Some rows.
Proof.
  intros Hne. apply read_rows_write; [done|]. unfold write_rows.
  induction rows as [|fs rows IH]; [cbn; lia|]. apply Forall_cons in Hne as [_ Hne].
  cbn [fmap list_fmap concat length]. rewrite length_app. pose proof (length_write_row fs).
  specialize (IH Hne). lia.
Qed.
