(* ===== verification/StableSort.v ===== *)
(** * A stable sort, largest key first

    Python's [list.sort(key=k, reverse=True)] and
    [sorted(xs, key=k, reverse=True)] are stable: elements with equal keys
    keep their order.  [sort_desc] is an insertion sort with that
    behaviour; the lemmas show it sorts, permutes and is stable, and that
    any two lists with these properties are equal, so every stable sort
    computes the same list. *)

From S2P Require Import Prelude.
From Stdlib Require Import Permutation.

(** ** A stable sort by a natural-number key, largest first *)

Section StableSort.
Context {A : Type} (key : A -> nat).

(** Insert [e] after every element whose key is at least [key e]. *)
Fixpoint insert_desc (e : A) (l : list A) : list A :=
  match l with
  | [] => [e]
  | x :: l' => if (key x <? key e)%nat then e :: x :: l' else x :: insert_desc e l'
  end.

Definition sort_desc (l : list A) : list A :=
  fold_left (fun acc e => insert_desc e acc) l [].

Definition sorted_desc (l : list A) : Prop := Sorted (fun a b => key b <= key a)%nat l.

(** The elements with key [k], in order. *)
Definition with_key (k : nat) (l : list A) : list A := filter (fun x => key x = k) l.

Lemma insert_desc_perm e l : Permutation (insert_desc e l) (e :: l).
Proof.
  induction l as [|x l IH]; simpl; [done|].
  destruct (key x <? key e)%nat; [done|].
  etrans; [apply perm_skip, IH|apply perm_swap].
Qed.

Lemma insert_desc_sorted e l : sorted_desc l -> sorted_desc (insert_desc e l).
Proof.
  unfold sorted_desc. induction l as [|x l IH]; simpl; intros Hs; [by repeat constructor|].
  destruct (Nat.ltb_spec (key x) (key e)).
  - constructor; [done|]. constructor. lia.
  - apply Sorted_inv in Hs as [Hs Hhd]. constructor; [by apply IH|].
    destruct l as [|y l]; simpl; [constructor; lia|].
    destruct (key y <? key e)%nat; constructor; [lia|by inversion Hhd].
Qed.

(** In a list sorted largest first, nothing after an element has a
    larger key. *)
Lemma sorted_desc_le x l : sorted_desc (x :: l) -> Forall (fun y => key y <= key x)%nat l.
Proof.
  unfold sorted_desc. intros Hs. apply Sorted_StronglySorted in Hs; [|intros ???; lia].
  by apply StronglySorted_inv in Hs as [_ Hf].
Qed.

Lemma insert_desc_with_key e l k :
  sorted_desc l ->
  with_key k (insert_desc e l) = with_key k l ++ (if decide (key e = k) then [e] else []).
Proof.
  unfold with_key. induction l as [|x l IH]; simpl; intros Hs.
  - rewrite filter_cons. by case_decide.
  - destruct (Nat.ltb_spec (key x) (key e)).
    + rewrite filter_cons. destruct (decide (key e = k)) as [He|He].
      * assert (Hnone : filter (fun y => key y = k) (x :: l) = []).
        { apply filter_none. apply Forall_forall. intros y Hy.
          pose proof (sorted_desc_le x l Hs) as Hf. rewrite Forall_forall in Hf.
          apply elem_of_cons in Hy as [->|Hy]; [lia|]. apply Hf in Hy. lia. }
        by rewrite Hnone.
      * by rewrite app_nil_r.
    + rewrite !filter_cons. rewrite IH by (by apply Sorted_inv in Hs as [? _]).
      by destruct (decide (key x = k)).
Qed.

Lemma sort_desc_acc l acc :
  sorted_desc acc ->
  sorted_desc (fold_left (fun acc e => insert_desc e acc) l acc) /\
  Permutation (fold_left (fun acc e => insert_desc e acc) l acc) (acc ++ l) /\
  forall k, with_key k (fold_left (fun acc e => insert_desc e acc) l acc) =
            with_key k acc ++ with_key k l.
Proof.
  revert acc. induction l as [|x l IH]; intros acc Hs; simpl.
  - split_and!; [done|by rewrite app_nil_r|intros; by rewrite app_nil_r].
  - destruct (IH (insert_desc x acc)) as (Hs' & Hp & Hk); [by apply insert_desc_sorted|].
    split_and!; [done| |].
    + rewrite Hp, insert_desc_perm. simpl. apply Permutation_middle.
    + intros k. rewrite Hk, insert_desc_with_key by done.
      unfold with_key. rewrite filter_cons, <- app_assoc.
      by destruct (decide (key x = k)).
Qed.

(** [sort_desc] is a stable sort, largest key first. *)
Lemma sort_desc_spec l :
  sorted_desc (sort_desc l) /\ Permutation (sort_desc l) l /\
  forall k, with_key k (sort_desc l) = with_key k l.
Proof. apply (sort_desc_acc l []). constructor. Qed.

Lemma with_key_in k l x : x ∈ with_key k l <-> x ∈ l /\ key x = k.
Proof. unfold with_key. rewrite list_elem_of_filter. naive_solver. Qed.

(** Two lists sorted largest first, with the same elements of each key in
    the same order, are equal: every stable sort computes the same list. *)
Lemma stable_sorted_unique l1 l2 :
  sorted_desc l1 -> sorted_desc l2 ->
  (forall k, with_key k l1 = with_key k l2) -> l1 = l2.
Proof.
  revert l2. induction l1 as [|x t1 IH]; intros l2 H1 H2 Hk.
  - destruct l2 as [|y t2]; [done|]. exfalso.
    assert (Hy : y ∈ with_key (key y) (y :: t2)) by (apply with_key_in; split; [apply elem_of_cons; by left|done]).
    rewrite <- Hk in Hy. apply with_key_in in Hy as [Hy _]. set_solver.
  - destruct l2 as [|y t2].
    { exfalso. assert (Hx : x ∈ with_key (key x) (x :: t1))
        by (apply with_key_in; split; [apply elem_of_cons; by left|done]).
      rewrite Hk in Hx. apply with_key_in in Hx as [Hx _]. set_solver. }
    assert (Hmax : forall a b t, sorted_desc (a :: t) -> b ∈ a :: t -> (key b <= key a)%nat).
    { intros a b t Hs Hb. apply elem_of_cons in Hb as [->|Hb]; [lia|].
      pose proof (sorted_desc_le a t Hs) as Hf. rewrite Forall_forall in Hf. by apply Hf. }
    assert (Hxy : key x = key y).
    { assert (Hx : x ∈ with_key (key x) (y :: t2)).
      { rewrite <- Hk. apply with_key_in. split; [apply elem_of_cons; by left|done]. }
      assert (Hy : y ∈ with_key (key y) (x :: t1)).
      { rewrite Hk. apply with_key_in. split; [apply elem_of_cons; by left|done]. }
      apply with_key_in in Hx as [Hx _]. apply with_key_in in Hy as [Hy _].
      pose proof (Hmax _ _ _ H2 Hx). pose proof (Hmax _ _ _ H1 Hy). lia. }
    pose proof (Hk (key x)) as Hkx. unfold with_key in Hkx.
    rewrite !filter_cons, !decide_True in Hkx by done. injection Hkx as <- Htail.
    f_equal. apply IH; [by apply Sorted_inv in H1 as [? _]|by apply Sorted_inv in H2 as [? _]|].
    intros k. destruct (decide (k = key x)) as [->|Hne]; [done|].
    pose proof (Hk k) as Hk'. unfold with_key in *.
    by rewrite !filter_cons, !decide_False in Hk' by congruence.
Qed.
End StableSort.
