(* ===== verification/NameParser.v ===== *)
(** * The company-name parser, [NameParser] of src/parsers/name_parser.py

    [normalize_name], [_is_valid_name], [_remove_suffix],
    [_extract_name_with_suffix] and [compare_names] on ASCII text.  The
    similarity [SequenceMatcher(None, a, b).ratio()] of the [difflib]
    library is a parameter [ratio] of [compare_names]: its exact value
    [2 M / T] as a rational (the float comparisons with [0.85] and [0.75]
    agree with the exact ones for names of fewer than ten million
    characters).  The extractors [extract_names] (the patterns of
    [NAME_PATTERNS] compiled with [re.IGNORECASE], then
    [_extract_from_sections]) and [extract_name_changes] are written out
    over the regular-expression scans of [Regex]; the order [list(set)]
    iterates in is a parameter [iter]. *)

From S2P Require Import Prelude PyString Regex StableSort.
From Stdlib Require Import QArith Qminmax.

(** [NameParser.SUFFIXES], lines 13-21. *)
Definition SUFFIXES : list string :=
  ["LIMITED"; "LTD"; "LTD."; "PLC"; "P.L.C."; "PUBLIC LIMITED COMPANY"; "LLP";
   "LIMITED LIABILITY PARTNERSHIP"; "LP"; "LIMITED PARTNERSHIP"; "CIC";
   "COMMUNITY INTEREST COMPANY"; "CIO"; "CHARITABLE INCORPORATED ORGANISATION";
   "CHARITY"; "UNLTD"; "UNLIMITED"]%string.

(** [sorted(self.SUFFIXES, key=len, reverse=True)], lines 240 and 299. *)
Definition sorted_suffixes : list text := sort_desc (@length ascii) (tx <$> SUFFIXES).

(** ** [normalize_name], lines 145-179 *)

(** The dictionary of line 162, in its insertion order. *)
Definition replacements : list (text * text) :=
  [(tx "LTD.", tx "LIMITED"); (tx "LTD", tx "LIMITED"); (tx "P.L.C.", tx "PLC"); (tx "L.L.P.", tx "LLP")].

(** [[^\w\s&]] is removed. *)
Definition keep_char (c : ascii) : bool := is_word c || is_space c || bool_decide (c = "&"%char).

Definition normalize_t (l : text) : text :=
  let n1 := strip_t (upper_t l) in
  let n2 := collapse_ws false n1 in
  let n3 := fold_left (fun n r => replace_suffix r.1 r.2 n) replacements n2 in
  let n4 := filter (fun c => keep_char c = true) n3 in
  join_sp (split_ws n4).

Definition normalize_name (name : string) : string :=
  string_of_list_ascii (normalize_t (tx name)).

(** ** [_is_valid_name], lines 94-143 *)

Definition invalid_words : list string :=
  ["HEREBY"; "CERTIFY"; "REGISTRAR"; "SECRETARY"; "PURSUANT"; "CERTIFICATE";
   "INCORPORATION"; "DECLARATION"; "STATEMENT"; "FORM"; "SECTION"; "ARTICLE"; "CLAUSE";
   "PARAGRAPH"; "GUARANTEE"; "MEMORANDUM"; "ASSOCIATION"; "CAPITAL"; "SHARE";
   "COMPANIES ACT"; "REGISTERED"; "OFFICE"; "NUMBER"; "COMPANY NO"; "REGISTERED OFFICE";
   "ADDRESS"]%string.

(** [letter_count / len(name) < 0.6] as [5 * letter_count < 3 * len(name)]. *)
Definition is_valid_t (name : text) : bool :=
  let name_upper := upper_t name in
  let letter_count := length (filter (fun c => is_alpha c || is_space c = true) name) in
  (5 <=? length name)%nat &&
  existsb (fun suf => contains_t (tx suf) name_upper) SUFFIXES &&
  negb (5 * letter_count <? 3 * length name)%nat &&
  (length name <=? 150)%nat &&
  negb (existsb (fun w => contains_t (tx w) name_upper) invalid_words) &&
  negb (bool_decide (strip_t name_upper ∈ tx <$> SUFFIXES)) &&
  (2 <=? length (split_ws name))%nat.

Definition is_valid_name (name : string) : bool := is_valid_t (tx name).

(** ** [_remove_suffix], lines 229-243, and [_extract_name_with_suffix],
    lines 289-305 *)

Definition remove_suffix (name : text) : text :=
  match List.find (fun suf => ends_with suf (upper_t name)) sorted_suffixes with
  | Some suf => strip_t (take (length name - length suf) name)
  | None => name
  end.

Fixpoint extract_with (sufs : list text) (txt : text) : option text :=
  match sufs with
  | [] => None
  | suf :: sufs' =>
      match find_t suf (upper_t txt) with
      | Some idx =>
          let name := take (idx + length suf) txt in
          if is_valid_t name then Some name else extract_with sufs' txt
      | None => extract_with sufs' txt
      end
  end.

Definition extract_name_with_suffix (txt : text) : option text := extract_with sorted_suffixes txt.

(** ** [compare_names], lines 181-227 *)

(** [len(words1 & words2) / len(words1 | words2)]. *)
Definition word_similarity (b1 b2 : text) : Q :=
  let w1 : gset text := list_to_set (split_ws b1) in
  let w2 : gset text := list_to_set (split_ws b2) in
  (Z.of_nat (size (w1 ∩ w2)) # Pos.of_nat (size (w1 ∪ w2)))%Q.

Definition compare_names (ratio : text -> text -> Q) (name1 name2 : text) : Q * bool :=
  let norm1 := normalize_t name1 in
  let norm2 := normalize_t name2 in
  if bool_decide (norm1 = norm2) then (1%Q, true)
  else
    let sim := ratio norm1 norm2 in
    if Qle_bool (85 # 100) sim then (sim, true)
    else
      let base1 := remove_suffix norm1 in
      let base2 := remove_suffix norm2 in
      match base1, base2 with
      | [], _ | _, [] => (sim, false)
      | _, _ =>
          if contains_t base1 base2 || contains_t base2 base1 then (Qmax sim (82 # 100), true)
          else match split_ws base1, split_ws base2 with
               | [], _ | _, [] => (sim, false)
               | _, _ =>
                   let ws := word_similarity base1 base2 in
                   if Qle_bool (75 # 100) ws then (Qmax sim ws, true) else (sim, false)
               end
      end.

(** ** The regular-expression extractors *)

(** [[A-Z\s&\'-]]. *)
Definition c_name : cls := fun c =>
  is_upper c || is_space c || bool_decide (c = "&"%char) || bool_decide (c = "'"%char) || bool_decide (c = "-"%char).

(** [[:\s]]. *)
Definition c_colon_space : cls := fun c => bool_decide (c = ":"%char) || is_space c.

Definition alt_lits (ls : list string) : regex := alt_all (lit <$> ls).

(** [NAME_PATTERNS], lines 23-36, each compiled with [re.IGNORECASE |
    re.MULTILINE] (line 52). *)
Definition NAME_PATTERNS : list regex := icase <$> [
  seq_all [alt_lits ["company name"; "name of company"; "corporate name"]; plus (Cls c_colon_space);
           Group 1 (seq_all [Cls c_upper; plus (Cls c_name);
                             opt (alt_lits ["LIMITED"; "LTD"; "PLC"; "LLP"; "CIC"; "CHARITY"])])];
  seq_all [alt_all [Seq (lit "changed its name ") (alt_lits ["to"; "from"]); lit "new name"; lit "former name";
                    lit "previous name"];
           plus (Cls c_colon_space);
           Group 1 (seq_all [Cls c_upper; plus (Cls c_name); opt (alt_lits ["LIMITED"; "LTD"; "PLC"; "LLP"])])];
  seq_all [Bol; Group 1 (seq_all [Cls c_upper; at_least (Cls c_name) 8; alt_lits ["LIMITED"; "LTD"; "PLC"; "LLP"]]);
           Alt (Cls c_space) Eol];
  seq_all [Seq (lit "company") (plus (Cls c_colon_space));
           Group 1 (seq_all [Cls c_upper; at_least (Cls c_name) 5; alt_lits ["LIMITED"; "LTD"; "PLC"; "LLP"; "CIC"]])]].

(** Lines 52-56 for one pattern: the valid names of its matches, normalised. *)
Definition pattern_names (txt : text) (pat : regex) : list string :=
  omap (fun m =>
    match group txt m 1 with
    | Some g => let name := strip_t g in if is_valid_t name then Some (normalize_name (string_of_list_ascii name)) else None
    | None => None
    end) (re_finditer pat txt).

(** The pattern of lines 77-80 (no flags). *)
Definition SECTION_PATTERN : regex :=
  seq_all [Alt (seq_all [lit "Name of "; Cls (fun c => bool_decide (c = "C"%char) || bool_decide (c = "c"%char)); lit "ompany"])
               (seq_all [lit "Company "; Cls (fun c => bool_decide (c = "N"%char) || bool_decide (c = "n"%char)); lit "ame"]);
           Star (Cls c_colon_space); opt (Cls (lit_char nl_char)); Star (Cls c_space);
           Group 1 (Seq (Cls c_upper) (rep (Cls c_not_nl) 5 100))].

(** Lines 83-90: the first suffix of [SUFFIXES], in the list's order, found
    in the name decides; the loop breaks whether or not the cut name is
    valid. *)
Fixpoint first_suffix_cut (sufs : list string) (potential : text) : option text :=
  match sufs with
  | [] => None
  | suf :: sufs' =>
      match find_t (tx suf) (upper_t potential) with
      | Some idx => let name := take (idx + length (tx suf)) potential in
                    if is_valid_t name then Some name else None
      | None => first_suffix_cut sufs' potential
      end
  end.

(** [_extract_from_sections], lines 64-92. *)
Definition extract_from_sections (txt : text) : list string :=
  match re_search SECTION_PATTERN txt ≫= fun m => group txt m 1 with
  | Some g =>
      match first_suffix_cut SUFFIXES (strip_t g) with
      | Some name => [normalize_name (string_of_list_ascii name)]
      | None => []
      end
  | None => []
  end.

(** [extract_names], lines 38-62; [list(names)] enumerates the set in the
    order of the parameter [iter]. *)
Definition extract_names (iter : gset string -> list string) (txt : text) : list string :=
  iter (list_to_set (concat (pattern_names txt <$> NAME_PATTERNS) ++ extract_from_sections txt)).

(** The two patterns of [extract_name_changes], lines 257 and 272, with
    [re.IGNORECASE]. *)
Definition CHANGE_PATTERN_1 : regex := icase (seq_all [
  lit "changed its name from"; plus (Cls c_space); Group 1 (Seq (Cls c_upper) (rep (Cls c_not_nl) 10 100));
  plus (Cls c_space); lit "to"; plus (Cls c_space); Group 2 (Seq (Cls c_upper) (rep (Cls c_not_nl) 10 100))]).

Definition CHANGE_PATTERN_2 : regex := icase (seq_all [
  lit "former name"; plus (Cls c_colon_space); Group 1 (Seq (Cls c_upper) (rep (Cls c_not_nl) 10 100));
  plus (Cls c_space); lit "new name"; plus (Cls c_colon_space);
  Group 2 (Seq (Cls c_upper) (rep (Cls c_not_nl) 10 100))]).

(** One match of lines 258-268 / 273-281. *)
Definition change_of (txt : text) (m : rmatch) : option (string * string) :=
  match group txt m 1, group txt m 2 with
  | Some g1, Some g2 =>
      match extract_name_with_suffix (strip_t g1), extract_name_with_suffix (strip_t g2) with
      | Some o, Some n =>
          if bool_decide (o <> []) && bool_decide (n <> []) then
            Some (normalize_name (string_of_list_ascii o), normalize_name (string_of_list_ascii n))
          else None
      | _, _ => None
      end
  | _, _ => None
  end.

(** [extract_name_changes], lines 245-287. *)
Definition extract_name_changes (txt : text) : list (string * string) :=
  omap (change_of txt) (re_finditer CHANGE_PATTERN_1 txt) ++ omap (change_of txt) (re_finditer CHANGE_PATTERN_2 txt).

(** ** The shape of a normalised name *)

(** A character [normalize_name] keeps: [\w] or [&], never a lower-case letter. *)
Definition ok_char (c : ascii) : bool :=
  (is_word c && negb (is_lower c)) || bool_decide (c = "&"%char).

Definition name_word (w : text) : Prop := w <> [] /\ Forall (fun c => ok_char c = true) w.

(** Words of such characters joined by single spaces. *)
Definition normal (l : text) : Prop := exists ws, l = join_sp ws /\ Forall name_word ws.

Lemma ok_char_not_space c : ok_char c = true -> is_space c = false.
Proof. destruct c as [[] [] [] [] [] [] [] []]; by vm_compute. Qed.

Lemma ok_char_not_lower c : ok_char c = true -> is_lower c = false.
Proof. destruct c as [[] [] [] [] [] [] [] []]; by vm_compute. Qed.

Lemma ok_char_keep c : ok_char c = true -> keep_char c = true.
Proof. destruct c as [[] [] [] [] [] [] [] []]; by vm_compute. Qed.

Lemma keep_ok_char c : keep_char c = true -> is_space c = false -> is_lower c = false -> ok_char c = true.
Proof. destruct c as [[] [] [] [] [] [] [] []]; by vm_compute. Qed.

Lemma name_word_ok w : name_word w -> word_ok w.
Proof.
  intros [Hne Hw]. split; [done|]. eapply Forall_impl; [done|]. apply ok_char_not_space.
Qed.

Lemma elem_of_fold_replace c (rs : list (text * text)) n :
  c ∈ fold_left (fun n r => replace_suffix r.1 r.2 n) rs n -> c ∈ n \/ exists r, r ∈ rs /\ c ∈ r.2.
Proof.
  revert n. induction rs as [|r rs IH]; intros n; simpl; [by left|].
  intros [Hc|(r' & Hr' & Hc)]%IH; [|right; exists r'; split; [apply elem_of_cons; by right|done]].
  apply elem_of_replace_suffix in Hc as [Hc|Hc]; [by left|]. right. exists r. split; [apply elem_of_cons; by left|done].
Qed.

Lemma replacements_upper : Forall (fun r => Forall (fun c => is_lower c = false) r.2) replacements.
Proof. apply (bool_decide_unpack _ (dec := Forall_dec _ _)). by vm_compute. Qed.

(** Every output of [normalize_name] is normal. *)
Lemma normalize_t_normal l : normal (normalize_t l).
Proof.
  unfold normalize_t. eexists. split; [reflexivity|].
  eapply Forall_impl; [apply split_ws_words|]. intros w [Hne Hw]. split; [done|].
  eapply Forall_impl; [exact Hw|]. intros c [Hs Hc].
  apply list_elem_of_filter in Hc as [Hk Hc]. apply keep_ok_char; [done|done|].
  apply elem_of_fold_replace in Hc as [Hc|(r & Hr & Hc)].
  - apply elem_of_collapse_ws in Hc as [Hc| ->]; [|by rewrite is_space_sp in Hs].
    apply elem_of_strip_t in Hc. by apply elem_of_upper_t in Hc.
  - exact (proj1 (Forall_forall _ _) (proj1 (Forall_forall _ _) replacements_upper r Hr) c Hc).
Qed.

Lemma replace_suffix_none old new l : ends_with old l = false -> replace_suffix old new l = l.
Proof. unfold replace_suffix. by intros ->. Qed.

Lemma ends_with_absent old l c : c ∈ old -> c ∉ l -> ends_with old l = false.
Proof. intros Hc Hl. destruct (ends_with old l) eqn:E; [|done]. by pose proof (ends_with_elem _ _ _ E Hc). Qed.

(** [normalize_name] leaves a normal name alone unless it ends with [LTD]. *)
Lemma normalize_t_fixed l : normal l -> ends_with (tx "LTD") l = false -> normalize_t l = l.
Proof.
  intros (ws & -> & Hws) Hltd.
  assert (Hok : Forall word_ok ws) by (eapply Forall_impl; [done|]; apply name_word_ok).
  assert (Hc : Forall (fun c => ok_char c = true \/ c = " "%char) (join_sp ws)).
  { apply Forall_join_sp; [by right|]. eapply Forall_impl; [exact Hws|].
    intros w [_ Hw]. eapply Forall_impl; [done|]. by left. }
  assert (Hdot : "."%char ∉ join_sp ws).
  { intros Hin. destruct (proj1 (Forall_forall _ _) Hc _ Hin) as [H|H]; [by vm_compute in H|discriminate]. }
  unfold normalize_t. rewrite upper_t_id.
  2: { eapply Forall_impl; [done|]. intros c [Hc'| ->]; [by apply ok_char_not_lower|done]. }
  rewrite strip_join, collapse_join by done. cbn [fold_left replacements fst snd].
  rewrite (replace_suffix_none (tx "LTD.")), (replace_suffix_none (tx "LTD")),
    (replace_suffix_none (tx "P.L.C.")), (replace_suffix_none (tx "L.L.P."))
    by (done || (apply (ends_with_absent _ _ "."%char); [apply list_elem_of_In; simpl; tauto|done])).
  rewrite filter_all; [by rewrite split_join|].
  eapply Forall_impl; [done|]. intros c [Hc'| ->]; [by apply ok_char_keep|done].
Qed.

(** ** [find] and the extracted names *)

Lemma find_t_some needle hay i :
  find_t needle hay = Some i -> exists pre post, hay = pre ++ needle ++ post /\ length pre = i.
Proof.
  revert i. induction hay as [|x hay IH]; intros i; simpl; case_bool_decide as Hp.
  - intros [= <-]. destruct Hp as [post Hp]. by exists [], post.
  - done.
  - intros [= <-]. destruct Hp as [post Hp]. by exists [], post.
  - destruct (find_t needle hay) as [j|]; simpl; [|done]. intros [= <-].
    destruct (IH j eq_refl) as (pre & post & -> & <-). by exists (x :: pre), post.
Qed.

Lemma upper_t_take n l : upper_t (take n l) = take n (upper_t l).
Proof. unfold upper_t. by rewrite firstn_map. Qed.

(** The name cut after an occurrence of [suf] ends with [suf], ignoring case. *)
Lemma cut_ends_with suf txt i :
  find_t suf (upper_t txt) = Some i -> ends_with suf (upper_t (take (i + length suf) txt)) = true.
Proof.
  intros (pre & post & E & <-)%find_t_some. rewrite upper_t_take, E, app_assoc.
  rewrite <- length_app, take_app_length. apply bool_decide_eq_true. by exists pre.
Qed.

Lemma extract_with_sound sufs txt name :
  extract_with sufs txt = Some name ->
  is_valid_t name = true /\ prefix name txt /\ exists suf, suf ∈ sufs /\ ends_with suf (upper_t name) = true.
Proof.
  induction sufs as [|suf sufs IH]; simpl; [done|]. cbv zeta.
  destruct (find_t suf (upper_t txt)) as [i|] eqn:E.
  - destruct (is_valid_t (take (i + length suf) txt)) eqn:Hv.
    + intros [= <-]. split_and!; [done|apply prefix_take|].
      exists suf. split; [apply elem_of_cons; by left|by apply cut_ends_with].
    + intros (? & ? & s & Hs & ?)%IH. split_and!; [done..|]. exists s. split; [apply elem_of_cons; by right|done].
  - intros (? & ? & s & Hs & ?)%IH. split_and!; [done..|]. exists s. split; [apply elem_of_cons; by right|done].
Qed.

Lemma elem_of_sorted_suffixes suf : suf ∈ sorted_suffixes <-> suf ∈ tx <$> SUFFIXES.
Proof.
  unfold sorted_suffixes. destruct (sort_desc_spec (@length ascii) (tx <$> SUFFIXES)) as (_ & Hp & _).
  by rewrite Hp.
Qed.

(** A verdict of no match carries a similarity below 0.85. *)
Lemma compare_names_no_match ratio n1 n2 :
  (compare_names ratio n1 n2).2 = false -> ((compare_names ratio n1 n2).1 < 85 # 100)%Q.
Proof.
  unfold compare_names. cbv zeta. case_bool_decide; [done|].
  destruct (Qle_bool _ _) eqn:Hq; [done|].
  assert (Hlt : (ratio (normalize_t n1) (normalize_t n2) < 85 # 100)%Q).
  { apply Qnot_le_lt. intros Hle. apply Qle_bool_iff in Hle. congruence. }
  repeat case_match; simpl; intros; (discriminate || exact Hlt).
Qed.

(** ** The extractors return normalised valid names *)

(** [n] is the normalisation of a name that passes [_is_valid_name]. *)
Definition normalised_valid (n : string) : Prop :=
  exists cand, is_valid_t cand = true /\ tx n = normalize_t cand.

Lemma normalize_name_of cand : tx (normalize_name (string_of_list_ascii cand)) = normalize_t cand.
Proof.
  unfold normalize_name, tx. by rewrite !list_ascii_of_string_of_list_ascii.
Qed.

Lemma pattern_names_sound txt pat n : n ∈ pattern_names txt pat -> normalised_valid n.
Proof.
  unfold pattern_names. intros (m & _ & Hm)%list_elem_of_omap.
  destruct (group txt m 1) as [g|]; [|done].
  destruct (is_valid_t (strip_t g)) eqn:Hv; [|done]. injection Hm as <-.
  exists (strip_t g). split; [done|]. apply normalize_name_of.
Qed.

Lemma first_suffix_cut_valid sufs p name : first_suffix_cut sufs p = Some name -> is_valid_t name = true.
Proof.
  induction sufs as [|suf sufs IH]; simpl; [done|]. cbv zeta. destruct (find_t _ _) as [idx|]; [|done].
  destruct (is_valid_t (take (idx + length (tx suf)) p)) eqn:Hv; [by intros [= <-]|done].
Qed.

Lemma extract_from_sections_sound txt n : n ∈ extract_from_sections txt -> normalised_valid n.
Proof.
  unfold extract_from_sections. destruct (_ ≫= _) as [g|]; [|by intros ?%not_elem_of_nil].
  destruct (first_suffix_cut SUFFIXES (strip_t g)) as [name|] eqn:E; [|by intros ?%not_elem_of_nil].
  intros ->%list_elem_of_singleton. exists name. split; [by eapply first_suffix_cut_valid|].
  apply normalize_name_of.
Qed.

(** [n] is the normalisation of a valid name ending with a suffix. *)
Definition normalised_suffixed (n : string) : Prop :=
  exists cand, is_valid_t cand = true /\ tx n = normalize_t cand /\
    exists suf, suf ∈ SUFFIXES /\ ends_with (tx suf) (upper_t cand) = true.

Lemma extract_suffixed txt o : extract_name_with_suffix txt = Some o ->
  is_valid_t o = true /\ exists suf, suf ∈ SUFFIXES /\ ends_with (tx suf) (upper_t o) = true.
Proof.
  intros (Hv & _ & s & Hs & He)%extract_with_sound. split; [done|].
  apply elem_of_sorted_suffixes, list_elem_of_fmap in Hs as (suf & -> & Hs). by exists suf.
Qed.

Lemma change_of_sound txt m a b : change_of txt m = Some (a, b) -> normalised_suffixed a /\ normalised_suffixed b.
Proof.
  unfold change_of. destruct (group txt m 1) as [g1|], (group txt m 2) as [g2|]; try done.
  destruct (extract_name_with_suffix (strip_t g1)) as [o|] eqn:Eo,
           (extract_name_with_suffix (strip_t g2)) as [n|] eqn:En; try done.
  destruct (bool_decide _ && bool_decide _); [|done]. intros [= <- <-].
  apply extract_suffixed in Eo as [Hvo Hso], En as [Hvn Hsn].
  split; [exists o|exists n]; rewrite normalize_name_of; by split_and!.
Qed.

Lemma extract_names_sound (iter : gset string -> list string) txt :
  (forall s x, x ∈ iter s <-> x ∈ s) -> Forall normalised_valid (extract_names iter txt).
Proof.
  intros Hiter. apply Forall_forall. intros n Hn. unfold extract_names in Hn.
  apply Hiter, elem_of_list_to_set, elem_of_app in Hn as [Hn|Hn]; [|by apply extract_from_sections_sound in Hn].
  apply elem_of_concat in Hn as (l & Hl & Hn). apply list_elem_of_fmap in Hl as (pat & -> & _).
  by apply pattern_names_sound in Hn.
Qed.

Lemma extract_name_changes_sound txt :
  Forall (fun p => normalised_suffixed p.1 /\ normalised_suffixed p.2) (extract_name_changes txt).
Proof.
  apply Forall_forall. intros [a b] Hp. unfold extract_name_changes in Hp.
  apply elem_of_app in Hp as [Hp|Hp]; apply list_elem_of_omap in Hp as (m & _ & Hm); by apply change_of_sound in Hm.
Qed.

(** ** Properties of the name parser *)

(** C30: every result of [normalize_name] is words of upper-case letters,
    digits, [_] and [&] joined by single spaces, and normalising it again
    changes nothing unless it ends with [LTD]. *)
Theorem normalize_idempotent l :
  normal (normalize_t l) /\
  (ends_with (tx "LTD") (normalize_t l) = false -> normalize_t (normalize_t l) = normalize_t l).
Proof. split; [apply normalize_t_normal|]. apply normalize_t_fixed, normalize_t_normal. Qed.

Lemma normalize_idempotent_witness :
  ends_with (tx "LTD") (normalize_t (tx "Acme  Widgets ltd.")) = false /\
  normalize_t (normalize_t (tx "Acme  Widgets ltd.")) = normalize_t (tx "Acme  Widgets ltd.").
Proof.
  assert (H : ends_with (tx "LTD") (normalize_t (tx "Acme  Widgets ltd.")) = false) by (by vm_compute).
  split; [exact H|]. exact (proj2 (normalize_idempotent (tx "Acme  Widgets ltd.")) H).
Defined.

(** [normalize_name] is not idempotent: the [LTD] suffix is replaced
    before the punctuation is removed, so ["ACME LTD,"] normalises to
    ["ACME LTD"], which normalises to ["ACME LIMITED"]. *)
Example normalize_not_idempotent :
  normalize_name "ACME LTD," = "ACME LTD"%string /\ normalize_name "ACME LTD" = "ACME LIMITED"%string.
Proof. split; reflexivity. Qed.

Lemma word_similarity_sym b1 b2 : word_similarity b1 b2 = word_similarity b2 b1.
Proof.
  unfold word_similarity. cbv zeta.
  by rewrite (intersection_comm_L (list_to_set (split_ws b1) : gset text)),
    (union_comm_L (list_to_set (split_ws b1) : gset text)).
Qed.

(** When the similarity measure is symmetric, [compare_names] is:
    comparing [a] with [b] gives the same score and verdict as comparing
    [b] with [a]. *)
Theorem compare_names_sym ratio n1 n2 :
  (forall a b, ratio a b = ratio b a) -> compare_names ratio n1 n2 = compare_names ratio n2 n1.
Proof.
  intros Hr. unfold compare_names. rewrite (Hr (normalize_t n2)).
  destruct (decide (normalize_t n1 = normalize_t n2)) as [E|E]; [by rewrite E|].
  rewrite !bool_decide_false by congruence.
  destruct (Qle_bool _ _); [done|].
  destruct (remove_suffix (normalize_t n1)), (remove_suffix (normalize_t n2)); try done.
  rewrite orb_comm. destruct (_ || _); [done|].
  destruct (split_ws (_ :: _)), (split_ws (_ :: _)); try done. by rewrite word_similarity_sym.
Qed.

Definition ratio_zero (a b : text) : Q := 0.

Lemma compare_names_sym_witness :
  (forall a b, ratio_zero a b = ratio_zero b a) /\
  compare_names ratio_zero (tx "Acme Ltd") (tx "ACME LIMITED") =
  compare_names ratio_zero (tx "ACME LIMITED") (tx "Acme Ltd").
Proof.
  assert (H : forall a b, ratio_zero a b = ratio_zero b a) by done.
  split; [exact H|]. exact (compare_names_sym ratio_zero _ _ H).
Defined.

(** C31: once the suffixes are stripped, a name contained in the other
    matches it with a score of at least 0.82, whatever the similarity
    measure says. *)
Theorem compare_names_base_contained ratio n1 n2 :
  remove_suffix (normalize_t n1) <> [] -> remove_suffix (normalize_t n2) <> [] ->
  contains_t (remove_suffix (normalize_t n1)) (remove_suffix (normalize_t n2)) = true ->
  (compare_names ratio n1 n2).2 = true /\ (82 # 100 <= (compare_names ratio n1 n2).1)%Q.
Proof.
  intros H1 H2 Hc. unfold compare_names. case_bool_decide; [split; [done|]; by vm_compute|].
  destruct (Qle_bool _ _) eqn:Hq; [split; [done|]; apply Qle_bool_iff in Hq; simpl; eapply Qle_trans; [|exact Hq]; by vm_compute|].
  destruct (remove_suffix (normalize_t n1)), (remove_suffix (normalize_t n2)); try done.
  rewrite Hc. split; [done|]. apply Q.le_max_r.
Qed.

(** The [LP] suffix is found at the end of [HELP]: "SELF HELP" and "SELF
    HEALTH" match with every similarity measure. *)
Lemma compare_names_base_contained_witness :
  (compare_names ratio_zero (tx "Self Help") (tx "Self Health")).2 = true /\
  (82 # 100 <= (compare_names ratio_zero (tx "Self Help") (tx "Self Health")).1)%Q.
Proof. apply compare_names_base_contained; by vm_compute. Defined.

(** A name [_extract_name_with_suffix] returns passes [_is_valid_name],
    is a prefix of the text, and ends, ignoring case, with one of
    [SUFFIXES]. *)
Theorem extract_name_with_suffix_sound txt name :
  extract_name_with_suffix txt = Some name ->
  is_valid_t name = true /\ prefix name txt /\
  exists suf, suf ∈ SUFFIXES /\ ends_with (tx suf) (upper_t name) = true.
Proof.
  intros (Hv & Hp & s & Hs & He)%extract_with_sound. split_and!; [done..|].
  apply elem_of_sorted_suffixes, list_elem_of_fmap in Hs as (suf & -> & Hs). by exists suf.
Qed.

Lemma extract_name_with_suffix_sound_witness :
  extract_name_with_suffix (tx "Acme Widgets Limited, a company") = Some (tx "Acme Widgets Limited") /\
  is_valid_t (tx "Acme Widgets Limited") = true.
Proof.
  assert (H : extract_name_with_suffix (tx "Acme Widgets Limited, a company") = Some (tx "Acme Widgets Limited"))
    by (by vm_compute).
  split; [exact H|]. exact (proj1 (extract_name_with_suffix_sound _ _ H)).
Defined.

(** [_is_valid_name] tests its words as substrings: "PLATFORM HOLDINGS
    LIMITED" is rejected for [FORM], and "HELP DESK SERVICES" is accepted
    for the suffix [LP] inside [HELP]. *)
Example is_valid_name_substrings :
  is_valid_name "PLATFORM HOLDINGS LIMITED" = false /\ is_valid_name "HELP DESK SERVICES" = true.
Proof. split; reflexivity. Qed.

(** C32: every name [extract_names] returns is the normalisation of a name
    that passes [_is_valid_name], each once (whatever order Python's set
    iteration takes), and each pair [extract_name_changes] returns is made
    of normalisations of valid names ending, ignoring case, with one of
    [SUFFIXES]. *)
Theorem extractors_sound (iter : gset string -> list string) txt :
  (forall s x, x ∈ iter s <-> x ∈ s) -> (forall s, NoDup (iter s)) ->
  Forall normalised_valid (extract_names iter txt) /\ NoDup (extract_names iter txt) /\
  Forall (fun p => normalised_suffixed p.1 /\ normalised_suffixed p.2) (extract_name_changes txt).
Proof.
  intros Hiter Hnd. split_and!; [by apply extract_names_sound|apply Hnd|apply extract_name_changes_sound].
Qed.

Lemma extractors_sound_witness :
  (forall (s : gset string) x, x ∈ elements s <-> x ∈ s) /\ (forall s : gset string, NoDup (elements s)) /\
  Forall normalised_valid (extract_names elements (tx "Company Name: ACME WIDGETS LIMITED")) /\
  NoDup (extract_names elements (tx "Company Name: ACME WIDGETS LIMITED")) /\
  Forall (fun p => normalised_suffixed p.1 /\ normalised_suffixed p.2)
    (extract_name_changes (tx "Company Name: ACME WIDGETS LIMITED")).
Proof.
  assert (H1 : forall (s : gset string) x, x ∈ elements s <-> x ∈ s) by (intros; apply elem_of_elements).
  assert (H2 : forall s : gset string, NoDup (elements s)) by (intros; apply NoDup_elements).
  split; [exact H1|]. split; [exact H2|].
  exact (extractors_sound elements (tx "Company Name: ACME WIDGETS LIMITED") H1 H2).
Defined.
