(* ===== verification/PdfProcessor.v ===== *)
(** * The text functions of [PDFProcessor], src/pdf_processor.py

    [_parse_pdf_date] (a [re.search] for [D:] and fourteen digits),
    [analyze_document_type] (substring tests on the lower-cased text, in the
    order of the [elif] chain) and [clean_text] (three [re.sub] passes, the
    OCR fixes and [strip]) on ASCII text.  Each regular expression is
    written out as the scan [re] performs: leftmost matches, greedy [\s*]
    with backtracking to the last newline, look-arounds on the original
    text.  The extraction of text from a PDF and [extract_metadata] are in
    [DocumentParser], over parameters for PyPDF2 and Tesseract. *)

From S2P Require Import Prelude PyString.

(** ** [_parse_pdf_date], lines 306-324 *)

(** A match of [D:(\d{4})(\d{2})(\d{2})(\d{2})(\d{2})(\d{2})] at the start of
    the text: the fourteen digits. *)
Definition pdf_date_at (s : text) : option text :=
  match s with
  | c1 :: c2 :: rest =>
      let ds := take 14 rest in
      if bool_decide (c1 = "D"%char) && bool_decide (c2 = ":"%char) &&
         bool_decide (length ds = 14%nat) && forallb is_digit ds
      then Some ds else None
  | _ => None
  end.

(** [re.search]: the leftmost match. *)
Fixpoint search_pdf_date (s : text) : option text :=
  match pdf_date_at s with
  | Some ds => Some ds
  | None => match s with [] => None | _ :: s' => search_pdf_date s' end
  end.

(** [f"{year}-{month}-{day}T{hour}:{minute}:{second}"]. *)
Definition iso_of_digits (ds : text) : text :=
  take 4 ds ++ "-"%char :: take 2 (drop 4 ds) ++ "-"%char :: take 2 (drop 6 ds) ++
  "T"%char :: take 2 (drop 8 ds) ++ ":"%char :: take 2 (drop 10 ds) ++ ":"%char :: take 2 (drop 12 ds).

Definition parse_pdf_date (date_string : text) : option text :=
  iso_of_digits <$> search_pdf_date date_string.

(** ** [analyze_document_type], lines 326-355 *)

Definition analyze_document_type (txt : text) : string :=
  let text_lower := lower_t txt in
  let has s := contains_t (tx s) text_lower in
  if has "certificate of incorporation" then "incorporation"
  else if has "change of name" || has "changed its name" then "name_change"
  else if has "annual accounts" || has "financial statements" then "accounts"
  else if has "confirmation statement" || has "annual return" then "confirmation_statement"
  else if has "re-registration" then "re_registration"
  else if has "appointment" && has "director" then "director_appointment"
  else if has "resignation" && has "director" then "director_resignation"
  else if has "registered office" then "address_change"
  else "unknown".

(** ** [clean_text], lines 357-384 *)

Definition nl : ascii := ascii_of_nat 10.

(** [re.sub(r' +', ' ', text)]. *)
Fixpoint squeeze_spaces (in_run : bool) (l : text) : text :=
  match l with
  | [] => []
  | c :: l' =>
      if bool_decide (c = " "%char) then
        (if in_run then squeeze_spaces true l' else c :: squeeze_spaces true l')
      else c :: squeeze_spaces false l'
  end.

(** [re.sub(r'\n\s*\n', '\n\n', ...)] on one maximal run of whitespace:
    the first match starts at the run's first newline and, [\s*] being
    greedy, ends at its last newline. *)
Definition squash_run (r : text) : text :=
  let p := take_while (fun c => negb (bool_decide (c = nl))) r in
  match drop (length p) r with
  | _ :: q =>
      let q2 := rev (take_while (fun c => negb (bool_decide (c = nl))) (rev q)) in
      if bool_decide (length q2 = length q) then r else p ++ nl :: nl :: q2
  | [] => r
  end.

(** The text cut into maximal runs of whitespace, [run] the pending one
    (reversed). *)
Fixpoint squash_newlines (run : text) (l : text) : text :=
  match l with
  | [] => squash_run (rev run)
  | c :: l' =>
      if is_space c then squash_newlines (c :: run) l'
      else squash_run (rev run) ++ c :: squash_newlines [] l'
  end.

(** A one-character substitution with look-arounds on the original text. *)
Fixpoint map_ctx (f : option ascii -> ascii -> option ascii -> ascii) (prev : option ascii) (l : text) : text :=
  match l with
  | [] => []
  | c :: l' => f prev c (head l') :: map_ctx f (Some c) l'
  end.

Definition word_at (o : option ascii) : bool := match o with Some c => is_word c | None => false end.
Definition upper_at (o : option ascii) : bool := match o with Some c => is_upper c | None => false end.

(** [r'\b0\b'] to ['O']. *)
Definition fix_zero (prev : option ascii) (c : ascii) (next : option ascii) : ascii :=
  if bool_decide (c = "0"%char) && negb (word_at prev) && negb (word_at next) then "O"%char else c.

(** [r'l(?=[A-Z])'] to ['I']. *)
Definition fix_l_before (prev : option ascii) (c : ascii) (next : option ascii) : ascii :=
  if bool_decide (c = "l"%char) && upper_at next then "I"%char else c.

(** [r'(?<=[A-Z])l(?=[A-Z])'] to ['I']. *)
Definition fix_l_between (prev : option ascii) (c : ascii) (next : option ascii) : ascii :=
  if bool_decide (c = "l"%char) && upper_at prev && upper_at next then "I"%char else c.

Definition clean_text (txt : text) : text :=
  let t1 := squeeze_spaces false txt in
  let t2 := squash_newlines [] t1 in
  let t3 := map_ctx fix_l_between None (map_ctx fix_l_before None (map_ctx fix_zero None t2)) in
  strip_t t3.

(** ** [_parse_pdf_date] on a PDF date *)

Lemma digits14 (ds : text) :
  length ds = 14%nat -> exists d1 d2 d3 d4 d5 d6 d7 d8 d9 d10 d11 d12 d13 d14,
    ds = [d1; d2; d3; d4; d5; d6; d7; d8; d9; d10; d11; d12; d13; d14].
Proof. intros H. do 14 (destruct ds as [|? ds]; [done|]). destruct ds; [|done]. naive_solver. Qed.

(** ** No run of spaces survives [clean_text] *)

(** No two consecutive spaces. *)
Fixpoint no_dsp (l : text) : Prop :=
  match l with
  | a :: ((b :: _) as l') => ~ (a = " "%char /\ b = " "%char) /\ no_dsp l'
  | _ => True
  end.

Lemma no_dsp_cons x l : no_dsp (x :: l) <-> ~ (x = " "%char /\ head l = Some " "%char) /\ no_dsp l.
Proof. destruct l as [|y l]; simpl; naive_solver. Qed.

Lemma no_dsp_app a b :
  no_dsp (a ++ b) <-> no_dsp a /\ no_dsp b /\ ~ (last a = Some " "%char /\ head b = Some " "%char).
Proof.
  induction a as [|x a IH]; [simpl; naive_solver|].
  change ((x :: a) ++ b) with (x :: (a ++ b)). rewrite !no_dsp_cons, IH.
  destruct a as [|y a]; simpl; naive_solver.
Qed.

Lemma last_rev_head (l : text) : last (rev l) = head l.
Proof. destruct l as [|x l]; [done|]. simpl. apply last_snoc. Qed.

Lemma no_dsp_rev l : no_dsp (rev l) <-> no_dsp l.
Proof.
  induction l as [|x l IH]; [done|]. cbn [rev].
  rewrite no_dsp_app, (no_dsp_cons x l), IH, last_rev_head. cbn [no_dsp head].
  split.
  - intros (H1 & _ & H3). split; [intros [-> Hh]; by apply H3|done].
  - intros [H1 H2]. split_and!; [done|done|]. intros [Hh [= ->]]. by apply H1.
Qed.

Lemma nl_not_sp : nl <> " "%char.
Proof. by vm_compute. Qed.

Lemma squeeze_no_dsp b l :
  no_dsp (squeeze_spaces b l) /\ (b = true -> head (squeeze_spaces b l) <> Some " "%char).
Proof.
  revert b. induction l as [|c l IH]; intros b; simpl; [done|].
  case_bool_decide as Hc; [destruct b; [apply IH|]|];
    (split; [rewrite no_dsp_cons; split; [|apply IH]|]); try done.
  - intros [_ ?]. by apply (proj2 (IH true)).
  - naive_solver.
  - naive_solver.
Qed.

Lemma take_while_app p (l : text) : l = take_while p l ++ drop (length (take_while p l)) l.
Proof. induction l as [|c l IH]; simpl; [done|]. destruct (p c); simpl; [by rewrite <- IH|done]. Qed.

Lemma squash_run_no_dsp r : no_dsp r -> no_dsp (squash_run r).
Proof.
  unfold squash_run. intros Hr.
  pose proof (take_while_app (fun c => negb (bool_decide (c = nl))) r) as Er.
  destruct (drop _ r) as [|n q]; [done|]. case_bool_decide; [done|].
  rewrite Er in Hr. apply no_dsp_app in Hr as (Hp & Hq & _). apply no_dsp_cons in Hq as [_ Hq].
  pose proof (take_while_app (fun c => negb (bool_decide (c = nl))) (rev q)) as Eq.
  rewrite <- no_dsp_rev, Eq, no_dsp_app in Hq. destruct Hq as (Hq2 & _).
  apply no_dsp_app. split_and!; [done| |by intros [_ [= ?%nl_not_sp]]].
  rewrite !no_dsp_cons, no_dsp_rev. split_and!; [by intros [?%nl_not_sp _]..|done].
Qed.

Lemma squash_newlines_no_dsp run l : no_dsp (rev run ++ l) -> no_dsp (squash_newlines run l).
Proof.
  revert run. induction l as [|c l IH]; intros run H; simpl.
  - rewrite app_nil_r in H. by apply squash_run_no_dsp.
  - destruct (is_space c) eqn:Hc.
    + apply IH. simpl. by rewrite <- app_assoc.
    + assert (Hcs : c <> " "%char) by (intros ->; by rewrite is_space_sp in Hc).
      apply no_dsp_app in H as (Hrun & Hl & _).
      apply no_dsp_app. split_and!; [by apply squash_run_no_dsp| |naive_solver].
      rewrite no_dsp_cons. split; [naive_solver|]. apply IH. by apply no_dsp_cons in Hl as [_ ?].
Qed.

Section MapCtx.
Variable f : option ascii -> ascii -> option ascii -> ascii.
Hypothesis f_sp : forall p c n, f p c n = " "%char <-> c = " "%char.

Lemma head_map_ctx prev l : head (map_ctx f prev l) = Some " "%char -> head l = Some " "%char.
Proof. destruct l as [|c l]; simpl; [done|]. intros H. injection H as H. apply f_sp in H. by subst. Qed.

Lemma map_ctx_no_dsp prev l : no_dsp l -> no_dsp (map_ctx f prev l).
Proof.
  revert prev. induction l as [|c l IH]; intros prev H; [done|]. cbn [map_ctx].
  rewrite no_dsp_cons in H. destruct H as [Hc Hl]. rewrite no_dsp_cons. split; [|by apply IH].
  intros [?%f_sp ?%head_map_ctx]. naive_solver.
Qed.
End MapCtx.

Lemma fix_sp c0 (t : bool) c k :
  c0 <> " "%char -> k <> " "%char -> ((if bool_decide (c = c0) && t then k else c) = " "%char <-> c = " "%char).
Proof. intros H0 Hk. case_bool_decide; destruct t; simpl; subst; naive_solver. Qed.

Lemma fixes_sp p c n :
  (fix_zero p c n = " "%char <-> c = " "%char) /\ (fix_l_before p c n = " "%char <-> c = " "%char) /\
  (fix_l_between p c n = " "%char <-> c = " "%char).
Proof.
  unfold fix_zero, fix_l_before, fix_l_between. rewrite <- !andb_assoc.
  split_and!; apply fix_sp; discriminate.
Qed.

Lemma lstrip_no_dsp l : no_dsp l -> no_dsp (lstrip_t l).
Proof.
  induction l as [|c l IH]; [done|]. intros H. cbn [lstrip_t]. destruct (is_space c); [|done].
  apply IH. by apply no_dsp_cons in H as [_ ?].
Qed.

Lemma lstrip_head l c : head (lstrip_t l) = Some c -> is_space c = false.
Proof.
  induction l as [|x l IH]; simpl; [done|]. destruct (is_space x) eqn:Hx; [done|]. simpl. by intros [= <-].
Qed.

Lemma lstrip_suffix l : exists pre, l = pre ++ lstrip_t l.
Proof.
  induction l as [|c l [pre IH]]; simpl; [by exists []|].
  destruct (is_space c); [exists (c :: pre); by rewrite IH at 1|by exists []].
Qed.

Lemma last_app_ne (a b : text) : b <> [] -> last (a ++ b) = last b.
Proof.
  intros Hb. destruct b as [|y b]; [done|]. apply last_app_cons.
Qed.

Lemma strip_no_dsp l : no_dsp l -> no_dsp (strip_t l).
Proof. intros H. unfold strip_t. by rewrite no_dsp_rev; apply lstrip_no_dsp; rewrite no_dsp_rev; apply lstrip_no_dsp. Qed.

Lemma strip_ends l :
  (forall c, head (strip_t l) = Some c -> is_space c = false) /\
  (forall c, last (strip_t l) = Some c -> is_space c = false).
Proof.
  unfold strip_t. set (L := lstrip_t l). set (M := lstrip_t (rev L)). split; intros c Hc.
  - rewrite <- last_rev_head, rev_involutive in Hc.
    destruct (lstrip_suffix (rev L)) as [pre Epre]. fold M in Epre.
    destruct M as [|m M'] eqn:EM; [done|]. rewrite <- last_app_ne with (a := pre) in Hc by done.
    rewrite <- Epre, last_rev_head in Hc. by apply lstrip_head in Hc.
  - rewrite last_rev_head in Hc. by apply lstrip_head in Hc.
Qed.

Lemma pdf_date_at_digits ds rest :
  length ds = 14%nat -> forallb is_digit ds = true -> pdf_date_at ("D"%char :: ":"%char :: ds ++ rest) = Some ds.
Proof. intros Hl Hd. unfold pdf_date_at. rewrite <- Hl, take_app_length, Hd, !bool_decide_true by done. done. Qed.

Lemma filter_cons_keep (f : ascii -> bool) x l : f x = true -> List.filter f (x :: l) = x :: List.filter f l.
Proof. simpl. by intros ->. Qed.

Lemma filter_cons_drop (f : ascii -> bool) x l : f x = false -> List.filter f (x :: l) = List.filter f l.
Proof. simpl. by intros ->. Qed.

Lemma search_pdf_date_here s ds : pdf_date_at s = Some ds -> search_pdf_date s = Some ds.
Proof. destruct s; simpl; by intros ->. Qed.

(** ** Properties of the text functions *)

(** [clean_text] leaves no two consecutive spaces and no whitespace
    at either end of the text. *)
Theorem clean_text_spaces txt :
  no_dsp (clean_text txt) /\
  (forall c, head (clean_text txt) = Some c -> is_space c = false) /\
  (forall c, last (clean_text txt) = Some c -> is_space c = false).
Proof.
  unfold clean_text. destruct (strip_ends (map_ctx fix_l_between None
    (map_ctx fix_l_before None (map_ctx fix_zero None (squash_newlines [] (squeeze_spaces false txt)))))).
  split_and!; [|done|done]. apply strip_no_dsp.
  do 3 (apply map_ctx_no_dsp; [intros; apply fixes_sp|]).
  apply squash_newlines_no_dsp. apply (squeeze_no_dsp false).
Qed.

(** A PDF date [D:YYYYMMDDHHmmSS...] is parsed into the ISO string
    [YYYY-MM-DDTHH:mm:SS], whose digits are the fourteen digits read. *)
Theorem parse_pdf_date_roundtrip ds rest :
  length ds = 14%nat -> Forall (fun c => is_digit c = true) ds ->
  parse_pdf_date (tx "D:" ++ ds ++ rest) = Some (iso_of_digits ds) /\
  List.filter is_digit (iso_of_digits ds) = ds.
Proof.
  intros Hl Hd. split.
  - unfold parse_pdf_date. change (tx "D:" ++ ds ++ rest) with ("D"%char :: ":"%char :: ds ++ rest).
    rewrite (search_pdf_date_here _ ds); [done|].
    apply pdf_date_at_digits; [done|]. apply forallb_forall. intros c Hc%list_elem_of_In.
    exact (proj1 (Forall_forall _ _) Hd c Hc).
  - apply digits14 in Hl as (d1 & d2 & d3 & d4 & d5 & d6 & d7 & d8 & d9 & d10 & d11 & d12 & d13 & d14 & ->).
    repeat (apply Forall_cons in Hd as [? Hd]). cbn [iso_of_digits take drop app].
    repeat first [rewrite filter_cons_keep by assumption | rewrite filter_cons_drop by reflexivity].
    reflexivity.
Qed.

Lemma parse_pdf_date_roundtrip_witness :
  parse_pdf_date (tx "D:" ++ tx "20240131235959" ++ tx "+00'00'") = Some (tx "2024-01-31T23:59:59") /\
  List.filter is_digit (iso_of_digits (tx "20240131235959")) = tx "20240131235959".
Proof.
  apply (parse_pdf_date_roundtrip (tx "20240131235959") (tx "+00'00'")); [reflexivity|].
  apply (bool_decide_unpack _ (dec := Forall_dec _ _)). by vm_compute.
Defined.
