(* ===== verification/Mismatch.v ===== *)
(** * The mismatch detector, [MismatchDetector] of src/mismatch_detector.py

    [detect_mismatches] and the checks it composes:
    [_get_official_names], [_get_incorporation_date],
    [_check_name_mismatches] (each name of a document against the registry
    names with [NameParser.compare_names]), [_check_date_mismatches],
    [_check_multiple_names] and [_check_missing_filings] (names of the
    incorporation, name-change and re-registration documents that the
    registry's name history lacks, with its report message).  The
    dictionaries of the code are records; [d.get(k)] of a string field is an
    [option string], [None] for an absent key.  [DateParser] is imported by
    the code but has no source in the repository: its [parse_date],
    [compare_dates], [isoformat] and day difference are parameters of the
    section, as are the [difflib] ratio and the [datetime.now()] stamp.
    The [print] calls to [sys.stderr] are output only. *)

From S2P Require Import Prelude PyString StableSort NameParser.
From Stdlib Require Import QArith Qminmax.

(** ** Data *)

(** An entry of [previous_company_names]. *)
Record prev_name := PrevName { pn_name : option string; pn_ceased_on : option string }.

(** The fields of the company profile the detector reads. *)
Record company := Company {
  co_number : option string;
  co_name : option string;
  co_previous : list prev_name;
  co_date_of_creation : option string
}.

(** A parsed document, as [DocumentParser.parse_document] builds it. *)
Record parsed_doc := ParsedDoc {
  pd_success : bool;
  pd_file_name : option string;
  pd_error : option string;
  pd_document_type : option string;
  pd_names : list string;
  pd_name_changes : list (string * string);
  pd_incorporation_date : option string;
  pd_name_change_date : option string
}.

Inductive severity := Critical | High | Medium | Low.

(** An entry of [found_in_documents]. *)
Record doc_ref := DocRef { dr_document : string; dr_type : string; dr_original_name : string }.

(** The dictionaries appended to [result['mismatches']], by their ['type']. *)
Inductive issue :=
| NameMismatch (sev : severity) (document : option string) (expected_names : list string)
    (found_name : string) (best_similarity : Q) (best_match : option string)
| IncorporationDateMismatch (document : option string) (expected_date found_date : string)
    (difference_days : Z)
| NameChangeDateMismatch (document : option string) (expected_date found_date : string)
    (difference_days : Z) (old_name new_name : string)
| MultipleNameChanges (document : option string) (count : nat) (name_changes : list (string * string))
    (message : string)
| NamesMissingFromOverview (message : string) (missing_count : nat) (missing_names : list string)
    (documents : list (string * list doc_ref)).

(** A [parse_failed] warning. *)
Record warning := ParseFailed { w_document : option string; w_error : option string }.

Record summary := Summary {
  total_mismatches : nat; name_mismatches : nat; date_mismatches : nat;
  missing_filings : nat; extra_names : nat
}.

Record result := Result {
  r_company_number : option string;
  r_company_name : option string;
  r_checked_at : string;
  r_mismatches : list issue;
  r_warnings : list warning;
  r_summary : summary
}.

(** The value of a string field when it is truthy. *)
Definition truthy_val (o : option string) : option string :=
  match o with Some s => if truthy_str s then Some s else None | None => None end.

(** [sorted()] of distinct strings. *)
Fixpoint insert_str (x : string) (l : list string) : list string :=
  match l with
  | [] => [x]
  | y :: l' => if String.leb x y then x :: l else y :: insert_str x l'
  end.

Definition sort_strings (l : list string) : list string := fold_right insert_str [] l.

Definition concat_str (l : list string) : string := String.concat "" l.


(** ** The detector *)

Section Detector.
Context {date : Type}.
(** [DateParser.parse_date]. *)
Variable parse_date : string -> option date.
(** [DateParser.compare_dates(a, b)], or with [tolerance_days=k] for [Some k]. *)
Variable compare_dates : date -> date -> option Z -> bool.
Variable isoformat : date -> string.
(** [(a - b).days]. *)
Variable days_between : date -> date -> Z.
(** [SequenceMatcher(None, a, b).ratio()]. *)
Variable ratio : text -> text -> Q.
(** [datetime.now().isoformat()]. *)
Variable now : string.

(** [_get_official_names], lines 99-115. *)
Definition get_official_names (p : company) : list string :=
  (match truthy_val (co_name p) with Some n => [normalize_name n] | None => [] end) ++
  omap (fun pn => normalize_name <$> truthy_val (pn_name pn)) (co_previous p).

(** [_get_incorporation_date], lines 117-122. *)
Definition get_incorporation_date (p : company) : option date :=
  truthy_val (co_date_of_creation p) ≫= parse_date.

(** The loop of lines 136-146 over the registry names: [None] when one
    matches ([break]), else the best similarity. *)
Fixpoint match_officials (found : string) (officials : list string) (best : Q) : option Q :=
  match officials with
  | [] => Some best
  | o :: os =>
      let '(similarity, is_match) := compare_names ratio (tx found) (tx o) in
      if is_match then None else match_officials found os (Qmax best similarity)
  end.

(** Lines 151-158. *)
Definition severity_of (best : Q) : severity :=
  if negb (Qle_bool (1 # 2) best) then Critical
  else if negb (Qle_bool (7 # 10) best) then High
  else if negb (Qle_bool (85 # 100) best) then Medium
  else Low.

(** [_check_name_mismatches], lines 124-170; the record keeps the
    unrounded [best_similarity] ([confidence] is [1 - best_similarity]). *)
Definition name_report (d : parsed_doc) (officials : list string) (found : string) : option issue :=
  (fun best => NameMismatch (severity_of best) (pd_file_name d) officials found best (head officials))
    <$> match_officials found officials 0.

Definition check_name_mismatches (d : parsed_doc) (officials : list string) : list issue :=
  omap (name_report d officials) (pd_names d).

(** Lines 208-235 for one name change and one previous name.  The value
    of [normalize_name(prev.get('name', ''))] at line 214 is not used; the
    call is left out (it raises only on a [null] name, which the record's
    [option] field does not distinguish from a missing key). *)
Definition name_change_issue (d : parsed_doc) (change : string * string) (prev : prev_name) : list issue :=
  match truthy_val (pn_ceased_on prev) with
  | Some ceased_str =>
      let ceased_date := parse_date ceased_str in
      match truthy_val (pd_name_change_date d) with
      | Some doc_str =>
          match ceased_date, parse_date doc_str with
          | Some c, Some dc =>
              if compare_dates c dc (Some 1%Z) then []
              else [NameChangeDateMismatch (pd_file_name d) (isoformat c) (isoformat dc)
                      (days_between dc c) change.1 change.2]
          | _, _ => []
          end
      | None => []
      end
  | None => []
  end.

(** [_check_date_mismatches], lines 172-237. *)
Definition check_date_mismatches (d : parsed_doc) (inc : option date) (p : company) : list issue :=
  let inc_issues :=
    match inc with
    | Some inc_date =>
        if bool_decide (pd_document_type d = Some "incorporation") then
          match truthy_val (pd_incorporation_date d) ≫= parse_date with
          | Some doc_date =>
              if compare_dates inc_date doc_date None then []
              else [IncorporationDateMismatch (pd_file_name d) (isoformat inc_date) (isoformat doc_date)
                      (days_between doc_date inc_date)]
          | None => []
          end
        else []
    | None => []
    end in
  let change_issues :=
    if bool_decide (pd_document_type d = Some "name_change") then
      flat_map (fun ch => flat_map (name_change_issue d ch) (co_previous p)) (pd_name_changes d)
    else [] in
  inc_issues ++ change_issues.

(** [_check_multiple_names], lines 239-256. *)
Definition check_multiple_names (d : parsed_doc) : list issue :=
  let n := length (pd_name_changes d) in
  if (1 <? n)%nat then
    [MultipleNameChanges (pd_file_name d) n (pd_name_changes d)
       ("Document contains " ++ str_of_Z (Z.of_nat n) ++ " name changes")%string]
  else [].

(** ** [_check_missing_filings], lines 258-366 *)

(** [s.upper().strip()]. *)
Definition upper_strip (s : string) : string := string_of_list_ascii (strip_t (upper_t (tx s))).

(** [official_names_set], lines 277-281. *)
Definition official_names_set (p : company) : gset string :=
  {[ normalize_name (upper_strip (default "" (co_name p))) ]} ∪
  list_to_set (omap (fun pn =>
    let n := upper_strip (default "" (pn_name pn)) in
    if truthy_str n then Some (normalize_name n) else None) (co_previous p)).

Definition eligible_types : list string := ["incorporation"; "name_change"; "reregistration"].

(** Lines 286-311 for one document: [filing_names] maps each normalised
    name to the documents it was found in. *)
Definition add_doc_names (fn : pydict string (list doc_ref)) (d : parsed_doc) : pydict string (list doc_ref) :=
  let doc_type := default "" (pd_document_type d) in
  let doc_name := default "Unknown" (pd_file_name d) in
  if pd_success d && bool_decide (doc_type ∈ eligible_types) then
    fold_left (fun fn x =>
      let normalized := normalize_name x in
      if truthy_str normalized then
        dict_set fn normalized (default [] (dict_get fn normalized) ++ [DocRef doc_name doc_type x])
      else fn) (pd_names d) fn
  else fn.

Definition filing_names (docs : list parsed_doc) : pydict string (list doc_ref) :=
  fold_left add_doc_names docs [].

(** Lines 314-320. *)
Definition missing_from_overview (p : company) (docs : list parsed_doc) : list (string * list doc_ref) :=
  filter (fun e => e.1 ∉ official_names_set p) (filing_names docs).

(** Lines 322-334: the entry added when nothing is missing. *)
Definition dummy_missing : string * list doc_ref :=
  ("TEST COMPANY LIMITED", [DocRef "test_document.pdf" "incorporation" "TEST COMPANY LIMITED"]).

Definition missing_with_dummy (p : company) (docs : list parsed_doc) : list (string * list doc_ref) :=
  let m := missing_from_overview p docs in
  if bool_decide (m = []) && (0 <? length docs)%nat then m ++ [dummy_missing] else m.

(** Lines 339-354: [''.join(message_parts)]; the ["\\n"] of the Python
    literals are a backslash and an [n], as here. *)
Definition missing_message (p : company) (m : list (string * list doc_ref)) : string :=
  concat_str (
    [("Found " ++ str_of_Z (Z.of_nat (length m)) ++
       " name(s) in filing history documents that do NOT appear in the overview/searchable name history section.")%string;
     "\n\n=== NAMES IN FILING HISTORY (should be in overview) ==="] ++
    concat (imap (fun i item =>
      [("\n\n" ++ str_of_Z (Z.of_nat (S i)) ++ ". " ++ item.1)%string; "\n   Found in document(s):"] ++
      map (fun r => "\n   - " ++ dr_document r ++ " (" ++ dr_type r ++ ")")%string item.2) m) ++
    ["\n\n=== NAMES IN OVERVIEW SECTION ==="] ++
    imap (fun i n => "\n" ++ str_of_Z (Z.of_nat (S i)) ++ ". " ++ n)%string (sort_strings (elements (official_names_set p))) ++
    ["\n\nâš ï¸ ISSUE: The names shown above exist in incorporation/name change/re-registration filings but are NOT registered in the searchable name history section."]).

Definition check_missing_filings (p : company) (docs : list parsed_doc) : list issue :=
  let m := missing_with_dummy p docs in
  match m with
  | [] => []
  | _ => [NamesMissingFromOverview (missing_message p m) (length m) (fst <$> m) m]
  end.

(** ** [detect_mismatches], lines 17-97 *)

Record acc := Acc {
  a_mismatches : list issue; a_warnings : list warning;
  a_name : nat; a_date : nat; a_extra : nat
}.

(** The body of the loop of lines 62-86. *)
Definition check_document (officials : list string) (inc : option date) (p : company)
    (a : acc) (d : parsed_doc) : acc :=
  if negb (pd_success d) then
    Acc (a_mismatches a) (a_warnings a ++ [ParseFailed (pd_file_name d) (pd_error d)])
      (a_name a) (a_date a) (a_extra a)
  else
    let name_issues := check_name_mismatches d officials in
    let date_issues := check_date_mismatches d inc p in
    let multi := check_multiple_names d in
    Acc (a_mismatches a ++ name_issues ++ date_issues ++ multi) (a_warnings a)
      (a_name a + length name_issues) (a_date a + length date_issues) (a_extra a + length multi).

(** [filing_data] is passed to [_check_missing_filings], which never reads it. *)
Definition detect_mismatches {F} (p : company) (filing_data : F) (docs : list parsed_doc) : result :=
  let officials := get_official_names p in
  let inc := get_incorporation_date p in
  let a := fold_left (check_document officials inc p) docs (Acc [] [] 0 0 0) in
  let missing := check_missing_filings p docs in
  let ms := a_mismatches a ++ missing in
  Result (co_number p) (co_name p) now ms (a_warnings a)
    (Summary (length ms) (a_name a) (a_date a) (length missing) (a_extra a)).
End Detector.

(** ** Lemmas *)

Definition no_match (ratio : text -> text -> Q) (found o : string) : bool :=
  negb (compare_names ratio (tx found) (tx o)).2.

Lemma match_officials_none ratio found os best :
  match_officials ratio found os best = None <-> forallb (no_match ratio found) os = false.
Proof.
  revert best. induction os as [|o os IH]; intros best; cbn [match_officials forallb]; [done|].
  unfold no_match at 1. destruct (compare_names ratio (tx found) (tx o)) as [sim []]; cbn [negb snd andb]; [done|].
  apply IH.
Qed.

Lemma match_officials_some ratio found os best b :
  match_officials ratio found os best = Some b ->
  forallb (no_match ratio found) os = true /\ ((best < 85 # 100)%Q -> (b < 85 # 100)%Q).
Proof.
  revert best. induction os as [|o os IH]; intros best; cbn [match_officials forallb]; [by intros [= <-]|].
  unfold no_match at 1. pose proof (compare_names_no_match ratio (tx found) (tx o)) as Hno.
  destruct (compare_names ratio (tx found) (tx o)) as [sim []]; cbn [negb snd fst andb] in *; [done|].
  intros (Hall & Hb)%IH. split; [done|]. intros Hbest. apply Hb.
  apply Q.max_lub_lt; [done|]. by apply Hno.
Qed.

Lemma severity_of_not_low b : (b < 85 # 100)%Q -> severity_of b <> Low.
Proof.
  intros Hb. unfold severity_of.
  assert (Qle_bool (85 # 100) b = false) as ->.
  { destruct (Qle_bool _ _) eqn:E; [|done]. apply Qle_bool_iff in E. exfalso. by apply (Qlt_not_le _ _ Hb). }
  by destruct (Qle_bool (1 # 2) b), (Qle_bool (7 # 10) b).
Qed.

(** The name a [name_mismatch] reports. *)
Definition mismatch_name (i : issue) : option string :=
  match i with NameMismatch _ _ _ found _ _ => Some found | _ => None end.

Lemma name_report_spec ratio d officials f :
  match name_report ratio d officials f with
  | Some i => mismatch_name i = Some f /\ forallb (no_match ratio f) officials = true /\
      exists sev best, i = NameMismatch sev (pd_file_name d) officials f best (head officials) /\
        (best < 85 # 100)%Q /\ sev <> Low
  | None => forallb (no_match ratio f) officials = false
  end.
Proof.
  unfold name_report. destruct (match_officials ratio f officials 0) as [b|] eqn:E; simpl.
  - destruct (match_officials_some _ _ _ _ _ E) as [Hall Hb]. split_and!; [done|done|].
    exists (severity_of b), b. split_and!; [done|by apply Hb|]. apply severity_of_not_low. by apply Hb.
  - by apply match_officials_none in E.
Qed.

Lemma check_names_omap ratio d officials names :
  omap mismatch_name (omap (name_report ratio d officials) names) =
    List.filter (fun f => forallb (no_match ratio f) officials) names /\
  Forall (fun i => exists sev doc found best bm,
      i = NameMismatch sev doc officials found best bm /\ (best < 85 # 100)%Q /\ sev <> Low)
    (omap (name_report ratio d officials) names).
Proof.
  induction names as [|f names [IH1 IH2]]; [done|].
  rewrite omap_cons_eq. pose proof (name_report_spec ratio d officials f) as Hf.
  destruct (name_report ratio d officials f) as [i|]; cbn [List.filter].
  - destruct Hf as (Hm & -> & sev & best & -> & Hb & Hs). rewrite omap_cons_eq, Hm, IH1.
    split; [done|]. constructor; [|done]. by do 5 eexists.
  - rewrite Hf. by split.
Qed.

(** A name [_check_missing_filings] collects from the documents. *)
Definition filed_name (docs : list parsed_doc) (n : string) : Prop :=
  truthy_str n = true /\ exists d x, d ∈ docs /\ pd_success d = true /\
    default "" (pd_document_type d) ∈ eligible_types /\ x ∈ pd_names d /\ normalize_name x = n.

Lemma fold_names_keys (nm : string -> string) (g : pydict string (list doc_ref) -> string -> string -> list doc_ref) xs fn :
  let r := fold_left (fun fn x => let n := nm x in
             if truthy_str n then dict_set fn n (g fn n x) else fn) xs fn in
  (forall k, k ∈ dict_keys r <-> k ∈ dict_keys fn \/
     exists x, x ∈ xs /\ nm x = k /\ truthy_str k = true) /\
  (NoDup (dict_keys fn) -> NoDup (dict_keys r)).
Proof.
  cbv zeta. revert fn. induction xs as [|x xs IH]; intros fn; cbn [fold_left].
  - split; [|done]. intros k. split; [by left|]. intros [?|(? & ?%not_elem_of_nil & _)]; done.
  - destruct (IH (if truthy_str (nm x) then dict_set fn (nm x) (g fn (nm x) x) else fn))
      as [Hk Hn]. split.
    + intros k. rewrite Hk. destruct (truthy_str (nm x)) eqn:Ht.
      * rewrite (proj2 (dict_keys_set _ _ _)). setoid_rewrite elem_of_cons. naive_solver.
      * setoid_rewrite elem_of_cons. split; [naive_solver|].
        intros [?|(x' & [->|Hx] & Hn' & Htk)]; [by left| |right; by exists x'].
        subst k. by rewrite Ht in Htk.
    + intros Hd. apply Hn. destruct (truthy_str _); [by apply dict_set_NoDup|done].
Qed.

Lemma add_doc_names_keys fn d pre :
  (forall k, k ∈ dict_keys fn <-> filed_name pre k) -> NoDup (dict_keys fn) ->
  (forall k, k ∈ dict_keys (add_doc_names fn d) <-> filed_name (pre ++ [d]) k) /\
  NoDup (dict_keys (add_doc_names fn d)).
Proof.
  intros Hk Hn. unfold add_doc_names, filed_name in *.
  destruct (pd_success d && bool_decide (default "" (pd_document_type d) ∈ eligible_types)) eqn:Hs.
  - apply andb_true_iff in Hs as [Hs Ht%bool_decide_eq_true].
    destruct (fold_names_keys normalize_name (fun fn n x => default [] (dict_get fn n) ++
                [DocRef (default "Unknown" (pd_file_name d)) (default "" (pd_document_type d)) x])
                (pd_names d) fn) as [Hk' Hn'].
    split; [|by apply Hn']. intros k. rewrite Hk', Hk. setoid_rewrite elem_of_app.
    setoid_rewrite list_elem_of_singleton. split.
    + intros [(Htk & d' & x & Hd & Hr)|(x & Hx & Hnx & Htk)]; split; [done| |done|].
      * exists d', x. split; [by left|done].
      * exists d, x. split_and!; [by right|done..].
    + intros (Htk & d' & x & [Hd| ->] & Hs' & Ht' & Hx & Hnx); [left; split; [done|]|right].
      * exists d', x. by split_and!.
      * exists x. by split_and!.
  - split; [|done]. intros k. rewrite Hk. setoid_rewrite elem_of_app.
    setoid_rewrite list_elem_of_singleton. split.
    + intros (Htk & d' & x & Hd & Hr). split; [done|]. exists d', x. split; [by left|done].
    + intros (Htk & d' & x & [Hd| ->] & Hsucc & Hty & Hr); [split; [done|]; by exists d', x|].
      rewrite Hsucc in Hs. simpl in Hs. by rewrite bool_decide_true in Hs.
Qed.

Lemma filing_fold_keys docs pre fn :
  (forall k, k ∈ dict_keys fn <-> filed_name pre k) -> NoDup (dict_keys fn) ->
  (forall k, k ∈ dict_keys (fold_left add_doc_names docs fn) <-> filed_name (pre ++ docs) k) /\
  NoDup (dict_keys (fold_left add_doc_names docs fn)).
Proof.
  revert pre fn. induction docs as [|d docs IH]; intros pre fn Hk Hn; cbn [fold_left].
  - by rewrite app_nil_r.
  - replace (pre ++ d :: docs) with ((pre ++ [d]) ++ docs) by (by rewrite <- app_assoc).
    destruct (add_doc_names_keys fn d pre Hk Hn). by apply IH.
Qed.

Lemma filing_names_keys docs :
  (forall k, k ∈ dict_keys (filing_names docs) <-> filed_name docs k) /\ NoDup (dict_keys (filing_names docs)).
Proof.
  apply (filing_fold_keys docs [] []); [|constructor].
  intros k. split; [set_solver|]. intros (_ & ? & ? & ?%not_elem_of_nil & _); done.
Qed.

Lemma fmap_fst_filter {B} (S : gset string) (l : list (string * B)) :
  fst <$> filter (fun e => e.1 ∉ S) l = filter (fun k => k ∉ S) (fst <$> l).
Proof.
  induction l as [|[k v] l IH]; [done|].
  rewrite fmap_cons, !filter_cons. cbn [fst]. case_decide; [rewrite fmap_cons|]; by rewrite IH.
Qed.

(** ** Properties of the detector *)

(** C34: [_check_name_mismatches] reports, in the document's order, exactly
    the names that match no registry name, and every report carries a best
    similarity below 0.85 and a severity other than ['low']: the ['low']
    branch of lines 157-158 is dead. *)
Theorem check_name_mismatches_spec ratio d officials :
  omap mismatch_name (check_name_mismatches ratio d officials) =
    List.filter (fun f => forallb (no_match ratio f) officials) (pd_names d) /\
  Forall (fun i => exists sev doc found best bm,
      i = NameMismatch sev doc officials found best bm /\ (best < 85 # 100)%Q /\ sev <> Low)
    (check_name_mismatches ratio d officials).
Proof. apply check_names_omap. Qed.

Lemma fmap_fst_keys {B} (d : pydict string B) : fst <$> d = dict_keys d.
Proof. induction d as [|[k v] d IH]; [done|]. simpl. by rewrite <- IH. Qed.

Lemma missing_keys p docs :
  (forall n, n ∈ fst <$> missing_from_overview p docs <-> filed_name docs n /\ n ∉ official_names_set p) /\
  NoDup (fst <$> missing_from_overview p docs).
Proof.
  unfold missing_from_overview. change (pydict string (list doc_ref)) with (list (string * list doc_ref)).
  rewrite fmap_fst_filter, fmap_fst_keys.
  destruct (filing_names_keys docs) as [Hk Hn]. split; [|by apply NoDup_filter].
  intros n. rewrite list_elem_of_filter, Hk. tauto.
Qed.

(** The names the [names_in_filings_missing_from_overview] issues report. *)
Definition reported_names (iss : list issue) : list string :=
  flat_map (fun i => match i with NamesMissingFromOverview _ _ ns _ => ns | _ => [] end) iss.

(** C33: [_check_missing_filings] returns at most one issue; it reports,
    once each, the normalised names of the successful incorporation,
    name-change and ["reregistration"] documents that are not registry
    names, and when there is none but some document was given, it reports
    the name ["TEST COMPANY LIMITED"] of a debugging entry instead. *)
Theorem check_missing_filings_spec p docs :
  (length (check_missing_filings p docs) <= 1)%nat /\
  NoDup (reported_names (check_missing_filings p docs)) /\
  forall n, n ∈ reported_names (check_missing_filings p docs) <->
    (filed_name docs n /\ n ∉ official_names_set p) \/
    (n = "TEST COMPANY LIMITED"%string /\ docs <> [] /\
     forall m, filed_name docs m -> m ∈ official_names_set p).
Proof.
  destruct (missing_keys p docs) as [Hm Hnd].
  unfold check_missing_filings, missing_with_dummy.
  destruct (missing_from_overview p docs) as [|e m] eqn:Em; cbn [bool_decide andb].
  - rewrite bool_decide_true by done. cbn [andb].
    destruct (0 <? length docs)%nat eqn:Ed.
    + apply Nat.ltb_lt in Ed. cbn. split_and!; [lia|repeat constructor; set_solver|].
      intros n. rewrite list_elem_of_singleton. split.
      * intros ->. right. split_and!; [done|intros ->; simpl in Ed; lia|].
        intros k Hk. destruct (decide (k ∈ official_names_set p)) as [|Hn]; [done|].
        exfalso. by apply (not_elem_of_nil k), Hm.
      * intros [HA|[-> _]]; [|done]. apply Hm in HA. by apply not_elem_of_nil in HA.
    + apply Nat.ltb_ge in Ed. destruct docs; [|simpl in Ed; lia]. cbn. split_and!; [lia|constructor|].
      intros n. split; [set_solver|]. intros [[(_ & ? & ? & ?%not_elem_of_nil & _) _]|(_ & ? & _)]; done.
  - rewrite bool_decide_false by done. cbn [andb fmap reported_names flat_map].
    rewrite app_nil_r. split_and!; [simpl; lia|done|].
    intros n. rewrite Hm. split; [by left|]. intros [?|(_ & _ & Hall)]; [done|].
    exfalso. assert (He : e.1 ∈ fst <$> e :: m) by (apply elem_of_cons; by left).
    apply Hm in He as [Hf Hn]. by apply Hn, Hall.
Qed.

Section Dates.
Context {date : Type}.
Variable parse_date : string -> option date.
Variable compare_dates : date -> date -> option Z -> bool.
Variable isoformat : date -> string.
Variable days_between : date -> date -> Z.

(** The dates of a previous name and of a name-change document disagree. *)
Definition date_conflict (d : parsed_doc) (prev : prev_name) : bool :=
  match truthy_val (pn_ceased_on prev) ≫= parse_date, truthy_val (pd_name_change_date d) ≫= parse_date with
  | Some c, Some dc => negb (compare_dates c dc (Some 1%Z))
  | _, _ => false
  end.

Lemma name_change_issue_length d ch prev :
  length (name_change_issue parse_date compare_dates isoformat days_between d ch prev) =
  if date_conflict d prev then 1%nat else 0%nat.
Proof.
  unfold name_change_issue, date_conflict.
  destruct (truthy_val (pn_ceased_on prev)) as [cs|]; simpl; [|done].
  destruct (truthy_val (pd_name_change_date d)) as [ds|]; simpl; [|by destruct (parse_date cs)].
  destruct (parse_date cs), (parse_date ds); simpl; try done. by destruct (compare_dates _ _ _).
Qed.

Lemma flat_map_changes_length d prevs changes :
  length (flat_map (fun ch => flat_map (name_change_issue parse_date compare_dates isoformat days_between d ch) prevs)
    changes) = (length changes * length (List.filter (date_conflict d) prevs))%nat.
Proof.
  assert (Hin : forall ch, length (flat_map (name_change_issue parse_date compare_dates isoformat days_between d ch) prevs) =
                           length (List.filter (date_conflict d) prevs)).
  { intros ch. induction prevs as [|prev prevs IH]; [done|]. simpl. rewrite length_app, IH, name_change_issue_length.
    by destruct (date_conflict d prev). }
  induction changes as [|ch changes IH]; [done|]. simpl. by rewrite length_app, Hin, IH.
Qed.
End Dates.

(** C35: for a name-change document, [_check_date_mismatches] compares each
    name change of the document with every previous name of the registry,
    whatever the names: it reports (number of name changes) x (number of
    previous names whose cessation date disagrees with the document's date)
    issues. *)
Theorem check_date_mismatches_pairs {date} parse_date compare_dates isoformat days_between
    (d : parsed_doc) (inc : option date) p :
  pd_document_type d = Some "name_change"%string ->
  length (check_date_mismatches parse_date compare_dates isoformat days_between d inc p) =
    (length (pd_name_changes d) * length (List.filter (date_conflict parse_date compare_dates d) (co_previous p)))%nat.
Proof.
  intros Ht. unfold check_date_mismatches. rewrite Ht.
  rewrite (bool_decide_true (Some "name_change" = Some "name_change")%string) by done.
  rewrite (bool_decide_false (Some "name_change" = Some "incorporation")%string) by done.
  rewrite length_app.
  replace (length match inc with Some _ => [] | None => [] end) with 0%nat by (by destruct inc).
  apply flat_map_changes_length.
Qed.
