(* ===== verification/MismatchScenarios.v ===== *)
(** * Runs of the mismatch detector on concrete companies

    The data of src/test_mismatch.py, with a third document classified by
    [PDFProcessor.analyze_document_type] from the text of a re-registration
    application, and a company whose documents only carry its registered
    name.  [DateParser] has no source in the repository: the fixtures stand
    it in by a parser that reads a date as its length in characters, so
    that two dates differ exactly when their strings have different
    lengths. *)

From S2P Require Import Prelude PyString NameParser PdfProcessor Mismatch.
From Stdlib Require Import QArith.

Module MismatchFixtures.
Definition parse_len (s : string) : option Z := Some (Z.of_nat (String.length s)).
Definition compare_days (a b : Z) (tol : option Z) : bool := (Z.abs (a - b) <=? default 0 tol)%Z.
Definition iso_z (a : Z) : string := str_of_Z a.
Definition days_z (a b : Z) : Z := (a - b)%Z.

(** The profile of test_mismatch.py. *)
Definition test_company : company :=
  Company (Some "12345678") (Some "TEST COMPANY LIMITED") [PrevName (Some "OLD NAME LIMITED") None] None.

Definition incorporation_doc : parsed_doc :=
  ParsedDoc true (Some "incorporation_12345678.pdf") None (Some "incorporation")
    ["ORIGINAL COMPANY NAME LIMITED"; "TEST COMPANY LIMITED"] [] None None.

Definition name_change_doc : parsed_doc :=
  ParsedDoc true (Some "name_change_12345678.pdf") None (Some "name_change")
    ["HIDDEN NAME LTD"; "TEST COMPANY LIMITED"] [] None None.

Definition reregistration_text : text :=
  tx "Application by a private company for re-registration as a public company: SECRET HOLDINGS PLC".

Definition reregistration_doc : parsed_doc :=
  ParsedDoc true (Some "reregistration_12345678.pdf") None (Some (analyze_document_type reregistration_text))
    ["SECRET HOLDINGS PLC"] [] None None.

Definition test_result : result :=
  detect_mismatches parse_len compare_days iso_z days_z ratio_zero "2024-01-01T00:00:00" test_company tt
    [incorporation_doc; name_change_doc; reregistration_doc].

(** A company whose only document names it as registered. *)
Definition acme : company :=
  Company (Some "00000001") (Some "ACME WIDGETS LIMITED")
    [PrevName (Some "ACME LIMITED") (Some "2020-01-01"); PrevName (Some "WIDGETS LIMITED") (Some "2019-06-30")] None.

Definition acme_incorporation : parsed_doc :=
  ParsedDoc true (Some "incorporation_00000001.pdf") None (Some "incorporation")
    ["Acme Widgets Limited"] [] None None.

(** A name-change document with two changes, dated by a string of another
    length than the cessation dates. *)
Definition acme_name_change : parsed_doc :=
  ParsedDoc true (Some "name_change_00000001.pdf") None (Some "name_change") ["ACME WIDGETS LIMITED"]
    [("ACME LIMITED", "ACME WIDGETS LIMITED"); ("WIDGETS LIMITED", "ACME LIMITED")] None (Some "1 March 2021").
End MismatchFixtures.

Import MismatchFixtures.

Lemma check_date_mismatches_pairs_witness :
  pd_document_type acme_name_change = Some "name_change"%string /\
  length (check_date_mismatches parse_len compare_days iso_z days_z acme_name_change None acme) = 4%nat.
Proof.
  split; [reflexivity|].
  rewrite (check_date_mismatches_pairs parse_len compare_days iso_z days_z acme_name_change None acme);
    reflexivity.
Defined.

(** On the data of test_mismatch.py with a re-registration application
    added, [detect_mismatches] reports the three names that match no
    registry name, and lists only the two names of the incorporation and
    name-change documents as missing from the name history: the
    classifier labels the application ['re_registration'] while
    [_check_missing_filings] looks for ['reregistration'].  For a company
    whose document carries its registered name, the missing-filings check
    reports ["TEST COMPANY LIMITED"]. *)
Example detect_mismatches_scenario :
  pd_document_type reregistration_doc = Some "re_registration"%string /\
  omap mismatch_name (r_mismatches test_result) =
    ["ORIGINAL COMPANY NAME LIMITED"; "HIDDEN NAME LTD"; "SECRET HOLDINGS PLC"]%string /\
  reported_names (r_mismatches test_result) = ["ORIGINAL COMPANY NAME LIMITED"; "HIDDEN NAME LIMITED"]%string /\
  r_summary test_result = Summary 4 3 0 1 0 /\
  reported_names (check_missing_filings acme [acme_incorporation]) = ["TEST COMPANY LIMITED"]%string.
Proof. split_and!; vm_compute; reflexivity. Qed.
