(* ===== verification/DocumentParser.v ===== *)
(** * The document pipeline: [DocumentParser] of src/parsers/document_parser.py

    [parse_document] chains the PDF text extraction of [PDFProcessor]
    ([extract_text_from_pdf], [extract_with_ai]), [clean_text],
    [analyze_document_type], [extract_metadata], the name extractors of
    [NameParser] and the date extractors of [DateParser] into the result
    dictionary the mismatch detector consumes; [parse_batch] and
    [extract_for_mismatch_detection] wrap it.  What touches the file system
    or a remote service is a parameter of the section, as a [result] so
    that its exceptions are values: the native text layer of the PDF, the
    OCR of its pages, the vision-model transcription, the PyPDF2 reader's
    document information.  [DateParser] has no source in the repository:
    its extractors are parameters too.  The control flow around them (which
    extractor runs when, which exception is caught where, what the result
    holds on each path) is the code's. *)

From S2P Require Import Prelude PyString Regex NameParser PdfProcessor Mismatch MismatchScenarios.

(** [result] is the outcome of a call that may raise; the detector's report
    is [Mismatch.result]. *)
Local Notation result := Prelude.result.

(** The document information of PyPDF2's reader: [len(reader.pages)] and
    [reader.metadata], a dictionary of optional strings. *)
Record pdf_info := PdfInfo {
  pi_num_pages : nat;
  pi_metadata : option (list (string * text))
}.

(** The dictionary [extract_metadata] returns. *)
Record metadata := Metadata {
  md_num_pages : option nat;
  md_title : option text; md_author : option text; md_subject : option text;
  md_creator : option text; md_producer : option text;
  md_creation_date : option (option text); md_modification_date : option (option text)
}.

Definition empty_metadata : metadata := Metadata None None None None None None None None.

(** The dictionary [parse_document] returns (lines 37-104). *)
Record parse_result := ParseResult {
  pr_file_path : string;
  pr_file_name : string;
  pr_parsed_at : string;
  pr_success : bool;
  pr_error : option string;
  pr_document_type : option string;
  pr_text_length : option nat;
  pr_metadata : option metadata;
  pr_names : list string;
  pr_name_changes : list (string * string);
  pr_dates : list string;
  pr_incorporation_date : option string;
  pr_name_change_date : option string;
  pr_text_preview : option text
}.

(** [f"{i+1}"]. *)
Definition page_number (i : nat) : text := tx (str_of_Z (Z.of_nat (S i))).

(** [_extract_native_text], src/pdf_processor.py:67-88: the text of each
    page, followed by a newline, when it is not empty; an exception of
    [page.extract_text()] leaves the loop. *)
Fixpoint native_concat (pages : list (result text)) : result text :=
  match pages with
  | [] => Ok []
  | Err e :: _ => Err e
  | Ok page_text :: ps =>
      match native_concat ps with
      | Err e => Err e
      | Ok rest => Ok ((if bool_decide (page_text = []) then [] else page_text ++ [nl]) ++ rest)
      end
  end.

(** [_extract_with_ocr], lines 90-120: a page whose OCR raises is skipped
    (the exception is printed); the others are framed by a page header. *)
Fixpoint ocr_concat (i : nat) (pages : list (result text)) : text :=
  match pages with
  | [] => []
  | Err _ :: ps => ocr_concat (S i) ps
  | Ok page_text :: ps =>
      (nl :: tx "--- Page " ++ page_number i ++ tx " ---" ++ nl :: page_text ++ [nl]) ++ ocr_concat (S i) ps
  end.

(** The dictionary as [MismatchDetector] reads it ([doc.get(...)]);
    [extract_for_mismatch_detection] (lines 131-157) keeps exactly these
    keys, [error] apart, which is [None] on success. *)
Definition to_parsed_doc (r : parse_result) : parsed_doc :=
  ParsedDoc (pr_success r) (Some (pr_file_name r)) (pr_error r) (pr_document_type r) (pr_names r)
    (pr_name_changes r) (pr_incorporation_date r) (pr_name_change_date r).

Section Pipeline.
Context {date : Type}.
(** [PyPDF2.PdfReader(file).pages], each page's [extract_text()]; [Err]
    when the file cannot be opened or read. *)
Variable pdf_pages : string -> result (list (result text)).
(** [convert_from_path] and [pytesseract.image_to_string] on each image. *)
Variable ocr_images : string -> result (list (result text)).
(** [extract_with_ai]: the vision model of [Config.AI_PROVIDER]. *)
Variable ai_text : string -> result text.
(** [PyPDF2.PdfReader(file)] on the file, for its document information. *)
Variable read_info : string -> result pdf_info.
(** [DateParser.extract_dates], [extract_incorporation_date],
    [extract_name_change_date] and [datetime.isoformat]. *)
Variable extract_dates : text -> string -> result (list date).
Variable extract_incorporation_date : text -> result (option date).
Variable extract_name_change_date : text -> result (option date).
Variable isoformat : date -> string.
(** [list(set)] of [extract_names]. *)
Variable iter : gset string -> list string.
(** [datetime.now().isoformat()]. *)
Variable now : string.

Definition native_text (path : string) : result text :=
  match pdf_pages path with Err e => Err e | Ok pages => native_concat pages end.

Definition ocr_text (path : string) : result text :=
  match ocr_images path with Err e => Err e | Ok images => Ok (ocr_concat 0 images) end.

(** [PDFProcessor.extract_text_from_pdf], src/pdf_processor.py:34-65: an
    exception of the native extraction, or of the OCR in the [try], is
    caught, and with [use_ocr] the OCR is tried once more. *)
Definition extract_text_from_pdf (path : string) (use_ocr : bool) : text :=
  match native_text path with
  | Err _ => if use_ocr then match ocr_text path with Ok o => o | Err _ => [] end else []
  | Ok text =>
      if use_ocr && (length (strip_t text) <? 100)%nat then
        match ocr_text path with
        | Ok o => if (length text <? length o)%nat then o else text
        | Err _ => match ocr_text path with Ok o => o | Err _ => text end
        end
      else text
  end.

(** [PDFProcessor.extract_metadata], src/pdf_processor.py:265-304; an
    exception of the reader leaves the dictionary empty. *)
Definition extract_metadata (path : string) : metadata :=
  match read_info path with
  | Err _ => empty_metadata
  | Ok info =>
      match pi_metadata info with
      | None | Some [] => Metadata (Some (pi_num_pages info)) None None None None None None None
      | Some md =>
          let get k := default [] (dict_get md k) in
          let creation := get "/CreationDate" in
          let modif := get "/ModDate" in
          Metadata (Some (pi_num_pages info)) (Some (get "/Title")) (Some (get "/Author"))
            (Some (get "/Subject")) (Some (get "/Creator")) (Some (get "/Producer"))
            (if bool_decide (creation = []) then None else Some (parse_pdf_date creation))
            (if bool_decide (modif = []) then None else Some (parse_pdf_date modif))
      end
  end.

Definition failed (path name : string) (err : string) : parse_result :=
  ParseResult path name now false (Some err) None None None [] [] [] None None None.

Definition iso_opt (d : option date) : option string := isoformat <$> d.

(** Lines 66-104, after the text was found: [Err] is an exception caught
    at line 106. *)
Definition analyse_text (path name : string) (text : text) : result parse_result :=
  let cleaned := clean_text text in
  let doc_type := analyze_document_type cleaned in
  let md := extract_metadata path in
  let names := extract_names iter cleaned in
  let changes := extract_name_changes cleaned in
  match extract_dates cleaned doc_type with
  | Err e => Err e
  | Ok dates =>
  match (if bool_decide (doc_type = "incorporation"%string) then
           match extract_incorporation_date cleaned with Ok d => Ok (d, None) | Err e => Err e end
         else if bool_decide (doc_type = "name_change"%string) then
           match extract_name_change_date cleaned with Ok d => Ok (None, d) | Err e => Err e end
         else Ok (None, None)) with
  | Err e => Err e
  | Ok dates_pair =>
  Ok (ParseResult path name now true None (Some doc_type) (Some (length cleaned)) (Some md) names changes
        (isoformat <$> dates) (iso_opt dates_pair.1) (iso_opt dates_pair.2)
        (if bool_decide (cleaned = []) then None else Some (take 500 cleaned)))
  end end.

(** The text [parse_document] analyses, lines 47-59: OCR first when
    [prefer_ocr and use_ocr], the AI when that gave less than 50
    non-blank characters and [use_ai], else the text layer. *)
Definition document_text (path : string) (use_ocr use_ai prefer_ocr : bool) : result text :=
  let text0 := if prefer_ocr && use_ocr then extract_text_from_pdf path true else [] in
  if (bool_decide (text0 = []) || (length (strip_t text0) <? 50)%nat) && use_ai then ai_text path
  else if bool_decide (text0 = []) then Ok (extract_text_from_pdf path false)
  else Ok text0.

(** [parse_document], lines 21-109. *)
Definition parse_document (path name : string) (use_ocr use_ai prefer_ocr : bool) : parse_result :=
  match document_text path use_ocr use_ai prefer_ocr with
  | Err e => failed path name (exn_msg e)
  | Ok [] => failed path name "No text could be extracted from document"
  | Ok text =>
      match analyse_text path name text with
      | Ok r => r
      | Err e => failed path name (exn_msg e)
      end
  end.

(** [parse_batch], lines 111-129, with the defaults [use_ai=False],
    [prefer_ocr=True]. *)
Definition parse_batch (paths : list (string * string)) (use_ocr : bool) : list parse_result :=
  (fun p => parse_document p.1 p.2 use_ocr false true) <$> paths.

(** [extract_for_mismatch_detection], lines 131-157, with the defaults of
    [parse_document]. *)
Definition extract_for_mismatch_detection (path name : string) : parsed_doc :=
  to_parsed_doc (parse_document path name true false true).

(** ** Properties of the pipeline *)

Lemma strip_t_nil_length (t : text) : (length (strip_t t) < 50)%nat \/ t <> [].
Proof. destruct t; [left; cbn; lia|by right]. Qed.

Lemma analyse_text_ok path name t r : analyse_text path name t = Ok r ->
  pr_file_path r = path /\ pr_file_name r = name /\ pr_success r = true /\ pr_error r = None /\
  pr_document_type r = Some (analyze_document_type (clean_text t)) /\
  pr_text_length r = Some (length (clean_text t)) /\
  pr_names r = extract_names iter (clean_text t) /\ pr_name_changes r = extract_name_changes (clean_text t).
Proof.
  unfold analyse_text. cbv zeta.
  destruct (extract_dates _ _); [|done].
  repeat case_match; try done; intros [= <-]; split_and!; reflexivity.
Qed.

(** The text [extract_text_from_pdf] returns with OCR enabled is the
    native text of the PDF or the OCR text, and never shorter than the
    native text. *)
Theorem extract_text_keeps_native path n :
  native_text path = Ok n ->
  (length n <= length (extract_text_from_pdf path true))%nat /\
  (extract_text_from_pdf path true = n \/ ocr_text path = Ok (extract_text_from_pdf path true)).
Proof.
  intros Hn. unfold extract_text_from_pdf. rewrite Hn. cbn [andb].
  destruct (_ <? 100)%nat; [|auto].
  destruct (ocr_text path) as [o|e] eqn:Ho; [|auto].
  destruct (length n <? length o)%nat eqn:Hl; [apply Nat.ltb_lt in Hl|]; auto with lia.
Qed.

(** C36: the outcome of [parse_document]: on success the text the
    OCR/AI/text-layer choice of lines 47-59 returned ([document_text]) is
    non-empty, the result holds no error, and its type, length, names and
    name changes are those computed from that text once cleaned, so its
    names are valid normalised names without duplicates and its name
    changes pairs of suffixed names; on failure it holds an error and no
    extraction result. *)
Theorem parse_document_outcome path name use_ocr use_ai prefer_ocr :
  (forall s x, x ∈ iter s <-> x ∈ s) -> (forall s, NoDup (iter s)) ->
  let r := parse_document path name use_ocr use_ai prefer_ocr in
  pr_file_path r = path /\ pr_file_name r = name /\
  (pr_success r = true -> pr_error r = None /\
     (exists t, document_text path use_ocr use_ai prefer_ocr = Ok t /\ t <> [] /\
        pr_document_type r = Some (analyze_document_type (clean_text t)) /\
        pr_text_length r = Some (length (clean_text t)) /\ pr_names r = extract_names iter (clean_text t) /\
        pr_name_changes r = extract_name_changes (clean_text t)) /\
     Forall normalised_valid (pr_names r) /\ NoDup (pr_names r) /\
     Forall (fun p => normalised_suffixed p.1 /\ normalised_suffixed p.2) (pr_name_changes r)) /\
  (pr_success r = false -> pr_error r <> None /\ pr_names r = [] /\ pr_document_type r = None).
Proof.
  intros Hiter Hnd r. subst r. unfold parse_document.
  destruct (document_text path use_ocr use_ai prefer_ocr) as [[|c t]|e] eqn:Hd; [done| |done].
  destruct (analyse_text path name (c :: t)) as [r|e] eqn:Ha; [|done].
  apply analyse_text_ok in Ha as (Hp & Hm & Hs & He & Ht & Hl & Hn & Hc).
  rewrite Hp, Hm, Hs, He, Hn, Hc. split_and!; try done. intros _. split_and!; [done|..].
  - by exists (c :: t).
  - by apply extract_names_sound.
  - apply Hnd.
  - apply extract_name_changes_sound.
Qed.
End Pipeline.


Section Cost.
Context {date : Type}.
Variable pdf_pages ocr_images : string -> result (list (result text)).
Variable read_info : string -> result pdf_info.
Variable extract_dates : text -> string -> result (list date).
Variable extract_incorporation_date extract_name_change_date : text -> result (option date).
Variable isoformat : date -> string.
Variable iter : gset string -> list string.
Variable now : string.

(** C37: the vision model, which costs tokens, is consulted only when it
    is enabled and the OCR-first extraction gave fewer than fifty
    non-blank characters: otherwise [parse_document] does not depend on
    what [extract_with_ai] would return. *)
Theorem parse_document_ai_gate (ai1 ai2 : string -> result text) path name use_ocr use_ai prefer_ocr :
  use_ai = false \/
  (prefer_ocr && use_ocr = true /\
   50 <= length (strip_t (extract_text_from_pdf pdf_pages ocr_images path true)))%nat ->
  parse_document pdf_pages ocr_images ai1 read_info extract_dates extract_incorporation_date
    extract_name_change_date isoformat iter now path name use_ocr use_ai prefer_ocr =
  parse_document pdf_pages ocr_images ai2 read_info extract_dates extract_incorporation_date
    extract_name_change_date isoformat iter now path name use_ocr use_ai prefer_ocr.
Proof.
  unfold parse_document, document_text. cbv zeta. intros [->|[-> Hl]].
  - by rewrite !andb_false_r.
  - destruct (strip_t_nil_length (extract_text_from_pdf pdf_pages ocr_images path true)) as [?|Hne]; [lia|].
    rewrite bool_decide_false by done. apply Nat.ltb_ge in Hl as ->. done.
Qed.

(** When neither the text layer nor the OCR yields any text, and the
    vision model is disabled or returns nothing, [parse_document] fails
    with the error 'No text could be extracted from document'. *)
Theorem parse_document_no_text (ai : string -> result text) path name use_ocr use_ai prefer_ocr :
  (forall u, extract_text_from_pdf pdf_pages ocr_images path u = []) ->
  use_ai = false \/ ai path = Ok [] ->
  parse_document pdf_pages ocr_images ai read_info extract_dates extract_incorporation_date
    extract_name_change_date isoformat iter now path name use_ocr use_ai prefer_ocr =
  failed now path name "No text could be extracted from document".
Proof.
  intros Hx Hai. unfold parse_document, document_text. cbv zeta. rewrite !Hx.
  destruct (prefer_ocr && use_ocr), Hai as [->|Hai]; cbn [andb orb];
    rewrite ?Hx, ?Hai, ?bool_decide_true, ?andb_false_r by done; try done; by destruct (_ && use_ai).
Qed.
End Cost.

(** ** The pipeline on a change-of-name resolution *)

Module DocumentFixtures.
Import MismatchFixtures.

(** A change-of-name resolution whose PDF has a text layer of one page. *)
Definition nm01_text : text :=
tx "Change of name by resolution" ++ nl :: tx "Company number: 00000001" ++ nl ::
tx "Company name: ACME WIDGETS LIMITED" ++ nl ::
tx "The company changed its name from ACME LIMITED to ACME WIDGETS LIMITED on 1 March 2021.".

Definition nm01_pages (_ : string) : result (list (result text)) := Ok [Ok nm01_text].
Definition no_images (_ : string) : result (list (result text)) := Ok [].
Definition no_ai (_ : string) : result text := Err (Exn "No API key configured").
Definition no_info (_ : string) : result pdf_info := Err (Exn "EOF marker not found").
Definition no_dates (_ : text) (_ : string) : result (list Z) := Ok [].
Definition no_date (_ : text) : result (option Z) := Ok None.

Definition nm01_doc : parsed_doc :=
extract_for_mismatch_detection nm01_pages no_images no_ai no_info no_dates no_date no_date iso_z elements
  "2024-01-01T00:00:00" "nm01.pdf" "nm01.pdf".

Definition nm01_result : Mismatch.result :=
detect_mismatches parse_len compare_days iso_z days_z ratio_zero "2024-01-01T00:00:00" acme tt [nm01_doc].
End DocumentFixtures.

Import MismatchFixtures DocumentFixtures.

Lemma extract_text_keeps_native_witness :
  native_text nm01_pages "nm01.pdf" = Ok (nm01_text ++ [nl]) /\
  (length (nm01_text ++ [nl]) <= length (extract_text_from_pdf nm01_pages no_images "nm01.pdf" true))%nat /\
  (extract_text_from_pdf nm01_pages no_images "nm01.pdf" true = nm01_text ++ [nl] \/
   ocr_text no_images "nm01.pdf" = Ok (extract_text_from_pdf nm01_pages no_images "nm01.pdf" true)).
Proof.
  split; [reflexivity|]. apply (extract_text_keeps_native nm01_pages no_images "nm01.pdf"). reflexivity.
Defined.

Lemma parse_document_outcome_witness :
  (forall (s : gset string) x, x ∈ elements s <-> x ∈ s) /\ (forall s : gset string, NoDup (elements s)) /\
  let r := parse_document nm01_pages no_images no_ai no_info no_dates no_date no_date iso_z elements
             "2024-01-01T00:00:00" "nm01.pdf" "nm01.pdf" true false true in
  pr_file_path r = "nm01.pdf"%string /\ pr_file_name r = "nm01.pdf"%string /\
  (pr_success r = true -> pr_error r = None /\
     (exists t, document_text nm01_pages no_images no_ai "nm01.pdf" true false true = Ok t /\ t <> [] /\
        pr_document_type r = Some (analyze_document_type (clean_text t)) /\
        pr_text_length r = Some (length (clean_text t)) /\ pr_names r = extract_names elements (clean_text t) /\
        pr_name_changes r = extract_name_changes (clean_text t)) /\
     Forall normalised_valid (pr_names r) /\ NoDup (pr_names r) /\
     Forall (fun p => normalised_suffixed p.1 /\ normalised_suffixed p.2) (pr_name_changes r)) /\
  (pr_success r = false -> pr_error r <> None /\ pr_names r = [] /\ pr_document_type r = None).
Proof.
  assert (H1 : forall (s : gset string) x, x ∈ elements s <-> x ∈ s) by (intros; apply elem_of_elements).
  assert (H2 : forall s : gset string, NoDup (elements s)) by (intros; apply NoDup_elements).
  split; [exact H1|]. split; [exact H2|].
  exact (parse_document_outcome nm01_pages no_images no_ai no_info no_dates no_date no_date iso_z elements
    "2024-01-01T00:00:00" "nm01.pdf" "nm01.pdf" true false true H1 H2).
Defined.

Lemma parse_document_ai_gate_witness :
  parse_document nm01_pages no_images no_ai no_info no_dates no_date no_date iso_z elements
    "2024-01-01T00:00:00" "nm01.pdf" "nm01.pdf" true false true =
  parse_document nm01_pages no_images (fun _ => Ok (tx "ACME")) no_info no_dates no_date no_date iso_z elements
    "2024-01-01T00:00:00" "nm01.pdf" "nm01.pdf" true false true.
Proof.
  apply (parse_document_ai_gate nm01_pages no_images no_info no_dates no_date no_date iso_z elements
    "2024-01-01T00:00:00" no_ai (fun _ => Ok (tx "ACME")) "nm01.pdf" "nm01.pdf" true false true).
  by left.
Defined.

Lemma parse_document_no_text_witness :
  (forall u, extract_text_from_pdf no_images no_images "scan.pdf" u = []) /\
  parse_document no_images no_images no_ai no_info no_dates no_date no_date iso_z elements
    "2024-01-01T00:00:00" "scan.pdf" "scan.pdf" true false true =
  failed "2024-01-01T00:00:00" "scan.pdf" "scan.pdf" "No text could be extracted from document".
Proof.
  assert (H : forall u, extract_text_from_pdf no_images no_images "scan.pdf" u = []) by (intros []; reflexivity).
  split; [exact H|].
  apply (parse_document_no_text no_images no_images no_info no_dates no_date no_date iso_z elements
    "2024-01-01T00:00:00" no_ai "scan.pdf" "scan.pdf" true false true H). by left.
Defined.

(** On a change-of-name resolution, the pipeline of
    [extract_for_mismatch_detection] classifies the document as a name
    change and finds the one change, but the name patterns, compiled with
    [re.IGNORECASE] so that [[A-Z]] also matches lower-case letters and
    [\s] newlines, return four fragments of sentences besides the name;
    [detect_mismatches] then reports the four fragments as names missing
    from the company's name history.  The names are listed in the order of
    [elements], which stands for the order of [list(set)].  The certificate
    Companies House issues on a change of name, headed 'Certificate of
    incorporation on change of name', is classified as an incorporation. *)
Example parse_document_change_of_name_scenario :
  analyze_document_type (tx "CERTIFICATE OF INCORPORATION ON CHANGE OF NAME") = "incorporation"%string /\
  pd_document_type nm01_doc = Some "name_change"%string /\
  pd_names nm01_doc =
    ["CHANGED ITS NAME FROM ACME LIMITED TO ACME WIDGETS LIMITED";
     "ACME WIDGETS LIMITED THE COMPANY CHANGED ITS NAME FROM ACME LIMITED TO ACME WIDGETS LIMITED ON";
     "ACME WIDGETS LIMITED"; "ACME LIMITED TO ACME WIDGETS LIMITED ON";
     "THE COMPANY CHANGED ITS NAME FROM ACME LIMITED TO ACME WIDGETS LIMITED"]%string /\
  pd_name_changes nm01_doc = [("ACME LIMITED", "ACME WIDGETS LIMITED")]%string /\
  reported_names (r_mismatches nm01_result) =
    ["CHANGED ITS NAME FROM ACME LIMITED TO ACME WIDGETS LIMITED";
     "ACME WIDGETS LIMITED THE COMPANY CHANGED ITS NAME FROM ACME LIMITED TO ACME WIDGETS LIMITED ON";
     "ACME LIMITED TO ACME WIDGETS LIMITED ON";
     "THE COMPANY CHANGED ITS NAME FROM ACME LIMITED TO ACME WIDGETS LIMITED"]%string /\
  r_summary nm01_result = Summary 1 0 0 1 0.
Proof. split_and!; vm_compute; reflexivity. Qed.
