(* ===== verification/RateLimiter.v ===== *)
(** * The rate limiter, [RateLimiter] of src/core/rate_limiter.py

    The state is the deque [self.requests] of grant timestamps (oldest
    first) with the two limits.  The whole body of each method runs under
    [self.lock], so concurrent callers are serialised and a run of
    [acquire] calls is a sequence of state transitions.  Time is an integer
    (ticks of the clock [time.time()] reads); [time.sleep(s)] returns at
    least [s] later, which the model writes as a wake-up reading
    [now + s + overshoot] with [overshoot >= 0].

    Theorems: the sliding-window guarantee for every run whose clock
    advances between calls; its failure when two calls read the same
    instant on the window boundary (the deque keeps an entry equal to
    [now - period] and [sleep_time = 0] skips the sleep); the [IndexError]
    of [self.requests[0]], raised exactly when [max_requests] is not
    positive and the pruned deque is empty; and a
    non-negative [get_remaining_requests] after a run of the first kind. *)

From S2P Require Import Prelude.

(** [Config.RATE_LIMIT_REQUESTS] and [Config.RATE_LIMIT_PERIOD] without
    environment overrides (src/core/config.py:21-22). *)
Definition RATE_LIMIT_REQUESTS : Z := 600.
Definition RATE_LIMIT_PERIOD : Z := 300.

Record rate_limiter := RateLimiter {
  max_requests : Z;
  period : Z;
  requests : list Z
}.

(** [x or default] for an optional integer argument. *)
Definition py_or_int (x : option Z) (d : Z) : Z :=
  match x with Some v => if (v =? 0)%Z then d else v | None => d end.

(** [__init__], lines 14-25. *)
Definition new_rate_limiter (mr p : option Z) : rate_limiter :=
  RateLimiter (py_or_int mr RATE_LIMIT_REQUESTS) (py_or_int p RATE_LIMIT_PERIOD) [].

(** [while self.requests and self.requests[0] < cutoff: popleft()]. *)
Fixpoint prune (cutoff : Z) (q : list Z) : list Z :=
  match q with
  | t :: q' => if (t <? cutoff)%Z then prune cutoff q' else q
  | [] => []
  end.

(** The clock as one call of [acquire] sees it. *)
Record acquire_clock := AcquireClock {
  t_enter : Z;     (** [time.time()] at line 33 *)
  overshoot : Z    (** how much longer than asked [time.sleep] took *)
}.

(** [acquire], lines 27-50: the new state and the recorded timestamp.
    An empty deque with [max_requests <= 0] reads [self.requests[0]] and
    raises [IndexError]. *)
Definition acquire (clk : acquire_clock) (rl : rate_limiter) : result (rate_limiter * Z) :=
  let now := t_enter clk in
  let q1 := prune (now - period rl) (requests rl) in
  let grant now' q := Ok (RateLimiter (max_requests rl) (period rl) (q ++ [now']), now') in
  if (max_requests rl <=? Z.of_nat (length q1))%Z then
    match q1 with
    | t0 :: _ =>
        let sleep_time := (t0 + period rl - now)%Z in
        if (0 <? sleep_time)%Z then
          let now2 := (now + sleep_time + overshoot clk)%Z in
          grant now2 (prune (now2 - period rl) q1)
        else grant now q1
    | [] => Err (Exn "deque index out of range")
    end
  else grant now q1.

(** [get_remaining_requests], lines 52-59: the pruned state and the count. *)
Definition get_remaining_requests (now : Z) (rl : rate_limiter) : rate_limiter * Z :=
  let q := prune (now - period rl) (requests rl) in
  (RateLimiter (max_requests rl) (period rl) q, max_requests rl - Z.of_nat (length q))%Z.

(** [get_reset_time], lines 61-69 (no pruning). *)
Definition get_reset_time (now : Z) (rl : rate_limiter) : Z :=
  match requests rl with
  | [] => 0
  | oldest :: _ => Z.max 0 (oldest + period rl - now)
  end.

(** [reset], lines 71-74. *)
Definition reset (rl : rate_limiter) : rate_limiter :=
  RateLimiter (max_requests rl) (period rl) [].

(** A run of [acquire] calls: the final state and the recorded timestamps. *)
Fixpoint acquire_all (clks : list acquire_clock) (rl : rate_limiter)
    : result (rate_limiter * list Z) :=
  match clks with
  | [] => Ok (rl, [])
  | c :: cs =>
      match acquire c rl with
      | Err e => Err e
      | Ok (rl', g) =>
          match acquire_all cs rl' with
          | Err e => Err e
          | Ok (rl'', gs) => Ok (rl'', g :: gs)
          end
      end
  end.

(** The grants of [gs] inside the window [(t - p, t]]. *)
Definition in_window (p t : Z) (gs : list Z) : nat :=
  length (filter (fun g => t - p < g <= t)%Z gs).

(** ** Pruning *)

Lemma prune_suffix c q : exists pre, q = pre ++ prune c q /\ Forall (fun x => x < c)%Z pre.
Proof.
  induction q as [|t q IH]; simpl; [by exists []|].
  destruct (Z.ltb_spec t c).
  - destruct IH as (pre & Hq & Hf). exists (t :: pre). simpl. rewrite <- Hq.
    split; [done|]. by constructor.
  - by exists [].
Qed.

Lemma prune_ge c q : nondecreasing q -> Forall (fun x => c <= x)%Z (prune c q).
Proof.
  induction q as [|t q IH]; simpl; intros Hs; [done|].
  destruct (Z.ltb_spec t c); [eauto with pyd|].
  constructor; [done|]. apply Forall_forall. intros y Hy.
  pose proof (nondecreasing_cons_le t q Hs y Hy). lia.
Qed.

Lemma nondecreasing_app_r l1 l2 : nondecreasing (l1 ++ l2) -> nondecreasing l2.
Proof. induction l1 as [|x l1 IH]; simpl; [done|]. eauto with pyd. Qed.

(** The number of entries strictly after [c]. *)
Definition cnt_gt (c : Z) (l : list Z) : nat := length (filter (fun x => c < x)%Z l).

Lemma cnt_gt_app c l1 l2 : cnt_gt c (l1 ++ l2) = (cnt_gt c l1 + cnt_gt c l2)%nat.
Proof. unfold cnt_gt. by rewrite filter_app, length_app. Qed.

Lemma cnt_gt_none c l : Forall (fun x => x <= c)%Z l -> cnt_gt c l = 0%nat.
Proof.
  intros Hf. unfold cnt_gt. rewrite filter_none; [done|].
  eapply Forall_impl; [done|]. simpl. lia.
Qed.

Lemma cnt_gt_mono c c' l : (c <= c')%Z -> (cnt_gt c' l <= cnt_gt c l)%nat.
Proof. intros Hc. apply filter_length_mono. intros. lia. Qed.

(** ** The sliding-window invariant *)

(** The history [hist] of grants is the pruned prefix, all older than
    [cut], followed by the deque; the deque is sorted; nothing is later
    than [last]; and no window holds more than [max_requests]. *)
Definition window_inv (rl : rate_limiter) (hist : list Z) (cut last : Z) : Prop :=
  (exists pre, hist = pre ++ requests rl /\ Forall (fun x => x < cut)%Z pre) /\
  nondecreasing (requests rl) /\
  Forall (fun x => x <= last)%Z hist /\
  forall t, (Z.of_nat (in_window (period rl) t hist) <= max_requests rl)%Z.

(** Appending the grant [g] after pruning the deque down to [q2]. *)
Lemma grant_inv rl hist cut last now g pre2 q2 :
  window_inv rl hist cut last -> (last < now <= g)%Z -> (cut <= g - period rl)%Z ->
  (exists pre1, requests rl = pre1 ++ pre2 ++ q2 /\
     Forall (fun x => x < g - period rl)%Z (pre1 ++ pre2)) ->
  (Z.of_nat (cnt_gt (g - period rl) q2) < max_requests rl)%Z ->
  window_inv (RateLimiter (max_requests rl) (period rl) (q2 ++ [g])) (hist ++ [g])
    (g - period rl) g.
Proof.
  intros ((pre & Hh & Hpre) & Hs & Hle & Hw) Hg Hcut (pre1 & Hq & Hpre12) Hcnt.
  unfold window_inv. simpl.
  assert (Hall : Forall (fun x => x < g)%Z hist) by (eapply Forall_impl; [done|]; simpl; lia).
  split_and!.
  - exists (pre ++ pre1 ++ pre2). rewrite Hh, Hq, !app_assoc. simpl.
    split; [by rewrite ?app_assoc|].
    rewrite <- app_assoc. apply Forall_app.
    split; [eapply Forall_impl; [done|]; simpl; lia|done].
  - apply nondecreasing_snoc.
    + rewrite Hq in Hs. rewrite app_assoc in Hs. by apply nondecreasing_app_r in Hs.
    + rewrite Hh, Hq in Hall. rewrite !Forall_app in Hall. destruct Hall as (_ & _ & _ & Hq2).
      eapply Forall_impl; [done|]. simpl. lia.
  - apply Forall_app. split; [|by constructor]. eapply Forall_impl; [done|]. simpl. lia.
  - intros t. unfold in_window. rewrite filter_app, length_app.
    destruct (Z.ltb_spec t g).
    + rewrite filter_cons_False by lia. simpl. rewrite Nat.add_0_r. apply Hw.
    + assert (Hin : (length (filter (fun x => t - period rl < x <= t)%Z hist)
                     <= cnt_gt (g - period rl) q2)%nat).
      { transitivity (cnt_gt (t - period rl) hist).
        - apply filter_length_mono. intros. lia.
        - transitivity (cnt_gt (g - period rl) hist); [apply cnt_gt_mono; lia|].
          rewrite Hh, Hq, !cnt_gt_app, (cnt_gt_none _ pre), (cnt_gt_none _ pre1),
            (cnt_gt_none _ pre2); [lia| | |].
          + apply Forall_app in Hpre12 as [_ H2]. eapply Forall_impl; [done|]. simpl. lia.
          + apply Forall_app in Hpre12 as [H1 _]. eapply Forall_impl; [done|]. simpl. lia.
          + eapply Forall_impl; [done|]. simpl. lia. }
      pose proof (length_filter (fun x => t - period rl < x <= t)%Z [g]). simpl in *. lia.
Qed.

Lemma cnt_gt_length c l : (cnt_gt c l <= length l)%nat.
Proof. apply length_filter. Qed.

Lemma cnt_gt_cons_le c t l : (t <= c)%Z -> (cnt_gt c (t :: l) <= length l)%nat.
Proof.
  intros Ht. unfold cnt_gt. rewrite filter_cons_False by lia. apply length_filter.
Qed.

(** Under the invariant, the deque pruned at an instant later than every
    grant holds at most [max_requests] entries: they all lie in the window
    ending one tick before. *)
Lemma pruned_within_max rl hist cut last now :
  window_inv rl hist cut last -> Forall (fun x => x < now)%Z hist ->
  (Z.of_nat (length (prune (now - period rl) (requests rl))) <= max_requests rl)%Z.
Proof.
  intros ((pre & Hh & _) & Hs & _ & Hw) Hlt.
  destruct (prune_suffix (now - period rl) (requests rl)) as (pre1 & Hq & _).
  pose proof (prune_ge (now - period rl) _ Hs) as Hge.
  set (q1 := prune _ _) in *.
  specialize (Hw (now - 1)%Z). unfold in_window in Hw.
  rewrite Hh, Hq, !filter_app, !length_app in Hw.
  rewrite (filter_all _ q1) in Hw; [lia|].
  rewrite Hh, Hq, !Forall_app in Hlt. destruct Hlt as (_ & _ & Hlt).
  apply Forall_forall. intros x Hx.
  pose proof (proj1 (Forall_forall _ _) Hge x Hx). pose proof (proj1 (Forall_forall _ _) Hlt x Hx).
  simpl in *. lia.
Qed.

(** One granted [acquire] from a state satisfying the invariant, entered
    strictly after the previous grant, keeps the invariant with the new
    grant appended; the grant is no earlier than the call. *)
Lemma acquire_inv clk rl hist cut last rl' g :
  window_inv rl hist cut last -> (last < t_enter clk)%Z -> (cut <= t_enter clk - period rl)%Z ->
  (0 <= overshoot clk)%Z -> acquire clk rl = Ok (rl', g) ->
  window_inv rl' (hist ++ [g]) (g - period rl) g /\ (t_enter clk <= g)%Z /\
  max_requests rl' = max_requests rl /\ period rl' = period rl.
Proof.
  intros Hinv Hl Hc Ho.
  assert (Hlen : (Z.of_nat (length (prune (t_enter clk - period rl) (requests rl)))
                  <= max_requests rl)%Z).
  { apply (pruned_within_max _ hist cut last); [done|].
    eapply Forall_impl; [exact (proj1 (proj2 (proj2 Hinv)))|]. simpl. lia. }
  pose proof (proj1 (proj2 Hinv)) as Hs.
  destruct (prune_suffix (t_enter clk - period rl) (requests rl)) as (pre1 & Hq & Hpre1).
  pose proof (prune_ge (t_enter clk - period rl) _ Hs) as Hge.
  unfold acquire. set (now := t_enter clk) in *.
  remember (prune (now - period rl) (requests rl)) as q1 eqn:Hq1.
  destruct (Z.leb_spec (max_requests rl) (Z.of_nat (length q1))) as [Hfull|Hfree].
  - destruct q1 as [|t0 q']; [done|]. apply Forall_cons in Hge as [Ht0 _].
    destruct (Z.ltb_spec 0 (t0 + period rl - now)) as [Hsl|Hsl]; intros [= <- <-].
    + set (now2 := (now + _ + _)%Z).
      destruct (prune_suffix (now2 - period rl) (t0 :: q')) as (pre2 & Hq2 & Hpre2).
      split_and!; try (done || lia). eapply (grant_inv _ _ _ _ now _ pre2); [done|lia|unfold now2; lia| |].
      * exists pre1. rewrite Hq. split; [f_equal; exact Hq2|].
        apply Forall_app. split; [|done]. eapply Forall_impl; [done|]. simpl. lia.
      * set (q2 := prune (now2 - period rl) (t0 :: q')) in Hq2 |- *.
        change (Z.of_nat (cnt_gt (now2 - period rl) q2) < max_requests rl)%Z.
        pose proof (cnt_gt_cons_le (now2 - period rl) t0 q' ltac:(unfold now2; lia)) as H.
        rewrite Hq2, cnt_gt_app in H. simpl in Hlen. lia.
    + split_and!; try (done || lia). eapply (grant_inv _ _ _ _ now now [] (t0 :: q')); [done|lia|lia| |].
      * exists pre1. rewrite Hq, app_nil_r. done.
      * pose proof (cnt_gt_cons_le (now - period rl) t0 q' ltac:(lia)). simpl in Hlen. lia.
  - intros [= <- <-]. split_and!; try (done || lia).
    eapply (grant_inv _ _ _ _ now _ []); [done|lia|lia| |].
    + exists pre1. rewrite app_nil_r. done.
    + pose proof (cnt_gt_length (now - period rl) q1). lia.
Qed.

Lemma window_inv_init rl cut last :
  requests rl = [] -> (0 <= max_requests rl)%Z -> window_inv rl [] cut last.
Proof.
  intros Hq Hm. unfold window_inv. rewrite Hq.
  split_and!; [by exists []|constructor|constructor|done].
Qed.

(** A run of granted calls, each entered after the previous grant. *)
Lemma acquire_all_inv clks : forall rl hist cut last rl' gs,
  window_inv rl hist cut last ->
  Forall (fun c => 0 <= overshoot c)%Z clks ->
  (forall c, clks !! 0%nat = Some c -> (last < t_enter c)%Z /\ (cut <= t_enter c - period rl)%Z) ->
  (forall i c g, clks !! S i = Some c -> gs !! i = Some g -> (g < t_enter c)%Z) ->
  acquire_all clks rl = Ok (rl', gs) ->
  (exists cut' last', window_inv rl' (hist ++ gs) cut' last') /\
  max_requests rl' = max_requests rl /\ period rl' = period rl.
Proof.
  induction clks as [|c cs IH]; intros rl hist cut last rl' gs Hinv Ho H0 Hadv; simpl.
  - intros [= <- <-]. rewrite app_nil_r. eauto.
  - destruct (acquire c rl) as [[rl1 g]|e] eqn:Ha; [|done].
    destruct (acquire_all cs rl1) as [[rl2 gs']|e] eqn:Hr; [|done]. intros [= <- <-].
    apply Forall_cons in Ho as [Hoc Ho].
    destruct (H0 c eq_refl) as [H0l H0c].
    destruct (acquire_inv c rl hist cut last rl1 g Hinv H0l H0c Hoc Ha)
      as (Hinv1 & _ & Hm & Hp).
    destruct (IH rl1 (hist ++ [g]) (g - period rl)%Z g rl2 gs' Hinv1 Ho)
      as ((cut' & l' & Hi) & Hm2 & Hp2).
    + intros c' Hc'. pose proof (Hadv 0%nat c' g Hc' eq_refl). rewrite Hp. lia.
    + intros i c' g' Hc' Hg'. exact (Hadv (S i) c' g' Hc' Hg').
    + done.
    + rewrite <- app_assoc in Hi. split; [eauto|]. split; congruence.
Qed.

(** Pruning the deque (as [get_remaining_requests] does) keeps the
    invariant, with the cut moved to the pruning point. *)
Lemma prune_window rl hist cut last p :
  window_inv rl hist cut last ->
  window_inv (RateLimiter (max_requests rl) (period rl) (prune p (requests rl))) hist
    (Z.max cut p) last.
Proof.
  intros ((pre & Hh & Hpre) & Hs & Hle & Hw).
  destruct (prune_suffix p (requests rl)) as (pre1 & Hq & Hpre1).
  unfold window_inv. simpl. split_and!; [|rewrite Hq in Hs; by eapply nondecreasing_app_r|done|done].
  exists (pre ++ pre1). rewrite Hh, <- app_assoc, <- Hq. split; [done|].
  apply Forall_app. split; (eapply Forall_impl; [done|]); simpl; lia.
Qed.

(** A granted [acquire] keeps both limits, and grants no earlier than the
    call when [time.sleep] does not return early. *)
Lemma acquire_limits clk rl rl' g :
  (0 <= overshoot clk)%Z -> acquire clk rl = Ok (rl', g) ->
  max_requests rl' = max_requests rl /\ period rl' = period rl /\ (t_enter clk <= g)%Z.
Proof.
  intros Ho. unfold acquire. destruct (Z.leb _ _); [destruct (prune _ _) as [|t0 q]; [done|]|].
  - destruct (Z.ltb_spec 0 (t0 + period rl - t_enter clk)); intros [= <- <-]; simpl; lia.
  - intros [= <- <-]. simpl. lia.
Qed.

(** With a positive limit [acquire] always grants. *)
Lemma acquire_ok clk rl :
  (0 < max_requests rl)%Z -> exists rl' g, acquire clk rl = Ok (rl', g).
Proof.
  intros Hm. unfold acquire. case_match eqn:Hle; [apply Z.leb_le in Hle|eauto].
  destruct (prune (t_enter clk - period rl) (requests rl)) as [|t0 q]; [simpl in Hle; lia|].
  case_match; eauto.
Qed.

(** ** Claims *)

(** C8: the sliding-window guarantee of [acquire].  Starting from an empty
    deque, in every run of granted calls in which each call enters strictly
    after the previous grant (and each [time.sleep] lasts at least as long
    as asked), every window [(t - period, t]] contains at most
    [max_requests] grants. *)
Theorem acquire_all_window rl clks rl' gs :
  requests rl = [] -> (0 <= max_requests rl)%Z ->
  Forall (fun c => 0 <= overshoot c)%Z clks ->
  (forall i c g, clks !! S i = Some c -> gs !! i = Some g -> (g < t_enter c)%Z) ->
  acquire_all clks rl = Ok (rl', gs) ->
  forall t, (Z.of_nat (in_window (period rl) t gs) <= max_requests rl)%Z.
Proof.
  intros Hq Hm Ho Hadv Hrun t.
  destruct clks as [|c0 cs]; [injection Hrun as _ <-; unfold in_window; rewrite filter_nil; simpl; lia|].
  destruct (acquire_all_inv (c0 :: cs) rl [] (t_enter c0 - period rl) (t_enter c0 - 1) rl' gs)
    as ((cut' & l' & _ & _ & _ & Hw) & Hm' & Hp'); try done.
  - by apply window_inv_init.
  - intros c [= <-]. lia.
  - rewrite <- Hm', <- Hp'. apply Hw.
Qed.

Lemma acquire_all_window_witness :
  (Z.of_nat (in_window 10 10 [0; 1; 10]%Z) <= 2)%Z.
Proof.
  apply (acquire_all_window (RateLimiter 2 10 [])
           [AcquireClock 0 0; AcquireClock 1 0; AcquireClock 2 0]
           (RateLimiter 2 10 [0; 1; 10]%Z) [0; 1; 10]%Z);
    [reflexivity|simpl; lia|repeat constructor; simpl; lia| |vm_compute; reflexivity].
  intros i c g Hc Hg. destruct i as [|[|[|i]]]; simplify_eq/=; lia.
Defined.

(** ** Calls on the window boundary *)

Lemma acquire_all_app l1 l2 rl :
  acquire_all (l1 ++ l2) rl =
  match acquire_all l1 rl with
  | Err e => Err e
  | Ok (rl1, gs1) => match acquire_all l2 rl1 with Err e => Err e | Ok (rl2, gs2) => Ok (rl2, gs1 ++ gs2) end
  end.
Proof.
  revert rl. induction l1 as [|c l1 IH]; intros rl; simpl.
  - by destruct (acquire_all l2 rl) as [[]|].
  - destruct (acquire c rl) as [[rl' g]|e]; [|done]. rewrite IH.
    destruct (acquire_all l1 rl') as [[rl1 gs1]|e]; [|done].
    by destruct (acquire_all l2 rl1) as [[]|].
Qed.

(** [m] calls at instant 0 fill an empty deque without waiting. *)
Lemma acquire_fill m p n q :
  (0 < p)%Z -> Forall (fun x => x = 0)%Z q -> (Z.of_nat (length q + n) <= m)%Z ->
  acquire_all (repeat (AcquireClock 0 0) n) (RateLimiter m p q) =
  Ok (RateLimiter m p (q ++ repeat 0%Z n), repeat 0%Z n).
Proof.
  intros Hp. revert q. induction n as [|n IH]; intros q Hq Hl; [by rewrite app_nil_r|].
  cbn [repeat acquire_all]. unfold acquire. cbn [t_enter period max_requests requests].
  assert (Hpr : prune (0 - p) q = q).
  { destruct Hq as [|x q' ->]; [done|]. cbn. by rewrite (proj2 (Z.ltb_ge 0 (0 - p))) by lia. }
  rewrite Hpr, (proj2 (Z.leb_gt _ _)) by lia.
  rewrite IH; [|apply Forall_app; split; [done|by constructor]|rewrite length_app; cbn [length]; lia].
  by rewrite <- app_assoc.
Qed.

(** Calls that read the instant [period] after the oldest entry are all
    granted at once: the entry equals [now - period], and
    [sleep_time] is 0. *)
Lemma acquire_boundary m p k q :
  hd_error q = Some 0%Z -> (m <= Z.of_nat (length q))%Z ->
  acquire_all (repeat (AcquireClock p 0) k) (RateLimiter m p q) =
  Ok (RateLimiter m p (q ++ repeat p k), repeat p k).
Proof.
  revert q. induction k as [|k IH]; intros q Hh Hl; [by rewrite app_nil_r|].
  destruct q as [|t0 q]; [done|]. injection Hh as ->.
  cbn [repeat acquire_all]. unfold acquire. cbn [t_enter period max_requests requests overshoot].
  rewrite Z.sub_diag. cbn [prune]. rewrite Z.ltb_irrefl, (proj2 (Z.leb_le _ _)) by done.
  rewrite Z.add_0_l, Z.sub_diag. cbn [Z.ltb Z.compare].
  rewrite IH; [|done|rewrite length_app; cbn [length] in *; lia].
  by rewrite <- app_assoc.
Qed.

Lemma in_window_burst p m k :
  (0 < p)%Z -> in_window p p (repeat 0%Z m ++ repeat p k) = k.
Proof.
  intros Hp. unfold in_window. rewrite filter_app, length_app.
  assert (H0 : forall n, length (filter (fun g => p - p < g <= p)%Z (repeat 0%Z n)) = 0).
  { induction n as [|n IH]; [done|]. cbn [repeat]. rewrite filter_cons_False by lia. done. }
  assert (H1 : forall n, length (filter (fun g => p - p < g <= p)%Z (repeat p n)) = n).
  { induction n as [|n IH]; [done|]. cbn [repeat]. rewrite filter_cons_True by lia. cbn. lia. }
  rewrite H0, H1. done.
Qed.

(** C9: the sliding-window guarantee fails when calls read the same
    instant on the window boundary.  For every limit [m >= 1], period
    [p > 0] and number [k]: from an empty deque, [m] calls at instant 0
    and then [k] calls at instant [p] are all granted without waiting,
    since each oldest entry 0 equals [now - period] and survives the
    strict [<] of the pruning loop, and [sleep_time] is 0.  The window
    ending at [p] holds [k] grants, however large [k] is, and the deque
    grows to [m + k] entries. *)
Theorem acquire_boundary_burst m p k :
  (1 <= m)%Z -> (0 < p)%Z ->
  let gs := repeat 0%Z (Z.to_nat m) ++ repeat p k in
  acquire_all (repeat (AcquireClock 0 0) (Z.to_nat m) ++ repeat (AcquireClock p 0) k) (RateLimiter m p []) =
    Ok (RateLimiter m p gs, gs) /\ in_window p p gs = k.
Proof.
  intros Hm Hp gs. split; [|apply in_window_burst, Hp].
  rewrite acquire_all_app, acquire_fill; [|done|constructor|cbn; lia].
  rewrite acquire_boundary; [done| |rewrite length_app, repeat_length; cbn; lia].
  destruct (Z.to_nat m) eqn:E; [lia|done].
Qed.

Lemma acquire_boundary_burst_witness :
  (1 <= 1)%Z /\ (0 < 10)%Z /\
  let gs := repeat 0%Z (Z.to_nat 1) ++ repeat 10%Z 3 in
  acquire_all (repeat (AcquireClock 0 0) (Z.to_nat 1) ++ repeat (AcquireClock 10 0) 3) (RateLimiter 1 10 []) =
    Ok (RateLimiter 1 10 gs, gs) /\ in_window 10 10 gs = 3.
Proof. split; [lia|]. split; [lia|]. apply (acquire_boundary_burst 1 10 3); lia. Defined.

(** In a run as in C12, [get_remaining_requests] asked at any instant
    later than every grant returns a non-negative count. *)
Theorem remaining_requests_nonneg rl clks rl' gs now :
  requests rl = [] -> (0 <= max_requests rl)%Z ->
  Forall (fun c => 0 <= overshoot c)%Z clks ->
  (forall i c g, clks !! S i = Some c -> gs !! i = Some g -> (g < t_enter c)%Z) ->
  acquire_all clks rl = Ok (rl', gs) ->
  Forall (fun g => g < now)%Z gs ->
  (0 <= (get_remaining_requests now rl').2)%Z.
Proof.
  intros Hq Hm Ho Hadv Hrun Hnow.
  destruct clks as [|c0 cs].
  - injection Hrun as <- <-. unfold get_remaining_requests. rewrite Hq. simpl. lia.
  - destruct (acquire_all_inv (c0 :: cs) rl [] (t_enter c0 - period rl) (t_enter c0 - 1) rl' gs)
      as ((cut' & l' & Hi) & _ & _); try done.
    + by apply window_inv_init.
    + intros c [= <-]. lia.
    + pose proof (pruned_within_max rl' ([] ++ gs) cut' l' now Hi Hnow).
      unfold get_remaining_requests. simpl. lia.
Qed.

Lemma remaining_requests_nonneg_witness :
  (0 <= (get_remaining_requests 11 (RateLimiter 2 10 [0; 1; 10]%Z)).2)%Z.
Proof.
  apply (remaining_requests_nonneg (RateLimiter 2 10 [])
           [AcquireClock 0 0; AcquireClock 1 0; AcquireClock 2 0]
           (RateLimiter 2 10 [0; 1; 10]%Z) [0; 1; 10]%Z 11);
    [reflexivity|simpl; lia|repeat constructor; simpl; lia| |vm_compute; reflexivity|
     repeat constructor; lia].
  intros i c g Hc Hg. destruct i as [|[|[|i]]]; simplify_eq/=; lia.
Defined.

(** [acquire] raises (the [IndexError] of [self.requests[0]] at
    line 39) exactly when the limit is not positive and the pruned deque
    is empty; in every other case it grants. *)
Theorem acquire_index_error clk rl :
  (exists e, acquire clk rl = Err e) <->
  (max_requests rl <= 0)%Z /\ prune (t_enter clk - period rl) (requests rl) = [].
Proof.
  unfold acquire. destruct (prune _ _) as [|t0 q]; simpl.
  - case_match eqn:Hle; [apply Z.leb_le in Hle|apply Z.leb_gt in Hle]; simpl in Hle.
    + split; [done|eauto].
    + split; [by intros [e He]|lia].
  - split; [intros [e He]; by repeat case_match|by intros [_ ?]].
Qed.
