(* ===== verification/Scanner.v ===== *)
(** * The network crawler, [NetworkScanner.scan_network]

    src/network_scanner.py:23-223 as explicit state passing: the snapshot
    [network] (the dict [network] of the code), the crawler state
    [scan_state] (the frontier [companies_to_scan], the visited sets
    [self.scanned_companies] and [self.scanned_officers], the printed log and
    the client's state), the per-officer step, the officer search expansion,
    the per-company step, one iteration of the [while] loop, the loop on fuel
    and the final statistics.  [scan_reach] is the reachability relation of
    loop states. *)

From S2P Require Import Prelude Registry.

(** ** The snapshot *)

(** [network['companies'][company_number]], lines 89-97. *)
Record company_rec := CompanyRec {
  cr_company_number : string;
  cr_company_name : option string;
  cr_company_status : option string;
  cr_company_type : option string;
  cr_incorporation_date : option string;
  cr_depth : Z;
  cr_officer_count : nat
}.

(** An appointment of a director, lines 119-129. *)
Record appointment_rec := AppointmentRec {
  ar_company_number : string;
  ar_company_name : option string;
  ar_role : string;
  ar_appointed_on : option string;
  ar_resigned_on : option string;
  ar_date_of_birth : option dob
}.

(** [network['directors'][officer_id]], lines 112-116 and 131-135. *)
Record director_rec := DirectorRec {
  dr_name : string;
  dr_appointments : list appointment_rec;
  dr_company_count : nat
}.

(** One element of [network['connections']], lines 138-145. *)
Record connection := Connection {
  cn_company_number : string;
  cn_company_name : option string;
  cn_director_id : string;
  cn_director_name : string;
  cn_role : string;
  cn_depth : Z
}.

(** [network['statistics']], lines 46-51. *)
Record statistics := Statistics {
  total_companies : nat;
  total_directors : nat;
  total_connections : nat;
  depth_reached : Z
}.

(** The dict returned by [scan_network], lines 40-52. *)
Record network := Network {
  seed_companies : list string;
  net_max_depth : Z;
  companies : pydict string company_rec;
  directors : pydict string director_rec;
  connections : list connection;
  stats : statistics
}.

(** What the crawl prints: lines 68, 206, 213 and 216. *)
Inductive log_entry :=
| LogScanning (company_number : string) (depth : Z)
| LogAppointmentsError (officer_name msg : string)
| LogSearchError (officer_name msg : string)
| LogCompanyError (company_number msg : string).

(** The keyword arguments of [scan_network]. *)
Record scan_config := ScanConfig {
  max_depth : Z;
  max_companies : Z;
  active_only : bool
}.

(** ** Officers and search results *)

(** [officer.get('name', '')] and [officer.get('officer_role', '')].  The
    record's [option] field stands for a missing key; a JSON [null], which
    Python reads as [None] and whose string methods then raise, is not
    distinguished from it. *)
Definition officer_name (o : officer) : string := default ""%string (o_name o).
Definition officer_role (o : officer) : string := default ""%string (o_officer_role o).

(** The director identity, line 108:
    [f"{officer_name}_{officer.get('appointed_on', '')}"]. *)
Definition officer_key (o : officer) : string :=
  String.append (officer_name o)
    (String.append "_" (default ""%string (o_appointed_on o))).

(** Line 151: the officer is itself a company. *)
Definition corporate_keywords : list string :=
  ["LIMITED"; "LTD"; "PLC"; "LLP"; "COMPANY"; "CORPORATE"]%string.

Definition is_corporate_officer (name : string) : bool :=
  existsb (fun kw => str_contains kw (str_upper name)) corporate_keywords.

(** [officer_match.get('title', '')], with a [null] title read as a
    missing one, as for [officer_name]. *)
Definition hit_title (h : search_hit) : string := default ""%string (h_title h).

(** Lines 159-170: the first of the top five results whose title equals the
    name up to case, else the first result. *)
Definition best_match (name : string) (results : list search_hit) : option search_hit :=
  match List.find (fun h => bool_decide (str_upper (hit_title h) = str_upper name))
          (take 5 results) with
  | Some h => Some h
  | None => match results with h :: _ => Some h | [] => None end
  end.

(** [best_match.get('links', {}).get('self', '')], line 173. *)
Definition match_id (h : search_hit) : string := default ""%string (h_links_self h).

(** [match_id.split('/')[-2]], line 176; [None] raises [IndexError]. *)
Definition officer_api_id (mid : string) : option string :=
  py_index_neg 2 (str_split "/"%char mid).

Definition index_error : exn := Exn "list index out of range".

(** Lines 205 and 212: [if '404' not in str(e)]. *)
Definition is_404 (e : exn) : bool := str_contains "404" (exn_msg e).

(** Lines 183-202: the frontier item an appointment yields, if any. *)
Definition appointment_target (cfg : scan_config) (scanned : gset string) (depth : Z)
    (a : appointment) : option (string * Z) :=
  match a_company_number a with
  | None => None
  | Some c =>
      if negb (truthy_str c) || bool_decide (c ∈ scanned) then None
      else if active_only cfg && truthy_opt (a_resigned_on a) then None
      else if active_only cfg && negb (bool_decide (a_company_status a = Some "active"%string))
      then None
      else Some (c, (depth + 1)%Z)
  end.

(** Lines 82-86: officers without a resignation date. *)
Definition active_officers (offs : list officer) : list officer :=
  filter (fun o => negb (truthy_opt (o_resigned_on o))) offs.

(** ** Updating the snapshot *)

Definition appointment_of (c : string) (p : profile) (o : officer) : appointment_rec :=
  AppointmentRec c (p_company_name p) (officer_role o) (o_appointed_on o)
    (o_resigned_on o) (o_date_of_birth o).

Definition connection_of (c : string) (p : profile) (d : Z) (o : officer) : connection :=
  Connection c (p_company_name p) (officer_key o) (officer_name o) (officer_role o) d.

(** Lines 111-135: create the director on first sight, append the
    appointment, refresh [company_count]. *)
Definition add_director_appointment (dirs : pydict string director_rec)
    (oid name : string) (a : appointment_rec) : pydict string director_rec :=
  let dirs1 := if dict_mem dirs oid then dirs else dict_set dirs oid (DirectorRec name [] 0) in
  match dict_get dirs1 oid with
  | Some dr =>
      let apps := dr_appointments dr ++ [a] in
      dict_set dirs1 oid (DirectorRec (dr_name dr) apps (length apps))
  | None => dirs1
  end.

(** Lines 106-145: the director entry and the connection of one officer. *)
Definition record_officer (c : string) (p : profile) (d : Z) (o : officer)
    (n : network) : network :=
  Network (seed_companies n) (net_max_depth n) (companies n)
    (add_director_appointment (directors n) (officer_key o) (officer_name o)
       (appointment_of c p o))
    (connections n ++ [connection_of c p d o]) (stats n).

Definition company_of (c : string) (p : profile) (d : Z) (offs : list officer) : company_rec :=
  CompanyRec c (p_company_name p) (p_company_status p) (p_type p)
    (p_date_of_creation p) d (length offs).

(** Lines 89-102: store the company and raise [depth_reached]. *)
Definition record_company (c : string) (p : profile) (d : Z) (offs : list officer)
    (n : network) : network :=
  let s := stats n in
  Network (seed_companies n) (net_max_depth n)
    (dict_set (companies n) c (company_of c p d offs)) (directors n) (connections n)
    (Statistics (total_companies s) (total_directors s) (total_connections s)
       (Z.max (depth_reached s) d)).

(** Lines 218-221. *)
Definition finalize (n : network) : network :=
  Network (seed_companies n) (net_max_depth n) (companies n) (directors n) (connections n)
    (Statistics (length (companies n)) (length (directors n)) (length (connections n))
       (depth_reached (stats n))).

(** Lines 40-52. *)
Definition init_network (seeds : list string) (md : Z) : network :=
  Network seeds md [] [] [] (Statistics 0 0 0 0).

(** ** The crawler *)

Section Crawler.
Context {RS : Type} `{api : Registry RS}.
Variable cfg : scan_config.

(** The state the [while] loop of lines 61-216 threads. *)
Record scan_state := ScanState {
  queue : list (string * Z);
  scanned_companies : gset string;
  scanned_officers : gset string;
  net : network;
  log : list log_entry;
  rs : RS
}.

Definition with_queue (q : list (string * Z)) (st : scan_state) : scan_state :=
  ScanState q (scanned_companies st) (scanned_officers st) (net st) (log st) (rs st).
Definition with_rs (r : RS) (st : scan_state) : scan_state :=
  ScanState (queue st) (scanned_companies st) (scanned_officers st) (net st) (log st) r.
Definition with_net (n : network) (st : scan_state) : scan_state :=
  ScanState (queue st) (scanned_companies st) (scanned_officers st) n (log st) (rs st).
Definition add_log (e : log_entry) (st : scan_state) : scan_state :=
  ScanState (queue st) (scanned_companies st) (scanned_officers st) (net st)
    (log st ++ [e]) (rs st).
Definition mark_officer (oid : string) (st : scan_state) : scan_state :=
  ScanState (queue st) (scanned_companies st) ({[oid]} ∪ scanned_officers st) (net st)
    (log st) (rs st).
Definition mark_company (c : string) (st : scan_state) : scan_state :=
  ScanState (queue st) ({[c]} ∪ scanned_companies st) (scanned_officers st) (net st)
    (log st) (rs st).

(** Lines 203-206 and 210-213: print unless the error is a 404. *)
Definition log_unless_404 (e : exn) (entry : log_entry) (st : scan_state) : scan_state :=
  if is_404 e then st else add_log entry st.

(** Lines 178-202: fetch the matched officer's appointments and enqueue
    their companies; a failure is caught at line 203. *)
Definition expand_appointments (name aid : string) (d : Z) (st : scan_state) : scan_state :=
  let '(r, rs1) := get_officer_appointments aid (rs st) in
  let st1 := with_rs rs1 st in
  match r with
  | Err e => log_unless_404 e (LogAppointmentsError name (exn_msg e)) st1
  | Ok appts =>
      with_queue (queue st1 ++ omap (appointment_target cfg (scanned_companies st1) d) appts) st1
  end.

(** Lines 149-213 for an officer not yet searched, below [max_depth]. *)
Definition expand_officer (name oid : string) (d : Z) (st : scan_state) : scan_state :=
  if is_corporate_officer name then mark_officer oid st
  else
    let '(r, rs1) := search_officers name (rs st) in
    let st1 := with_rs rs1 st in
    match r with
    | Err e => log_unless_404 e (LogSearchError name (exn_msg e)) st1
    | Ok [] => mark_officer oid st1
    | Ok results =>
        match best_match name results with
        | None => mark_officer oid st1
        | Some best =>
            let mid := match_id best in
            if truthy_str mid then
              match officer_api_id mid with
              | None => log_unless_404 index_error (LogSearchError name (exn_msg index_error)) st1
              | Some aid => mark_officer oid (expand_appointments name aid d st1)
              end
            else mark_officer oid st1
        end
    end.

(** Lines 105-213: one iteration of [for officer in officers]. *)
Definition process_officer (c : string) (p : profile) (d : Z) (st : scan_state)
    (o : officer) : scan_state :=
  let st1 := with_net (record_officer c p d o (net st)) st in
  if (d <? max_depth cfg)%Z && negb (bool_decide (officer_key o ∈ scanned_officers st1))
  then expand_officer (officer_name o) (officer_key o) d st1
  else st1.

(** Lines 68-216: expand one company that passed the guard of line 65. *)
Definition scan_company (c : string) (d : Z) (st : scan_state) : scan_state :=
  let st0 := add_log (LogScanning c d) st in
  let '(r, rs1) := get_company_profile c (rs st0) in
  let st1 := with_rs rs1 st0 in
  match r with
  | Err e => add_log (LogCompanyError c (exn_msg e)) st1
  | Ok p =>
      if active_only cfg && negb (bool_decide (p_company_status p = Some "active"%string))
      then st1
      else
        let '(r2, rs2) := get_officers c (rs st1) in
        let st2 := with_rs rs2 st1 in
        match r2 with
        | Err e => add_log (LogCompanyError c (exn_msg e)) st2
        | Ok offs =>
            let offs' := if active_only cfg then active_officers offs else offs in
            let st3 := mark_company c (with_net (record_company c p d offs' (net st2)) st2) in
            fold_left (process_officer c p d) offs' st3
        end
  end.

(** The condition of the [while] loop, line 61. *)
Definition loop_continues (st : scan_state) : bool :=
  negb (bool_decide (queue st = [])) &&
  (Z.of_nat (size (scanned_companies st)) <? max_companies cfg)%Z.

(** One iteration of the loop, lines 62-216. *)
Definition scan_step (st : scan_state) : scan_state :=
  match queue st with
  | [] => st
  | (c, d) :: q =>
      let st' := with_queue q st in
      if bool_decide (c ∈ scanned_companies st') || (max_depth cfg <? d)%Z then st'
      else scan_company c d st'
  end.

(** The loop on fuel: [None] when the fuel runs out first. *)
Fixpoint scan_loop (fuel : nat) (st : scan_state) : option scan_state :=
  match fuel with
  | O => None
  | S n => if loop_continues st then scan_loop n (scan_step st) else Some st
  end.

(** Lines 40-59. *)
Definition init_state (seeds : list string) (rs0 : RS) : scan_state :=
  ScanState ((fun c => (c, 0%Z)) <$> seeds) ∅ ∅ (init_network seeds (max_depth cfg)) [] rs0.

(** [scan_network] (lines 23-223): the final state, whose [net] is the
    returned dict. *)
Definition scan_network (fuel : nat) (seeds : list string) (rs0 : RS) : option scan_state :=
  match scan_loop fuel (init_state seeds rs0) with
  | Some st => Some (with_net (finalize (net st)) st)
  | None => None
  end.

(** The states the loop goes through from [st0]. *)
Inductive scan_reach (st0 : scan_state) : scan_state -> Prop :=
| reach_init : scan_reach st0 st0
| reach_step st : scan_reach st0 st -> loop_continues st = true ->
    scan_reach st0 (scan_step st).
End Crawler.

Arguments scan_state RS : clear implicits.
