(* ===== verification/ScannerFrame.v ===== *)
(** * What each step of the crawler may change

    Frame lemmas for the sub-steps of [Scanner]: the officer search
    expansion and the per-officer step leave the visited companies and the
    recorded companies alone, only append frontier items one level deeper
    than the company being expanded, and only append error lines to the log.
    [step_spec] sums up one iteration of the loop; [ScannerProps] proves the
    crawl's theorems from it alone.  [company_fetched] is the condition
    under which a dequeued company is marked visited. *)

From S2P Require Import Prelude Registry Scanner.

(** The frontier only grows, by items at depth [d + 1] for companies that
    were not visited at the start. *)
Definition queue_ext (d : Z) (sc : gset string) (q q' : list (string * Z)) : Prop :=
  exists extra, q' = q ++ extra /\ Forall (fun x => x.2 = (d + 1)%Z /\ x.1 ∉ sc) extra.

Definition is_scanning (e : log_entry) : bool :=
  match e with LogScanning _ _ => true | _ => false end.

Lemma queue_ext_refl d sc q : queue_ext d sc q q.
Proof. exists []. by rewrite app_nil_r. Qed.

Lemma queue_ext_trans d sc q1 q2 q3 :
  queue_ext d sc q1 q2 -> queue_ext d sc q2 q3 -> queue_ext d sc q1 q3.
Proof.
  intros [e1 [-> H1]] [e2 [-> H2]]. exists (e1 ++ e2).
  rewrite app_assoc. split; [done|]. by apply Forall_app.
Qed.

Lemma queue_ext_weaken d sc sc' q q' :
  sc ⊆ sc' -> queue_ext d sc' q q' -> queue_ext d sc q q'.
Proof.
  intros Hsub [e [-> He]]. exists e. split; [done|].
  eapply Forall_impl; [done|]. intros x [? Hx]. split; [done|]. set_solver.
Qed.

Create HintDb crawl.

Section Frame.
Context {RS : Type} `{api : Registry RS} (cfg : scan_config).

(** A sub-step of the expansion of a company at depth [d]. *)
Definition frame (d : Z) (st st' : scan_state RS) : Prop :=
  scanned_companies st' = scanned_companies st /\ net st' = net st /\
  queue_ext d (scanned_companies st) (queue st) (queue st') /\
  (forall e, e ∈ log st' -> e ∈ log st \/ is_scanning e = false).

Lemma frame_refl d st : frame d st st.
Proof. split_and!; auto using queue_ext_refl. Qed.

Lemma frame_trans d st1 st2 st3 : frame d st1 st2 -> frame d st2 st3 -> frame d st1 st3.
Proof.
  intros (Hs1 & Hn1 & Hq1 & Hl1) (Hs2 & Hn2 & Hq2 & Hl2). split_and!.
  - congruence.
  - congruence.
  - eapply queue_ext_trans; [done|]. by rewrite <- Hs1.
  - intros e He. destruct (Hl2 e He); auto.
Qed.

Lemma frame_same d st st' :
  scanned_companies st' = scanned_companies st -> net st' = net st ->
  queue st' = queue st -> log st' = log st -> frame d st st'.
Proof.
  intros Hs Hn Hq Hl. split_and!; [done|done| |]; rewrite ?Hq, ?Hl;
    auto using queue_ext_refl.
Qed.

Lemma frame_with_rs d r st : frame d st (with_rs r st).
Proof. by apply frame_same. Qed.

Lemma frame_mark_officer d oid st : frame d st (mark_officer oid st).
Proof. by apply frame_same. Qed.

Lemma frame_log_unless_404 d e n m st :
  frame d st (log_unless_404 e (LogSearchError n m) st) /\
  frame d st (log_unless_404 e (LogAppointmentsError n m) st).
Proof.
  unfold log_unless_404. destruct (is_404 e); split; try apply frame_refl;
    split_and!; auto using queue_ext_refl; simpl;
    intros x; rewrite elem_of_app, list_elem_of_singleton; intros [?| ->]; auto.
Qed.

Lemma appointment_target_spec sc d a x :
  appointment_target cfg sc d a = Some x -> x.2 = (d + 1)%Z /\ x.1 ∉ sc.
Proof.
  unfold appointment_target. destruct (a_company_number a) as [c|]; [|done].
  destruct (bool_decide (c ∈ sc)) eqn:Hc; rewrite ?orb_true_r; [done|].
  apply bool_decide_eq_false in Hc.
  repeat case_match; intros; simplify_eq/=; auto.
Qed.

Lemma expand_appointments_frame name aid d st :
  frame d st (expand_appointments cfg name aid d st).
Proof.
  unfold expand_appointments.
  destruct (get_officer_appointments aid (rs st)) as [[appts|e] rs1]; simpl.
  - split_and!; [done|done| |by auto].
    eexists. split; [done|]. apply Forall_forall. intros x Hx.
    apply list_elem_of_omap in Hx as (a & _ & Ha). by eapply appointment_target_spec.
  - eapply frame_trans; [apply frame_with_rs|apply frame_log_unless_404].
Qed.

#[local] Hint Resolve frame_refl frame_with_rs frame_mark_officer : crawl.

Lemma expand_officer_frame name oid d st :
  frame d st (expand_officer cfg name oid d st).
Proof.
  unfold expand_officer. case_match; [auto with crawl|].
  destruct (search_officers name (rs st)) as [r rs1].
  apply (frame_trans _ _ (with_rs rs1 st)); [auto with crawl|].
  repeat case_match; auto with crawl; try apply frame_log_unless_404.
  eapply frame_trans; [apply expand_appointments_frame|auto with crawl].
Qed.

Lemma process_officer_frame c p d st o :
  frame d (with_net (record_officer c p d o (net st)) st) (process_officer cfg c p d st o).
Proof. unfold process_officer. case_match; [apply expand_officer_frame|apply frame_refl]. Qed.

(** The officer loop of lines 105-213: the snapshot evolves by
    [record_officer] alone, whatever the searches return. *)
Lemma fold_process_officer_frame c p d offs st
    (st' := fold_left (process_officer cfg c p d) offs st) :
  scanned_companies st' = scanned_companies st /\
  net st' = fold_left (fun n o => record_officer c p d o n) offs (net st) /\
  queue_ext d (scanned_companies st) (queue st) (queue st') /\
  (forall e, e ∈ log st' -> e ∈ log st \/ is_scanning e = false).
Proof.
  subst st'. revert st. induction offs as [|o offs IH]; intros st; simpl.
  - apply frame_refl.
  - destruct (IH (process_officer cfg c p d st o)) as (Hs & Hn & Hq & Hl).
    destruct (process_officer_frame c p d st o) as (Hs' & Hn' & Hq' & Hl').
    simpl in *. split_and!.
    + congruence.
    + by rewrite Hn, Hn'.
    + eapply queue_ext_trans; [done|]. by rewrite <- Hs'.
    + intros e He. destruct (Hl e He) as [H|H]; auto.
Qed.

(** Lines 68-216: a company is either recorded, visited and expanded, or
    (error, inactive) leaves the visited set, the snapshot and the
    frontier as they were. *)
Lemma scan_company_cases c d st (st' := scan_company cfg c d st) :
  (forall e, e ∈ log st' -> e ∈ log st \/ e = LogScanning c d \/ is_scanning e = false) /\
  ((scanned_companies st' = scanned_companies st /\ net st' = net st /\ queue st' = queue st) \/
   (exists p offs,
      scanned_companies st' = {[c]} ∪ scanned_companies st /\
      net st' = fold_left (fun n o => record_officer c p d o n) offs
                  (record_company c p d offs (net st)) /\
      queue_ext d ({[c]} ∪ scanned_companies st) (queue st) (queue st'))).
Proof.
  subst st'. unfold scan_company.
  destruct (get_company_profile c _) as [[p|e] rs1]; simpl.
  2:{ split; [|by left]. intros e'. rewrite !elem_of_app, !list_elem_of_singleton. naive_solver. }
  case_match; simpl.
  { split; [|by left]. intros e'. rewrite !elem_of_app, !list_elem_of_singleton. naive_solver. }
  destruct (get_officers c rs1) as [[offs|e] rs2]; simpl.
  2:{ split; [|by left]. intros e'. rewrite !elem_of_app, !list_elem_of_singleton. naive_solver. }
  set (offs' := if active_only cfg then active_officers offs else offs).
  destruct (fold_process_officer_frame c p d offs'
    (mark_company c (with_net (record_company c p d offs' (net st)) (with_rs rs2
      (with_rs rs1 (add_log (LogScanning c d) st)))))) as (Hs & Hn & Hq & Hl).
  simpl in *. split.
  - intros e He. destruct (Hl e He) as [Hin|Hin]; [|auto].
    rewrite elem_of_app, list_elem_of_singleton in Hin. naive_solver.
  - right. exists p, offs'. split_and!; done.
Qed.
End Frame.

(** ** One iteration of the loop *)

Section Step.
Context {RS : Type} `{api : Registry RS} (cfg : scan_config).

(** What one iteration of lines 62-216 does, from the dequeued item
    [(c, d)]: either nothing but the dequeue (guard of line 65, failure
    or inactive company), or the company is recorded and visited. *)
Inductive step_spec (st st' : scan_state RS) : Prop :=
| step_skip c d q :
    queue st = (c, d) :: q ->
    scanned_companies st' = scanned_companies st -> net st' = net st -> queue st' = q ->
    (forall e, e ∈ log st' -> e ∈ log st \/ is_scanning e = false \/
               (e = LogScanning c d /\ (d <= max_depth cfg)%Z)) ->
    step_spec st st'
| step_record c d q p offs :
    queue st = (c, d) :: q -> c ∉ scanned_companies st -> (d <= max_depth cfg)%Z ->
    scanned_companies st' = {[c]} ∪ scanned_companies st ->
    net st' = fold_left (fun n o => record_officer c p d o n) offs
                (record_company c p d offs (net st)) ->
    queue_ext d ({[c]} ∪ scanned_companies st) q (queue st') ->
    (forall e, e ∈ log st' -> e ∈ log st \/ is_scanning e = false \/
               (e = LogScanning c d /\ (d <= max_depth cfg)%Z)) ->
    step_spec st st'.

Lemma scan_step_spec st :
  loop_continues cfg st = true -> step_spec st (scan_step cfg st).
Proof.
  unfold loop_continues, scan_step. intros Hc.
  destruct (queue st) as [|[c d] q] eqn:Hq; [done|].
  case_match eqn:Hg.
  { eapply step_skip; [done..|]. simpl. auto. }
  apply orb_false_iff in Hg as [Hin Hd].
  apply bool_decide_eq_false in Hin. apply Z.ltb_ge in Hd.
  destruct (scan_company_cases cfg c d (with_queue q st)) as [Hl [(Hs & Hn & Hq') | (p & offs & Hs & Hn & Hq')]];
    simpl in *.
  - eapply step_skip; [done..|]. intros e He. destruct (Hl e He) as [?|[?|?]]; auto.
  - eapply step_record; [done..|]. intros e He. destruct (Hl e He) as [?|[?|?]]; auto.
Qed.
End Step.

(** ** When a company is marked visited *)

Section Visit.
Context {RS : Type} `{api : Registry RS} (cfg : scan_config).

(** The fetches of lines 70-91 succeed for [c] from the registry state
    [r]: the profile, the [active_only] test of line 79, the officers. *)
Definition company_fetched (c : string) (r : RS) : Prop :=
  exists p r1 offs r2, get_company_profile c r = (Ok p, r1) /\
    (active_only cfg = true -> p_company_status p = Some "active"%string) /\
    get_officers c r1 = (Ok offs, r2).

Lemma scan_company_marks c d st :
  c ∉ scanned_companies st ->
  c ∈ scanned_companies (scan_company cfg c d st) <-> company_fetched c (rs st).
Proof.
  intros Hc. unfold scan_company, company_fetched. cbn [rs add_log].
  destruct (get_company_profile c (rs st)) as [[p|e] rs1] eqn:Hp; cbn;
    [|split; [done|intros (? & ? & ? & ? & ? & _); congruence]].
  destruct (active_only cfg && _) eqn:Ha; cbn.
  { split; [done|]. intros (p' & r1 & _ & _ & [= <- _] & Hact & _).
    apply andb_true_iff in Ha as [Ha Hs]. rewrite (Hact Ha) in Hs. done. }
  destruct (get_officers c rs1) as [[offs|e] rs2] eqn:Ho; cbn;
    [|split; [done|intros (? & ? & ? & ? & [= <- <-] & _ & ?); congruence]].
  rewrite (proj1 (fold_process_officer_frame cfg _ _ _ _ _)). cbn. split; [intros _|set_solver].
  exists p, rs1, offs, rs2. split_and!; [done| |done].
  intros Hao. rewrite Hao in Ha. cbn in Ha. apply negb_false_iff, bool_decide_eq_true in Ha. done.
Qed.

Lemma scan_step_dequeue st c d q :
  queue st = (c, d) :: q -> c ∉ scanned_companies st -> (d <= max_depth cfg)%Z ->
  scan_step cfg st = scan_company cfg c d (with_queue q st).
Proof.
  intros Hq Hc Hd. unfold scan_step. rewrite Hq. cbn [scanned_companies with_queue].
  by rewrite bool_decide_false, (proj2 (Z.ltb_ge _ _)).
Qed.

(** C10: a dequeued company (unvisited, within [max_depth]) is marked
    visited exactly when its profile and officers are fetched (and it is
    active under [active_only]).  When a fetch fails or it is inactive,
    the visited set, the snapshot and the rest of the frontier are left as
    they were, so the next copy of the company in the frontier is expanded
    again by [scan_company], which fetches its profile once more, whatever
    the registry; the specification says no company is fetched twice. *)
Theorem scan_step_visits st c d q :
  queue st = (c, d) :: q -> c ∉ scanned_companies st -> (d <= max_depth cfg)%Z ->
  (c ∈ scanned_companies (scan_step cfg st) <-> company_fetched c (rs st)) /\
  (~ company_fetched c (rs st) ->
     scanned_companies (scan_step cfg st) = scanned_companies st /\ net (scan_step cfg st) = net st /\
     queue (scan_step cfg st) = q /\
     forall d' q', q = (c, d') :: q' -> (d' <= max_depth cfg)%Z ->
       scan_step cfg (scan_step cfg st) = scan_company cfg c d' (with_queue q' (scan_step cfg st))).
Proof.
  intros Hq Hc Hd. rewrite (scan_step_dequeue st c d q Hq Hc Hd).
  pose proof (scan_company_marks c d (with_queue q st) Hc) as Hm. split; [exact Hm|]. intros Hnf.
  destruct (scan_company_cases cfg c d (with_queue q st)) as [_ [(H1 & H2 & H3)|(p & offs & H1 & _)]];
    cbn [scanned_companies net queue with_queue] in *.
  - split_and!; [done|done|done|]. intros d' q' -> Hd'.
    apply scan_step_dequeue; [done|by rewrite H1|done].
  - exfalso. apply Hnf, Hm. rewrite H1. set_solver.
Qed.
End Visit.
