(* ===== verification/ScannerProps.v ===== *)
(** * Theorems of the crawler

    Termination of the [while] loop of [scan_network] (for every registry
    and every start state some fuel suffices, and more fuel changes
    nothing), and the crawl invariant, proved by rule induction on
    [scan_reach] from [step_spec]: the visited set is exactly the set of
    recorded companies, each recorded once; the number of recorded companies
    never exceeds [max_companies]; every recorded depth lies in
    [[0, max_depth]]; the frontier is breadth-first (nondecreasing depths
    spanning at most two levels) and companies are recorded in
    nondecreasing depth; every connection carries the depth of its company;
    no company beyond [max_depth] is ever expanded. *)

From S2P Require Import Prelude Registry Scanner ScannerFrame.

(** The maximum of a list of depths, [0] for none: [depth_reached]. *)
Definition max_list (l : list Z) : Z := foldr Z.max 0%Z l.

(** ** The snapshot after the officer loop *)

Lemma fold_record_officer_net c p d offs n
    (n' := fold_left (fun n o => record_officer c p d o n) offs n) :
  companies n' = companies n /\ stats n' = stats n /\
  connections n' = connections n ++ map (connection_of c p d) offs.
Proof.
  subst n'. revert n. induction offs as [|o offs IH]; intros n; simpl.
  - by rewrite app_nil_r.
  - destruct (IH (record_officer c p d o n)) as (-> & -> & ->). simpl.
    by rewrite <- app_assoc.
Qed.

Section Termination.
Context {RS : Type} `{api : Registry RS} (cfg : scan_config).

(** The lexicographic measure of the loop: either the visited set grows
    (at most up to [max_companies]) or the frontier shrinks. *)
Lemma step_spec_progress (st st' : scan_state RS) :
  step_spec cfg st st' ->
  (scanned_companies st' = scanned_companies st /\
     length (queue st') < length (queue st))%nat \/
  size (scanned_companies st') = S (size (scanned_companies st)).
Proof.
  intros [c d q Hq Hs _ Hq' _|c d q p offs Hq Hc _ Hs _ _ _].
  - left. rewrite Hs, Hq', Hq. simpl. split; [done|lia].
  - right. rewrite Hs, size_union, size_singleton; [lia|set_solver].
Qed.

Lemma scan_loop_terminates_aux k n (st : scan_state RS) :
  (Z.to_nat (max_companies cfg) - size (scanned_companies st) <= k)%nat ->
  (length (queue st) <= n)%nat ->
  exists fuel st', scan_loop cfg fuel st = Some st'.
Proof.
  revert n st. induction k as [|k IHk]; intros n; induction n as [|n IHn]; intros st Hk Hn;
    destruct (loop_continues cfg st) eqn:Hc;
    try by exists 1%nat, st; simpl; rewrite Hc.
  all: pose proof Hc as Hc'; unfold loop_continues in Hc';
    apply andb_true_iff in Hc' as [Hne Hlt]; apply Z.ltb_lt in Hlt.
  all: try (destruct (queue st); [done|simpl in Hn; lia]).
  all: destruct (step_spec_progress _ _ (scan_step_spec cfg st Hc)) as [[Hs Hl]|Hs];
    try lia.
  - destruct (IHn (scan_step cfg st)) as (fuel & st' & Hrun); [by rewrite Hs|lia|].
    exists (S fuel), st'. simpl. by rewrite Hc.
  - destruct (IHk (length (queue (scan_step cfg st))) (scan_step cfg st))
      as (fuel & st' & Hrun); [lia|lia|].
    exists (S fuel), st'. simpl. by rewrite Hc.
Qed.

(** More fuel than needed does not change the result. *)
Lemma scan_loop_mono fuel fuel' (st st' : scan_state RS) :
  scan_loop cfg fuel st = Some st' -> (fuel <= fuel')%nat -> scan_loop cfg fuel' st = Some st'.
Proof.
  revert fuel' st. induction fuel as [|fuel IH]; intros fuel' st Hrun Hle; [done|].
  destruct fuel' as [|fuel']; [lia|]. simpl in *.
  destruct (loop_continues cfg st); [|done]. apply IH; [done|lia].
Qed.

Lemma scan_loop_stops fuel (st st' : scan_state RS) :
  scan_loop cfg fuel st = Some st' -> loop_continues cfg st' = false.
Proof.
  revert st. induction fuel as [|fuel IH]; intros st; simpl; [done|].
  destruct (loop_continues cfg st) eqn:Hc; [apply IH|]. by intros [= <-].
Qed.

(** The states the fuelled loop goes through are reachable. *)
Lemma scan_loop_reach fuel (st0 st st' : scan_state RS) :
  scan_reach cfg st0 st -> scan_loop cfg fuel st = Some st' -> scan_reach cfg st0 st'.
Proof.
  revert st. induction fuel as [|fuel IH]; intros st Hr; simpl; [done|].
  destruct (loop_continues cfg st) eqn:Hc.
  - apply IH. by constructor.
  - by intros [= <-].
Qed.
End Termination.

(** ** The crawl invariant *)

Lemma max_list_snoc l x : (0 <= x)%Z -> max_list (l ++ [x]) = Z.max (max_list l) x.
Proof.
  intros Hx. induction l as [|y l IH]; simpl; [lia|].
  rewrite IH. unfold max_list. lia.
Qed.

Section Invariant.
Context {RS : Type} `{api : Registry RS} (cfg : scan_config).

(** The visited set is the set of recorded companies, each recorded once. *)
Definition visited_ok (st : scan_state RS) : Prop :=
  NoDup (dict_keys (companies (net st))) /\
  forall k, k ∈ dict_keys (companies (net st)) <-> k ∈ scanned_companies st.

(** Lines 61 and 99: the visited set stays within [max_companies]. *)
Definition cap_ok (st : scan_state RS) : Prop :=
  (Z.of_nat (size (scanned_companies st)) <= Z.max 0 (max_companies cfg))%Z.

(** Each record is filed under its own number at a depth in range. *)
Definition records_ok (st : scan_state RS) : Prop :=
  forall k r, (k, r) ∈ companies (net st) ->
    cr_company_number r = k /\ (0 <= cr_depth r <= max_depth cfg)%Z.

(** Breadth-first order: the frontier's depths are nondecreasing and lie
    in [[b, b + 1]], every recorded company has depth at most [b], and
    companies are recorded in nondecreasing depth. *)
Definition bfs_ok (st : scan_state RS) : Prop :=
  exists b, (0 <= b)%Z /\
    (forall x, x ∈ queue st -> b <= x.2 <= b + 1)%Z /\
    nondecreasing (map snd (queue st)) /\
    (forall r, r ∈ dict_values (companies (net st)) -> cr_depth r <= b)%Z /\
    nondecreasing (map cr_depth (dict_values (companies (net st)))).

(** Every connection belongs to a recorded company and carries its depth. *)
Definition connections_ok (st : scan_state RS) : Prop :=
  forall cn, cn ∈ connections (net st) ->
    exists r, dict_get (companies (net st)) (cn_company_number cn) = Some r /\
              cr_depth r = cn_depth cn.

(** [depth_reached] is the largest recorded depth. *)
Definition reached_ok (st : scan_state RS) : Prop :=
  depth_reached (stats (net st)) = max_list (map cr_depth (dict_values (companies (net st)))).

(** Line 68 is printed only for depths in [[0, max_depth]]. *)
Definition log_ok (st : scan_state RS) : Prop :=
  forall c d, LogScanning c d ∈ log st -> (0 <= d <= max_depth cfg)%Z.

Record crawl_inv (st : scan_state RS) : Prop := {
  inv_visited : visited_ok st;
  inv_cap : cap_ok st;
  inv_records : records_ok st;
  inv_bfs : bfs_ok st;
  inv_connections : connections_ok st;
  inv_reached : reached_ok st;
  inv_log : log_ok st
}.

(** The snapshot after a recording step, from [step_record]. *)
Lemma step_record_net (st st' : scan_state RS) c d p offs :
  c ∉ dict_keys (companies (net st)) ->
  net st' = fold_left (fun n o => record_officer c p d o n) offs
              (record_company c p d offs (net st)) ->
  companies (net st') = companies (net st) ++ [(c, company_of c p d offs)] /\
  depth_reached (stats (net st')) = Z.max (depth_reached (stats (net st))) d /\
  connections (net st') = connections (net st) ++ map (connection_of c p d) offs.
Proof.
  intros Hc ->. destruct (fold_record_officer_net c p d offs
    (record_company c p d offs (net st))) as (-> & -> & ->). simpl.
  by rewrite dict_set_fresh.
Qed.
End Invariant.

Section Preservation.
Context {RS : Type} `{api : Registry RS} (cfg : scan_config).

Lemma visited_step (st st' : scan_state RS) :
  visited_ok st -> step_spec cfg st st' -> visited_ok st'.
Proof.
  intros [Hnd Hk] [c d q _ Hs Hn _ _|c d q p offs _ Hc _ Hs Hn _ _];
    unfold visited_ok; rewrite Hn, Hs; [done|].
  assert (Hc' : c ∉ dict_keys (companies (net st))) by by rewrite Hk.
  destruct (step_record_net st st' c d p offs Hc' Hn) as (Hcs & _ & _).
  rewrite <- Hn, Hcs. unfold dict_keys in *. rewrite map_app. simpl. split.
  - apply NoDup_app. split_and!; [done| |by apply NoDup_singleton].
    intros x Hx. rewrite list_elem_of_singleton. by intros ->.
  - intros k. rewrite elem_of_app, list_elem_of_singleton, elem_of_union,
      elem_of_singleton, (Hk k). naive_solver.
Qed.

Lemma cap_step (st st' : scan_state RS) :
  cap_ok cfg st -> loop_continues cfg st = true -> step_spec cfg st st' -> cap_ok cfg st'.
Proof.
  unfold cap_ok, loop_continues. intros Hcap Hc Hstep.
  apply andb_true_iff in Hc as [_ Hlt]. apply Z.ltb_lt in Hlt.
  destruct (step_spec_progress cfg st st' Hstep) as [[-> _]| ->]; [done|lia].
Qed.

(** The depth of the dequeued item lies in the frontier's band. *)
Lemma bfs_head (st : scan_state RS) c d q :
  bfs_ok st -> queue st = (c, d) :: q -> (0 <= d)%Z.
Proof.
  intros (b & Hb0 & Hbq & _) Hq. assert (Hd : (b <= (c, d).2 <= b + 1)%Z).
  { apply Hbq. rewrite Hq. by left. }
  simpl in Hd. lia.
Qed.

Lemma records_step (st st' : scan_state RS) :
  records_ok cfg st -> visited_ok st -> bfs_ok st -> step_spec cfg st st' -> records_ok cfg st'.
Proof.
  intros Hr [_ Hk] Hb [c d q _ _ Hn _ _|c d q p offs Hq Hc Hd _ Hn _ _];
    unfold records_ok; rewrite ?Hn; [done|].
  assert (Hc' : c ∉ dict_keys (companies (net st))) by by rewrite Hk.
  destruct (step_record_net st st' c d p offs Hc' Hn) as (Hcs & _ & _).
  rewrite <- Hn, Hcs. intros k r. rewrite elem_of_app, list_elem_of_singleton.
  intros [Hin|[= -> ->]]; [by apply Hr|]. simpl.
  pose proof (bfs_head st c d q Hb Hq). split; [done|lia].
Qed.

Lemma bfs_step (st st' : scan_state RS) :
  bfs_ok st -> visited_ok st -> step_spec cfg st st' -> bfs_ok st'.
Proof.
  intros (b & Hb0 & Hbq & Hsort & Hrec & Hrsort) [_ Hk] Hstep.
  destruct Hstep as [c d q Hq Hs Hn Hq' _|c d q p offs Hq Hc Hd Hs Hn Hext _].
  - exists b. rewrite Hn, Hq'. rewrite Hq in Hbq, Hsort. simpl in Hsort.
    split_and!; eauto with pyd. intros x Hx. apply Hbq. by right.
  - assert (Hd0 : (b <= (c, d).2 <= b + 1)%Z) by (apply Hbq; rewrite Hq; by left).
    simpl in Hd0. rewrite Hq in Hsort, Hbq. simpl in Hsort.
    assert (Hqd : forall x, x ∈ q -> (d <= x.2 <= b + 1)%Z).
    { intros x Hx. split.
      - apply (nondecreasing_cons_le _ _ Hsort). by apply list_elem_of_fmap_2.
      - apply Hbq. by right. }
    destruct Hext as [extra [Hqe Hex]]. rewrite Forall_forall in Hex.
    assert (Hc' : c ∉ dict_keys (companies (net st))) by by rewrite Hk.
    destruct (step_record_net st st' c d p offs Hc' Hn) as (Hcs & _ & _).
    exists d. rewrite Hqe, Hcs. unfold dict_values in *. rewrite !map_app. simpl.
    split_and!.
    + lia.
    + intros x. rewrite elem_of_app. intros [Hx|Hx]; [apply Hqd in Hx; lia|].
      apply Hex in Hx as [-> _]. lia.
    + apply nondecreasing_app; eauto with pyd.
      * apply (nondecreasing_const _ (d + 1)). apply Forall_forall.
        intros y (x & -> & Hx)%list_elem_of_fmap. by apply Hex.
      * intros y z (x & -> & Hx)%list_elem_of_fmap (x' & -> & Hx')%list_elem_of_fmap.
        apply Hqd in Hx. apply Hex in Hx' as [-> _]. lia.
    + intros r. rewrite elem_of_app, list_elem_of_singleton.
      intros [Hr| ->]; [apply Hrec in Hr; lia|done].
    + apply nondecreasing_snoc; [done|]. apply Forall_forall.
      intros y (r & -> & Hr)%list_elem_of_fmap. apply Hrec in Hr. simpl. lia.
Qed.

Lemma connections_step (st st' : scan_state RS) :
  connections_ok st -> visited_ok st -> step_spec cfg st st' -> connections_ok st'.
Proof.
  intros Hcn [_ Hk] [c d q _ _ Hn _ _|c d q p offs _ Hc _ _ Hn _ _];
    unfold connections_ok; rewrite ?Hn; [done|].
  assert (Hc' : c ∉ dict_keys (companies (net st))) by by rewrite Hk.
  destruct (step_record_net st st' c d p offs Hc' Hn) as (Hcs & _ & Hconn).
  rewrite <- Hn, Hcs, Hconn. intros cn. rewrite elem_of_app, dict_get_app.
  intros [Hin|(o & -> & _)%list_elem_of_fmap].
  - destruct (Hcn cn Hin) as (r & Hget & Hd). exists r. by rewrite Hget.
  - simpl. apply dict_get_None_not_in in Hc'. rewrite Hc'. simpl.
    rewrite decide_True by done. by eexists.
Qed.

Lemma reached_step (st st' : scan_state RS) :
  reached_ok st -> visited_ok st -> bfs_ok st -> step_spec cfg st st' -> reached_ok st'.
Proof.
  intros Hr [_ Hk] Hb [c d q _ _ Hn _ _|c d q p offs Hq Hc _ _ Hn _ _];
    unfold reached_ok; rewrite ?Hn; [done|].
  assert (Hc' : c ∉ dict_keys (companies (net st))) by by rewrite Hk.
  destruct (step_record_net st st' c d p offs Hc' Hn) as (Hcs & Hdr & _).
  rewrite <- Hn, Hcs, Hdr, Hr. unfold dict_values. rewrite !map_app. simpl.
  rewrite max_list_snoc; [done|]. by eapply bfs_head.
Qed.

Lemma log_step (st st' : scan_state RS) :
  log_ok cfg st -> bfs_ok st -> step_spec cfg st st' -> log_ok cfg st'.
Proof.
  intros Hl Hb Hstep c0 d0 Hin.
  destruct Hstep as [c d q Hq _ _ _ Hlog|c d q p offs Hq _ _ _ _ _ Hlog];
    (destruct (Hlog _ Hin) as [Hold|[Hns|[[= -> ->] Hd]]];
     [exact (Hl _ _ Hold)|discriminate|split; [by eapply bfs_head|done]]).
Qed.

Theorem crawl_inv_step (st st' : scan_state RS) :
  crawl_inv cfg st -> loop_continues cfg st = true -> step_spec cfg st st' ->
  crawl_inv cfg st'.
Proof.
  intros [Hv Hc Hr Hb Hcn Hre Hl] Hcont Hs. constructor.
  - by eapply visited_step.
  - by eapply cap_step.
  - by eapply records_step.
  - by eapply bfs_step.
  - by eapply connections_step.
  - by eapply reached_step.
  - by eapply log_step.
Qed.

Lemma crawl_inv_init seeds (rs0 : RS) : crawl_inv cfg (init_state cfg seeds rs0).
Proof.
  constructor; unfold visited_ok, cap_ok, records_ok, bfs_ok, connections_ok,
    reached_ok, log_ok; cbn [init_state init_network net companies connections
    stats depth_reached queue scanned_companies log].
  - split; [constructor|]. set_solver.
  - rewrite size_empty. lia.
  - set_solver.
  - exists 0%Z. split_and!; [lia| | |set_solver|constructor].
    + intros x (c & -> & _)%list_elem_of_fmap. simpl. lia.
    + apply (nondecreasing_const _ 0). apply Forall_forall.
      intros y (x & -> & (c & -> & _)%list_elem_of_fmap)%list_elem_of_fmap. done.
  - set_solver.
  - done.
  - set_solver.
Qed.

(** Rule induction on the loop's reachability relation. *)
Theorem crawl_inv_reach seeds (rs0 : RS) st :
  scan_reach cfg (init_state cfg seeds rs0) st -> crawl_inv cfg st.
Proof.
  induction 1 as [|st Hr IH Hc].
  - apply crawl_inv_init.
  - eapply crawl_inv_step; [done|done|]. by apply scan_step_spec.
Qed.

(** The returned state satisfies the invariant: [finalize] only fills in
    the three totals. *)
Lemma scan_network_inv fuel seeds (rs0 : RS) st :
  scan_network cfg fuel seeds rs0 = Some st -> crawl_inv cfg st /\ loop_continues cfg st = false /\
    stats (net st) = Statistics (length (companies (net st))) (length (directors (net st)))
                       (length (connections (net st))) (depth_reached (stats (net st))).
Proof.
  unfold scan_network. destruct (scan_loop cfg fuel _) as [st'|] eqn:Hrun; [|done].
  intros [= <-]. pose proof (crawl_inv_reach seeds rs0 st'
    (scan_loop_reach cfg fuel _ _ _ (reach_init _ _) Hrun)) as [Hv Hc Hr Hb Hcn Hre Hl].
  split_and!; [by constructor| |done]. change (loop_continues cfg st' = false). by eapply scan_loop_stops.
Qed.
End Preservation.

(** ** The crawl's guarantees on the returned snapshot *)

Section Claims.
Context {RS : Type} `{api : Registry RS}.

(** The stopping condition of the specification: the frontier is empty or
    [max_companies] companies have been visited. *)
Definition crawl_stopped (cfg : scan_config) (st : scan_state RS) : Prop :=
  queue st = [] \/ (max_companies cfg <= Z.of_nat (size (scanned_companies st)))%Z.

(** C1: for every registry, configuration and seed list, the loop of
    [scan_network] stops, with an empty frontier or with [max_companies]
    companies visited, and any larger fuel gives the same result. *)
Theorem scan_network_terminates (cfg : scan_config) seeds (rs0 : RS) :
  exists fuel st, scan_network cfg fuel seeds rs0 = Some st /\
    crawl_stopped cfg st /\
    forall fuel', (fuel <= fuel')%nat -> scan_network cfg fuel' seeds rs0 = Some st.
Proof.
  destruct (scan_loop_terminates_aux cfg (Z.to_nat (max_companies cfg))
    (length (queue (init_state cfg seeds rs0))) (init_state cfg seeds rs0))
    as (fuel & st & Hrun); [lia|lia|].
  exists fuel, (with_net (finalize (net st)) st). unfold scan_network. rewrite Hrun.
  split_and!; [done| |].
  - pose proof (scan_loop_stops cfg fuel _ _ Hrun) as Hs. unfold loop_continues in Hs.
    simpl. apply andb_false_iff in Hs as [Hq|Hlt].
    + left. apply negb_false_iff, bool_decide_eq_true in Hq. done.
    + right. apply Z.ltb_ge in Hlt. done.
  - intros fuel' Hle. by rewrite (scan_loop_mono cfg fuel fuel' _ _ Hrun Hle).
Qed.

(** C2: every visited company is recorded exactly once in
    [network['companies']], and only visited companies are recorded. *)
Theorem scan_network_visited_once cfg fuel seeds (rs0 : RS) st :
  scan_network cfg fuel seeds rs0 = Some st -> visited_ok st.
Proof. intros Hrun. apply (scan_network_inv cfg fuel seeds rs0 st Hrun). Qed.

(** C3: the snapshot never holds more than [max_companies] companies
    (none when [max_companies <= 0]). *)
Theorem scan_network_within_cap cfg fuel seeds (rs0 : RS) st :
  scan_network cfg fuel seeds rs0 = Some st ->
  cap_ok cfg st /\ (Z.of_nat (length (companies (net st))) <= Z.max 0 (max_companies cfg))%Z.
Proof.
  intros Hrun. destruct (scan_network_inv cfg fuel seeds rs0 st Hrun)
    as ([[Hnd Hk] Hcap _ _ _ _ _] & _ & _).
  split; [done|]. unfold cap_ok in Hcap. rewrite <- (length_NoDup_set _ _ Hnd Hk) in Hcap.
  unfold dict_keys in Hcap. by rewrite length_map in Hcap.
Qed.

(** C4: every recorded company is filed under its own number, at a depth
    between [0] and [max_depth]. *)
Theorem scan_network_depth_bounds cfg fuel seeds (rs0 : RS) st :
  scan_network cfg fuel seeds rs0 = Some st -> records_ok cfg st.
Proof. intros Hrun. apply (scan_network_inv cfg fuel seeds rs0 st Hrun). Qed.

(** C5: breadth-first order: companies are recorded in nondecreasing
    depth, and for some level [b] every recorded depth is at most [b] while
    the remaining frontier is
    sorted by depth and spans [[b, b + 1]]. *)
Theorem scan_network_bfs_order cfg fuel seeds (rs0 : RS) st :
  scan_network cfg fuel seeds rs0 = Some st -> bfs_ok st.
Proof. intros Hrun. apply (scan_network_inv cfg fuel seeds rs0 st Hrun). Qed.

(** No frontier item deeper than [max_depth] is ever expanded: every
    "Scanning company" line printed (line 68) has a depth in
    [[0, max_depth]]. *)
Theorem scan_network_no_deep_expansion cfg fuel seeds (rs0 : RS) st :
  scan_network cfg fuel seeds rs0 = Some st -> log_ok cfg st.
Proof. intros Hrun. apply (scan_network_inv cfg fuel seeds rs0 st Hrun). Qed.

(** Every connection belongs to a recorded company and carries the
    depth at which that company was recorded. *)
Theorem scan_network_connection_depths cfg fuel seeds (rs0 : RS) st :
  scan_network cfg fuel seeds rs0 = Some st -> connections_ok st.
Proof. intros Hrun. apply (scan_network_inv cfg fuel seeds rs0 st Hrun). Qed.

(** The statistics of lines 218-221 count the visited companies, the
    director identities and the connections, and [depth_reached] is the
    largest recorded depth. *)
Theorem scan_network_statistics cfg fuel seeds (rs0 : RS) st :
  scan_network cfg fuel seeds rs0 = Some st ->
  total_companies (stats (net st)) = size (scanned_companies st) /\
  total_directors (stats (net st)) = length (directors (net st)) /\
  total_connections (stats (net st)) = length (connections (net st)) /\
  depth_reached (stats (net st)) = max_list (cr_depth <$> dict_values (companies (net st))).
Proof.
  intros Hrun. destruct (scan_network_inv cfg fuel seeds rs0 st Hrun)
    as ([[Hnd Hk] _ _ _ _ Hre _] & _ & Hstats).
  rewrite Hstats. simpl. split_and!; [|done|done|done].
  rewrite <- (length_NoDup_set _ _ Hnd Hk). unfold dict_keys. by rewrite length_map.
Qed.
End Claims.
