(* ===== verification/ScannerTrace.v ===== *)
(** * The calls the crawler issues

    With the client wrapped by [recording], the state of the registry
    carries the list of every call made.  This file proves, for every
    underlying registry, that [scan_network] never issues
    [search_officers] for a name that the heuristic of line 151 classifies
    as a corporate officer. *)

From S2P Require Import Prelude Registry Scanner ScannerFrame ScannerProps.

(** No officer search names a corporate officer. *)
Definition no_corporate_search (t : list api_call) : Prop :=
  forall n, CallSearch n ∈ t -> is_corporate_officer n = false.

Definition call_ok (c : api_call) : Prop :=
  match c with CallSearch n => is_corporate_officer n = false | _ => True end.

Lemma no_corporate_search_snoc t c :
  no_corporate_search t -> call_ok c -> no_corporate_search (t ++ [c]).
Proof.
  intros Ht Hc n. rewrite elem_of_app, list_elem_of_singleton.
  intros [Hn| <-]; [by apply Ht|exact Hc].
Qed.

Section Trace.
Context {RS0 : Type} (api0 : Registry RS0) (cfg : scan_config).
#[local] Instance rec_api : Registry (RS0 * list api_call) := recording api0.

Definition trace_ok (st : scan_state (RS0 * list api_call)) : Prop :=
  no_corporate_search (rs st).2.

Lemma record_call_ok {A} c (f : RS0 -> result A * RS0) s :
  call_ok c -> no_corporate_search s.2 -> no_corporate_search (record_call c f s).2.2.
Proof. intros Hc Hs. rewrite record_call_trace. by apply no_corporate_search_snoc. Qed.

Lemma expand_appointments_trace name aid d st :
  trace_ok st -> trace_ok (expand_appointments cfg name aid d st).
Proof.
  unfold trace_ok, expand_appointments.
  pose proof (record_call_ok (CallAppointments aid) (@get_officer_appointments _ api0 aid)
    (rs st) I) as Hk.
  change (record_call _ _ (rs st)) with (get_officer_appointments aid (rs st)) in Hk.
  destruct (get_officer_appointments aid (rs st)) as [[appts|e] rs1]; simpl in *;
    [done|unfold log_unless_404; case_match; done].
Qed.

Lemma expand_officer_trace name oid d st :
  trace_ok st -> trace_ok (expand_officer cfg name oid d st).
Proof.
  unfold expand_officer. destruct (is_corporate_officer name) eqn:Hcorp; [done|].
  pose proof (record_call_ok (CallSearch name) (@search_officers _ api0 name)
    (rs st) Hcorp) as Hk.
  change (record_call _ _ (rs st)) with (search_officers name (rs st)) in Hk.
  unfold trace_ok in *. intros Ht. specialize (Hk Ht).
  destruct (search_officers name (rs st)) as [r rs1]. simpl in Hk.
  repeat case_match; unfold log_unless_404 in *; repeat case_match; try done;
    by apply expand_appointments_trace.
Qed.

Lemma fold_process_officer_trace c p d offs st :
  trace_ok st -> trace_ok (fold_left (process_officer cfg c p d) offs st).
Proof.
  revert st. induction offs as [|o offs IH]; intros st Ht; simpl; [done|].
  apply IH. unfold process_officer. case_match; [|done].
  by apply expand_officer_trace.
Qed.

Lemma scan_company_trace c d st : trace_ok st -> trace_ok (scan_company cfg c d st).
Proof.
  unfold trace_ok, scan_company. intros Ht. simpl.
  pose proof (record_call_ok (CallProfile c) (@get_company_profile _ api0 c)
    (rs st) I Ht) as Hp.
  destruct (record_call (CallProfile c) _ (rs st)) as [[p|e] rs1]; simpl in *; [|done].
  case_match; [done|].
  pose proof (record_call_ok (CallOfficers c) (@get_officers _ api0 c) rs1 I Hp) as Ho.
  destruct (record_call (CallOfficers c) _ rs1) as [[offs|e] rs2]; simpl in *; [|done].
  apply fold_process_officer_trace. done.
Qed.

Lemma scan_step_trace st : trace_ok st -> trace_ok (scan_step cfg st).
Proof.
  unfold scan_step. intros Ht. destruct (queue st) as [|[c d] q]; [done|].
  case_match; [done|]. by apply scan_company_trace.
Qed.

Lemma scan_reach_trace st0 st : trace_ok st0 -> scan_reach cfg st0 st -> trace_ok st.
Proof. intros H0. induction 1; [done|]. by apply scan_step_trace. Qed.

(** C6: whatever the registry answers, the crawl never searches for an
    officer whose name contains one of the corporate markers of line 151
    (LIMITED, LTD, PLC, LLP, COMPANY, CORPORATE, in any case). *)
Theorem scan_network_no_corporate_search fuel seeds (r0 : RS0) st :
  scan_network cfg fuel seeds (r0, []) = Some st -> no_corporate_search (rs st).2.
Proof.
  unfold scan_network. destruct (scan_loop cfg fuel _) as [st'|] eqn:Hrun; [|done].
  intros [= <-]. change (trace_ok st').
  apply (scan_reach_trace (init_state cfg seeds (r0, []))).
  - intros n Hn. simpl in Hn. set_solver.
  - exact (scan_loop_reach cfg fuel _ _ _ (reach_init _ _) Hrun).
Qed.
End Trace.
