(* ===== verification/PostAnalysis.v ===== *)
(** * Analyses over the finished snapshot

    [find_shared_directors] (src/network_scanner.py:225-256): the directors
    with more than one appointment, sorted by [company_count], most
    connected first.  Python's [list.sort(key=..., reverse=True)] is stable,
    so equal counts keep the dictionary's insertion order; the model is a
    stable insertion sort, [sort_desc], and any two stable sorts agree, so
    the theorems below (sorted, a permutation, stable) pin its result down.

    The adjacency of [find_company_clusters] (lines 268-284), built with a
    [defaultdict(set)], as a [gmap] of [gset]s, and the theorem that it is
    exactly the relation "the two companies share a director identity". *)

From S2P Require Import Prelude Registry Scanner StableSort.
From Stdlib Require Import Permutation.

(** ** [find_shared_directors] *)

(** One company of a shared director, lines 243-250. *)
Record shared_company := SharedCompany {
  sc_company_number : string;
  sc_company_name : option string;
  sc_role : string
}.

(** One entry of the result, lines 239-251. *)
Record shared_director := SharedDirector {
  sd_director_id : string;
  sd_director_name : string;
  sd_company_count : nat;
  sd_companies : list shared_company
}.

Definition shared_entry (item : string * director_rec) : shared_director :=
  let '(did, dr) := item in
  SharedDirector did (dr_name dr) (dr_company_count dr)
    ((fun a => SharedCompany (ar_company_number a) (ar_company_name a) (ar_role a))
       <$> dr_appointments dr).

(** Lines 237-251: directors with [company_count > 1], in insertion order. *)
Definition shared_candidates (n : network) : list shared_director :=
  shared_entry <$> filter (fun item => 1 < dr_company_count item.2)%nat (directors n).

(** Lines 235-256. *)
Definition find_shared_directors (n : network) : list shared_director :=
  sort_desc sd_company_count (shared_candidates n).

(** ** The adjacency of [find_company_clusters] *)

Notation adjacency := (gmap string (gset string)).

(** [graph[node]] of a [defaultdict(set)]. *)
Definition adj (g : adjacency) (a : string) : gset string := default ∅ (g !! a).

(** Lines 276-280: the companies of every connection of [director]. *)
Definition related_companies (conns : list connection) (director : string) : list string :=
  cn_company_number <$> filter (fun c => cn_director_id c = director) conns.

(** Lines 282-284: [graph[company].add(related)] for each related company. *)
Definition add_related (company : string) (g : adjacency) (related : string) : adjacency :=
  if decide (related <> company) then <[company := {[related]} ∪ adj g company]> g else g.

(** Lines 269-284. *)
Definition build_graph (conns : list connection) : adjacency :=
  fold_left (fun g cn =>
    fold_left (add_related (cn_company_number cn)) (related_companies conns (cn_director_id cn)) g)
    conns ∅.

(** Two companies share a director identity in the connections. *)
Definition share_director (conns : list connection) (a b : string) : Prop :=
  exists c1 c2, c1 ∈ conns /\ c2 ∈ conns /\ cn_company_number c1 = a /\
    cn_company_number c2 = b /\ cn_director_id c1 = cn_director_id c2.

Lemma adj_add_related company g related x a :
  x ∈ adj (add_related company g related) a <->
  x ∈ adj g a \/ (a = company /\ x = related /\ related <> company).
Proof.
  unfold add_related, adj. case_decide as Hne.
  - destruct (decide (a = company)) as [->|Ha].
    + rewrite lookup_insert_eq. simpl. set_solver.
    + rewrite lookup_insert_ne by congruence. naive_solver.
  - naive_solver.
Qed.

Lemma adj_fold_related company g rel x a :
  x ∈ adj (fold_left (add_related company) rel g) a <->
  x ∈ adj g a \/ (a = company /\ x ∈ rel /\ x <> company).
Proof.
  revert g. induction rel as [|r rel IH]; intros g; simpl.
  - set_solver.
  - rewrite IH, adj_add_related, elem_of_cons. naive_solver.
Qed.

Lemma adj_build_aux conns l g x a :
  x ∈ adj (fold_left (fun g cn => fold_left (add_related (cn_company_number cn))
             (related_companies conns (cn_director_id cn)) g) l g) a <->
  x ∈ adj g a \/ exists cn, cn ∈ l /\ a = cn_company_number cn /\
    x ∈ related_companies conns (cn_director_id cn) /\ x <> cn_company_number cn.
Proof.
  revert g. induction l as [|cn l IH]; intros g; simpl.
  - split; [by left|]. intros [?|(cn & Hcn & _)]; [done|]. by apply not_elem_of_nil in Hcn.
  - rewrite IH, adj_fold_related. split.
    + intros [[Hin|(-> & Hx & Hne)]|(cn0 & Hcn0 & Ha & Hx & Hne)]; [by left| |].
      * right. exists cn. split_and!; [apply elem_of_cons; by left|done..].
      * right. exists cn0. split_and!; [apply elem_of_cons; by right|done..].
    + intros [Hin|(cn0 & Hcn0 & Ha & Hx & Hne)]; [by left; left|].
      apply elem_of_cons in Hcn0 as [->|Hcn0]; [by left; right|right; by exists cn0].
Qed.

Lemma related_companies_in conns d x :
  x ∈ related_companies conns d <-> exists c, c ∈ conns /\ cn_director_id c = d /\ cn_company_number c = x.
Proof.
  unfold related_companies. rewrite list_elem_of_fmap.
  setoid_rewrite list_elem_of_filter. naive_solver.
Qed.

Lemma adj_build_graph conns a b :
  b ∈ adj (build_graph conns) a <-> a <> b /\ share_director conns a b.
Proof.
  unfold build_graph, share_director. rewrite adj_build_aux.
  setoid_rewrite related_companies_in. unfold adj at 1. rewrite lookup_empty. simpl.
  split.
  - intros [Hin|(c1 & Hc1 & -> & (c2 & Hc2 & Hd & <-) & Hne)]; [set_solver|].
    split; [congruence|]. by exists c1, c2.
  - intros [Hne (c1 & c2 & Hc1 & Hc2 & <- & <- & Hd)]. right.
    exists c1. split_and!; [done|done| |congruence]. by exists c2.
Qed.

(** The adjacency built by lines 269-284 relates two companies exactly
    when they are distinct and some director identity has a connection to
    each of them. *)
Theorem build_graph_spec conns a b :
  b ∈ adj (build_graph conns) a <-> a <> b /\ share_director conns a b.
Proof. apply adj_build_graph. Qed.

(** C7: [find_shared_directors] returns the directors with more than one
    appointment, largest [company_count] first, directors with equal counts
    in the order of [network['directors']] (Python's sort is stable): the
    result is a permutation of those directors, sorted, stable, and equal to
    any other list with these properties. *)
Theorem find_shared_directors_spec n :
  let r := find_shared_directors n in
  sorted_desc sd_company_count r /\ Permutation r (shared_candidates n) /\
  (forall k, with_key sd_company_count k r = with_key sd_company_count k (shared_candidates n)) /\
  Forall (fun e => 1 < sd_company_count e)%nat r /\
  (forall r', sorted_desc sd_company_count r' ->
     (forall k, with_key sd_company_count k r' = with_key sd_company_count k (shared_candidates n)) ->
     r' = r).
Proof.
  intros r. unfold r, find_shared_directors.
  destruct (sort_desc_spec sd_company_count (shared_candidates n)) as (Hs & Hp & Hk).
  split_and!; [done|done|done| |].
  - rewrite Hp. unfold shared_candidates. apply Forall_forall.
    intros e (item & -> & Hin)%list_elem_of_fmap. apply list_elem_of_filter in Hin as [Hc _].
    destruct item. done.
  - intros r' Hs' Hk'. apply (stable_sorted_unique sd_company_count); [done|done|]. intros k. by rewrite Hk', Hk.
Qed.
