(* ===== verification/Clusters.v ===== *)
(** * [find_company_clusters] (src/network_scanner.py:258-307)

    The depth-first traversal of lines 290-295 mutates two objects shared
    by all its recursive calls, the set [visited] and the list [cluster];
    the model threads them as a pair [dfs_state].  [for neighbor in
    graph[node]] iterates over a Python [set], whose order depends on string
    hashing and varies between runs: the model takes the iteration order as
    a parameter [iter], any enumeration of the set, and the theorems hold
    for every such order.  The recursion is bounded by fuel; [dfs_fuel] is
    one more than the number of companies with an adjacency entry, which is
    enough (each nested call visits a new such company).

    Theorems: the traversal terminates with that fuel; it visits exactly
    the companies reachable from its start that were not yet visited; the
    returned clusters are disjoint, have at least two companies, are
    connected through shared directors, and are maximal: two companies that
    share a director are in the same cluster. *)

From S2P Require Import Prelude Registry Scanner StableSort PostAnalysis.
From Stdlib Require Import Permutation.

Definition dfs_state : Type := gset string * list string.

(** One neighbour of the loop of line 294: recurse unless visited. *)
Definition dfs_visit (rec : string -> dfs_state -> option dfs_state)
    (acc : option dfs_state) (nb : string) : option dfs_state :=
  acc ≫= fun s => if bool_decide (nb ∈ s.1) then Some s else rec nb s.

Lemma foldl_dfs_visit_none rec l : foldl (dfs_visit rec) None l = None.
Proof. by induction l. Qed.

(** A relation between states that every recursive call establishes
    holds between the states before and after the loop. *)
Lemma foldl_dfs_visit_ind rec (R : dfs_state -> dfs_state -> Prop) `{!PreOrder R}
    l s0 s' :
  (forall nb s s'', nb ∈ l -> nb ∉ s.1 -> rec nb s = Some s'' -> R s s'') ->
  foldl (dfs_visit rec) (Some s0) l = Some s' -> R s0 s'.
Proof.
  revert s0. induction l as [|nb l IH]; intros s0 Hrec; simpl; [by intros [= <-]|].
  case_bool_decide as Hin.
  - apply IH. intros. eapply Hrec; [apply elem_of_cons; by right|done..].
  - destruct (rec nb s0) as [s1|] eqn:Hr; [|by rewrite foldl_dfs_visit_none].
    intros Hf. transitivity s1; [apply (Hrec nb); [apply elem_of_cons; by left|done..]|].
    revert Hf. apply IH. intros. eapply Hrec; [apply elem_of_cons; by right|done..].
Qed.

Lemma foldl_dfs_visit_mono rec l s0 s' :
  (forall nb s s'', rec nb s = Some s'' -> s.1 ⊆ s''.1 /\ nb ∈ s''.1) ->
  foldl (dfs_visit rec) (Some s0) l = Some s' ->
  s0.1 ⊆ s'.1 /\ forall x, x ∈ l -> x ∈ s'.1.
Proof.
  intros Hrec. revert s0. induction l as [|nb l IH]; intros s0; simpl;
    [intros [= <-]; split; [done|set_solver]|].
  case_bool_decide as Hin.
  - intros Hf. destruct (IH s0 Hf) as [Hs Hl]. split; [done|].
    intros x [->|Hx]%elem_of_cons; [set_solver|auto].
  - destruct (rec nb s0) as [s1|] eqn:Hr; [|by rewrite foldl_dfs_visit_none].
    intros Hf. destruct (Hrec _ _ _ Hr) as [Hs1 Hn1]. destruct (IH s1 Hf) as [Hs Hl].
    split; [set_solver|]. intros x [->|Hx]%elem_of_cons; [set_solver|auto].
Qed.

(** The loop terminates when every recursive call on an unvisited
    neighbour, from a state above [B], returns. *)
Lemma foldl_dfs_visit_some rec (B : gset string) l s0 :
  B ⊆ s0.1 ->
  (forall nb s, nb ∈ l -> nb ∉ s.1 -> B ⊆ s.1 ->
     exists s'', rec nb s = Some s'' /\ s.1 ⊆ s''.1) ->
  exists s', foldl (dfs_visit rec) (Some s0) l = Some s' /\ s0.1 ⊆ s'.1.
Proof.
  revert s0. induction l as [|nb l IH]; intros s0 HB Hrec; simpl; [by exists s0|].
  case_bool_decide as Hin.
  - apply IH; [done|]. intros. eapply Hrec; [apply elem_of_cons; by right|done..].
  - destruct (Hrec nb s0) as (s1 & Hr & Hs1); [apply elem_of_cons; by left|done..|].
    rewrite Hr. destruct (IH s1) as (s' & Hf & Hs'); [set_solver| |].
    + intros. eapply Hrec; [apply elem_of_cons; by right|done..].
    + exists s'. split; [done|set_solver].
Qed.

(** The edges of the adjacency. *)
Definition edge (g : adjacency) (a b : string) : Prop := b ∈ adj g a.

Lemma adj_dom (g : adjacency) a x : x ∈ adj g a -> a ∈ dom g.
Proof.
  unfold adj. destruct (g !! a) eqn:E; simpl; [intros _; apply elem_of_dom; eauto|set_solver].
Qed.

(** The effect of a traversal on [visited] and [cluster]: [visited] grows,
    and the nodes appended to [cluster] are the newly visited ones, each
    once. *)
Definition grows (s s' : dfs_state) : Prop :=
  s.1 ⊆ s'.1 /\ exists added, s'.2 = s.2 ++ added /\ NoDup added /\
    forall x, x ∈ added <-> x ∈ s'.1 /\ x ∉ s.1.

#[export] Instance grows_preorder : PreOrder grows.
Proof.
  split.
  - intros s. split; [done|]. exists []. rewrite app_nil_r. split_and!; [done|constructor|set_solver].
  - intros s1 s2 s3 [H12 (a1 & Ha1 & Hnd1 & Hin1)] [H23 (a2 & Ha2 & Hnd2 & Hin2)].
    split; [set_solver|]. exists (a1 ++ a2). rewrite Ha2, Ha1, app_assoc.
    split_and!; [done| |].
    + apply NoDup_app. split_and!; [done| |done]. intros x Hx1 Hx2.
      apply Hin1 in Hx1. apply Hin2 in Hx2. tauto.
    + intros x. rewrite elem_of_app, Hin1, Hin2. clear -H12 H23.
      destruct (decide (x ∈ s2.1)); set_solver.
Qed.

Section Dfs.
(** The iteration order of a Python [set]: any enumeration of it. *)
Variable iter : gset string -> list string.
Hypothesis iter_elem : forall s x, x ∈ iter s <-> x ∈ s.
Variable g : adjacency.

(** [dfs(node, cluster)], lines 290-295. *)
Fixpoint dfs (fuel : nat) (node : string) (s : dfs_state) : option dfs_state :=
  match fuel with
  | O => None
  | S f => foldl (dfs_visit (dfs f)) (Some ({[node]} ∪ s.1, s.2 ++ [node])) (iter (adj g node))
  end.

Lemma dfs_mono f node s s' : dfs f node s = Some s' -> s.1 ⊆ s'.1 /\ node ∈ s'.1.
Proof.
  revert node s s'. induction f as [|f IH]; intros node s s'; simpl; [done|].
  intros Hf. destruct (foldl_dfs_visit_mono (dfs f) _ _ _ IH Hf) as [Hs _]. simpl in Hs.
  set_solver.
Qed.

Lemma dfs_grows f node s s' : node ∉ s.1 -> dfs f node s = Some s' -> grows s s'.
Proof.
  revert node s s'. induction f as [|f IH]; intros node s s' Hn; simpl; [done|].
  intros Hf. transitivity ({[node]} ∪ s.1, s.2 ++ [node]).
  - split; [set_solver|]. exists [node]. split_and!; [done|apply NoDup_singleton|set_solver].
  - revert Hf. apply foldl_dfs_visit_ind; [apply _|]. intros nb s1 s1' _. apply IH.
Qed.

(** Every node a traversal visits has all its neighbours visited when it
    returns. *)
Lemma dfs_closed f node s s' :
  dfs f node s = Some s' -> forall x, x ∈ s'.1 -> x ∉ s.1 -> adj g x ⊆ s'.1.
Proof.
  revert node s s'. induction f as [|f IH]; intros node s s'; simpl; [done|].
  set (R := fun (s s' : dfs_state) => s.1 ⊆ s'.1 /\
              forall x, x ∈ s'.1 -> x ∉ s.1 -> adj g x ⊆ s'.1).
  assert (PreOrder R).
  { split; [intros ?; split; set_solver|].
    intros a b c [H12 C12] [H23 C23]. split; [set_solver|]. intros x Hx3 Hx1.
    destruct (decide (x ∈ b.1)) as [Hb|Hb]; [|auto].
    intros y Hy. apply H23, (C12 x Hb Hx1), Hy. }
  intros Hf. destruct (foldl_dfs_visit_mono (dfs f) _ _ _ (dfs_mono f) Hf) as [Hs Hl].
  assert (HR : R ({[node]} ∪ s.1, s.2 ++ [node]) s').
  { revert Hf. apply foldl_dfs_visit_ind; [done|]. intros nb s1 s1' _ _ Hr.
    split; [apply (dfs_mono _ _ _ _ Hr)|]. exact (IH _ _ _ Hr). }
  intros x Hx Hxs. destruct (decide (x = node)) as [->|Hne].
  - intros y Hy. apply Hl, iter_elem, Hy.
  - apply HR; [done|]. simpl. set_solver.
Qed.

(** Every node a traversal visits is reachable from its start. *)
Lemma dfs_reach f node s s' :
  dfs f node s = Some s' -> forall x, x ∈ s'.1 -> x ∉ s.1 -> rtc (edge g) node x.
Proof.
  revert node s s'. induction f as [|f IH]; intros node s s'; simpl; [done|].
  set (R := fun (s s' : dfs_state) => s.1 ⊆ s'.1 /\
              forall x, x ∈ s'.1 -> x ∉ s.1 -> rtc (edge g) node x).
  assert (PreOrder R).
  { split; [intros ?; split; set_solver|].
    intros a b c [H12 C12] [H23 C23]. split; [set_solver|]. intros x Hx3 Hx1.
    destruct (decide (x ∈ b.1)); auto. }
  intros Hf.
  assert (HR : R ({[node]} ∪ s.1, s.2 ++ [node]) s').
  { revert Hf. apply foldl_dfs_visit_ind; [done|]. intros nb s1 s1' Hnb _ Hr.
    split; [apply (dfs_mono _ _ _ _ Hr)|]. intros x Hx Hx1.
    eapply rtc_l; [apply iter_elem, Hnb|exact (IH _ _ _ Hr x Hx Hx1)]. }
  intros x Hx Hxs. destruct (decide (x = node)) as [->|Hne]; [apply rtc_refl|].
  apply HR; [done|]. simpl. set_solver.
Qed.

(** With more fuel than unvisited companies having an adjacency entry, the
    traversal returns. *)
Lemma dfs_some f node s :
  node ∉ s.1 -> size (dom g ∖ s.1) < f -> exists s', dfs f node s = Some s'.
Proof.
  revert node s. induction f as [|f IH]; intros node s Hn Hsz; [lia|]. simpl.
  destruct (foldl_dfs_visit_some (dfs f) ({[node]} ∪ s.1) (iter (adj g node))
    ({[node]} ∪ s.1, s.2 ++ [node])) as (s' & Hf & _); [done| |by exists s'].
  intros nb s2 Hnb Hnb2 HB.
  assert (Hdom : node ∈ dom g) by (apply (adj_dom g node nb), iter_elem, Hnb).
  assert (size (dom g ∖ s2.1) < f).
  { apply Nat.le_lt_trans with (size (dom g ∖ ({[node]} ∪ s.1))).
    - apply subseteq_size. set_solver.
    - assert (size (dom g ∖ ({[node]} ∪ s.1)) < size (dom g ∖ s.1)); [|lia].
      apply subset_size. set_solver. }
  destruct (IH nb s2 Hnb2 ltac:(done)) as (s'' & Hr). exists s''. split; [done|].
  apply (dfs_mono _ _ _ _ Hr).
Qed.
End Dfs.

Lemma rtc_sym {A} (R : relation A) :
  (forall a b, R a b -> R b a) -> forall a b, rtc R a b -> rtc R b a.
Proof.
  intros Hs a b H. induction H as [|a b c Hab _ IH]; [done|].
  etrans; [exact IH|]. by apply rtc_once, Hs.
Qed.

Lemma NoDup_two {A} (l : list A) x y : NoDup l -> x ∈ l -> y ∈ l -> x <> y -> 1 < length l.
Proof.
  destruct l as [|a [|b l]]; simpl; [set_solver|set_solver|lia].
Qed.

(** A list without duplicates of two or more elements holds an element
    other than any given one. *)
Lemma NoDup_other `{EqDecision A} (l : list A) a : NoDup l -> 1 < length l -> exists b, b ∈ l /\ b <> a.
Proof.
  destruct l as [|x [|y l]]; simpl; [lia|lia|]. intros Hnd _.
  apply NoDup_cons in Hnd as [Hx _].
  destruct (decide (x = a)) as [->|Hxa]; [|exists x; split; [left|]; done].
  exists y. split; [right; left|]; set_solver.
Qed.

(** A member of a list of lists has no duplicates when their
    concatenation has none. *)
Lemma NoDup_concat_elem {A} (ls : list (list A)) K : NoDup (concat ls) -> K ∈ ls -> NoDup K.
Proof.
  intros Hnd (l1 & l2 & ->)%list_elem_of_split.
  rewrite concat_app in Hnd. apply NoDup_app in Hnd as (_ & _ & Hnd). simpl in Hnd.
  by apply NoDup_app in Hnd as (? & _).
Qed.

Section Components.
Variable iter : gset string -> list string.
Hypothesis iter_elem : forall s x, x ∈ iter s <-> x ∈ s.
Variable g : adjacency.

(** One iteration of [for company in network['companies']], lines 297-302. *)
Definition cluster_start (fuel : nat) (acc : option (gset string * list (list string)))
    (company : string) : option (gset string * list (list string)) :=
  acc ≫= fun '(visited, clusters) =>
    if bool_decide (company ∈ visited) then Some (visited, clusters)
    else dfs iter g fuel company (visited, []) ≫= fun '(visited', cluster) =>
      Some (visited', if bool_decide (1 < length cluster) then clusters ++ [cluster] else clusters).

(** Enough fuel for every traversal of the loop. *)
Definition dfs_fuel : nat := S (size (dom g)).

(** Lines 287-302. *)
Definition components (companies : list string) : option (gset string * list (list string)) :=
  foldl (cluster_start dfs_fuel) (Some (∅, [])) companies.

Lemma foldl_cluster_start_none f companies :
  foldl (cluster_start f) None companies = None.
Proof. by induction companies. Qed.

Lemma foldl_cluster_start_some f companies vis cls :
  size (dom g) < f -> exists r, foldl (cluster_start f) (Some (vis, cls)) companies = Some r.
Proof.
  intros Hf. revert vis cls.
  induction companies as [|c cs IH]; intros vis cls; simpl; [eauto|].
  case_bool_decide; [apply IH|].
  destruct (dfs_some iter iter_elem g f c (vis, [])) as ([vis' cl] & Hd); [done| |].
  - simpl. pose proof (subseteq_size (dom g ∖ vis) (dom g) ltac:(set_solver)). lia.
  - rewrite Hd. simpl. apply IH.
Qed.

(** The loop of lines 297-302 returns with the fuel [dfs_fuel]. *)
Lemma components_some companies : exists r, components companies = Some r.
Proof. apply foldl_cluster_start_some. unfold dfs_fuel. lia. Qed.

Hypothesis g_sym : forall a b, b ∈ adj g a -> a ∈ adj g b.
Hypothesis g_irrefl : forall a, a ∉ adj g a.

(** What the loop of lines 297-302 maintains: [visited] is closed under
    the adjacency, the clusters are disjoint, made of visited companies,
    of size at least two and connected, and every visited company lies in
    one cluster with each of its neighbours. *)
Definition clusters_inv (vis : gset string) (cls : list (list string)) : Prop :=
  (forall x, x ∈ vis -> adj g x ⊆ vis) /\
  (forall K x, K ∈ cls -> x ∈ K -> x ∈ vis) /\
  NoDup (concat cls) /\
  Forall (fun K => 1 < length K) cls /\
  (forall K a b, K ∈ cls -> a ∈ K -> b ∈ K -> rtc (edge g) a b) /\
  (forall x y, x ∈ vis -> y ∈ adj g x -> exists K, K ∈ cls /\ x ∈ K /\ y ∈ K).

Lemma cluster_step_inv f vis cls c vis' cl :
  clusters_inv vis cls -> c ∉ vis -> dfs iter g f c (vis, []) = Some (vis', cl) ->
  clusters_inv vis' (if bool_decide (1 < length cl) then cls ++ [cl] else cls).
Proof.
  intros (Hcl & Hsub & Hnd & Hlen & Hconn & Hmax) Hc Hd.
  destruct (dfs_grows iter iter_elem g f c (vis, []) _ Hc Hd) as [Hvv (added & Hadd & Hndc & Hin)].
  simpl in *. subst cl.
  pose proof (dfs_closed iter iter_elem g f c _ _ Hd) as Hclosed.
  pose proof (dfs_reach iter iter_elem g f c _ _ Hd) as Hreach. simpl in *.
  assert (Hcases : forall K, K ∈ (if bool_decide (1 < length added) then cls ++ [added] else cls) ->
                     K ∈ cls \/ K = added).
  { intros K. case_bool_decide; [rewrite elem_of_app, list_elem_of_singleton|]; tauto. }
  split_and!.
  - intros x Hx. destruct (decide (x ∈ vis)); [specialize (Hcl x); set_solver|by apply Hclosed].
  - intros K x [HK| ->]%Hcases Hx; [specialize (Hsub K x HK Hx); set_solver|by apply Hin].
  - case_bool_decide; [|done]. rewrite concat_app. simpl. rewrite app_nil_r.
    apply NoDup_app. split_and!; [done| |done].
    intros x (K & HK & Hx)%elem_of_concat Hx2. apply Hin in Hx2. naive_solver.
  - case_bool_decide; [|done]. apply Forall_app. split; [done|]. by constructor.
  - intros K a b [HK| ->]%Hcases Ha Hb; [by apply (Hconn K)|].
    apply Hin in Ha as [Ha Ha']. apply Hin in Hb as [Hb Hb'].
    etrans; [apply (rtc_sym _ g_sym), Hreach|apply Hreach]; done.
  - intros x y Hx Hy. destruct (decide (x ∈ vis)) as [Hxv|Hxv].
    { destruct (Hmax x y Hxv Hy) as (K & HK & HxK & HyK). exists K.
      split; [case_bool_decide; [apply elem_of_app; by left|]|]; done. }
    assert (Hyv' : y ∈ vis') by (apply (Hclosed x Hx Hxv), Hy).
    destruct (decide (y ∈ vis)) as [Hyv|Hyv].
    { destruct (Hmax y x Hyv (g_sym _ _ Hy)) as (K & HK & _ & HxK).
      by pose proof (Hsub K x HK HxK). }
    assert (Hx2 : x ∈ added) by (by apply Hin).
    assert (Hy2 : y ∈ added) by (by apply Hin).
    assert (1 < length added).
    { apply (NoDup_two added x y Hndc Hx2 Hy2). intros <-. by apply (g_irrefl x). }
    exists added. rewrite bool_decide_eq_true_2 by done.
    split_and!; [apply elem_of_app; right; apply list_elem_of_singleton|..]; done.
Qed.

Lemma foldl_cluster_start_inv f companies vis cls vis' cls' :
  clusters_inv vis cls ->
  foldl (cluster_start f) (Some (vis, cls)) companies = Some (vis', cls') ->
  clusters_inv vis' cls' /\ vis ⊆ vis' /\ forall c, c ∈ companies -> c ∈ vis'.
Proof.
  revert vis cls. induction companies as [|c cs IH]; intros vis cls Hinv; simpl.
  - intros [= <- <-]. split_and!; [done|done|set_solver].
  - case_bool_decide as Hc.
    + intros Hf. destruct (IH _ _ Hinv Hf) as (Hi & Hs & Hcs). split_and!; [done|done|].
      intros x [->|Hx]%elem_of_cons; [set_solver|auto].
    + destruct (dfs iter g f c (vis, [])) as [[vis1 cl]|] eqn:Hd;
        [|simpl; by rewrite foldl_cluster_start_none].
      simpl. intros Hf.
      destruct (IH _ _ (cluster_step_inv f vis cls c vis1 cl Hinv Hc Hd) Hf) as (Hi & Hs & Hcs).
      pose proof (dfs_mono iter iter_elem g f c _ _ Hd) as [Hm Hcm]. simpl in *.
      split_and!; [done|set_solver|]. intros x [->|Hx]%elem_of_cons; [set_solver|auto].
Qed.
End Components.

(** [find_company_clusters], lines 258-307: [None] only if the fuel ran
    out, which [find_company_clusters_spec] excludes. *)
Definition find_company_clusters (iter : gset string -> list string) (n : network)
    : option (list (list string)) :=
  (fun r => sort_desc length r.2)
    <$> components iter (build_graph (connections n)) (dict_keys (companies n)).

Lemma build_graph_sym conns a b :
  b ∈ adj (build_graph conns) a -> a ∈ adj (build_graph conns) b.
Proof.
  rewrite !adj_build_graph. intros [Hne (c1 & c2 & H1 & H2 & Ha & Hb & Hd)].
  split; [congruence|]. exists c2, c1. naive_solver.
Qed.

Lemma build_graph_irrefl conns a : a ∉ adj (build_graph conns) a.
Proof. rewrite adj_build_graph. naive_solver. Qed.

Lemma rtc_edge_share conns a b :
  rtc (edge (build_graph conns)) a b -> rtc (share_director conns) a b.
Proof.
  induction 1 as [|x y z Hxy _ IH]; [done|].
  eapply rtc_l; [|exact IH]. apply adj_build_graph in Hxy. tauto.
Qed.

(** C11: whatever order Python iterates its sets in, [find_company_clusters]
    returns (the fuel suffices) the connected components of the
    shared-director graph with at least two companies: every cluster has
    two or more companies, no company is in two clusters, any two
    companies of a cluster are linked by a chain of shared directors, two
    companies that share a director are in the same cluster as soon as one
    of them is a recorded company, and the clusters come largest first. *)
Theorem find_company_clusters_spec iter n :
  (forall s x, x ∈ iter s <-> x ∈ s) ->
  exists cls, find_company_clusters iter n = Some cls /\
    Forall (fun K => 1 < length K) cls /\
    NoDup (concat cls) /\
    (forall K a b, K ∈ cls -> a ∈ K -> b ∈ K -> rtc (share_director (connections n)) a b) /\
    (forall a b, a ∈ dict_keys (companies n) -> a <> b -> share_director (connections n) a b ->
       exists K, K ∈ cls /\ a ∈ K /\ b ∈ K) /\
    sorted_desc length cls.
Proof.
  intros Hiter. set (g := build_graph (connections n)).
  destruct (components_some iter Hiter g (dict_keys (companies n))) as ([vis cls] & Hc).
  destruct (foldl_cluster_start_inv iter Hiter g (build_graph_sym _) (build_graph_irrefl _)
              (dfs_fuel g) (dict_keys (companies n)) ∅ [] vis cls) as ((_ & _ & Hnd & Hlen & Hconn & Hmax) & _ & Hall);
    [unfold clusters_inv; simpl; split_and!; try constructor; set_solver|done|].
  destruct (sort_desc_spec length cls) as (Hs & Hp & _).
  exists (sort_desc length cls). unfold find_company_clusters. fold g. rewrite Hc.
  split_and!; [done|by rewrite Hp|by rewrite Hp| | |done].
  - intros K a b HK Ha Hb. rewrite Hp in HK. apply rtc_edge_share, (Hconn K); done.
  - intros a b Ha Hne Hab. setoid_rewrite Hp.
    apply Hmax; [by apply Hall|]. apply adj_build_graph. done.
Qed.

(** Every company of a cluster is the company of a connection: a
    cluster has a second company, and a chain of shared directors leaves
    the first one. *)
Lemma find_company_clusters_members iter n cls :
  (forall s x, x ∈ iter s <-> x ∈ s) -> find_company_clusters iter n = Some cls ->
  forall K a, K ∈ cls -> a ∈ K -> exists c, c ∈ connections n /\ cn_company_number c = a.
Proof.
  intros Hiter Hf K a HK Ha. set (g := build_graph (connections n)).
  unfold find_company_clusters in Hf. fold g in Hf.
  destruct (components iter g (dict_keys (companies n))) as [[vis cls0]|] eqn:Hc; [|done].
  injection Hf as <-.
  destruct (foldl_cluster_start_inv iter Hiter g (build_graph_sym _) (build_graph_irrefl _)
              (dfs_fuel g) (dict_keys (companies n)) ∅ [] vis cls0) as ((_ & _ & Hnd & Hlen & Hconn & _) & _);
    [unfold clusters_inv; simpl; split_and!; try constructor; set_solver|done|].
  destruct (sort_desc_spec length cls0) as (_ & Hp & _). rewrite Hp in HK.
  destruct (NoDup_other K a (NoDup_concat_elem cls0 K Hnd HK)
              (proj1 (Forall_forall _ _) Hlen K HK)) as (b & Hb & Hba).
  destruct (rtc_inv _ _ (Hconn K a b HK Ha Hb)) as [->|(y & Hy & _)]; [done|].
  apply adj_build_graph in Hy as [_ (c1 & c2 & H1 & _ & H1a & _)]. by exists c1.
Qed.
