(* ===== verification/ApiClient.v ===== *)
(** * The Companies House client, [CompaniesHouseClient] of src/api_client.py

    The client's state is the rate limiter, the clock, the list of HTTP
    round trips sent so far (with their send times) and the profile cache
    (the files [profile_<number>.json] of [Config.CACHE_DIR]), and the set
    of files written by [download_document].  The server is a parameter
    [serve] answering a request sent at a given time, and a
    round trip lasts [latency] ticks; both are arbitrary, so the theorems
    cover every server behaviour, transient failures included.  Methods are
    state-and-exception functions ([CM]); the pagination loops, which may
    not terminate against an adversarial server, run on fuel and return
    [None] when the fuel runs out.  The request method is always [GET]. *)

From S2P Require Import Prelude Registry RateLimiter.

(** [Config.MAX_RETRIES], [Config.RETRY_DELAY] and [Config.CH_BASE_URL]
    (src/core/config.py:39 and 49-50). *)
Definition MAX_RETRIES : nat := 3.
Definition RETRY_DELAY : Z := 2.
Definition CH_BASE_URL : string := "https://api.company-information.service.gov.uk".

(** ** Requests and responses *)

Inductive param := PInt (z : Z) | PStr (s : string).

(** A [GET] of [url] with the [params] keyword argument ([[]] when the call
    passes none). *)
Record request := Request { rq_url : string; rq_params : pydict string param }.

(** A JSON page: [data.get('items', [])] and the total ([total_results] or
    [total_count], by endpoint). *)
Record page (A : Type) := Page { pg_items : option (list A); pg_total : option Z }.
Arguments Page {A} _ _.
Arguments pg_items {A} _.
Arguments pg_total {A} _.

(** One item of the filing history. *)
Record filing := Filing {
  f_category : option string;
  f_type : option string;
  f_description : option string;
  f_date : option string;
  f_transaction_id : option string;
  (** [filing.get('links', {}).get('document_metadata', '')], read by
      the batch processor. *)
  f_document_metadata : option string
}.

(** One item of a company search. *)
Record company_hit := CompanyHit {
  ch_title : option string; ch_company_number : option string; ch_company_status : option string
}.

(** The JSON body of a response, by the shape of its endpoint; [BOther] is
    any other object ([{}] for the code: every [.get] returns its default). *)
Inductive body :=
| BProfile (p : profile)
| BOfficers (pg : page officer)
| BOfficerSearch (pg : page search_hit)
| BAppointments (items : option (list appointment))
| BFilings (pg : page filing)
| BCompanySearch (pg : page company_hit)
| BOther.

(** What one round trip of [session.request] gives: a response, or a
    [requests.exceptions.RequestException] such as a connection error. *)
Inductive outcome :=
| Response (status : Z) (reason : string) (retry_after : option Z) (b : body)
| ConnError (msg : string).

(** ** The client's state and its monad *)

Record client := Client {
  cl_limiter : rate_limiter;
  cl_clock : Z;
  cl_sent : list (Z * request);
  cl_cache : pydict string profile;
  cl_files : gset string
}.

Definition CM (A : Type) : Type := client -> result A * client.

#[export] Instance cm_ret : MRet CM := fun A a c => (Ok a, c).
#[export] Instance cm_bind : MBind CM := fun A B f m c =>
  match m c with
  | (Ok a, c') => f a c'
  | (Err e, c') => (Err e, c')
  end.

Definition throw {A} (e : exn) : CM A := fun c => (Err e, c).

(** [requests]' [raise_for_status]: the [HTTPError] of a 4xx or 5xx status. *)
Definition http_error (code : Z) (reason url : string) : option exn :=
  if (400 <=? code)%Z && (code <? 500)%Z then
    Some (Exn (str_of_Z code +:+ " Client Error: " +:+ reason +:+ " for url: " +:+ url))
  else if (500 <=? code)%Z && (code <? 600)%Z then
    Some (Exn (str_of_Z code +:+ " Server Error: " +:+ reason +:+ " for url: " +:+ url))
  else None.

Section Client.
(** The server: the outcome of a request sent at a time. *)
Variable serve : Z -> request -> outcome.
(** The duration of a round trip. *)
Variable latency : Z.

(** [time.sleep(s)]: a negative length raises [ValueError]. *)
Definition sleep (s : Z) : CM unit := fun c =>
  if (s <? 0)%Z then (Err (Exn "sleep length must be non-negative"), c)
  else (Ok tt, Client (cl_limiter c) (cl_clock c + s) (cl_sent c) (cl_cache c) (cl_files c)).

(** Lines 56 and 59: take a token of the rate limiter (its own sleep
    moves the clock to the grant), then send the request. *)
Definition round_trip (rq : request) : CM outcome := fun c =>
  match acquire (AcquireClock (cl_clock c) 0) (cl_limiter c) with
  | Err e => (Err e, c)
  | Ok (rl, g) => (Ok (serve g rq), Client rl (g + latency) (cl_sent c ++ [(g, rq)]) (cl_cache c) (cl_files c))
  end.

(** [_make_request], lines 53-76, from attempt [attempt] with [left]
    attempts to go: a 429 sleeps [Retry-After] and tries again; any other
    [RequestException] sleeps [RETRY_DELAY * (attempt + 1)] and tries again,
    or is re-raised on the last attempt; when the attempts run out after a
    429 the generic exception of line 76 is raised.  [Retry-After] is read
    as an integer or absent: a header [int()] rejects, which raises
    [ValueError] at line 63, is not modelled. *)
Fixpoint retry_loop (attempt left : nat) (rq : request) : CM body :=
  match left with
  | O => throw (Exn ("Failed to request " +:+ rq_url rq +:+ " after " +:+
                     str_of_Z (Z.of_nat MAX_RETRIES) +:+ " attempts"))
  | S left' =>
      let on_request_exception (e : exn) : CM body :=
        if Nat.eqb attempt (MAX_RETRIES - 1) then throw e
        else sleep (RETRY_DELAY * (Z.of_nat attempt + 1)) ≫= fun _ =>
             retry_loop (S attempt) left' rq in
      o ← round_trip rq;
      match o with
      | ConnError msg => on_request_exception (Exn msg)
      | Response code reason ra b =>
          if (code =? 429)%Z then
            sleep (default RETRY_DELAY ra) ≫= fun _ => retry_loop (S attempt) left' rq
          else match http_error code reason (rq_url rq) with
               | Some e => on_request_exception e
               | None => mret b
               end
      end
  end.

Definition make_request (rq : request) : CM body := retry_loop 0 MAX_RETRIES rq.

(** ** The endpoints *)

Definition with_cache (k : string) (p : profile) : CM unit := fun c =>
  (Ok tt, Client (cl_limiter c) (cl_clock c) (cl_sent c) (dict_set (cl_cache c) k p) (cl_files c)).

(** [response.json()] where a profile is expected: an object with none of
    the profile's keys reads as the empty profile. *)
Definition profile_of (b : body) : profile :=
  match b with BProfile p => p | _ => Profile None None None None end.

(** [get_company_profile], lines 78-103: the cached file if it exists,
    else a request whose answer is cached. *)
Definition get_company_profile (company_number : string) : CM profile := fun c =>
  match dict_get (cl_cache c) company_number with
  | Some p => (Ok p, c)
  | None =>
      (b ← make_request (Request (CH_BASE_URL +:+ "/company/" +:+ company_number) []);
       let p := profile_of b in
       with_cache company_number p ≫= fun _ => mret p) c
  end.

(** A paginated loop ([while True] of lines 122-142, 214-232 and
    306-325): [req start] is the request of the page at [start],
    [decode] reads the items and the total, [stop] is the [break]
    condition. *)
Fixpoint paginate {A} (fuel : nat) (req : Z -> request) (decode : body -> list A * Z)
    (stop : Z -> nat -> Z -> bool) (ipp start : Z) (acc : list A) (c : client)
    : option (result (list A) * client) :=
  match fuel with
  | O => None
  | S f =>
      match make_request (req start) c with
      | (Err e, c1) => Some (Err e, c1)
      | (Ok b, c1) =>
          let '(items, total) := decode b in
          if stop start (length items) total then Some (Ok (acc ++ items), c1)
          else paginate f req decode stop ipp (start + ipp) (acc ++ items) c1
      end
  end.

(** [start_index + len(items) >= total]. *)
Definition page_done (start : Z) (n : nat) (total : Z) : bool := (total <=? start + Z.of_nat n)%Z.

Definition officers_page (b : body) : list officer * Z :=
  match b with
  | BOfficers pg => (default [] (pg_items pg), default 0%Z (pg_total pg))
  | _ => ([], 0%Z)
  end.

(** [get_officers], lines 199-234: [params] is built but the request of
    line 221 is sent without it. *)
Definition get_officers (fuel : nat) (company_number : string) (ipp : Z)
    : client -> option (result (list officer) * client) :=
  paginate fuel (fun _ => Request (CH_BASE_URL +:+ "/company/" +:+ company_number +:+ "/officers") [])
    officers_page page_done ipp 0 [].

Definition search_page (b : body) : list search_hit * Z :=
  match b with
  | BOfficerSearch pg => (default [] (pg_items pg), default 0%Z (pg_total pg))
  | _ => ([], 0%Z)
  end.

(** [search_officers], lines 291-327: the loop also stops once
    [start_index >= 200]. *)
Definition search_officers (fuel : nat) (officer_name : string) (ipp : Z)
    : client -> option (result (list search_hit) * client) :=
  paginate fuel
    (fun start => Request (CH_BASE_URL +:+ "/search/officers")
       [("q", PStr officer_name); ("items_per_page", PInt ipp); ("start_index", PInt start)]%string)
    search_page (fun start n total => page_done start n total || (200 <=? start)%Z) ipp 0 [].

Definition filings_page (b : body) : list filing * Z :=
  match b with
  | BFilings pg => (default [] (pg_items pg), default 0%Z (pg_total pg))
  | _ => ([], 0%Z)
  end.

(** [get_filing_history], lines 105-144. *)
Definition get_filing_history (fuel : nat) (company_number : string) (category : option string)
    (ipp : Z) : client -> option (result (list filing) * client) :=
  paginate fuel
    (fun start => Request (CH_BASE_URL +:+ "/company/" +:+ company_number +:+ "/filing-history")
       ([("items_per_page", PInt ipp); ("start_index", PInt start)]%string ++
        match category with
        | Some cat => if truthy_str cat then [("category", PStr cat)]%string else []
        | None => []
        end))
    filings_page page_done ipp 0 [].

(** [get_officer_appointments], lines 329-342. *)
Definition get_officer_appointments (officer_id : string) : CM (list appointment) :=
  b ← make_request (Request (CH_BASE_URL +:+ "/officers/" +:+ officer_id +:+ "/appointments") []);
  mret (match b with BAppointments items => default [] items | _ => [] end).

Definition companies_page (b : body) : list company_hit * Z :=
  match b with
  | BCompanySearch pg => (default [] (pg_items pg), default 0%Z (pg_total pg))
  | _ => ([], 0%Z)
  end.

(** The loop of [search_companies], lines 255-287: [while len(all_results)
    < 1000]; [params] is built but not sent (line 270); an exception ends
    the loop after printing it, keeping the results so far.  The result is
    the list and the printed error, if any. *)
Fixpoint search_companies_loop (fuel : nat) (ipp start : Z) (acc : list company_hit)
    (c : client) : option ((list company_hit * option string) * client) :=
  match fuel with
  | O => None
  | S f =>
      if negb (length acc <? 1000)%nat then Some ((acc, None), c)
      else match make_request (Request (CH_BASE_URL +:+ "/search/companies") []) c with
           | (Err e, c1) => Some ((acc, Some ("Error searching companies: " +:+ exn_msg e)), c1)
           | (Ok b, c1) =>
               let '(items, total) := companies_page b in
               match items with
               | [] => Some ((acc, None), c1)
               | _ =>
                   if page_done start (length items) total || (total =? 0)%Z
                   then Some ((acc ++ items, None), c1)
                   else search_companies_loop f ipp (start + ipp) (acc ++ items) c1
               end
           end
  end.

(** [search_companies], lines 236-289 (the filters only build [params]). *)
Definition search_companies (fuel : nat) (ipp : Z)
    : client -> option ((list company_hit * option string) * client) :=
  search_companies_loop fuel ipp 0 [].

(** [get_company_search], lines 344-364. *)
Definition get_company_search (query : string) (ipp : Z) : CM (list company_hit) :=
  b ← make_request (Request (CH_BASE_URL +:+ "/search/companies")
                     [("q", PStr query); ("items_per_page", PInt ipp)]%string);
  mret (companies_page b).1.

(** [get_document_metadata], lines 146-160: the decoded body. *)
Definition get_document_metadata (company_number transaction_id : string) : CM body :=
  make_request (Request (CH_BASE_URL +:+ "/company/" +:+ company_number +:+
                         "/filing-history/" +:+ transaction_id) []).

(** The path of a downloaded document, lines 176-183, under
    [Config.DATA_DIR] ([data_dir]). *)
Definition document_path (data_dir document_id : string) (output_path company_number : option string)
    : string :=
  match output_path with
  | Some p => p
  | None =>
      if truthy_opt company_number then
        data_dir +:+ "/" +:+ default ""%string company_number +:+ "/" +:+ document_id +:+ ".pdf"
      else data_dir +:+ "/" +:+ document_id +:+ ".pdf"
  end.

(** Lines 193-195: the PDF is written at [path]. *)
Definition write_file (path : string) : CM unit := fun c =>
  (Ok tt, Client (cl_limiter c) (cl_clock c) (cl_sent c) (cl_cache c) ({[path]} ∪ cl_files c)).

(** [download_document], lines 162-197: an existing file is returned
    without a request. *)
Definition download_document (document_url data_dir document_id : string)
    (output_path company_number : option string) : CM string := fun c =>
  let path := document_path data_dir document_id output_path company_number in
  if bool_decide (path ∈ cl_files c) then (Ok path, c)
  else (_ ← make_request (Request (document_url +:+ "/document/" +:+ document_id +:+ "/content") []);
        _ ← write_file path;
        mret path) c.

(** [get_rate_limit_status], lines 366-378: remaining requests (which
    prunes the deque), seconds to reset, and the two limits. *)
Definition get_rate_limit_status : CM (Z * Z * Z * Z) := fun c =>
  let '(rl', remaining) := get_remaining_requests (cl_clock c) (cl_limiter c) in
  (Ok (remaining, get_reset_time (cl_clock c) rl', max_requests rl', period rl'),
   Client rl' (cl_clock c) (cl_sent c) (cl_cache c) (cl_files c)).
End Client.

(** [__init__], lines 18-39: [api_key or Config.COMPANIES_HOUSE_API_KEY];
    the client starts at [clock] with the cache and files already on disk. *)
Definition new_client (api_key : option string) (config_key : string) (clock : Z)
    (cache : pydict string profile) (files : gset string) : result client :=
  let key := match api_key with Some k => if truthy_str k then k else config_key | None => config_key end in
  if negb (truthy_str key) then Err (Exn "API key required. Set COMPANIES_HOUSE_API_KEY in .env")
  else Ok (Client (new_rate_limiter None None) clock [] cache files).
