(* ===== verification/ClientProps.v ===== *)
(** * Properties of the Companies House client

    The rate-limit guarantee of the whole client (every HTTP round trip of
    every method takes a token of the limiter), the retry bounds and error
    behaviour of [_make_request], the profile cache, and termination and
    request bounds of the pagination loops. *)

From S2P Require Import Prelude Registry RateLimiter ApiClient.

(** ** State predicates preserved by client computations *)

Definition preserves {A} (P : client -> Prop) (m : CM A) : Prop :=
  forall c r c', P c -> m c = (r, c') -> P c'.

Definition preserves_opt {A} (P : client -> Prop) (m : client -> option (result A * client)) : Prop :=
  forall c r c', P c -> m c = Some (r, c') -> P c'.

Lemma preserves_ret {A} P (a : A) : preserves P (mret a).
Proof. by intros c r c' Hc [= _ <-]. Qed.

Lemma preserves_throw {A} P e : preserves P (throw (A:=A) e).
Proof. by intros c r c' Hc [= _ <-]. Qed.

Lemma preserves_bind {A B} P (m : CM A) (f : A -> CM B) :
  preserves P m -> (forall a, preserves P (f a)) -> preserves P (m ≫= f).
Proof.
  intros Hm Hf c r c' Hc. unfold mbind, cm_bind.
  destruct (m c) as [[a|e] c1] eqn:E; [apply Hf, (Hm c _ c1 Hc E)|]. intros [= _ <-]. exact (Hm c _ c1 Hc E).
Qed.

Create HintDb client.
#[export] Hint Resolve preserves_ret preserves_throw preserves_bind : client.

Section Preserve.
Variable serve : Z -> request -> outcome.
Variable latency : Z.
Variable P : client -> Prop.
Hypothesis P_sleep : forall s, preserves P (sleep s).
Hypothesis P_round_trip : forall rq, preserves P (round_trip serve latency rq).
Hypothesis P_cache : forall k p, preserves P (with_cache k p).
Hypothesis P_write : forall path, preserves P (write_file path).

Lemma retry_loop_preserves attempt left rq : preserves P (retry_loop serve latency attempt left rq).
Proof.
  revert attempt. induction left as [|left IH]; intros attempt; simpl; [auto with client|].
  apply preserves_bind; [done|]. intros [code reason ra b|msg].
  - destruct (code =? 429)%Z; [auto with client|].
    destruct (http_error _ _ _); [|auto with client].
    destruct (Nat.eqb _ _); auto with client.
  - destruct (Nat.eqb _ _); auto with client.
Qed.

Lemma make_request_preserves rq : preserves P (make_request serve latency rq).
Proof. apply retry_loop_preserves. Qed.
#[local] Hint Resolve make_request_preserves : client.

Lemma get_company_profile_preserves n : preserves P (get_company_profile serve latency n).
Proof.
  intros c r c' Hc. unfold get_company_profile. destruct (dict_get _ _); [by intros [= _ <-]|].
  exact (preserves_bind P _ _ (make_request_preserves _)
           (fun b => preserves_bind P _ _ (P_cache _ _) (fun _ => preserves_ret P _)) c r c' Hc).
Qed.

Lemma paginate_preserves {A} fuel req (decode : body -> list A * Z) stop ipp start acc :
  preserves_opt P (paginate serve latency fuel req decode stop ipp start acc).
Proof.
  revert start acc. induction fuel as [|f IH]; intros start acc c r c' Hc; simpl; [done|].
  destruct (make_request serve latency (req start) c) as [[b|e] c1] eqn:E.
  - pose proof (make_request_preserves _ c _ c1 Hc E) as H1.
    destruct (decode b) as [items total]. destruct (stop _ _ _); [by intros [= _ <-]|].
    apply (IH _ _ _ _ _ H1).
  - intros [= _ <-]. exact (make_request_preserves _ c _ c1 Hc E).
Qed.

Lemma search_companies_loop_preserves fuel ipp start acc c x c' :
  P c -> search_companies_loop serve latency fuel ipp start acc c = Some (x, c') -> P c'.
Proof.
  revert start acc c. induction fuel as [|f IH]; intros start acc c Hc; simpl; [done|].
  destruct (negb _); [by intros [= _ <-]|].
  destruct (make_request serve latency _ c) as [[b|e] c1] eqn:E;
    pose proof (make_request_preserves _ c _ c1 Hc E) as H1; [|by intros [= _ <-]].
  destruct (companies_page b) as [[|i items] total]; [by intros [= _ <-]|].
  destruct (_ || _); [by intros [= _ <-]|]. apply (IH _ _ _ H1).
Qed.

Lemma download_document_preserves durl dir id op cn :
  preserves P (download_document serve latency durl dir id op cn).
Proof.
  intros c r c' Hc. unfold download_document. case_bool_decide; [by intros [= _ <-]|].
  exact (preserves_bind P _ _ (make_request_preserves _)
           (fun _ => preserves_bind P _ _ (P_write _) (fun _ => preserves_ret P _)) c r c' Hc).
Qed.
End Preserve.

(** ** The client's methods as steps *)

Section Steps.
Variable serve : Z -> request -> outcome.
Variable latency : Z.

(** One call of a public method of [CompaniesHouseClient], with any
    arguments and any fuel for the paginated ones. *)
Inductive client_step : client -> client -> Prop :=
| cs_profile n c r c' : get_company_profile serve latency n c = (r, c') -> client_step c c'
| cs_officers f n ipp c r c' : get_officers serve latency f n ipp c = Some (r, c') -> client_step c c'
| cs_search_officers f n ipp c r c' :
    search_officers serve latency f n ipp c = Some (r, c') -> client_step c c'
| cs_filings f n cat ipp c r c' :
    get_filing_history serve latency f n cat ipp c = Some (r, c') -> client_step c c'
| cs_appointments i c r c' : get_officer_appointments serve latency i c = (r, c') -> client_step c c'
| cs_search_companies f ipp c x c' :
    search_companies serve latency f ipp c = Some (x, c') -> client_step c c'
| cs_company_search q ipp c r c' : get_company_search serve latency q ipp c = (r, c') -> client_step c c'
| cs_metadata n t c r c' : get_document_metadata serve latency n t c = (r, c') -> client_step c c'
| cs_download durl dir id op cn c r c' :
    download_document serve latency durl dir id op cn c = (r, c') -> client_step c c'
| cs_status c r c' : get_rate_limit_status c = (r, c') -> client_step c c'.

(** A state predicate kept by the primitive effects is kept by every run
    of the client's methods. *)
Lemma client_steps_preserve (P : client -> Prop) :
  (forall s, preserves P (sleep s)) -> (forall rq, preserves P (round_trip serve latency rq)) ->
  (forall k p, preserves P (with_cache k p)) -> (forall path, preserves P (write_file path)) ->
  preserves P get_rate_limit_status ->
  forall c c', P c -> rtc client_step c c' -> P c'.
Proof.
  intros Hsl Hrt Hca Hwr Hst c c' Hc Hsteps. induction Hsteps as [c|c c1 c' Hs _ IH]; [done|].
  apply IH. pose proof (make_request_preserves serve latency P Hsl Hrt) as Hmr.
  destruct Hs as [n c r c1 H|f n ipp c r c1 H|f n ipp c r c1 H|f n cat ipp c r c1 H|i c r c1 H
                 |f ipp c x c1 H|q ipp c r c1 H|n t c r c1 H|durl dir id op cn c r c1 H|c r c1 H].
  - exact (get_company_profile_preserves serve latency P Hsl Hrt Hca n c r c1 Hc H).
  - exact (paginate_preserves serve latency P Hsl Hrt _ _ _ _ _ _ _ c r c1 Hc H).
  - exact (paginate_preserves serve latency P Hsl Hrt _ _ _ _ _ _ _ c r c1 Hc H).
  - exact (paginate_preserves serve latency P Hsl Hrt _ _ _ _ _ _ _ c r c1 Hc H).
  - exact (preserves_bind _ _ _ (Hmr _) (fun _ => preserves_ret _ _) c r c1 Hc H).
  - exact (search_companies_loop_preserves serve latency P Hsl Hrt _ _ _ _ c x c1 Hc H).
  - exact (preserves_bind _ _ _ (Hmr _) (fun _ => preserves_ret _ _) c r c1 Hc H).
  - exact (Hmr _ c r c1 Hc H).
  - exact (download_document_preserves serve latency P Hsl Hrt Hwr _ _ _ _ _ c r c1 Hc H).
  - exact (Hst c r c1 Hc H).
Qed.

(** The limits of the limiter never change. *)
Definition limits_are (m p : Z) (c : client) : Prop :=
  max_requests (cl_limiter c) = m /\ period (cl_limiter c) = p.

Lemma client_steps_limits m p c c' :
  limits_are m p c -> rtc client_step c c' -> limits_are m p c'.
Proof.
  apply client_steps_preserve.
  - intros s c0 r c1 Hc. unfold sleep. destruct (_ <? _)%Z; by intros [= _ <-].
  - intros rq c0 r c1 Hc. unfold round_trip.
    destruct (acquire _ _) as [[rl g]|e] eqn:Ha; intros [= _ <-]; [|done].
    destruct (acquire_limits (AcquireClock (cl_clock c0) 0) _ _ _ ltac:(simpl; lia) Ha) as (Hm & Hp & _).
    unfold limits_are in *. simpl. rewrite Hm, Hp. done.
  - by intros k p0 c0 r c1 Hc [= _ <-].
  - by intros path c0 r c1 Hc [= _ <-].
  - by intros c0 r c1 Hc [= _ <-].
Qed.
End Steps.

(** ** The rate limit of the whole client *)

Section RateWindow.
Variable serve : Z -> request -> outcome.
Variable latency : Z.
Hypothesis latency_pos : (0 < latency)%Z.

(** The send times of the round trips satisfy the limiter's invariant, the
    last grant is in the past, and the pruning cut is a period behind. *)
Definition client_ok (c : client) : Prop :=
  exists cut last, window_inv (cl_limiter c) (fst <$> cl_sent c) cut last /\
    (last < cl_clock c)%Z /\ (cut <= cl_clock c - period (cl_limiter c))%Z.

Lemma sleep_ok s : preserves client_ok (sleep s).
Proof.
  intros c r c' (cut & last & Hw & Hl & Hc). unfold sleep.
  destruct (Z.ltb_spec s 0); intros [= _ <-]; [by exists cut, last|].
  exists cut, last. simpl. split_and!; [done|lia|lia].
Qed.

Lemma round_trip_ok rq : preserves client_ok (round_trip serve latency rq).
Proof.
  intros c r c' (cut & last & Hw & Hl & Hc). unfold round_trip.
  destruct (acquire _ _) as [[rl g]|e] eqn:Ha; intros [= _ <-]; [|by exists cut, last].
  destruct (acquire_inv (AcquireClock (cl_clock c) 0) _ _ cut last rl g Hw Hl Hc
              ltac:(simpl; lia) Ha) as (Hw' & Hg & _ & Hp).
  exists (g - period (cl_limiter c))%Z, g. simpl in *. rewrite fmap_app. simpl.
  split_and!; [done|lia|lia].
Qed.

Lemma get_rate_limit_status_ok : preserves client_ok get_rate_limit_status.
Proof.
  intros c r c' (cut & last & Hw & Hl & Hc). unfold get_rate_limit_status, get_remaining_requests.
  intros [= _ <-]. exists (Z.max cut (cl_clock c - period (cl_limiter c))), last. simpl.
  split_and!; [by apply prune_window|lia|lia].
Qed.

Lemma client_steps_ok c c' : client_ok c -> rtc (client_step serve latency) c c' -> client_ok c'.
Proof.
  apply client_steps_preserve; [exact sleep_ok|exact round_trip_ok| | |exact get_rate_limit_status_ok].
  - by intros k p c0 r c1 Hc [= _ <-].
  - by intros path c0 r c1 Hc [= _ <-].
Qed.
End RateWindow.

(** ** Claims *)

(** C12: the rate limit holds for the client as a whole.  For every server
    and every positive round-trip time, in every run of the methods of a
    client built by [__init__] (default limits, any clock, cache and files),
    no window of [RATE_LIMIT_PERIOD] = 300 seconds contains more than
    [RATE_LIMIT_REQUESTS] = 600 HTTP round trips: each round trip of each
    retry and each page takes a token of the limiter first. *)
Theorem client_rate_window serve latency key config_key clock cache files c0 c :
  (0 < latency)%Z ->
  new_client key config_key clock cache files = Ok c0 ->
  rtc (client_step serve latency) c0 c ->
  forall t, (Z.of_nat (in_window RATE_LIMIT_PERIOD t (fst <$> cl_sent c)) <= RATE_LIMIT_REQUESTS)%Z.
Proof.
  intros Hlat Hnew Hrun t. unfold new_client in Hnew.
  destruct (negb _); [done|]. injection Hnew as <-.
  set (c0 := Client (new_rate_limiter None None) clock [] cache files) in *.
  assert (Hl0 : limits_are RATE_LIMIT_REQUESTS RATE_LIMIT_PERIOD c0) by (split; reflexivity).
  assert (Hok0 : client_ok c0).
  { exists (clock - RATE_LIMIT_PERIOD)%Z, (clock - 1)%Z. split_and!.
    - apply window_inv_init; [reflexivity|change (0 <= 600)%Z; lia].
    - simpl. lia.
    - change (clock - 300 <= clock - 300)%Z. lia. }
  destruct (client_steps_limits serve latency _ _ c0 c Hl0 Hrun) as [Hm Hp].
  destruct (client_steps_ok serve latency Hlat c0 c Hok0 Hrun) as (cut & last & (_ & _ & _ & Hw) & _).
  rewrite <- Hm, <- Hp. apply Hw.
Qed.

(** ** Retries *)

Section Retries.
Variable serve : Z -> request -> outcome.
Variable latency : Z.

(** [c'] sent at most [n] more round trips than [c], all of requests
    satisfying [Q]. *)
Definition sends_within (Q : request -> Prop) (n : nat) (c c' : client) : Prop :=
  exists new, cl_sent c' = cl_sent c ++ new /\ (length new <= n)%nat /\ Forall (fun x => Q x.2) new.

Lemma sends_within_refl Q n c : sends_within Q n c c.
Proof. exists []. rewrite app_nil_r. split_and!; [done|simpl; lia|constructor]. Qed.

Lemma sends_within_trans Q n m c1 c2 c3 :
  sends_within Q n c1 c2 -> sends_within Q m c2 c3 -> sends_within Q (n + m) c1 c3.
Proof.
  intros (a & Ha & Hla & Hfa) (b & Hb & Hlb & Hfb). exists (a ++ b).
  rewrite Hb, Ha, app_assoc, length_app. split_and!; [done|lia|by apply Forall_app].
Qed.

Lemma sends_within_mono Q n m c c' : (n <= m)%nat -> sends_within Q n c c' -> sends_within Q m c c'.
Proof. intros Hnm (a & Ha & Hl & Hf). exists a. split_and!; [done|lia|done]. Qed.

Lemma sleep_sent s c r c' : sleep s c = (r, c') -> cl_sent c' = cl_sent c.
Proof. unfold sleep. destruct (_ <? _)%Z; by intros [= _ <-]. Qed.

Lemma round_trip_sends rq c r c' :
  round_trip serve latency rq c = (r, c') -> sends_within (fun x => x = rq) 1 c c'.
Proof.
  unfold round_trip. destruct (acquire _ _) as [[rl g]|e]; intros [= _ <-]; [|apply sends_within_refl].
  exists [(g, rq)]. simpl. split_and!; [done|lia|by repeat constructor].
Qed.

(** Each attempt sends at most one round trip, all of the same request. *)
Lemma retry_loop_sends attempt left rq c r c' :
  retry_loop serve latency attempt left rq c = (r, c') -> sends_within (fun x => x = rq) left c c'.
Proof.
  revert attempt c. induction left as [|left IH]; intros attempt c; simpl.
  - intros [= _ <-]. apply sends_within_refl.
  - unfold mbind at 1, cm_bind at 1.
    destruct (round_trip serve latency rq c) as [[o|e] c1] eqn:Hrt;
      pose proof (round_trip_sends _ _ _ _ Hrt) as H1;
      [|intros [= _ <-]; eapply (sends_within_trans _ 1 left); [done|apply sends_within_refl]].
    assert (Hsl : forall s k, (sleep s ≫= fun _ => retry_loop serve latency k left rq) c1 = (r, c') ->
                  sends_within (fun x => x = rq) (S left) c c').
    { intros s k. unfold mbind, cm_bind. destruct (sleep s c1) as [[[]|e] c2] eqn:Hs;
        pose proof (sleep_sent _ _ _ _ Hs) as Hs2.
      - intros Hr. apply (sends_within_trans _ 1 left _ c1); [done|].
        destruct (IH _ _ Hr) as (new & Hn & Hl & Hf). exists new. by rewrite Hn, Hs2.
      - intros [= _ <-]. apply (sends_within_trans _ 1 left _ c1); [done|].
        exists []. rewrite Hs2, app_nil_r. split_and!; [done|simpl; lia|constructor]. }
    assert (Hthrow : forall e, (throw (A:=body) e) c1 = (r, c') ->
                     sends_within (fun x => x = rq) (S left) c c').
    { intros e [= _ <-]. eapply (sends_within_trans _ 1 left); [done|apply sends_within_refl]. }
    destruct o as [code reason ra b|msg].
    + destruct (code =? 429)%Z; [apply Hsl|].
      destruct (http_error _ _ _); [destruct (Nat.eqb _ _); [apply Hthrow|apply Hsl]|].
      intros [= _ <-]. eapply (sends_within_trans _ 1 left); [done|apply sends_within_refl].
    + destruct (Nat.eqb _ _); [apply Hthrow|apply Hsl].
Qed.

Lemma make_request_sends rq c r c' :
  make_request serve latency rq c = (r, c') -> sends_within (fun x => x = rq) MAX_RETRIES c c'.
Proof. apply retry_loop_sends. Qed.

(** A paginated loop sends at most [MAX_RETRIES] round trips per page,
    each of one of the pages' requests. *)
Lemma paginate_sends {A} fuel req (decode : body -> list A * Z) stop ipp start acc c r c'
    (Q : request -> Prop) :
  (forall s, Q (req s)) ->
  paginate serve latency fuel req decode stop ipp start acc c = Some (r, c') ->
  sends_within Q (MAX_RETRIES * fuel) c c'.
Proof.
  intros HQ. revert start acc c. induction fuel as [|f IH]; intros start acc c; simpl; [done|].
  destruct (make_request serve latency (req start) c) as [[b|e] c1] eqn:E;
    destruct (make_request_sends _ _ _ _ E) as (new & Hn & Hl & Hf).
  - assert (H1 : sends_within Q MAX_RETRIES c c1).
    { exists new. split_and!; [done|done|]. eapply Forall_impl; [done|]. intros x ->. done. }
    destruct (decode b) as [items total]. destruct (stop _ _ _).
    + intros [= _ <-]. eapply sends_within_mono; [|done]. unfold MAX_RETRIES; lia.
    + intros Hr. eapply sends_within_mono; [|apply (sends_within_trans _ _ _ _ _ _ H1 (IH _ _ _ Hr))].
      unfold MAX_RETRIES; lia.
  - intros [= _ <-]. exists new. split_and!; [done|unfold MAX_RETRIES in *; lia|]. eapply Forall_impl; [done|]. intros x ->. done.
Qed.
End Retries.

Section Outcomes.
Variable serve : Z -> request -> outcome.
Variable latency : Z.

Lemma round_trip_grant rq c :
  (0 < max_requests (cl_limiter c))%Z ->
  exists g c1, round_trip serve latency rq c = (Ok (serve g rq), c1) /\
    max_requests (cl_limiter c1) = max_requests (cl_limiter c) /\
    length (cl_sent c1) = S (length (cl_sent c)).
Proof.
  intros Hm. destruct (acquire_ok (AcquireClock (cl_clock c) 0) (cl_limiter c) Hm) as (rl & g & Ha).
  destruct (acquire_limits (AcquireClock (cl_clock c) 0) _ _ _ ltac:(simpl; lia) Ha) as (Hm' & _ & _).
  exists g. eexists. unfold round_trip. rewrite Ha. split; [done|]. simpl.
  rewrite length_app. simpl. split; [done|lia].
Qed.

Lemma sleep_nonneg s c :
  (0 <= s)%Z -> sleep s c = (Ok tt, Client (cl_limiter c) (cl_clock c + s) (cl_sent c) (cl_cache c) (cl_files c)).
Proof. intros Hs. unfold sleep. by destruct (Z.ltb_spec s 0); [lia|]. Qed.

Ltac step_round_trip rq c :=
  let g := fresh "g" in let c1 := fresh "c" in let Hrt := fresh "Hrt" in
  let Hm1 := fresh "Hm" in let Hl1 := fresh "Hl" in
  destruct (round_trip_grant rq c ltac:(done)) as (g & c1 & Hrt & Hm1 & Hl1);
  unfold mbind at 1, cm_bind at 1; rewrite Hrt.

(** A server that answers 429 to every attempt. *)
Lemma retry_loop_throttled rq reason ra b left :
  (forall t, serve t rq = Response 429 reason ra b) -> (0 <= default RETRY_DELAY ra)%Z ->
  forall attempt c, (0 < max_requests (cl_limiter c))%Z ->
  exists c', retry_loop serve latency attempt left rq c =
    (Err (Exn ("Failed to request " +:+ rq_url rq +:+ " after 3 attempts")), c') /\
    length (cl_sent c') = (length (cl_sent c) + left)%nat.
Proof.
  intros Hs Hra. induction left as [|left IH]; intros attempt c Hm; simpl.
  - eexists. split; [reflexivity|lia].
  - step_round_trip rq c. rewrite Hs. simpl. unfold mbind, cm_bind. rewrite sleep_nonneg by done.
    match goal with |- context [retry_loop _ _ ?a _ _ ?cc] =>
      destruct (IH a cc ltac:(simpl; lia)) as (c' & Hr & Hl') end.
    rewrite Hr.
    exists c'. split; [done|]. simpl in Hl'. lia.
Qed.

(** A server whose every answer is an HTTP error other than 429. *)
Lemma retry_loop_http_error rq code reason ra b e left :
  (forall t, serve t rq = Response code reason ra b) -> code <> 429%Z ->
  http_error code reason (rq_url rq) = Some e ->
  forall attempt c, (attempt + left)%nat = MAX_RETRIES -> (0 < left)%nat ->
  (0 < max_requests (cl_limiter c))%Z ->
  exists c', retry_loop serve latency attempt left rq c = (Err e, c') /\
    length (cl_sent c') = (length (cl_sent c) + left)%nat.
Proof.
  intros Hs Hc He. induction left as [|left IH]; intros attempt c Hal Hl Hm; [lia|]. simpl.
  step_round_trip rq c. rewrite Hs. simpl. rewrite (proj2 (Z.eqb_neq _ _) Hc), He.
  destruct (Nat.eqb attempt _) eqn:Ha; [apply Nat.eqb_eq in Ha|apply Nat.eqb_neq in Ha].
  - exists c0. split; [done|]. unfold MAX_RETRIES in *. lia.
  - unfold mbind, cm_bind. rewrite sleep_nonneg by (unfold RETRY_DELAY; lia).
    match goal with |- context [retry_loop _ _ ?a _ _ ?cc] =>
      destruct (IH a cc ltac:(lia) ltac:(unfold MAX_RETRIES in *; lia) ltac:(simpl; lia))
        as (c' & Hr & Hl') end.
    rewrite Hr.
    exists c'. split; [done|]. simpl in Hl'. lia.
Qed.
End Outcomes.

(** ** Termination of the pagination loops *)

Section Pagination.
Variable serve : Z -> request -> outcome.
Variable latency : Z.

(** A loop whose [break] condition holds from [start_index >= B] on
    returns within [(B - start) / ipp + 1] pages. *)
Lemma paginate_some {A} fuel req (decode : body -> list A * Z) stop ipp (B : Z) :
  (0 < ipp)%Z -> (forall s n t, (B <= s)%Z -> stop s n t = true) ->
  forall start acc c, (1 <= fuel)%nat -> (B - start <= (Z.of_nat fuel - 1) * ipp)%Z ->
  exists r c', paginate serve latency fuel req decode stop ipp start acc c = Some (r, c').
Proof.
  intros Hipp Hstop. induction fuel as [|f IH]; intros start acc c Hf HB; [lia|]. simpl.
  destruct (make_request serve latency (req start) c) as [[b|e] c1]; [|eauto].
  destruct (decode b) as [items total]. destruct (stop start _ _) eqn:Hs; [eauto|].
  assert (start < B)%Z by (destruct (Z.ltb_spec start B); [done|]; rewrite Hstop in Hs; done).
  apply IH; lia.
Qed.

(** [search_companies] adds at least one result per page it continues
    after, so its loop ends by the 1000-result bound at the latest. *)
Lemma search_companies_loop_some fuel ipp start acc c :
  (1000 - length acc < fuel)%nat ->
  exists x c', search_companies_loop serve latency fuel ipp start acc c = Some (x, c').
Proof.
  revert start acc c. induction fuel as [|f IH]; intros start acc c Hf; [lia|]. simpl.
  destruct (negb _) eqn:Hn; [eauto|]. apply negb_false_iff, Nat.ltb_lt in Hn.
  destruct (make_request serve latency _ c) as [[b|e] c1]; [|eauto].
  destruct (companies_page b) as [[|i items] total]; [eauto|].
  destruct (_ || _); [eauto|]. apply IH. rewrite length_app. simpl. lia.
Qed.
End Pagination.

(** ** The profile cache *)

Lemma make_request_cache serve latency rq c r c' :
  make_request serve latency rq c = (r, c') -> cl_cache c' = cl_cache c.
Proof.
  intros H. refine (make_request_preserves serve latency (fun c0 => cl_cache c0 = cl_cache c)
    _ _ rq c r c' eq_refl H).
  - intros s c0 r0 c1 Hc. unfold sleep. destruct (_ <? _)%Z; intros [= _ <-]; done.
  - intros rq0 c0 r0 c1 Hc. unfold round_trip. destruct (acquire _ _) as [[]|]; intros [= _ <-]; done.
Qed.

(** ** Claims of the client *)

(** A server that gives the same answer to [rq] at every instant. *)
Definition always_answers (serve : Z -> request -> outcome) (rq : request) (o : outcome) : Prop :=
  forall t, serve t rq = o.

(** [get_company_profile] holds [p] in its cache for company [n]. *)
Definition cached_profile (c : client) (n : string) (p : profile) : Prop :=
  dict_get (cl_cache c) n = Some p.

(** A loop on fuel returns a result from client state [c]. *)
Definition returns {A} (m : client -> option (A * client)) (c : client) : Prop :=
  exists x c', m c = Some (x, c').

(** [_make_request] sends at most [MAX_RETRIES] = 3 round trips, all
    of the request it was given, whatever the server answers. *)
Theorem make_request_bounded serve latency rq c r c' :
  make_request serve latency rq c = (r, c') -> sends_within (fun x => x = rq) 3 c c'.
Proof. apply make_request_sends. Qed.

(** C13: throttling is escalated.  Against a server that answers 429 to
    every attempt (with a usable [Retry-After]), [_make_request] sends
    three requests and raises the generic exception of line 76, which the
    crawler treats as a failure, although the specification has throttled
    calls retried and never escalated. *)
Theorem make_request_throttled serve latency rq reason ra b c :
  (0 < max_requests (cl_limiter c))%Z -> (0 <= default RETRY_DELAY ra)%Z ->
  always_answers serve rq (Response 429 reason ra b) ->
  exists c', make_request serve latency rq c =
    (Err (Exn ("Failed to request " +:+ rq_url rq +:+ " after 3 attempts")), c') /\
    length (cl_sent c') = (length (cl_sent c) + 3)%nat.
Proof.
  intros Hm Hra Hs. exact (retry_loop_throttled serve latency rq reason ra b 3 Hs Hra 0 c Hm).
Qed.

(** C14: every HTTP error other than 429 is retried, not-found included:
    against a server answering such a status to every attempt,
    [_make_request] sends three requests and then raises the last
    [HTTPError]; the specification retries only transient failures. *)
Theorem make_request_http_error_retried serve latency rq code reason ra b e c :
  (0 < max_requests (cl_limiter c))%Z -> code <> 429%Z ->
  http_error code reason (rq_url rq) = Some e ->
  always_answers serve rq (Response code reason ra b) ->
  exists c', make_request serve latency rq c = (Err e, c') /\
    length (cl_sent c') = (length (cl_sent c) + 3)%nat.
Proof.
  intros Hm Hc He Hs.
  exact (retry_loop_http_error serve latency rq code reason ra b e 3 Hs Hc He 0 c eq_refl
           ltac:(lia) Hm).
Qed.

(** [get_company_profile] caches what it fetched: after a call that
    returned a profile, the same call returns the same profile from the
    cache and sends nothing. *)
Theorem get_company_profile_cached serve latency n c p c' :
  get_company_profile serve latency n c = (Ok p, c') ->
  cached_profile c' n p /\ get_company_profile serve latency n c' = (Ok p, c').
Proof.
  unfold get_company_profile, cached_profile.
  destruct (dict_get (cl_cache c) n) eqn:Hc; [by intros [= -> <-]; rewrite Hc|].
  unfold mbind, cm_bind. destruct (make_request serve latency _ c) as [[b|e] c1] eqn:Hr; [|done].
  simpl. intros [= <- <-]. simpl. by rewrite dict_get_set_eq.
Qed.

(** [search_officers] ends against every server: with a positive page
    size it requests at most [ceil(200 / items_per_page) + 1] pages (five
    for the default 50), each with at most three attempts, all to the
    officer-search endpoint. *)
Theorem search_officers_terminates serve latency name ipp c :
  (0 < ipp)%Z ->
  let pages := (Z.to_nat ((199 + ipp) / ipp) + 1)%nat in
  exists r c', search_officers serve latency pages name ipp c = Some (r, c') /\
    sends_within (fun x => rq_url x = CH_BASE_URL +:+ "/search/officers") (3 * pages) c c'.
Proof.
  intros Hipp pages.
  destruct (paginate_some serve latency pages
              (fun start => Request (CH_BASE_URL +:+ "/search/officers")
                 [("q", PStr name); ("items_per_page", PInt ipp); ("start_index", PInt start)]%string)
              search_page
              (fun start n total => page_done start n total || (200 <=? start)%Z) ipp 200 Hipp)
    with (start := 0%Z) (acc := @nil search_hit) (c := c) as (r & c' & Hr).
  - intros s n t Hs. apply orb_true_iff. right. by apply Z.leb_le.
  - unfold pages. lia.
  - unfold pages. pose proof (Z.div_mod (199 + ipp) ipp ltac:(lia)).
    pose proof (Z.mod_pos_bound (199 + ipp) ipp Hipp).
    pose proof (Z.div_pos (199 + ipp) ipp ltac:(lia) Hipp). rewrite Nat2Z.inj_add, Z2Nat.id by lia.
    lia.
  - exists r, c'. split; [exact Hr|]. exact (paginate_sends serve latency _ _ _ _ _ _ _ _ _ _ _
                                               (fun _ => eq_refl) Hr).
Qed.

(** [search_companies] ends against every server, within 1001
    pages: each page it continues after adds at least one result and the
    loop stops at 1000 results. *)
Theorem search_companies_terminates serve latency ipp c :
  returns (search_companies serve latency 1001 ipp) c.
Proof. exact (search_companies_loop_some serve latency 1001 ipp 0 [] c ltac:(simpl; lia)). Qed.

(** Every request [get_officers] sends is the officer list of the
    company without any parameter (line 221 drops [params]), so each page
    asks the server for the same first page. *)
Theorem get_officers_ignores_start serve latency fuel n ipp c r c' :
  get_officers serve latency fuel n ipp c = Some (r, c') ->
  sends_within (fun x => x = Request (CH_BASE_URL +:+ "/company/" +:+ n +:+ "/officers") [])
    (3 * fuel) c c'.
Proof. intros H. exact (paginate_sends serve latency _ _ _ _ _ _ _ _ _ _ _ (fun _ => eq_refl) H). Qed.

(** A server that answers [rq] with a success page at every instant:
    [_make_request] returns its body after one round trip. *)
Lemma make_request_answer serve latency rq code reason ra b c :
  (0 < max_requests (cl_limiter c))%Z -> always_answers serve rq (Response code reason ra b) ->
  (code =? 429)%Z = false -> http_error code reason (rq_url rq) = None ->
  exists c1, make_request serve latency rq c = (Ok b, c1) /\
    max_requests (cl_limiter c1) = max_requests (cl_limiter c).
Proof.
  intros Hm Ha H429 Hhttp. destruct (round_trip_grant serve latency rq c Hm) as (g & c1 & Hrt & Hm1 & _).
  exists c1. unfold make_request, MAX_RETRIES. cbn [retry_loop]. unfold mbind at 1, cm_bind at 1.
  rewrite Hrt, Ha, H429, Hhttp. by split.
Qed.

(** A paginated loop whose pages all send the same request [rq], which
    the server always answers with the same page, returns that page's
    items a number of times: once when the first page stops the loop,
    at least twice otherwise. *)
Lemma paginate_constant {A} serve latency rq code reason ra b (decode : body -> list A * Z) stop ipp :
  always_answers serve rq (Response code reason ra b) ->
  (code =? 429)%Z = false -> http_error code reason (rq_url rq) = None ->
  forall fuel start acc c r c', (0 < max_requests (cl_limiter c))%Z ->
  paginate serve latency fuel (fun _ => rq) decode stop ipp start acc c = Some (r, c') ->
  exists n, r = Ok (acc ++ concat (repeat (decode b).1 n)) /\ 1 <= n /\
    (stop start (length (decode b).1) (decode b).2 = false -> 2 <= n).
Proof.
  intros Ha H429 Hhttp. induction fuel as [|f IH]; intros start acc c r c' Hm; [done|]. cbn [paginate].
  destruct (make_request_answer serve latency rq code reason ra b c Hm Ha H429 Hhttp) as (c1 & -> & Hm1).
  destruct (decode b) as [items total] eqn:Hd. cbn [fst snd].
  destruct (stop start (length items) total) eqn:Hs.
  - intros [= <- _]. exists 1. cbn. rewrite app_nil_r. split_and!; [done|lia|done].
  - intros Hp. destruct (IH _ _ _ _ _ ltac:(by rewrite Hm1) Hp) as (n & -> & Hn & _).
    exists (S n). cbn [repeat concat]. rewrite app_assoc. split_and!; [done|lia|lia].
Qed.

(** C15: [get_officers] only ever reads the first page.  It builds
    [start_index] and [items_per_page] but sends the officers URL without
    them, so a server that answers that request with a page of [items]
    out of [total] officers (at any instant) makes the result [items]
    repeated: no officer beyond the first page is returned, and when the
    first page is not the last ([len(items) < total]) the first page comes
    back at least twice. *)
Theorem get_officers_first_page serve latency fuel n ipp c r c' reason items total :
  (0 < max_requests (cl_limiter c))%Z ->
  always_answers serve (Request (CH_BASE_URL +:+ "/company/" +:+ n +:+ "/officers") [])
    (Response 200 reason None (BOfficers (Page (Some items) (Some total)))) ->
  get_officers serve latency fuel n ipp c = Some (r, c') ->
  exists k, r = Ok (concat (repeat items k)) /\ 1 <= k /\ ((Z.of_nat (length items) < total)%Z -> 2 <= k).
Proof.
  intros Hm Ha Hg.
  destruct (paginate_constant serve latency _ 200 reason None _ officers_page page_done ipp Ha
              eq_refl eq_refl fuel 0 [] c r c' Hm Hg) as (k & Hr & Hk & H2).
  exists k. cbn in Hr, H2. split_and!; [done|done|]. intros Hl. apply H2. apply Z.leb_gt. lia.
Qed.
