(* ===== verification/ClientScenarios.v ===== *)
(** * Concrete runs of the client

    A fixed server answering every request alike, on which the client's
    methods are evaluated by [vm_compute]: the instances of the client's
    theorems and the duplicated officer pages of [get_officers]. *)

From S2P Require Import Prelude Registry RateLimiter ApiClient ClientProps.

Module ClientFixtures.

Definition off (name : string) : officer := Officer (Some name) (Some "director"%string) None None None.

(** Every request gets the same officer page: two officers of three. *)
Definition page_server (t : Z) (rq : request) : outcome :=
  Response 200 "OK" None (BOfficers (Page (Some [off "ANN"; off "BOB"]) (Some 3%Z))).

Definition profile_server (t : Z) (rq : request) : outcome :=
  Response 200 "OK" None (BProfile (Profile (Some "ALPHA LIMITED"%string) (Some "active"%string) None None)).

Definition throttling_server (t : Z) (rq : request) : outcome :=
  Response 429 "Too Many Requests" None BOther.

Definition missing_server (t : Z) (rq : request) : outcome :=
  Response 404 "Not Found" None BOther.

Definition client0 : client :=
  Eval vm_compute in
    match new_client (Some "key"%string) "" 1000 [] ∅ with Ok c => c | Err _ => Client (RateLimiter 0 0 []) 0 [] [] ∅ end.

Definition rq0 : request := Request (CH_BASE_URL +:+ "/company/AA111111") [].

Definition after_officers : client :=
  Eval vm_compute in
    match get_officers page_server 1 5 "AA111111" 2 client0 with Some (_, c) => c | None => client0 end.

Definition officers_result : result (list officer) :=
  Eval vm_compute in
    match get_officers page_server 1 5 "AA111111" 2 client0 with Some (r, _) => r | None => Ok [] end.

Definition after_request : client :=
  Eval vm_compute in (make_request page_server 1 rq0 client0).2.

Definition after_profile : client :=
  Eval vm_compute in (get_company_profile profile_server 1 "AA111111" client0).2.

End ClientFixtures.

Import ClientFixtures.

Lemma client_rate_window_witness :
  (Z.of_nat (in_window RATE_LIMIT_PERIOD 1001 (fst <$> cl_sent after_officers)) <= RATE_LIMIT_REQUESTS)%Z.
Proof.
  apply (client_rate_window page_server 1 (Some "key"%string) "" 1000 [] ∅ client0 after_officers);
    [lia|vm_compute; reflexivity|].
  apply rtc_once. apply (cs_officers page_server 1 5 "AA111111" 2 client0 officers_result).
  vm_compute. reflexivity.
Defined.

Lemma make_request_bounded_witness : sends_within (fun x => x = rq0) 3 client0 after_request.
Proof.
  apply (make_request_bounded page_server 1 rq0 client0 (Ok (BOfficers (Page (Some [off "ANN"; off "BOB"]) (Some 3%Z))))).
  vm_compute. reflexivity.
Defined.

Lemma make_request_throttled_witness :
  exists c', make_request throttling_server 1 rq0 client0 =
    (Err (Exn ("Failed to request " +:+ rq_url rq0 +:+ " after 3 attempts")), c') /\
    length (cl_sent c') = (length (cl_sent client0) + 3)%nat.
Proof.
  apply (make_request_throttled throttling_server 1 rq0 "Too Many Requests" None BOther client0);
    [vm_compute; reflexivity|unfold RETRY_DELAY; simpl; lia|intros t; reflexivity].
Defined.

Lemma make_request_http_error_retried_witness :
  exists c', make_request missing_server 1 rq0 client0 =
    (Err (Exn ("404 Client Error: Not Found for url: " +:+ rq_url rq0)), c') /\
    length (cl_sent c') = (length (cl_sent client0) + 3)%nat.
Proof.
  apply (make_request_http_error_retried missing_server 1 rq0 404 "Not Found" None BOther);
    [vm_compute; reflexivity|lia|vm_compute; reflexivity|intros t; reflexivity].
Defined.

Lemma get_company_profile_cached_witness :
  cached_profile after_profile "AA111111" (Profile (Some "ALPHA LIMITED"%string) (Some "active"%string) None None) /\
  get_company_profile profile_server 1 "AA111111" after_profile =
    (Ok (Profile (Some "ALPHA LIMITED"%string) (Some "active"%string) None None), after_profile).
Proof.
  apply (get_company_profile_cached profile_server 1 "AA111111" client0). vm_compute. reflexivity.
Defined.

Lemma search_officers_terminates_witness :
  let pages := (Z.to_nat ((199 + 50) / 50) + 1)%nat in
  exists r c', search_officers page_server 1 pages "JOHN SMITH" 50 client0 = Some (r, c') /\
    sends_within (fun x => rq_url x = CH_BASE_URL +:+ "/search/officers") (3 * pages) client0 c'.
Proof. apply (search_officers_terminates page_server 1 "JOHN SMITH" 50 client0). lia. Defined.

Lemma get_officers_ignores_start_witness :
  sends_within (fun x => x = Request (CH_BASE_URL +:+ "/company/AA111111/officers") [])
    (3 * 5) client0 after_officers.
Proof.
  apply (get_officers_ignores_start page_server 1 5 "AA111111" 2 client0 officers_result).
  vm_compute. reflexivity.
Defined.

(** A company with three officers, served two per page: the result
    lists ANN and BOB twice and never the third officer. *)
Lemma get_officers_first_page_witness :
  (0 < max_requests (cl_limiter client0))%Z /\
  always_answers page_server (Request (CH_BASE_URL +:+ "/company/" +:+ "AA111111" +:+ "/officers") [])
    (Response 200 "OK" None (BOfficers (Page (Some [off "ANN"; off "BOB"]) (Some 3%Z)))) /\
  get_officers page_server 1 5 "AA111111" 2 client0 = Some (officers_result, after_officers) /\
  exists k, officers_result = Ok (concat (repeat [off "ANN"; off "BOB"] k)) /\ 1 <= k /\
    ((Z.of_nat (length [off "ANN"; off "BOB"]) < 3)%Z -> 2 <= k).
Proof.
  assert (H1 : (0 < max_requests (cl_limiter client0))%Z) by (vm_compute; reflexivity).
  assert (H2 : always_answers page_server (Request (CH_BASE_URL +:+ "/company/" +:+ "AA111111" +:+ "/officers") [])
    (Response 200 "OK" None (BOfficers (Page (Some [off "ANN"; off "BOB"]) (Some 3%Z))))) by (intros t; reflexivity).
  assert (H3 : get_officers page_server 1 5 "AA111111" 2 client0 = Some (officers_result, after_officers))
    by (vm_compute; reflexivity).
  split_and!; [exact H1|exact H2|exact H3|].
  exact (get_officers_first_page page_server 1 5 "AA111111" 2 client0 officers_result after_officers "OK"
           [off "ANN"; off "BOB"] 3 H1 H2 H3).
Defined.
