(* ===== verification/Scenarios.v ===== *)
(** * Concrete crawls

    Registries given by finite tables ([table_registry] of Registry.v,
    wrapped by [recording] where the calls matter), on which the crawler
    and the post-analysis are evaluated by [vm_compute]: the scenarios of
    the specification, the runs that exhibit the divergences between the
    code and the specification, and the concrete instances of the general
    theorems. *)

From S2P Require Import Prelude Registry Scanner ScannerFrame ScannerProps ScannerTrace StableSort PostAnalysis Clusters.

Module Fixtures.

Definition active : option string := Some "active"%string.

Definition prof (name : string) (status : string) : profile :=
  Profile (Some name) (Some status) (Some "ltd"%string) (Some "2010-01-01"%string).

Definition off (name role appointed : string) : officer :=
  Officer (Some name) (Some role) (Some appointed) None None.

Definition hit (title self : string) : search_hit := SearchHit (Some title) (Some self).

Definition appt (c status : string) : appointment := Appointment (Some c) (Some status) None.

(** The scenario of the specification: JOHN SMITH directs AA111111 and
    BB222222; [bb_date] is the date of his appointment at BB222222. *)
Definition smith_db (bb_date : string) : registry_db := RegistryDb
  [("AA111111", prof "ALPHA LIMITED" "active");
   ("BB222222", prof "BETA LIMITED" "active")]%string
  [("AA111111", [off "JOHN SMITH" "director" "2020-01-01"]);
   ("BB222222", [off "JOHN SMITH" "director" bb_date])]%string
  [("JOHN SMITH", [hit "JOHN SMITH" "/officers/JS1/appointments"])]%string
  [("JS1", [appt "AA111111" "active"; appt "BB222222" "active"])]%string.

Definition cfg_depth1 : scan_config := ScanConfig 1 50 false.

(** A corporate officer next to a natural person at AA111111. *)
Definition acme_db : registry_db := RegistryDb
  [("AA111111", prof "ALPHA LIMITED" "active");
   ("CC333333", prof "GAMMA LIMITED" "active")]%string
  [("AA111111", [off "ACME HOLDINGS LIMITED" "corporate-director" "2019-03-03"])]%string
  [("ACME HOLDINGS LIMITED", [hit "ACME HOLDINGS LIMITED" "/officers/AC1/appointments"])]%string
  [("AC1", [appt "CC333333" "active"])]%string.

(** An appointment at a dissolved company. *)
Definition dissolved_db : registry_db := RegistryDb
  [("AA111111", prof "ALPHA LIMITED" "active");
   ("DD444444", prof "DELTA LIMITED" "dissolved")]%string
  [("AA111111", [off "JANE DOE" "director" "2018-02-02"]);
   ("DD444444", [off "JANE DOE" "director" "2015-05-05"])]%string
  [("JANE DOE", [hit "JANE DOE" "/officers/JD1/appointments"])]%string
  [("JD1", [appt "AA111111" "active"; appt "DD444444" "dissolved"])]%string.

Definition cfg_active : scan_config := ScanConfig 2 50 true.

(** A company whose officer list cannot be fetched. *)
Definition broken_db : registry_db := RegistryDb
  [("XX000000", prof "BROKEN LIMITED" "active")]%string [] [] [].

(** Two companies sharing an officer the search cannot find. *)
Definition unsearchable_db : registry_db := RegistryDb
  [("AA111111", prof "ALPHA LIMITED" "active");
   ("BB222222", prof "BETA LIMITED" "active")]%string
  [("AA111111", [off "JANE DOE" "director" "2018-02-02"]);
   ("BB222222", [off "JANE DOE" "director" "2018-02-02"])]%string
  [] [].

Definition run (db : registry_db) (cfg : scan_config) (seeds : list string)
    : option (scan_state unit) :=
  @scan_network unit (table_registry db) cfg 100 seeds tt.

Definition run_traced (db : registry_db) (cfg : scan_config) (seeds : list string)
    : option (scan_state (unit * list api_call)) :=
  @scan_network _ (recording (table_registry db)) cfg 100 seeds (tt, []).

End Fixtures.

Import Fixtures.

(** ** The scenarios of the specification *)

(** The shared-director scenario.  Seed AA111111, [max_depth = 1],
    JOHN SMITH appointed at AA111111 and at the active BB222222 on the same
    date: both companies are recorded, BB222222 at depth 1, and the ranking
    holds one shared director, JOHN SMITH, with [company_count = 2]. *)
Example scenario_shared_director :
  option_map (fun st => (dict_keys (companies (net st)), cr_depth <$> dict_values (companies (net st)),
                         (fun e => (sd_director_name e, sd_company_count e))
                           <$> find_shared_directors (net st)))
    (run (smith_db "2020-01-01") cfg_depth1 ["AA111111"]%string) =
  Some (["AA111111"; "BB222222"]%string, [0; 1]%Z, [("JOHN SMITH"%string, 2%nat)]).
Proof. vm_compute. reflexivity. Qed.

(** The same scenario when JOHN SMITH was appointed at BB222222 on
    another date: the director key of line 108 includes the appointment
    date, so the crawl records two identities with one appointment each and
    the ranking is empty. *)
Example scenario_shared_director_other_date :
  option_map (fun st => (dict_keys (companies (net st)), dict_keys (directors (net st)),
                         find_shared_directors (net st)))
    (run (smith_db "2021-05-05") cfg_depth1 ["AA111111"]%string) =
  Some (["AA111111"; "BB222222"]%string,
        ["JOHN SMITH_2020-01-01"; "JOHN SMITH_2021-05-05"]%string, []).
Proof. vm_compute. reflexivity. Qed.

(** The corporate-officer scenario.  ACME HOLDINGS LIMITED, an officer
    of the seed, appears as a connection, no officer search is issued for
    it, and the company its appointments would lead to is never reached. *)
Example scenario_corporate_officer :
  option_map (fun st => ((rs st).2, cn_director_name <$> connections (net st),
                         dict_keys (companies (net st))))
    (run_traced acme_db cfg_depth1 ["AA111111"]%string) =
  Some ([CallProfile "AA111111"; CallOfficers "AA111111"],
        ["ACME HOLDINGS LIMITED"]%string, ["AA111111"]%string).
Proof. vm_compute. reflexivity. Qed.

(** The active-only scenario.  With [active_only], an appointment at
    a dissolved company is never enqueued: its profile is never fetched. *)
Example scenario_active_only_dissolved :
  option_map (fun st => ((rs st).2, dict_keys (companies (net st))))
    (run_traced dissolved_db cfg_active ["AA111111"]%string) =
  Some ([CallProfile "AA111111"; CallOfficers "AA111111"; CallSearch "JANE DOE";
         CallAppointments "JD1"], ["AA111111"]%string).
Proof. vm_compute. reflexivity. Qed.

(** The size-cap scenario.  With [max_companies = 1] and two eligible
    seeds, exactly one company is recorded and the second seed is never
    fetched. *)
Example scenario_max_companies :
  option_map (fun st => ((rs st).2, dict_keys (companies (net st))))
    (run_traced (smith_db "2020-01-01") (ScanConfig 1 1 false) ["AA111111"; "BB222222"]%string) =
  Some ([CallProfile "AA111111"; CallOfficers "AA111111"; CallSearch "JOHN SMITH";
         CallAppointments "JS1"], ["AA111111"]%string).
Proof. vm_compute. reflexivity. Qed.

(** ** Where the code departs from the specification *)

(** A company whose officer list cannot be fetched, listed twice as a
    seed: the first copy leaves it unvisited, and the second is expanded
    again. *)
Lemma scan_step_visits_witness :
  let api := table_registry broken_db in
  let st := init_state (RS:=unit) cfg_depth1 ["XX000000"; "XX000000"]%string tt in
  queue st = ("XX000000", 0%Z) :: [("XX000000", 0%Z)] /\ "XX000000"%string ∉ scanned_companies st /\
  (0 <= max_depth cfg_depth1)%Z /\ ~ company_fetched (api:=api) cfg_depth1 "XX000000" (rs st) /\
  ("XX000000"%string ∈ scanned_companies (scan_step (api:=api) cfg_depth1 st) <->
     company_fetched (api:=api) cfg_depth1 "XX000000" (rs st)) /\
  (~ company_fetched (api:=api) cfg_depth1 "XX000000" (rs st) ->
     scanned_companies (scan_step (api:=api) cfg_depth1 st) = scanned_companies st /\
     net (scan_step (api:=api) cfg_depth1 st) = net st /\
     queue (scan_step (api:=api) cfg_depth1 st) = [("XX000000", 0%Z)] /\
     forall d' q', [("XX000000", 0%Z)] = ("XX000000"%string, d') :: q' -> (d' <= max_depth cfg_depth1)%Z ->
       scan_step (api:=api) cfg_depth1 (scan_step (api:=api) cfg_depth1 st) =
       scan_company (api:=api) cfg_depth1 "XX000000" d' (with_queue q' (scan_step (api:=api) cfg_depth1 st))).
Proof.
  cbv zeta.
  assert (H1 : queue (init_state (RS:=unit) cfg_depth1 ["XX000000"; "XX000000"]%string tt) =
    ("XX000000", 0%Z) :: [("XX000000", 0%Z)]) by reflexivity.
  assert (H2 : "XX000000"%string ∉ scanned_companies
    (init_state (RS:=unit) cfg_depth1 ["XX000000"; "XX000000"]%string tt)) by set_solver.
  assert (H3 : (0 <= max_depth cfg_depth1)%Z) by (vm_compute; discriminate).
  assert (H4 : ~ company_fetched (api:=table_registry broken_db) cfg_depth1 "XX000000" tt).
  { intros (p & r1 & offs & r2 & _ & _ & Ho). vm_compute in Ho. discriminate. }
  pose proof (scan_step_visits (api:=table_registry broken_db) cfg_depth1 _ "XX000000" 0 [("XX000000", 0%Z)] H1 H2 H3) as [H5 H6].
  split_and!; [exact H1|exact H2|exact H3|exact H4|exact H5|exact H6].
Defined.

(** An officer whose search raises is not added to [scanned_officers]
    (the exception skips line 208), so the same identity is searched again
    at the next company it directs. *)
Example scenario_failed_search_repeated :
  option_map (fun st => ((rs st).2, scanned_officers st))
    (run_traced unsearchable_db cfg_depth1 ["AA111111"; "BB222222"]%string) =
  Some ([CallProfile "AA111111"; CallOfficers "AA111111"; CallSearch "JANE DOE";
         CallProfile "BB222222"; CallOfficers "BB222222"; CallSearch "JANE DOE"], ∅).
Proof. vm_compute. reflexivity. Qed.

(** ** The general theorems at the shared-director run *)

Definition smith_api : Registry unit := table_registry (smith_db "2020-01-01").
Definition smith_seeds : list string := ["AA111111"]%string.

Definition smith_final : scan_state unit :=
  Eval vm_compute in
    match run (smith_db "2020-01-01") cfg_depth1 smith_seeds with
    | Some st => st
    | None => ScanState [] ∅ ∅ (init_network [] 0) [] tt
    end.

Definition smith_traced : scan_state (unit * list api_call) :=
  Eval vm_compute in
    match run_traced (smith_db "2020-01-01") cfg_depth1 smith_seeds with
    | Some st => st
    | None => ScanState [] ∅ ∅ (init_network [] 0) [] (tt, [])
    end.

Lemma scan_network_visited_once_witness : visited_ok smith_final.
Proof.
  apply (@scan_network_visited_once unit smith_api cfg_depth1 100 smith_seeds tt).
  vm_compute. reflexivity.
Defined.

Lemma scan_network_within_cap_witness :
  cap_ok cfg_depth1 smith_final /\ (Z.of_nat (length (companies (net smith_final))) <= Z.max 0 (max_companies cfg_depth1))%Z.
Proof.
  apply (@scan_network_within_cap unit smith_api cfg_depth1 100 smith_seeds tt).
  vm_compute. reflexivity.
Defined.

Lemma scan_network_depth_bounds_witness : records_ok cfg_depth1 smith_final.
Proof.
  apply (@scan_network_depth_bounds unit smith_api cfg_depth1 100 smith_seeds tt).
  vm_compute. reflexivity.
Defined.

Lemma scan_network_bfs_order_witness : bfs_ok smith_final.
Proof.
  apply (@scan_network_bfs_order unit smith_api cfg_depth1 100 smith_seeds tt).
  vm_compute. reflexivity.
Defined.

Lemma scan_network_no_deep_expansion_witness : log_ok cfg_depth1 smith_final.
Proof.
  apply (@scan_network_no_deep_expansion unit smith_api cfg_depth1 100 smith_seeds tt).
  vm_compute. reflexivity.
Defined.

Lemma scan_network_connection_depths_witness : connections_ok smith_final.
Proof.
  apply (@scan_network_connection_depths unit smith_api cfg_depth1 100 smith_seeds tt).
  vm_compute. reflexivity.
Defined.

Lemma scan_network_statistics_witness :
  total_companies (stats (net smith_final)) = size (scanned_companies smith_final) /\
  total_directors (stats (net smith_final)) = length (directors (net smith_final)) /\
  total_connections (stats (net smith_final)) = length (connections (net smith_final)) /\
  depth_reached (stats (net smith_final)) =
    max_list (cr_depth <$> dict_values (companies (net smith_final))).
Proof.
  apply (@scan_network_statistics unit smith_api cfg_depth1 100 smith_seeds tt).
  vm_compute. reflexivity.
Defined.

Lemma scan_network_no_corporate_search_witness : no_corporate_search (rs smith_traced).2.
Proof.
  apply (scan_network_no_corporate_search (table_registry (smith_db "2020-01-01"))
           cfg_depth1 100 smith_seeds tt).
  vm_compute. reflexivity.
Defined.

Lemma find_company_clusters_spec_witness :
  exists cls, find_company_clusters elements (net smith_final) = Some cls /\
    Forall (fun K => 1 < length K) cls /\
    NoDup (concat cls) /\
    (forall K a b, K ∈ cls -> a ∈ K -> b ∈ K ->
       rtc (share_director (connections (net smith_final))) a b) /\
    (forall a b, a ∈ dict_keys (companies (net smith_final)) -> a <> b ->
       share_director (connections (net smith_final)) a b ->
       exists K, K ∈ cls /\ a ∈ K /\ b ∈ K) /\
    sorted_desc length cls.
Proof.
  apply (find_company_clusters_spec elements (net smith_final)).
  intros s x. apply elem_of_elements.
Defined.

(** The clusters of the shared-director run: AA111111 and BB222222
    share JOHN SMITH and form the one cluster. *)
Example scenario_clusters :
  find_company_clusters elements (net smith_final) = Some [["AA111111"; "BB222222"]%string].
Proof. vm_compute. reflexivity. Qed.
