(* ===== verification/BatchProcessor.v ===== *)
(** * The batch processor: [BatchProcessor] of src/core/batch_processor.py

    [process_companies] runs [_process_single_company] on each company of a
    list, records its result or its exception, saves the results dictionary
    to a checkpoint file every [Config.CHECKPOINT_INTERVAL] companies and at
    the end, and skips, when the checkpoint file already exists, the
    companies it lists as processed; [resume_from_checkpoint] restarts from
    such a file.  [_process_single_company] fetches the profile and the
    filing history through the client, keeps the relevant filings,
    downloads and parses the first ten of them and runs the mismatch
    detector on the parsed documents.

    The state of the registry client is an arbitrary type [St] threaded
    through every call (instantiated by [ApiClient.client]); the client's
    calls, the document parser and the network scanner are parameters of
    the sections, so the loop is modelled once for every client.  The
    checkpoint file is a value [option batch] ([None]: the file does not
    exist): [json.dump] followed by [json.load] gives back the dictionary.
    A crash of the process is the loop cut after some iteration, with the
    file as it was last written.  The file ends with the bounds of
    [_process_single_company]; the properties of the loop are in
    [BatchProps]. *)

From Stdlib Require Import QArith.
From S2P Require Import Prelude PyString Registry ApiClient Mismatch DocumentParser.

(** [result] is the outcome of a call that may raise; the detector's report
    is [Mismatch.result]. *)
Local Notation result := Prelude.result.

(** [Config.CHECKPOINT_INTERVAL], src/core/config.py:52. *)
Definition CHECKPOINT_INTERVAL : nat := 10.

(** ** [_filter_relevant_filings], lines 208-236 *)

Definition relevant_categories : list string :=
  ["incorporation"; "change-of-name"; "reregistration"; "resolution"].

Definition is_relevant (f : filing) : bool :=
  let category := default "" (f_category f) in
  let description := lower_t (tx (default "" (f_description f))) in
  bool_decide (category ∈ relevant_categories) ||
  contains_t (tx "change of name") description || contains_t (tx "changed its name") description.

Definition filter_relevant_filings (filings : list filing) : list filing := filter is_relevant filings.

(** [links.get('document_metadata', '').split('/')[-1]] (line 176). *)
Definition document_id_of (f : filing) : string :=
  default "" (last (str_split "/" (default "" (f_document_metadata f)))).

(** The dictionary [_process_single_company] returns (lines 152-204). *)
Record company_result := CompanyResult {
  cr_company_number : string;
  cr_processed_at : string;
  cr_company_name : option string;
  cr_company_status : option string;
  cr_total_filings : nat;
  cr_relevant_filings : nat;
  cr_parsed_documents : nat;
  cr_mismatches : Mismatch.result
}.

(** A state-and-exception computation over the client state [S]. *)
Definition SM (S A : Type) : Type := S -> result A * S.

Section Single.
Context {St P date : Type}.
(** [api_client.get_company_profile], [get_filing_history] and
    [download_document(document_id, company_number=...)]. *)
Variable get_company_profile : string -> SM St P.
Variable get_filing_history : string -> SM St (list filing).
Variable download_document : string -> string -> SM St string.
(** [profile.get('company_name')], [profile.get('company_status')] and the
    profile as [MismatchDetector] reads it. *)
Variable profile_name profile_status : P -> option string.
Variable profile_company : P -> company.
(** [DocumentParser.parse_document] on the file at a path. *)
Variable parse_document : string -> bool -> bool -> bool -> parse_result.
(** The parameters of [detect_mismatches]. *)
Variable parse_date : string -> option date.
Variable compare_dates : date -> date -> option Z -> bool.
Variable isoformat : date -> string.
Variable days_between : date -> date -> Z.
Variable ratio : text -> text -> Q.
(** [datetime.now().isoformat()]. *)
Variable now : string.

(** The loop of lines 172-193 over the relevant filings: a filing without
    a document id is skipped, an exception of the download is printed and
    the filing skipped. *)
Fixpoint parse_filings (company_number : string) (use_ai : bool) (filings : list filing) : SM St (list parse_result) :=
  fun s =>
    match filings with
    | [] => (Ok [], s)
    | f :: fs =>
        let document_id := document_id_of f in
        if truthy_str document_id then
          match download_document document_id company_number s with
          | (Ok pdf_path, s1) =>
              match parse_filings company_number use_ai fs s1 with
              | (Ok rest, s2) => (Ok (parse_document pdf_path (negb use_ai) use_ai (negb use_ai) :: rest), s2)
              | (Err e, s2) => (Err e, s2)
              end
          | (Err _, s1) => parse_filings company_number use_ai fs s1
          end
        else parse_filings company_number use_ai fs s
    end.

(** [_process_single_company], lines 141-206: an exception of the profile
    or filing-history call leaves the method. *)
Definition process_single_company (company_number : string) (use_ai : bool) : SM St company_result := fun s =>
  match get_company_profile company_number s with
  | (Err e, s1) => (Err e, s1)
  | (Ok profile, s1) =>
      match get_filing_history company_number s1 with
      | (Err e, s2) => (Err e, s2)
      | (Ok filing_history, s2) =>
          let relevant_filings := filter_relevant_filings filing_history in
          match parse_filings company_number use_ai (take 10 relevant_filings) s2 with
          | (Err e, s3) => (Err e, s3)
          | (Ok parsed_documents, s3) =>
              (Ok (CompanyResult company_number now (profile_name profile) (profile_status profile)
                     (length filing_history) (length relevant_filings) (length parsed_documents)
                     (detect_mismatches parse_date compare_dates isoformat days_between ratio now
                        (profile_company profile) filing_history (to_parsed_doc <$> parsed_documents))), s3)
          end
      end
  end.
End Single.

(** ** [process_companies], lines 34-139 *)

(** An entry of [results['errors']]. *)
Inductive error_info :=
| CompanyError (company_number error timestamp : string)
| NetworkScanError (error timestamp : string).

(** The results dictionary, which is also the content of the checkpoint
    file (lines 65-73 and 132-134). *)
Record batch (N : Type) := Batch {
  b_started_at : string;
  b_company_numbers : list string;
  b_scan_network : bool;
  b_processed : list string;
  b_results : list company_result;
  b_network : option N;
  b_errors : list error_info;
  b_completed_at : option string;
  b_total_processed : option nat;
  b_total_errors : option nat
}.
Arguments Batch {N} _ _ _ _ _ _ _ _ _ _.
Arguments b_started_at {N} _.
Arguments b_company_numbers {N} _.
Arguments b_scan_network {N} _.
Arguments b_processed {N} _.
Arguments b_results {N} _.
Arguments b_network {N} _.
Arguments b_errors {N} _.
Arguments b_completed_at {N} _.
Arguments b_total_processed {N} _.
Arguments b_total_errors {N} _.

Section Loop.
Context {St N : Type}.
(** [self._process_single_company(company_number, use_ai=use_ai)]. *)
Variable process_one : string -> bool -> SM St company_result.
(** [self.network_scanner.scan_network(seed_companies, max_depth, active_only)]. *)
Variable scan_network : list string -> Z -> bool -> SM St N.
Variable now : string.

Definition record_result (r : batch N) (n : string) (cr : company_result) : batch N :=
  Batch (b_started_at r) (b_company_numbers r) (b_scan_network r) (b_processed r ++ [n]) (b_results r ++ [cr])
    (b_network r) (b_errors r) (b_completed_at r) (b_total_processed r) (b_total_errors r).

Definition record_error (r : batch N) (err : error_info) : batch N :=
  Batch (b_started_at r) (b_company_numbers r) (b_scan_network r) (b_processed r) (b_results r)
    (b_network r) (b_errors r ++ [err]) (b_completed_at r) (b_total_processed r) (b_total_errors r).

(** The loop state: the results in memory, the checkpoint file, the client. *)
Definition loop_state : Type := batch N * option (batch N) * St.

(** One iteration of lines 78-108, at index [idx]; [processed] is the set
    read from the checkpoint, which the loop does not update. *)
Definition batch_iter (use_ai : bool) (processed : gset string) (idx : nat) (company_number : string)
    (st : loop_state) : loop_state :=
  let '(r, file, s) := st in
  if bool_decide (company_number ∈ processed) then st
  else
    match process_one company_number use_ai s with
    | (Ok cr, s1) =>
        let r1 := record_result r company_number cr in
        (r1, if Nat.eqb (S idx mod CHECKPOINT_INTERVAL) 0 then Some r1 else file, s1)
    | (Err e, s1) => (record_error r (CompanyError company_number (exn_msg e) now), file, s1)
    end.

Fixpoint batch_loop (use_ai : bool) (processed : gset string) (idx : nat) (ns : list string)
    (st : loop_state) : loop_state :=
  match ns with
  | [] => st
  | n :: ns' => batch_loop use_ai processed (S idx) ns' (batch_iter use_ai processed idx n st)
  end.

(** Lines 59-74: the dictionary read from the checkpoint, or a new one. *)
Definition initial_results (company_numbers : list string) (scan : bool) (file : option (batch N)) : batch N :=
  match file with
  | Some r => r
  | None => Batch now company_numbers scan [] [] None [] None None None
  end.

Definition processed_set (file : option (batch N)) : gset string :=
  match file with Some r => list_to_set (b_processed r) | None => ∅ end.

(** Lines 110-129. *)
Definition network_scan_step (scan : bool) (company_numbers : list string) (network_depth : Z) (active_only : bool)
    (r : batch N) (s : St) : batch N * St :=
  if scan then
    match scan_network company_numbers network_depth active_only s with
    | (Ok net, s1) =>
        (Batch (b_started_at r) (b_company_numbers r) (b_scan_network r) (b_processed r) (b_results r)
           (Some net) (b_errors r) (b_completed_at r) (b_total_processed r) (b_total_errors r), s1)
    | (Err e, s1) => (record_error r (NetworkScanError (exn_msg e) now), s1)
    end
  else (r, s).

(** Lines 131-134. *)
Definition finalize_results (r : batch N) : batch N :=
  Batch (b_started_at r) (b_company_numbers r) (b_scan_network r) (b_processed r) (b_results r)
    (b_network r) (b_errors r) (Some now) (Some (length (b_processed r))) (Some (length (b_errors r))).

(** [process_companies]: the results, the checkpoint file after the final
    save (line 137) and the client state. *)
Definition process_companies (company_numbers : list string) (scan : bool) (network_depth : Z)
    (active_only use_ai : bool) (file : option (batch N)) (s : St) : batch N * option (batch N) * St :=
  let r0 := initial_results company_numbers scan file in
  let '(r1, _, s1) := batch_loop use_ai (processed_set file) 0 company_numbers (r0, file, s) in
  let '(r2, s2) := network_scan_step scan company_numbers network_depth active_only r1 s1 in
  let r3 := finalize_results r2 in
  (r3, Some r3, s2).

(** [resume_from_checkpoint], lines 250-279, on the file at
    [checkpoint_file]: the settings other than the company list and
    [scan_network] take [process_companies]' defaults. *)
Definition resume_from_checkpoint (checkpoint_file : string) (file : option (batch N)) (s : St)
    : result (batch N * option (batch N) * St) :=
  match file with
  | None => Err (Exn ("Checkpoint file not found: " +:+ checkpoint_file))
  | Some cp => Ok (process_companies (b_company_numbers cp) (b_scan_network cp) 1 true false file s)
  end.
End Loop.

(** ** [get_processing_summary], lines 281-323 *)

(** The ['type'] of each issue of the detector (mismatch_detector.py). *)
Definition issue_type (i : issue) : string :=
  match i with
  | NameMismatch _ _ _ _ _ _ => "name_mismatch"
  | IncorporationDateMismatch _ _ _ _ => "incorporation_date_mismatch"
  | NameChangeDateMismatch _ _ _ _ _ _ => "name_change_date_mismatch"
  | MultipleNameChanges _ _ _ _ => "multiple_name_changes"
  | NamesMissingFromOverview _ _ _ _ => "names_in_filings_missing_from_overview"
  end.

Record processing_summary := ProcessingSummary {
  ps_total_companies : nat;
  ps_processed_companies : nat;
  ps_total_errors : nat;
  ps_total_mismatches : nat;
  ps_companies_with_mismatches : nat;
  ps_mismatch_types : pydict string nat;
  ps_network : option (Z * Z * Z)
}.

(** Lines 310-312 for one mismatch. *)
Definition count_type (types : pydict string nat) (i : issue) : pydict string nat :=
  dict_set types (issue_type i) (default 0 (dict_get types (issue_type i)) + 1).

(** Lines 301-312 for one company. *)
Definition add_company (ps : processing_summary) (cr : company_result) : processing_summary :=
  let mismatches := r_mismatches (cr_mismatches cr) in
  match mismatches with
  | [] => ps
  | _ => ProcessingSummary (ps_total_companies ps) (ps_processed_companies ps) (ps_total_errors ps)
           (ps_total_mismatches ps + length mismatches) (S (ps_companies_with_mismatches ps))
           (fold_left count_type mismatches (ps_mismatch_types ps)) (ps_network ps)
  end.

Section Summary.
Context {N : Type}.
(** [network['statistics']]: total companies, directors and connections. *)
Variable network_statistics : N -> Z * Z * Z.

Definition get_processing_summary (r : batch N) : processing_summary :=
  let ps0 := ProcessingSummary (length (b_company_numbers r)) (default 0 (b_total_processed r))
               (default 0 (b_total_errors r)) 0 0 [] None in
  let ps1 := fold_left add_company (b_results r) ps0 in
  ProcessingSummary (ps_total_companies ps1) (ps_processed_companies ps1) (ps_total_errors ps1)
    (ps_total_mismatches ps1) (ps_companies_with_mismatches ps1) (ps_mismatch_types ps1)
    (network_statistics <$> b_network r).
End Summary.

(** ** [_process_single_company] *)

Section SingleProps.
Context {St P date : Type}.
Variable get_company_profile : string -> SM St P.
Variable get_filing_history : string -> SM St (list filing).
Variable download_document : string -> string -> SM St string.
Variable profile_name profile_status : P -> option string.
Variable profile_company : P -> company.
Variable parse_document : string -> bool -> bool -> bool -> parse_result.
Variable parse_date : string -> option date.
Variable compare_dates : date -> date -> option Z -> bool.
Variable isoformat : date -> string.
Variable days_between : date -> date -> Z.
Variable ratio : text -> text -> Q.
Variable now : string.

Local Notation process_single := (process_single_company get_company_profile get_filing_history
  download_document profile_name profile_status profile_company parse_document parse_date compare_dates
  isoformat days_between ratio now).

Lemma parse_filings_length n u fs s ps s' :
  parse_filings download_document parse_document n u fs s = (Ok ps, s') -> length ps <= length fs.
Proof.
  revert s ps s'. induction fs as [|f fs IH]; intros s ps s'; cbn [parse_filings].
  - intros [= <- _]. done.
  - case_match; [|intros Hr; apply IH in Hr; cbn; lia].
    destruct (download_document _ _ _) as [[p|e] s1]; [|intros Hr; apply IH in Hr; cbn; lia].
    destruct (parse_filings _ _ _ _ _ s1) as [[rest|e] s2] eqn:E; [|done].
    intros [= <- _]. apply IH in E. cbn. lia.
Qed.

(** [_process_single_company] stamps its result with the company number. *)
Lemma process_single_company_number n u s cr s' :
  process_single n u s = (Ok cr, s') -> cr_company_number cr = n.
Proof. unfold process_single_company. repeat case_match; by intros [= <- _]. Qed.

(** C20: [_process_single_company] parses at most ten documents, no more
    than the relevant filings, which are among the filing history. *)
Theorem process_single_company_bounds n u s cr s' :
  process_single_company get_company_profile get_filing_history download_document profile_name profile_status
    profile_company parse_document parse_date compare_dates isoformat days_between ratio now n u s = (Ok cr, s') ->
  cr_parsed_documents cr <= 10 /\ cr_parsed_documents cr <= cr_relevant_filings cr <= cr_total_filings cr.
Proof.
  unfold process_single_company.
  destruct (get_company_profile n s) as [[prof|e] s1]; [|done].
  destruct (get_filing_history n s1) as [[fh|e] s2]; [|done].
  destruct (parse_filings _ _ _ _ _ s2) as [[ps|e] s3] eqn:E; [|done].
  intros [= <- _]. cbn. apply parse_filings_length in E. rewrite length_take in E.
  unfold filter_relevant_filings in *. pose proof (length_filter is_relevant fh). lia.
Qed.
End SingleProps.
