(* ===== verification/Config.v ===== *)
(** * The configuration: src/core/config.py

    The class attributes of [Config] are computed once, from the process
    environment, when the module is imported; [Config.from_env] computes
    the record of all of them from the environment (a dict from variable
    to value) and the directory of config.py ([Path(__file__).parent]).
    The integer variables go through [int()], which raises [ValueError]
    on a value that is not a decimal literal, so the import can fail:
    [from_env] returns a [result].  [Path(...)] normalises a path; the
    directories are [str] of their paths.  [ensure_directories] creates
    the three working directories and their parents in a set of
    existing directories. *)

From S2P Require Import Prelude PyString RateLimiter ApiClient BatchProcessor.

Module Config.

(** ** [int()] of a string, base 10 *)

Definition digit_val (c : ascii) : Z := (Z.of_nat (nat_of_ascii c) - 48)%Z.

(** The digits of a literal, an underscore allowed only between two
    digits; [after_digit] says the previous character was a digit. *)
Fixpoint int_digits (after_digit : bool) (acc : Z) (l : text) : option Z :=
  match l with
  | [] => if after_digit then Some acc else None
  | c :: l' =>
      if is_digit c then int_digits true (acc * 10 + digit_val c)%Z l'
      else if bool_decide (c = "_"%char) && after_digit then int_digits false acc l'
      else None
  end.

(** [int(s)]: surrounding whitespace stripped, an optional sign. *)
Definition py_int (s : string) : result Z :=
  let r := match strip_t (tx s) with
           | c :: l =>
               if bool_decide (c = "-"%char) then Z.opp <$> int_digits false 0 l
               else if bool_decide (c = "+"%char) then int_digits false 0 l
               else int_digits false 0 (c :: l)
           | [] => None
           end in
  match r with
  | Some z => Ok z
  | None => Err (Exn ("invalid literal for int() with base 10: '" +:+ s +:+ "'"))
  end.

(** ** Paths *)

Fixpoint leading_slashes (s : string) : nat :=
  match s with
  | String c s' => if bool_decide (c = "/"%char) then S (leading_slashes s') else O
  | EmptyString => O
  end.

(** A component [str(Path(s))] keeps: not empty, not [.]. *)
Definition kept_part (p : string) : Prop := p <> ""%string /\ p <> "."%string.

(** A component of a normalised path. *)
Definition good_part (p : string) : Prop := slash_free p = true /\ kept_part p.

(** [str(Path(s))]: empty and [.] components dropped, a root of one
    slash kept, a root of exactly two slashes kept as it is (POSIX),
    ["."] for the empty path. *)
Definition path_norm (s : string) : string :=
  let parts := filter kept_part (str_split "/" s) in
  let root := match leading_slashes s with O => "" | 2 => "//" | _ => "/" end%string in
  match root, parts with
  | EmptyString, [] => "."
  | _, _ => root +:+ String.concat "/" parts
  end.

(** [Path(a) / b]: an absolute [b] replaces [a]. *)
Definition path_join (a b : string) : string :=
  match b with
  | String "/" _ => path_norm b
  | _ => path_norm (a +:+ "/" +:+ b)
  end.

(** ** The class attributes, lines 11-62 *)

Record t := Make {
  COMPANIES_HOUSE_API_KEY : string;
  OPENAI_API_KEY : string;
  XAI_API_KEY : string;
  OPENCORPORATES_API_KEY : string;
  RATE_LIMIT_REQUESTS : Z;
  RATE_LIMIT_PERIOD : Z;
  FLASK_SECRET_KEY : string;
  FLASK_DEBUG : bool;
  FLASK_HOST : string;
  FLASK_PORT : Z;
  BASE_DIR : string;
  DATA_DIR : string;
  CACHE_DIR : string;
  EXPORTS_DIR : string;
  TEMPLATES_DIR : string;
  STATIC_DIR : string;
  CH_BASE_URL : string;
  CH_DOCUMENT_URL : string;
  OC_BASE_URL : string;
  GITHUB_TOKEN : option string;
  MAX_RETRIES : Z;
  RETRY_DELAY : Z;
  BATCH_SIZE : Z;
  CHECKPOINT_INTERVAL : Z;
  OCR_LANGUAGE : string;
  PDF_DPI : Z;
  AI_PROVIDER : string;
  XAI_MODEL : string;
  XAI_BASE_URL : string
}.

Section FromEnv.
(** [os.environ] after [load_dotenv()], and [Path(__file__).parent]. *)
Variable env : pydict string string.
Variable base_dir : string.

(** [os.getenv(k, d)] *)
Definition getenv (k d : string) : string := default d (dict_get env k).

(** [int(os.getenv(k, d))] with an integer default [d]. *)
Definition getenv_int (k : string) (d : Z) : result Z :=
  match dict_get env k with None => Ok d | Some s => py_int s end.

(** [Path(os.getenv(k, BASE_DIR / sub))]. *)
Definition getenv_dir (k sub : string) : string :=
  match dict_get env k with None => path_join (path_norm base_dir) sub | Some s => path_norm s end.

Definition from_env : result t :=
  match getenv_int "RATE_LIMIT_REQUESTS" 600, getenv_int "RATE_LIMIT_PERIOD" 300, getenv_int "FLASK_PORT" 5000 with
  | Err e, _, _ | Ok _, Err e, _ | Ok _, Ok _, Err e => Err e
  | Ok requests, Ok period, Ok port =>
      let base := path_norm base_dir in
      Ok (Make
        (getenv "COMPANIES_HOUSE_API_KEY" "") (getenv "OPENAI_API_KEY" "") (getenv "XAI_API_KEY" "")
        (getenv "OPENCORPORATES_API_KEY" "")
        requests period
        (getenv "FLASK_SECRET_KEY" "dev-secret-key-change-in-production")
        (bool_decide (lower_t (tx (getenv "FLASK_DEBUG" "False")) = tx "true"))
        (getenv "FLASK_HOST" "0.0.0.0") port
        base (getenv_dir "DATA_DIR" "data") (getenv_dir "CACHE_DIR" "cache") (getenv_dir "EXPORTS_DIR" "exports")
        (path_join base "templates") (path_join base "static")
        "https://api.company-information.service.gov.uk"
        "https://document-api.company-information.service.gov.uk"
        "https://api.opencorporates.com/v0.4"
        (dict_get env "GITHUB_TOKEN")
        3 2 50 10 "eng" 300
        (getenv "AI_PROVIDER" "xai") (getenv "XAI_MODEL" "grok-2-vision-1212") "https://api.x.ai/v1")
  end.
End FromEnv.

(** ** [ensure_directories], lines 64-68 *)

(** The directories [mkdir(parents=True)] creates for a path: the path
    and every ancestor but the root. *)
Fixpoint ancestors_acc (pre : string) (parts : list string) : list string :=
  match parts with
  | [] => []
  | p :: ps => let d := pre +:+ p in d :: ancestors_acc (d +:+ "/") ps
  end.

Definition mkdir_parents (d : string) (dirs : gset string) : gset string :=
  let n := path_norm d in
  let root := match n with String "/" _ => "/" | _ => "" end%string in
  dirs ∪ list_to_set (ancestors_acc root (filter (fun p => p <> ""%string) (str_split "/" n))).

Definition ensure_directories (c : t) (dirs : gset string) : gset string :=
  mkdir_parents (EXPORTS_DIR c) (mkdir_parents (CACHE_DIR c) (mkdir_parents (DATA_DIR c) dirs)).

(** ** [int()] reads back [str()] *)

Lemma tx_cons c s : tx (String c s) = c :: tx s.
Proof. reflexivity. Qed.

Lemma digit_char m :
  (m < 10)%nat -> is_digit (ascii_of_nat (48 + m)) = true /\ is_space (ascii_of_nat (48 + m)) = false /\
  digit_val (ascii_of_nat (48 + m)) = Z.of_nat m.
Proof. intros Hm. do 10 (destruct m as [|m]; [split_and!; reflexivity|]). lia. Qed.

Lemma digit_mod n : (0 <= n)%Z -> (Z.to_nat (n mod 10) < 10)%nat /\ Z.of_nat (Z.to_nat (n mod 10)) = (n mod 10)%Z.
Proof. intros Hn. pose proof (Z.mod_pos_bound n 10 ltac:(lia)). split; lia. Qed.

(** The digits [str(n)] writes in front of [acc] add up to [n]. *)
Lemma int_digits_of_pos fuel : forall n acc b v,
  (0 <= n < 10 ^ Z.of_nat fuel)%Z -> fuel <> O ->
  exists k : nat, int_digits b v (tx (digits_of_pos fuel n acc)) =
                  int_digits true (v * 10 ^ Z.of_nat k + n)%Z (tx acc).
Proof.
  induction fuel as [|f IH]; intros n acc b v Hn Hf; [done|]. cbn [digits_of_pos].
  destruct (digit_mod n ltac:(lia)) as [Hm Hm'].
  destruct (digit_char _ Hm) as (Hd & _ & Hv).
  rewrite Nat2Z.inj_succ, Z.pow_succ_r in Hn by lia.
  destruct (Z.ltb_spec n 10) as [Hlt|Hge].
  - exists 1%nat. rewrite tx_cons. cbn [int_digits]. rewrite Hd, Hv, Hm'.
    rewrite Z.mod_small by lia. f_equal; lia.
  - destruct f as [|f]; [cbn in Hn; lia|].
    destruct (IH (n / 10)%Z (String (ascii_of_nat (48 + Z.to_nat (n mod 10))) acc) b v) as [k Hk];
      [split; [apply Z.div_pos; lia|apply Z.div_lt_upper_bound; lia]|done|].
    exists (S k). rewrite Hk, tx_cons. cbn [int_digits]. rewrite Hd, Hv, Hm'. f_equal.
    rewrite Nat2Z.inj_succ, Z.pow_succ_r by lia. pose proof (Z.div_mod n 10 ltac:(lia)). lia.
Qed.

Lemma digits_of_pos_chars fuel : forall n acc,
  Forall (fun c => is_space c = false) (tx acc) -> (0 <= n)%Z ->
  Forall (fun c => is_space c = false) (tx (digits_of_pos fuel n acc)) /\
  (fuel <> O -> exists d l, tx (digits_of_pos fuel n acc) = d :: l /\ is_digit d = true).
Proof.
  induction fuel as [|f IH]; intros n acc Hacc Hn; [done|]. cbn [digits_of_pos].
  destruct (digit_mod n Hn) as [Hm _]. destruct (digit_char _ Hm) as (Hd & Hs & _).
  assert (Hacc' : Forall (fun c => is_space c = false) (tx (String (ascii_of_nat (48 + Z.to_nat (n mod 10))) acc)))
    by (rewrite tx_cons; by constructor).
  destruct (n <? 10)%Z.
  - split; [done|]. intros _. rewrite tx_cons. eauto.
  - destruct (IH (n / 10)%Z _ Hacc' ltac:(apply Z.div_pos; lia)) as [H1 H2]. split; [done|].
    intros _. destruct f as [|f]; [cbn [digits_of_pos]; rewrite tx_cons; eauto|]. by apply H2.
Qed.

Lemma pow10_log2 n : (0 <= n -> n < 10 ^ Z.of_nat (S (Z.to_nat (Z.log2 n))))%Z.
Proof.
  intros Hn. rewrite Nat2Z.inj_succ, Z2Nat.id by apply Z.log2_nonneg.
  destruct (Z.eq_dec n 0%Z) as [->|Hn0]; [cbn; lia|].
  apply Z.lt_le_trans with (2 ^ Z.succ (Z.log2 n))%Z; [apply Z.log2_spec; lia|].
  apply Z.pow_le_mono_l. lia.
Qed.

Lemma strip_nonspace l : l <> [] -> Forall (fun c => is_space c = false) l -> strip_t l = l.
Proof. intros Hne Hf. apply (strip_join [l]). repeat constructor; done. Qed.

Lemma int_digits_nat n : (0 <= n)%Z ->
  exists d l, tx (digits_of_pos (S (Z.to_nat (Z.log2 n))) n "") = d :: l /\ is_digit d = true /\
    Forall (fun c => is_space c = false) (d :: l) /\ int_digits false 0 (d :: l) = Some n.
Proof.
  intros Hn.
  destruct (digits_of_pos_chars (S (Z.to_nat (Z.log2 n))) n "" ltac:(constructor) Hn) as [Hc Hshape].
  destruct (Hshape ltac:(done)) as (d & l & Hdl & Hd). rewrite Hdl in Hc.
  destruct (int_digits_of_pos (S (Z.to_nat (Z.log2 n))) n "" false 0 ltac:(split; [lia|by apply pow10_log2]) ltac:(done))
    as [k Hk].
  exists d, l. split_and!; [done|done|done|]. rewrite <- Hdl, Hk. cbn. f_equal; lia.
Qed.

(** [int(str(n))] is [n] for every integer: the digits [str] writes
    for the absolute value, behind a minus sign for a negative number,
    are read back by the decimal literal parser of [int()]. *)
Theorem py_int_str_of_Z z : py_int (str_of_Z z) = Ok z.
Proof.
  unfold py_int, str_of_Z. destruct (Z.ltb_spec z 0) as [Hz|Hz].
  - rewrite Z.abs_neq by lia.
    destruct (int_digits_nat (- z) ltac:(lia)) as (d & l & Hdl & Hd & Hc & Hv).
    rewrite tx_cons, Hdl, strip_nonspace by (try done; by constructor).
    rewrite bool_decide_true by done. cbn [fmap option_fmap option_map]. rewrite Hv. cbn. f_equal. lia.
  - rewrite Z.abs_eq by lia.
    destruct (int_digits_nat z Hz) as (d & l & Hdl & Hd & Hc & Hv).
    rewrite Hdl, strip_nonspace by done.
    rewrite !bool_decide_false by (intros ->; discriminate Hd). by rewrite Hv.
Qed.

(** ** [str(Path(str(Path(s))))] is [str(Path(s))] *)


Lemma parts_good s : Forall good_part (filter kept_part (str_split "/" s)).
Proof.
  pose proof (str_split_free s) as Hf. induction Hf as [|p ps Hp _ IH]; [constructor|].
  rewrite filter_cons. case_decide; [by constructor|done].
Qed.

Lemma good_kept P : Forall good_part P -> Forall kept_part P.
Proof. intros HP. eapply Forall_impl; [exact HP|]. by intros p [_ ?]. Qed.

Lemma split_concat_kept P : Forall good_part P -> filter kept_part (str_split "/" (String.concat "/" P)) = P.
Proof.
  intros HP. destruct P as [|p ps]; [reflexivity|].
  rewrite str_split_concat by (done || (eapply Forall_impl; [exact HP|]; by intros ? [? _])).
  by apply filter_all, good_kept.
Qed.

Lemma leading_concat P : Forall good_part P -> leading_slashes (String.concat "/" P) = O.
Proof.
  intros HP. destruct P as [|[|c p] ps]; [done| |].
  - apply Forall_cons in HP as [[_ [Hk _]] _]. done.
  - apply Forall_cons in HP as [[Hs _] _]. cbn [slash_free] in Hs. apply andb_true_iff in Hs as [Hc _].
    apply negb_true_iff in Hc. destruct ps; cbn [String.concat]; rewrite ?str_app_cons; cbn; by rewrite Hc.
Qed.

Lemma norm_rooted P : Forall good_part P ->
  path_norm ("/" +:+ String.concat "/" P) = "/" +:+ String.concat "/" P /\
  path_norm ("//" +:+ String.concat "/" P) = "//" +:+ String.concat "/" P.
Proof.
  intros HP. unfold path_norm. rewrite !str_app_cons, !str_app_nil. cbn [leading_slashes str_split].
  rewrite !bool_decide_true by done. rewrite leading_concat by done.
  rewrite !filter_cons, !decide_False by (intros [? _]; done). by rewrite split_concat_kept.
Qed.

Lemma norm_relative P : P <> [] -> Forall good_part P -> path_norm (String.concat "/" P) = String.concat "/" P.
Proof.
  intros Hne HP. unfold path_norm. rewrite leading_concat, split_concat_kept by done.
  by destruct P.
Qed.

(** Normalising a path twice gives the path normalised once: the
    string [str(Path(s))] splits into the components it was joined from,
    all kept, and keeps its root of one or two slashes. *)
Theorem path_norm_idempotent s : path_norm (path_norm s) = path_norm s.
Proof.
  pose proof (parts_good s) as HP. pose proof (norm_rooted _ HP) as [H1 H2].
  unfold path_norm at 2 3. revert HP H1 H2. generalize (filter kept_part (str_split "/" s)) as P.
  intros P HP H1 H2. destruct (leading_slashes s) as [|[|[|k]]]; [|done|done|done].
  destruct P as [|p ps]; [reflexivity|]. by apply norm_relative.
Qed.

(** ** The import of config.py *)

(** C29: Importing config.py raises exactly when one of the variables
    [RATE_LIMIT_REQUESTS], [RATE_LIMIT_PERIOD] and [FLASK_PORT] is set to
    a value [int()] rejects; every other value of the environment is
    accepted as it is. *)
Theorem from_env_error env base :
  (exists e, from_env env base = Err e) <->
  exists k s e, k ∈ ["RATE_LIMIT_REQUESTS"; "RATE_LIMIT_PERIOD"; "FLASK_PORT"]%string /\
    dict_get env k = Some s /\ py_int s = Err e.
Proof.
  unfold from_env, getenv_int. split.
  - intros [e He].
    destruct (dict_get env "RATE_LIMIT_REQUESTS") as [s1|] eqn:E1; [destruct (py_int s1) eqn:P1|];
      [|by exists "RATE_LIMIT_REQUESTS"%string, s1, e0; set_solver|];
    (destruct (dict_get env "RATE_LIMIT_PERIOD") as [s2|] eqn:E2; [destruct (py_int s2) eqn:P2|];
      [|by exists "RATE_LIMIT_PERIOD"%string, s2, e0; set_solver|]);
    (destruct (dict_get env "FLASK_PORT") as [s3|] eqn:E3; [destruct (py_int s3) eqn:P3|];
      [|by exists "FLASK_PORT"%string, s3, e0; set_solver|]); discriminate.
  - intros (k & s & e & Hk & Hs & He). rewrite !elem_of_cons, elem_of_nil in Hk.
    destruct Hk as [->|[->|[->|[]]]]; rewrite Hs, He; eauto;
      [destruct (match dict_get env "RATE_LIMIT_REQUESTS" with Some s => py_int s | None => Ok 600%Z end); eauto|];
      destruct (match dict_get env "RATE_LIMIT_REQUESTS" with Some s => py_int s | None => Ok 600%Z end),
               (match dict_get env "RATE_LIMIT_PERIOD" with Some s => py_int s | None => Ok 300%Z end); eauto.
Qed.

(** Without environment variables, the configuration holds the
    constants the models of the rate limiter, the client and the batch
    processor are written with, the directories under the directory of
    config.py, the [xai] vision provider, no API key and no GitHub
    token. *)
Theorem from_env_defaults base :
  exists c, from_env [] base = Ok c /\
    RATE_LIMIT_REQUESTS c = RateLimiter.RATE_LIMIT_REQUESTS /\ RATE_LIMIT_PERIOD c = RateLimiter.RATE_LIMIT_PERIOD /\
    MAX_RETRIES c = Z.of_nat ApiClient.MAX_RETRIES /\ RETRY_DELAY c = ApiClient.RETRY_DELAY /\
    CH_BASE_URL c = ApiClient.CH_BASE_URL /\ CHECKPOINT_INTERVAL c = Z.of_nat BatchProcessor.CHECKPOINT_INTERVAL /\
    DATA_DIR c = path_join (path_norm base) "data" /\ CACHE_DIR c = path_join (path_norm base) "cache" /\
    EXPORTS_DIR c = path_join (path_norm base) "exports" /\
    AI_PROVIDER c = "xai"%string /\ XAI_API_KEY c = ""%string /\ COMPANIES_HOUSE_API_KEY c = ""%string /\
    GITHUB_TOKEN c = None.
Proof. eexists. split; [reflexivity|]. split_and!; reflexivity. Qed.

End Config.
