(* ===== verification/BatchProps.v ===== *)
(** * Properties of the batch processor

    The loop of [process_companies] over a list where every company
    succeeds, cut at any iteration ([batch_loop_all_ok]); from it: the
    checkpoint a crash leaves, the equivalence of a crashed and restarted
    run with a run that was never interrupted, and the liveness of
    [resume_from_checkpoint] under crashes that leave each run time to
    reach its next checkpoint.  Also the bookkeeping of a run that may
    fail (every company of a fresh run is recorded once, as a result or as
    an error), the well-formedness of every checkpoint, and the counts of
    [get_processing_summary]. *)

From Stdlib Require Import QArith.
From S2P Require Import Prelude PyString Registry ApiClient Mismatch DocumentParser BatchProcessor.

Local Notation result := Prelude.result.

(** ** Liveness over a step relation with every outcome quantified *)

Section Eventually.
Context {State : Type}.
(** [step s P]: every outcome of one step from [s] satisfies [P]. *)
Variable step : State -> (State -> Prop) -> Prop.

Inductive eventually (P : State -> Prop) (s : State) : Prop :=
| eventually_done : P s -> eventually P s
| eventually_step (mid : State -> Prop) :
    step s mid -> (forall s', mid s' -> eventually P s') -> eventually P s.
End Eventually.

(** ** Checkpoint arithmetic *)

(** The number of companies a fresh loop has saved after [idx + len]
    iterations: the last multiple of [CHECKPOINT_INTERVAL]. *)
Definition ckpt_after (idx len : nat) : nat := CHECKPOINT_INTERVAL * ((idx + len) / CHECKPOINT_INTERVAL).

Lemma ckpt_after_bounds idx len :
  ckpt_after idx len <= idx + len < ckpt_after idx len + CHECKPOINT_INTERVAL.
Proof.
  unfold ckpt_after, CHECKPOINT_INTERVAL.
  pose proof (Nat.div_mod_eq (idx + len) 10). pose proof (Nat.mod_upper_bound (idx + len) 10). lia.
Qed.

Lemma ckpt_after_mult m len : ckpt_after (CHECKPOINT_INTERVAL * m) len = CHECKPOINT_INTERVAL * m + ckpt_after 0 len.
Proof.
  unfold ckpt_after, CHECKPOINT_INTERVAL. rewrite Nat.add_0_l.
  replace (10 * m + len) with (len + m * 10) by lia. rewrite Nat.div_add by lia. lia.
Qed.

Lemma mod_ckpt_mult idx : S idx mod CHECKPOINT_INTERVAL = 0 -> exists m, S idx = CHECKPOINT_INTERVAL * m.
Proof.
  unfold CHECKPOINT_INTERVAL. intros Hm. exists (S idx / 10).
  pose proof (Nat.div_mod_eq (S idx) 10). lia.
Qed.

(** The checkpoint taken at iteration [idx] is the last one of the
    iterations [idx .. idx + len]. *)
Lemma ckpt_after_step idx len :
  (S idx mod CHECKPOINT_INTERVAL = 0 -> ckpt_after (S idx) len <= S idx -> ckpt_after (S idx) len = S idx) /\
  (S idx mod CHECKPOINT_INTERVAL <> 0 -> ckpt_after (S idx) len <= S idx -> ckpt_after (S idx) len <= idx).
Proof.
  pose proof (ckpt_after_bounds (S idx) len) as Hb. split.
  - intros (m & Hm)%mod_ckpt_mult Hle. revert Hb Hle. rewrite Hm.
    unfold ckpt_after, CHECKPOINT_INTERVAL in *.
    replace (10 * m + len) with (len + m * 10) by lia. rewrite Nat.div_add by lia. lia.
  - intros Hm Hle. destruct (decide (ckpt_after (S idx) len = S idx)) as [He|]; [|lia].
    exfalso. apply Hm. rewrite <- He. unfold ckpt_after. by rewrite Nat.mul_comm, Nat.Div0.mod_mul.
Qed.

Section LoopProps.
Context {St N : Type}.
Variable process_one : string -> bool -> SM St company_result.
Variable scan_network : list string -> Z -> bool -> SM St N.
Variable now : string.

(** The results with the companies [l] recorded with the results [crs]. *)
Definition extend (r : batch N) (l : list string) (crs : list company_result) : batch N :=
  Batch (b_started_at r) (b_company_numbers r) (b_scan_network r) (b_processed r ++ l) (b_results r ++ crs)
    (b_network r) (b_errors r) (b_completed_at r) (b_total_processed r) (b_total_errors r).

Lemma extend_nil r : extend r [] [] = r.
Proof. destruct r; unfold extend; cbn. by rewrite !app_nil_r. Qed.

Lemma extend_cons r n l cr crs : extend (record_result r n cr) l crs = extend r (n :: l) (cr :: crs).
Proof. destruct r; unfold extend, record_result; cbn. by rewrite <- !app_assoc. Qed.

(** The loop over a concatenation is the loop over the second part from
    the state the first part leaves. *)
Lemma batch_loop_app u P idx l1 l2 (st : batch N * option (batch N) * St) :
  batch_loop process_one now u P idx (l1 ++ l2) st =
  batch_loop process_one now u P (idx + length l1) l2 (batch_loop process_one now u P idx l1 st).
Proof.
  revert idx st. induction l1 as [|n l1 IH]; intros idx st; cbn [app batch_loop length]; [by rewrite Nat.add_0_r|].
  rewrite IH. by rewrite Nat.add_succ_r.
Qed.

(** Companies read from the checkpoint are skipped. *)
Lemma batch_loop_skip u P idx l (st : batch N * option (batch N) * St) :
  Forall (fun n => n ∈ P) l -> batch_loop process_one now u P idx l st = st.
Proof.
  revert idx st. induction l as [|n l IH]; intros idx [[r file] s] Hl; [done|].
  apply Forall_cons in Hl as [Hn Hl]. cbn [batch_loop]. unfold batch_iter.
  rewrite bool_decide_true by done. by apply IH.
Qed.

(** [process_companies] is the loop, the network scan and [finalize_results]. *)
Lemma process_companies_unfold L scan d a u file s :
  let st := batch_loop process_one now u (processed_set file) 0 L (initial_results now L scan file, file, s) in
  let r := finalize_results now (network_scan_step scan_network now scan L d a st.1.1 st.2).1 in
  process_companies process_one scan_network now L scan d a u file s =
  (r, Some r, (network_scan_step scan_network now scan L d a st.1.1 st.2).2).
Proof.
  cbv zeta. unfold process_companies.
  by destruct (batch_loop _ _ _ _ _ _ _) as [[? ?] ?], (network_scan_step _ _ _ _ _ _ _ _).
Qed.

(** The network scan leaves the companies, results and errors of the
    loop, and may add one error. *)
Lemma network_scan_step_fields scan L d a r s :
  let r' := (network_scan_step scan_network now scan L d a r s).1 in
  b_company_numbers r' = b_company_numbers r /\ b_processed r' = b_processed r /\ b_results r' = b_results r /\
  (b_errors r' = b_errors r \/ exists e, b_errors r' = b_errors r ++ [NetworkScanError e now]).
Proof.
  unfold network_scan_step. destruct scan; [destruct (scan_network _ _ _ _) as [[net|e] s']|]; cbn; split_and!; eauto.
Qed.

Section AllOk.
Variable use_ai : bool.
Hypothesis ok : forall n s, exists cr s', process_one n use_ai s = (Ok cr, s').

(** [cr] is what [process_one] returns for [n] from some client state. *)
Definition produced (n : string) (cr : company_result) : Prop := exists s s', process_one n use_ai s = (Ok cr, s').

(** The loop over companies that are all new and all succeed records them
    all, and leaves the file as saved at the last multiple of the
    interval, if one was passed. *)
Lemma batch_loop_all_ok P idx l r file s :
  Forall (fun n => n ∉ P) l ->
  exists crs s', Forall2 produced l crs /\
    batch_loop process_one now use_ai P idx l (r, file, s) =
    (extend r l crs,
     if ckpt_after idx (length l) <=? idx then file
     else Some (extend r (take (ckpt_after idx (length l) - idx) l) (take (ckpt_after idx (length l) - idx) crs)),
     s').
Proof.
  revert idx r file s. induction l as [|n l IH]; intros idx r file s Hl.
  - exists [], s. split; [constructor|]. cbn [batch_loop length]. rewrite extend_nil.
    pose proof (ckpt_after_bounds idx 0). by rewrite (proj2 (Nat.leb_le _ _)) by lia.
  - apply Forall_cons in Hl as [Hn Hl]. destruct (ok n s) as (cr & s1 & Hp).
    cbn [batch_loop]. unfold batch_iter. rewrite bool_decide_false by done. rewrite Hp.
    destruct (IH (S idx) (record_result r n cr) (if Nat.eqb (S idx mod CHECKPOINT_INTERVAL) 0
        then Some (record_result r n cr) else file) s1 Hl) as (crs & s' & Hf & ->).
    exists (cr :: crs), s'. split; [constructor; [by exists s, s1|done]|].
    rewrite extend_cons. cbn [length]. replace (ckpt_after idx (S (length l))) with (ckpt_after (S idx) (length l))
      by (unfold ckpt_after; f_equal; f_equal; lia).
    pose proof (ckpt_after_step idx (length l)) as [H0 H1].
    destruct (Nat.leb_spec (ckpt_after (S idx) (length l)) (S idx)) as [Hle|Hgt].
    + destruct (Nat.eqb_spec (S idx mod CHECKPOINT_INTERVAL) 0) as [Hm|Hm].
      * rewrite (H0 Hm Hle), (proj2 (Nat.leb_gt _ _)) by lia. rewrite Nat.sub_succ_l, Nat.sub_diag by lia.
        rewrite !firstn_cons, !take_0, <- (extend_nil (record_result r n cr)). by rewrite extend_cons.
      * by rewrite (proj2 (Nat.leb_le _ _)) by (apply H1; done).
    + rewrite (proj2 (Nat.leb_gt _ _)) by lia.
      replace (ckpt_after (S idx) (length l) - idx) with (S (ckpt_after (S idx) (length l) - S idx)) by lia.
      by rewrite !firstn_cons, extend_cons.
Qed.

(** The companies after the first [p] of a duplicate-free list are not
    among the first [p]. *)
Lemma take_drop_disjoint (L : list string) p q :
  NoDup L -> Forall (fun x => x ∉ (list_to_set (take p L) : gset string)) (take q (drop p L)).
Proof.
  intros Hnd. rewrite <- (firstn_skipn p L) in Hnd. apply NoDup_app in Hnd as (_ & Hdis & _).
  apply Forall_forall. intros x Hx Hin%elem_of_list_to_set.
  apply (Hdis x Hin). eapply elem_of_sublist; [exact Hx|apply sublist_take].
Qed.

(** The loop from a checkpoint holding the first [p] companies of a
    duplicate-free list, cut after [n] iterations, [p <= n <= length L]:
    the first [p] companies are skipped and the next ones recorded. *)
Lemma batch_loop_from_ckpt L file r0 p n s :
  NoDup L -> p <= n <= length L -> processed_set file = list_to_set (take p L) ->
  exists crs s', Forall2 produced (take (n - p) (drop p L)) crs /\
    batch_loop process_one now use_ai (processed_set file) 0 (take n L) (r0, file, s) =
    (extend r0 (take (n - p) (drop p L)) crs,
     if ckpt_after p (n - p) <=? p then file
     else Some (extend r0 (take (ckpt_after p (n - p) - p) (take (n - p) (drop p L)))
                 (take (ckpt_after p (n - p) - p) crs)), s').
Proof.
  intros Hnd Hpn Hset.
  replace (take n L) with (take p L ++ take (n - p) (drop p L)) by (rewrite take_take_drop; f_equal; lia).
  rewrite batch_loop_app, (batch_loop_skip _ _ 0 (take p L)).
  2:{ apply Forall_forall. intros x Hx. by rewrite Hset, elem_of_list_to_set. }
  rewrite Nat.add_0_l, length_take_le by lia.
  pose proof (batch_loop_all_ok (processed_set file) p (take (n - p) (drop p L)) r0 file s) as H.
  rewrite length_take_le in H by (rewrite length_drop; lia). apply H. rewrite Hset. by apply take_drop_disjoint.
Qed.
(** A crash after [n] iterations, [p <= n <= length L], of the loop from a
    checkpoint of [p] companies, [p] a multiple of the interval, leaves the
    checkpoint of the last multiple of the interval reached. *)
Lemma crash_ckpt L file r0 p n s :
  NoDup L -> p <= n <= length L -> processed_set file = list_to_set (take p L) ->
  (exists m, p = CHECKPOINT_INTERVAL * m) ->
  exists crs, Forall2 produced (take (ckpt_after 0 (n - p)) (drop p L)) crs /\
    (batch_loop process_one now use_ai (processed_set file) 0 (take n L) (r0, file, s)).1.2 =
    if ckpt_after 0 (n - p) =? 0 then file
    else Some (extend r0 (take (ckpt_after 0 (n - p)) (drop p L)) crs).
Proof.
  intros Hnd Hpn Hset [m ->].
  destruct (batch_loop_from_ckpt L file r0 (CHECKPOINT_INTERVAL * m) n s Hnd Hpn Hset) as (crs & s' & Hf & ->).
  cbn [fst snd]. rewrite ckpt_after_mult, Nat.add_sub_swap, Nat.sub_diag by lia. cbn [Nat.add].
  pose proof (ckpt_after_bounds 0 (n - CHECKPOINT_INTERVAL * m)) as Hb.
  exists (take (ckpt_after 0 (n - CHECKPOINT_INTERVAL * m)) crs). split.
  - apply (Forall2_take _ _ _ (ckpt_after 0 (n - CHECKPOINT_INTERVAL * m))) in Hf.
    by rewrite take_take, Nat.min_l in Hf by lia.
  - destruct (Nat.eqb_spec (ckpt_after 0 (n - CHECKPOINT_INTERVAL * m)) 0) as [->|Hne].
    + by rewrite (proj2 (Nat.leb_le _ _)) by lia.
    + rewrite (proj2 (Nat.leb_gt _ _)) by lia. rewrite take_take, Nat.min_l by lia. done.
Qed.
(** A run of [process_companies] from a checkpoint of the first [p]
    companies records all the others and ends with every company
    processed, the run completed and the final file saved. *)
Lemma process_companies_all_ok L scan d a file p s :
  NoDup L -> p <= length L -> processed_set file = list_to_set (take p L) ->
  b_processed (initial_results now L scan file) = take p L ->
  exists crs, Forall2 produced (drop p L) crs /\
    let '(r, file', _) := process_companies process_one scan_network now L scan d a use_ai file s in
    file' = Some r /\ b_processed r = L /\ b_results r = b_results (initial_results now L scan file) ++ crs /\
    b_company_numbers r = b_company_numbers (initial_results now L scan file) /\
    b_completed_at r = Some now /\ b_total_processed r = Some (length L).
Proof.
  intros Hnd HpL Hset Hr0. rewrite process_companies_unfold. cbv zeta.
  destruct (batch_loop_from_ckpt L file (initial_results now L scan file) p (length L) s Hnd
    ltac:(lia) Hset) as (crs & s' & Hf & Hl).
  rewrite firstn_all in Hl. rewrite Hl. cbn [fst snd].
  rewrite take_ge in Hf |- * by (rewrite length_drop; lia).
  exists crs. split; [done|].
  destruct (network_scan_step_fields scan L d a (extend (initial_results now L scan file) (drop p L) crs) s')
    as (Hc & Hp & Hr & _).
  unfold finalize_results. cbn. rewrite Hc, Hp, Hr. cbn. rewrite Hr0, firstn_skipn. by split_and!.
Qed.
End AllOk.

(** The checkpoint file a run of [process_companies] from [file] leaves
    when the process dies after [n] iterations of its loop. *)
Definition crash_file (L : list string) (scan u : bool) (file : option (batch N)) (n : nat) (s : St)
    : option (batch N) :=
  (batch_loop process_one now u (processed_set file) 0 (take n L) (initial_results now L scan file, file, s)).1.2.

Section Det.
Variable u : bool.
(** Every company succeeds, with a result that does not depend on the
    client's state. *)
Variable res : string -> company_result.
Hypothesis det : forall c s, exists s', process_one c u s = (Ok (res c), s').

Lemma det_ok c s : exists cr s', process_one c u s = (Ok cr, s').
Proof. destruct (det c s) as [s' ?]. eauto. Qed.

Lemma produced_res l crs : Forall2 (produced u) l crs -> crs = res <$> l.
Proof.
  induction 1 as [|c cr l crs (s0 & s1 & Hp) _ IH]; [done|]. destruct (det c s0) as [s2 Hd].
  rewrite Hd in Hp. injection Hp as <- _. by rewrite IH.
Qed.

(** C17: for a company list without duplicates ([NoDup L]), a run that
    crashes after any number of iterations and is started again with the
    same arguments and the checkpoint file it left ends with the same
    processed companies, results and count as a run that was never
    interrupted, when every company succeeds with a result that does not
    depend on the client's state: no company is lost or recorded twice.
    The hypothesis is needed: a resumed run skips every copy of a company
    its checkpoint lists, while an uninterrupted run processes a duplicated
    company twice. *)
Theorem crash_restart_equiv L scan d a n s1 s2 s :
  NoDup L -> n <= length L ->
  let r := (process_companies process_one scan_network now L scan d a u (crash_file L scan u None n s1) s2).1.1 in
  let r' := (process_companies process_one scan_network now L scan d a u None s).1.1 in
  b_processed r = b_processed r' /\ b_results r = b_results r' /\ b_total_processed r = b_total_processed r'.
Proof.
  intros Hnd Hn. cbv zeta.
  destruct (process_companies_all_ok u det_ok L scan d a None 0 s Hnd ltac:(lia) eq_refl eq_refl) as (crs & Hf & Hpc).
  destruct (process_companies _ _ _ _ _ _ _ _ None s) as [[r' f'] s'] eqn:E'. cbn [fst].
  destruct Hpc as (_ & Hp' & Hr' & _ & _ & Ht'). apply produced_res in Hf. rewrite drop_0 in Hf. subst crs.
  unfold crash_file.
  destruct (crash_ckpt u det_ok L None (initial_results now L scan None) 0 n s1 Hnd ltac:(lia) eq_refl
    ltac:(exists 0; lia)) as (crs & Hc & ->).
  rewrite Nat.sub_0_r, drop_0 in *. apply produced_res in Hc. subst crs.
  destruct (Nat.eqb _ 0).
  - destruct (process_companies_all_ok u det_ok L scan d a None 0 s2 Hnd ltac:(lia) eq_refl eq_refl)
      as (crs & Hf & Hpc).
    destruct (process_companies _ _ _ _ _ _ _ _ None s2) as [[r f] s3]. cbn [fst].
    destruct Hpc as (_ & Hp & Hr & _ & _ & Ht). apply produced_res in Hf. rewrite drop_0 in Hf. subst crs.
    by rewrite Hp, Hr, Ht, Hp', Hr', Ht'.
  - pose proof (ckpt_after_bounds 0 n) as Hb.
    set (c := ckpt_after 0 n) in *.
    destruct (process_companies_all_ok u det_ok L scan d a
      (Some (extend (initial_results now L scan None) (take c L) (res <$> take c L))) c s2 Hnd ltac:(lia)
      eq_refl ltac:(done)) as (crs & Hf & Hpc).
    destruct (process_companies _ _ _ _ _ _ _ _ _ s2) as [[r f] s3]. cbn [fst].
    destruct Hpc as (_ & Hp & Hr & _ & _ & Ht). apply produced_res in Hf. subst crs.
    rewrite Hp, Hr, Ht, Hp', Hr', Ht'. cbn. by rewrite <- fmap_app, firstn_skipn.
Qed.
End Det.

(** ** Liveness of [resume_from_checkpoint] *)

(** The checkpoint files one resumed run may leave: the final file when it
    completes, or the file of a crash after [n] iterations, where [n]
    leaves the run at least [CHECKPOINT_INTERVAL] iterations past the
    companies of the checkpoint, within the loop. *)
Definition resumed (f f' : option (batch N)) : Prop :=
  exists cp s, f = Some cp /\
    ((exists path r s', resume_from_checkpoint process_one scan_network now path f s = Ok (r, f', s')) \/
     exists n, length (b_processed cp) + CHECKPOINT_INTERVAL <= n <= length (b_company_numbers cp) /\
       f' = crash_file (b_company_numbers cp) (b_scan_network cp) false f n s).

(** Every outcome of one resumed run satisfies [P]. *)
Definition resume_step (f : option (batch N)) (P : option (batch N) -> Prop) : Prop :=
  (exists cp, f = Some cp) /\ forall f', resumed f f' -> P f'.

(** The file of a completed run that processed every company. *)
Definition completed (f : option (batch N)) : Prop :=
  exists r, f = Some r /\ b_completed_at r = Some now /\ b_processed r = b_company_numbers r.

(** A checkpoint written by the loop: a prefix of the company list whose
    length is a multiple of the interval. *)
Definition checkpoint_ok (f : option (batch N)) : Prop :=
  exists cp m, f = Some cp /\ NoDup (b_company_numbers cp) /\
    CHECKPOINT_INTERVAL * m <= length (b_company_numbers cp) /\
    b_processed cp = take (CHECKPOINT_INTERVAL * m) (b_company_numbers cp).

Definition remaining (f : option (batch N)) : nat :=
  match f with Some cp => length (b_company_numbers cp) - length (b_processed cp) | None => 0 end.

Section Resume.
Hypothesis ok : forall c s, exists cr s', process_one c false s = (Ok cr, s').

(** One resumed run from a checkpoint completes, or leaves a checkpoint
    with fewer companies remaining. *)
Lemma resumed_progress f f' :
  checkpoint_ok f -> resumed f f' -> completed f' \/ (checkpoint_ok f' /\ remaining f' < remaining f).
Proof.
  intros (cp & m & -> & Hnd & Hm & Hp) (cp' & s & [= <-] & [(path & r & s' & Hres)|(n & Hn & ->)]).
  - left. injection Hres as Hres. set (L := b_company_numbers cp) in *.
    destruct (process_companies_all_ok false ok L (b_scan_network cp) 1 true (Some cp)
      (CHECKPOINT_INTERVAL * m) s Hnd Hm ltac:(cbn; by rewrite Hp) Hp) as (crs & _ & Hpc).
    rewrite Hres in Hpc. destruct Hpc as (-> & HpL & _ & Hc & Hdone & _). exists r. by rewrite HpL, Hc.
  - right. set (L := b_company_numbers cp) in *. rewrite Hp, length_take_le in Hn by done.
    unfold crash_file. cbn [initial_results].
    destruct (crash_ckpt false ok L (Some cp) cp (CHECKPOINT_INTERVAL * m) n s Hnd ltac:(lia)
      ltac:(cbn; by rewrite Hp) ltac:(by exists m)) as (crs & _ & ->).
    pose proof (ckpt_after_bounds 0 (n - CHECKPOINT_INTERVAL * m)) as Hb.
    destruct (Nat.eqb_spec (ckpt_after 0 (n - CHECKPOINT_INTERVAL * m)) 0) as [|Hne]; [lia|].
    set (c := ckpt_after 0 (n - CHECKPOINT_INTERVAL * m)) in *.
    assert (Hc : c = CHECKPOINT_INTERVAL * ((n - CHECKPOINT_INTERVAL * m) / CHECKPOINT_INTERVAL)) by done.
    split.
    + exists (extend cp (take c (drop (CHECKPOINT_INTERVAL * m) L)) crs),
        (m + (n - CHECKPOINT_INTERVAL * m) / CHECKPOINT_INTERVAL).
      unfold extend; cbn [b_company_numbers b_processed]. change (b_company_numbers cp) with L.
      split_and!; [done|done| |].
      * unfold CHECKPOINT_INTERVAL in *. lia.
      * rewrite Hp, take_take_drop. f_equal. unfold CHECKPOINT_INTERVAL in *. lia.
    + unfold remaining, extend; cbn [b_company_numbers b_processed]. change (b_company_numbers cp) with L.
      rewrite Hp, length_app, !length_take_le; [lia|rewrite length_drop; lia|lia].
Qed.

End Resume.

(** C16: liveness of checkpoint and resume.  When every company succeeds,
    repeating [resume_from_checkpoint] on the file the previous run left
    eventually completes the run with every company processed, whatever
    the crashes, provided each crashed run got at least
    [CHECKPOINT_INTERVAL] companies past its checkpoint. *)
Theorem resume_liveness f :
  (forall c s, exists cr s', process_one c false s = (Ok cr, s')) ->
  checkpoint_ok f -> eventually resume_step completed f.
Proof.
  intros ok. remember (remaining f) as k eqn:Hk. revert f Hk.
  induction k as [k IH] using lt_wf_ind. intros f Hk Hf.
  apply (eventually_step _ _ _ (fun f' => completed f' \/ (checkpoint_ok f' /\ remaining f' < remaining f))).
  - split; [destruct Hf as (cp & ? & -> & _); by exists cp|]. intros f'. by apply resumed_progress.
  - intros f' [Hc|[Hf' Hlt]]; [by apply eventually_done|]. apply (IH (remaining f')); [lia|done|done].
Qed.

(** ** Bookkeeping of a run that may fail *)

(** The company of an error entry. *)
Definition error_company (e : error_info) : option string :=
  match e with CompanyError n _ _ => Some n | NetworkScanError _ _ => None end.

(** The results are those of the processed companies, in order. *)
Definition wf_batch (r : batch N) : Prop := cr_company_number <$> b_results r = b_processed r.

Lemma batch_loop_accounts u idx l (r : batch N) file s :
  let r' := (batch_loop process_one now u ∅ idx l (r, file, s)).1.1 in
  b_processed r' ++ omap error_company (b_errors r') ≡ₚ (b_processed r ++ omap error_company (b_errors r)) ++ l.
Proof.
  revert idx r file s. induction l as [|n l IH]; intros idx r file s; cbn [batch_loop]; [by rewrite app_nil_r|].
  unfold batch_iter. rewrite bool_decide_false by set_solver.
  destruct (process_one n u s) as [[cr|e] s1]; rewrite IH; unfold record_result, record_error; cbn.
  - rewrite <- !app_assoc. apply Permutation_app_head. cbn [app]. apply Permutation_middle.
  - rewrite omap_app. cbn. by rewrite <- !app_assoc.
Qed.

Section Numbered.
(** [process_one] stamps its result with the company number, as
    [_process_single_company] does. *)
Hypothesis numbered : forall n u s cr s', process_one n u s = (Ok cr, s') -> cr_company_number cr = n.

Lemma batch_loop_wf u P idx l (r : batch N) file s :
  wf_batch r -> (forall cp, file = Some cp -> wf_batch cp) ->
  let st := batch_loop process_one now u P idx l (r, file, s) in
  wf_batch st.1.1 /\ forall cp, st.1.2 = Some cp -> wf_batch cp.
Proof.
  revert idx r file s. induction l as [|n l IH]; intros idx r file s Hr Hf; cbn [batch_loop]; [done|].
  unfold batch_iter. case_bool_decide; [by apply IH|].
  destruct (process_one n u s) as [[cr|e] s1] eqn:Hp; apply IH.
  - unfold wf_batch, record_result in *; cbn. rewrite fmap_app, Hr. cbn. by rewrite (numbered _ _ _ _ _ Hp).
  - assert (wf_batch (record_result r n cr)).
    { unfold wf_batch, record_result in *; cbn. rewrite fmap_app, Hr. cbn. by rewrite (numbered _ _ _ _ _ Hp). }
    case_match; [by intros ? [= <-]|done].
  - done.
  - done.
Qed.

(** C19: well-formedness of the results dictionary and of the checkpoint
    file.  From a checkpoint whose results are those of its processed
    companies, in order (or no checkpoint), [process_companies] ends with
    results that are those of its processed companies, [total_processed]
    and [total_errors] equal to the lengths of the two lists, and every
    checkpoint file written on the way, wherever the process stops, is
    well-formed too. *)
Theorem process_companies_wf L scan d a u file n s :
  (forall cp, file = Some cp -> wf_batch cp) ->
  let r := (process_companies process_one scan_network now L scan d a u file s).1.1 in
  wf_batch r /\ b_total_processed r = Some (length (b_processed r)) /\
  b_total_errors r = Some (length (b_errors r)) /\
  forall cp, crash_file L scan u file n s = Some cp -> wf_batch cp.
Proof.
  intros Hf. rewrite process_companies_unfold. cbv zeta.
  assert (Hr0 : wf_batch (initial_results now L scan file)) by (destruct file; [by apply Hf|done]).
  destruct (batch_loop_wf u (processed_set file) 0 L _ file s Hr0 Hf) as [Hr _].
  destruct (network_scan_step_fields scan L d a (batch_loop process_one now u (processed_set file) 0 L
    (initial_results now L scan file, file, s)).1.1
    (batch_loop process_one now u (processed_set file) 0 L (initial_results now L scan file, file, s)).2)
    as (_ & Hp & Hres & _).
  split_and!; [|done|done|].
  - unfold wf_batch, finalize_results in *. cbn. by rewrite Hp, Hres.
  - apply (batch_loop_wf u (processed_set file) 0 (take n L) _ file s Hr0 Hf).
Qed.
End Numbered.

(** C18: every company of a fresh run is recorded once: the processed
    companies and the companies of the error entries are, counted with
    their multiplicity, the companies of the list, so a company listed
    twice is processed twice. *)
Theorem process_companies_accounts L scan d a u s :
  let r := (process_companies process_one scan_network now L scan d a u None s).1.1 in
  b_processed r ++ omap error_company (b_errors r) ≡ₚ L.
Proof.
  rewrite process_companies_unfold. cbv zeta.
  set (st := batch_loop process_one now u (processed_set None) 0 L (initial_results now L scan None, None, s)).
  pose proof (batch_loop_accounts u 0 L (initial_results now L scan None) None s) as Hacc.
  destruct (network_scan_step_fields scan L d a st.1.1 st.2) as (_ & Hp & _ & He).
  unfold finalize_results; cbn [fst b_processed b_errors]. rewrite Hp.
  destruct He as [He|[e He]]; rewrite He; [|rewrite omap_app, app_nil_r]; exact Hacc.
Qed.

(** ** Running again on a checkpoint *)

Section Failing.
Variable u : bool.
(** The companies whose processing raises, whatever the client state. *)
Variable F : gset string.
Hypothesis fails : forall c s, c ∈ F -> exists e s', process_one c u s = (Err e, s').
Hypothesis succeeds : forall c s, c ∉ F -> exists cr s', process_one c u s = (Ok cr, s').

(** The loop records the companies outside [F] and an error for each
    company of [F], skipping those read from the checkpoint. *)
Lemma batch_loop_failing P idx l (r : batch N) file s :
  let r' := (batch_loop process_one now u P idx l (r, file, s)).1.1 in
  b_processed r' = b_processed r ++ filter (fun c => (c ∉ F) /\ (c ∉ P)) l /\
  omap error_company (b_errors r') = omap error_company (b_errors r) ++ filter (fun c => (c ∈ F) /\ (c ∉ P)) l.
Proof.
  revert idx r file s. induction l as [|n l IH]; intros idx r file s; cbn [batch_loop]; [by rewrite !app_nil_r|].
  unfold batch_iter. rewrite !filter_cons. destruct (decide (n ∈ P)) as [HP|HP].
  - rewrite bool_decide_true by done. rewrite !decide_False by tauto. apply IH.
  - rewrite bool_decide_false by done. destruct (decide (n ∈ F)) as [HF|HF].
    + destruct (fails n s HF) as (e & s1 & ->). rewrite decide_False, decide_True by tauto.
      destruct (IH (S idx) (record_error r (CompanyError n (exn_msg e) now)) file s1) as [H1 H2].
      cbv zeta in H1, H2. rewrite H1, H2.
      unfold record_error. cbn. by rewrite omap_app, <- app_assoc.
    + destruct (succeeds n s HF) as (cr & s1 & ->). rewrite decide_True, decide_False by tauto.
      match goal with |- context [batch_loop _ _ _ _ _ _ (?r1, ?f1, ?s1)] =>
        destruct (IH (S idx) r1 f1 s1) as [H1 H2] end.
      cbv zeta in H1, H2. rewrite H1, H2.
      unfold record_result. cbn. by rewrite <- app_assoc.
Qed.

(** C21: running [process_companies] again on the checkpoint [cp] of an
    earlier run skips the companies [cp] lists as processed but retries
    every other company, the failed ones included (a failure is recorded
    in [errors], never in [processed_companies]), and appends their errors
    to those of [cp]: a company that fails in both runs has two error
    entries, and [total_errors] counts it twice. *)
Theorem rerun_errors_accumulate L scan d a cp s :
  let r := (process_companies process_one scan_network now L scan d a u (Some cp) s).1.1 in
  b_processed r = b_processed cp ++ filter (fun c => (c ∉ F) /\ (c ∉ b_processed cp)) L /\
  omap error_company (b_errors r) = omap error_company (b_errors cp) ++ filter (fun c => (c ∈ F) /\ (c ∉ b_processed cp)) L.
Proof.
  rewrite process_companies_unfold. cbv zeta.
  set (st := batch_loop process_one now u (processed_set (Some cp)) 0 L (initial_results now L scan (Some cp), Some cp, s)).
  destruct (batch_loop_failing (processed_set (Some cp)) 0 L cp (Some cp) s) as [H1 H2].
  destruct (network_scan_step_fields scan L d a st.1.1 st.2) as (_ & Hp & _ & He).
  assert (Hs1 : filter (fun c => (c ∉ F) /\ (c ∉ processed_set (Some cp))) L = filter (fun c => (c ∉ F) /\ (c ∉ b_processed cp)) L)
    by (apply list_filter_iff; intros c; cbn; by rewrite elem_of_list_to_set).
  assert (Hs2 : filter (fun c => (c ∈ F) /\ (c ∉ processed_set (Some cp))) L = filter (fun c => (c ∈ F) /\ (c ∉ b_processed cp)) L)
    by (apply list_filter_iff; intros c; cbn; by rewrite elem_of_list_to_set).
  unfold finalize_results; cbn [fst b_processed b_errors]. rewrite Hp.
  fold st in H1, H2. cbn [initial_results] in H1, H2. rewrite <- Hs1, <- Hs2.
  split; [exact H1|]. destruct He as [He|[e He]]; rewrite He; [|rewrite omap_app, app_nil_r]; exact H2.
Qed.
End Failing.
End LoopProps.

(** ** [get_processing_summary] *)

Lemma sum_dict_incr `{EqDecision K} (d : pydict K nat) (k : K) :
  sum_list (snd <$> dict_set d k (default 0 (dict_get d k) + 1)) = S (sum_list (snd <$> d)).
Proof.
  induction d as [|[k' v] d IH]; cbn; [done|].
  destruct (decide (k = k')); cbn; [lia|rewrite IH; lia].
Qed.

Lemma fold_count_type (iss : list issue) (d : pydict string nat) :
  sum_list (snd <$> fold_left count_type iss d) = sum_list (snd <$> d) + length iss /\
  (NoDup (dict_keys d) -> NoDup (dict_keys (fold_left count_type iss d))).
Proof.
  revert d. induction iss as [|i iss IH]; intros d; cbn [fold_left length]; [split; [lia|done]|].
  destruct (IH (count_type d i)) as [Hs Hn]. unfold count_type in *. rewrite Hs, sum_dict_incr.
  split; [lia|]. intros Hd. apply Hn. by apply dict_set_NoDup.
Qed.

(** The number of mismatches of a company's result. *)
Definition mismatch_count (cr : company_result) : nat := length (r_mismatches (cr_mismatches cr)).

Lemma add_company_fields ps cr :
  let ps' := add_company ps cr in
  ps_total_mismatches ps' = ps_total_mismatches ps + mismatch_count cr /\
  sum_list (snd <$> ps_mismatch_types ps') = sum_list (snd <$> ps_mismatch_types ps) + mismatch_count cr /\
  ps_companies_with_mismatches ps' =
    ps_companies_with_mismatches ps + (if decide (mismatch_count cr <> 0) then 1 else 0) /\
  (NoDup (dict_keys (ps_mismatch_types ps)) -> NoDup (dict_keys (ps_mismatch_types ps'))).
Proof.
  unfold add_company, mismatch_count. destruct (r_mismatches (cr_mismatches cr)) as [|i iss]; cbn [length].
  - rewrite decide_False by lia. cbn. split_and!; auto; lia.
  - rewrite decide_True by lia. cbn [ps_total_mismatches ps_mismatch_types ps_companies_with_mismatches].
    destruct (fold_count_type (i :: iss) (ps_mismatch_types ps)) as [Hs Hn]. rewrite Hs. cbn [length].
    split_and!; auto; lia.
Qed.

Lemma fold_add_company crs ps :
  let ps' := fold_left add_company crs ps in
  ps_total_mismatches ps' = ps_total_mismatches ps + sum_list (mismatch_count <$> crs) /\
  sum_list (snd <$> ps_mismatch_types ps') = sum_list (snd <$> ps_mismatch_types ps) + sum_list (mismatch_count <$> crs) /\
  ps_companies_with_mismatches ps' = ps_companies_with_mismatches ps + length (filter (fun cr => mismatch_count cr <> 0) crs) /\
  (NoDup (dict_keys (ps_mismatch_types ps)) -> NoDup (dict_keys (ps_mismatch_types ps'))).
Proof.
  revert ps. induction crs as [|cr crs IH]; intros ps; cbn [fold_left]; [cbn; split_and!; auto; lia|].
  destruct (IH (add_company ps cr)) as (H1 & H2 & H3 & H4). destruct (add_company_fields ps cr) as (A1 & A2 & A3 & A4).
  rewrite H1, H2, H3, A1, A2, A3, filter_cons. cbn [fmap list_fmap sum_list_with]. unfold id.
  split_and!; [lia|lia|case_decide; cbn [length]; lia|auto].
Qed.

(** The counts of [get_processing_summary]: [total_mismatches] is the
    number of mismatches of all the results, the counts by type add up to
    it, over distinct type names, and [companies_with_mismatches] is the
    number of results with at least one mismatch. *)
Theorem get_processing_summary_counts {N} (network_statistics : N -> Z * Z * Z) (r : batch N) :
  let ps := get_processing_summary network_statistics r in
  ps_total_mismatches ps = sum_list (mismatch_count <$> b_results r) /\
  sum_list (snd <$> ps_mismatch_types ps) = ps_total_mismatches ps /\
  NoDup (dict_keys (ps_mismatch_types ps)) /\
  ps_companies_with_mismatches ps = length (filter (fun cr => mismatch_count cr <> 0) (b_results r)).
Proof.
  unfold get_processing_summary. cbv zeta. cbn [ps_total_mismatches ps_mismatch_types ps_companies_with_mismatches].
  destruct (fold_add_company (b_results r) (ProcessingSummary (length (b_company_numbers r))
    (default 0 (b_total_processed r)) (default 0 (b_total_errors r)) 0 0 [] None)) as (H1 & H2 & H3 & H4).
  cbn in H1, H2, H3. rewrite H1, H2, H3. split_and!; [done|done| |done]. apply H4. constructor.
Qed.
