(* ===== verification/BatchScenarios.v ===== *)
(** * Runs of the batch processor on concrete clients

    A client that answers every company (counting its calls in a [nat]
    state), one that fails on given companies, a network scanner that
    returns the depth it was asked for, and a company whose filing history
    has more relevant filings than [_process_single_company] parses; the
    witnesses of the batch theorems and the scenario of the rerun and
    resume behaviours. *)

From Stdlib Require Import QArith.
From S2P Require Import Prelude PyString Registry ApiClient NameParser Mismatch MismatchScenarios DocumentParser BatchProcessor BatchProps.

Local Notation result := Prelude.result.

Module BatchFixtures.
Definition no_mismatches : Mismatch.result := Result None None "t0" [] [] (Summary 0 0 0 0 0).
Definition result_of (c : string) : company_result := CompanyResult c "t0" None None 0 0 0 no_mismatches.

(** A client answering every company. *)
Definition always_ok (c : string) (_ : bool) : SM nat company_result := fun s => (Ok (result_of c), S s).

(** A client raising on the companies of [bad]. *)
Definition fails_on (bad : list string) (c : string) (_ : bool) : SM nat company_result := fun s =>
  if bool_decide (c ∈ bad) then (Err (Exn "500 Server Error"), S s) else (Ok (result_of c), S s).

(** A network scanner that returns the depth it was called with. *)
Definition scan_depth (_ : list string) (d : Z) (_ : bool) : SM nat Z := fun s => (Ok d, s).

Definition companies : list string :=
  ["00000001"; "00000002"; "00000003"; "00000004"; "00000005"; "00000006";
   "00000007"; "00000008"; "00000009"; "00000010"; "00000011"; "00000012"].

(** The checkpoint a run over [companies] leaves when it dies after eleven
    iterations. *)
Definition crashed : option (batch Z) := crash_file always_ok "t0" companies false false None 11 0.

(** Its content: the first ten companies. *)
Definition crashed_cp : batch Z :=
  Eval vm_compute in match crashed with Some cp => cp | None => initial_results "t0" [] false None end.

(** A filing of category [resolution] with a document. *)
Definition resolution (i : string) : filing :=
  Filing (Some "resolution") (Some "RES01") (Some "resolution") (Some "2020-01-01") (Some i)
    (Some ("/document/" +:+ i)).

Definition history : list filing :=
  Filing (Some "accounts") (Some "AA") (Some "accounts") (Some "2021-01-01") (Some "T0") None ::
  (resolution <$> ["D01"; "D02"; "D03"; "D04"; "D05"; "D06"; "D07"; "D08"; "D09"; "D10"; "D11"; "D12"]).

Definition single_run : result company_result * nat :=
  process_single_company (fun _ s => (Ok MismatchFixtures.acme, s)) (fun _ s => (Ok history, s))
    (fun doc c s => (Ok ("data/" +:+ c +:+ "/" +:+ doc +:+ ".pdf"), S s))
    co_name (fun _ => Some "active"%string) id
    (fun path _ _ _ => failed "t0" path path "No text could be extracted from document")
    MismatchFixtures.parse_len MismatchFixtures.compare_days MismatchFixtures.iso_z MismatchFixtures.days_z
    ratio_zero "t0" "00000001" false 0.

Definition single_result : company_result :=
  Eval vm_compute in match single_run with (Ok cr, _) => cr | (Err _, _) => result_of "" end.
End BatchFixtures.

Import BatchFixtures.

Lemma always_ok_det : forall c s, exists s', always_ok c false s = (Ok (result_of c), s').
Proof. intros c s. by exists (S s). Qed.

Lemma companies_NoDup : NoDup companies.
Proof. apply (bool_decide_unpack _). by vm_compute. Qed.

Lemma crash_restart_equiv_witness :
  let r := (process_companies always_ok scan_depth "t0" companies true 2 true false
              (crash_file always_ok "t0" companies true false None 11 5) 7).1.1 in
  let r' := (process_companies always_ok scan_depth "t0" companies true 2 true false None 0).1.1 in
  b_processed r = b_processed r' /\ b_results r = b_results r' /\ b_total_processed r = b_total_processed r'.
Proof.
  apply (crash_restart_equiv always_ok scan_depth "t0" false result_of always_ok_det companies true 2 true 11 5 7 0
    companies_NoDup); cbn; lia.
Defined.

Lemma resume_liveness_witness :
  (forall c s, exists cr s', always_ok c false s = (Ok cr, s')) /\ checkpoint_ok crashed /\
  eventually (resume_step always_ok scan_depth "t0") (completed "t0") crashed.
Proof.
  assert (Hok : forall c s, exists cr s', always_ok c false s = (Ok cr, s')) by (intros c s; do 2 eexists; reflexivity).
  assert (Hc : checkpoint_ok crashed).
  { exists crashed_cp, 1.
    split_and!; [vm_compute; reflexivity|exact companies_NoDup|cbn; lia|vm_compute; reflexivity]. }
  split; [exact Hok|]. split; [exact Hc|]. exact (resume_liveness always_ok scan_depth "t0" crashed Hok Hc).
Defined.

Lemma process_companies_wf_witness :
  (forall n u s cr s', always_ok n u s = (Ok cr, s') -> cr_company_number cr = n) /\
  (forall cp, crashed = Some cp -> wf_batch cp) /\
  let r := (process_companies always_ok scan_depth "t0" companies false 1 true false crashed 0).1.1 in
  wf_batch r /\ b_total_processed r = Some (length (b_processed r)) /\
  b_total_errors r = Some (length (b_errors r)) /\
  forall cp, crash_file always_ok "t0" companies false false crashed 5 0 = Some cp -> wf_batch cp.
Proof.
  assert (Hn : forall n u s cr s', always_ok n u s = (Ok cr, s') -> cr_company_number cr = n)
    by (intros n u s cr s' [= <- _]; reflexivity).
  assert (Hf : forall cp, crashed = Some cp -> wf_batch cp) by (intros cp Hcp; vm_compute in Hcp; by injection Hcp as <-).
  split; [exact Hn|]. split; [exact Hf|].
  exact (process_companies_wf always_ok scan_depth "t0" Hn companies false 1 true false crashed 5 0 Hf).
Defined.

Lemma process_single_company_bounds_witness :
  single_run = (Ok single_result, 10) /\
  cr_parsed_documents single_result <= 10 /\
  cr_parsed_documents single_result <= cr_relevant_filings single_result <= cr_total_filings single_result.
Proof.
  assert (H : single_run = (Ok single_result, 10)) by (vm_compute; reflexivity).
  split; [exact H|].
  exact (process_single_company_bounds _ _ _ _ _ _ _ _ _ _ _ _ _ "00000001" false 0 single_result 10 H).
Defined.

(** The checkpoint of a finished run in which 00000002 failed. *)
Definition rerun_cp : batch Z :=
  Eval vm_compute in
    (process_companies (fails_on ["00000002"]) scan_depth "t0" ["00000001"; "00000002"] false 1 true false None 0).1.1.

(** Running again on it retries 00000002, which now has two error
    entries. *)
Lemma rerun_errors_accumulate_witness :
  let F : gset string := {["00000002"%string]} in
  let r := (process_companies (fails_on ["00000002"]) scan_depth "t0" ["00000001"; "00000002"] false 1 true false
              (Some rerun_cp) 0).1.1 in
  (forall c s, c ∈ F -> exists e s', fails_on ["00000002"] c false s = (Err e, s')) /\
  (forall c s, c ∉ F -> exists cr s', fails_on ["00000002"] c false s = (Ok cr, s')) /\
  (b_processed r = b_processed rerun_cp ++ filter (fun c => (c ∉ F) /\ (c ∉ b_processed rerun_cp)) ["00000001"; "00000002"] /\
   omap error_company (b_errors r) =
     omap error_company (b_errors rerun_cp) ++ filter (fun c => (c ∈ F) /\ (c ∉ b_processed rerun_cp)) ["00000001"; "00000002"]) /\
  omap error_company (b_errors r) = ["00000002"; "00000002"]%string.
Proof.
  cbv zeta.
  assert (Hf : forall c s, c ∈ ({["00000002"%string]} : gset string) ->
            exists e s', fails_on ["00000002"] c false s = (Err e, s')).
  { intros c s Hc. apply elem_of_singleton in Hc as ->. eexists _, _. reflexivity. }
  assert (Hs : forall c s, c ∉ ({["00000002"%string]} : gset string) ->
            exists cr s', fails_on ["00000002"] c false s = (Ok cr, s')).
  { intros c s Hc. unfold fails_on. rewrite bool_decide_false by set_solver. eauto. }
  split; [exact Hf|]. split; [exact Hs|]. split; [|vm_compute; reflexivity].
  exact (rerun_errors_accumulate (fails_on ["00000002"]) scan_depth "t0" false _ Hf Hs
           ["00000001"; "00000002"] false 1 true rerun_cp 0).
Defined.

(** Rerun and resume.  A company whose processing raises is not
    recorded as processed, so running again with the checkpoint file of a
    finished run retries it and records its error a second time
    ([total_errors] 2 for one failing company); [resume_from_checkpoint]
    runs the network scan at depth 1 whatever depth the first run used,
    since the checkpoint does not keep it; a run that dies before its
    tenth company leaves no checkpoint, and resuming then raises; a company
    listed twice is processed twice. *)
Example batch_rerun_scenario :
  let run1 := process_companies (fails_on ["00000002"]) scan_depth "t0" ["00000001"; "00000002"] false 1 true false None 0 in
  let run2 := process_companies (fails_on ["00000002"]) scan_depth "t0" ["00000001"; "00000002"] false 1 true false
                run1.1.2 0 in
  omap error_company (b_errors run2.1.1) = ["00000002"; "00000002"]%string /\
  b_total_errors run2.1.1 = Some 2 /\ b_processed run2.1.1 = ["00000001"]%string /\
  b_network (process_companies always_ok scan_depth "t0" companies true 3 false false None 0).1.1 = Some 3%Z /\
  (match resume_from_checkpoint always_ok scan_depth "t0" "data/checkpoint.json"
           (process_companies always_ok scan_depth "t0" companies true 3 false false None 0).1.2 0 with
   | Ok (r, _, _) => b_network r
   | Err _ => None
   end) = Some 1%Z /\
  crash_file (N := Z) always_ok "t0" companies false false None 9 0 = None /\
  resume_from_checkpoint always_ok scan_depth "t0" "data/checkpoint.json" None 0 =
    Err (Exn "Checkpoint file not found: data/checkpoint.json") /\
  b_processed (process_companies always_ok scan_depth "t0" ["00000001"; "00000001"] false 1 true false None 0).1.1 =
    ["00000001"; "00000001"]%string.
Proof. split_and!; vm_compute; reflexivity. Qed.
