(* ===== verification/CsvExport.v ===== *)
(** * The CSV exporter: [CSVExporter] of src/exporters/csv_exporter.py

    [export_mismatches], [export_network] and [export_summary] build one
    dictionary per row from the batch results or the network snapshot and
    write them with [csv.DictWriter] (modelled in [Csv]), the field names
    being the keys of the first row; no file is written when there is no
    row.  An export returns the path and the content of the file, [None]
    when it is not written; the path is the [output_file] argument, or the
    timestamped name under [Config.EXPORTS_DIR] the caller passes for it.
    The issue dictionaries of [MismatchDetector] are read through their
    keys ([mismatch.get('document', '')] is absent for the
    missing-filings issue); [str(round(1.0 - best_similarity, 3))], the
    text of a float, is a parameter. *)

From Stdlib Require Import QArith.
From S2P Require Import Prelude PyString Registry Csv Mismatch Scanner ScannerFrame ScannerProps BatchProcessor.

(** ** The issue dictionaries, by key *)

Definition severity_str (s : severity) : string :=
  match s with Critical => "critical" | High => "high" | Medium => "medium" | Low => "low" end.

(** ['severity'] of each issue (mismatch_detector.py:161, 192, 228, 249, 359). *)
Definition issue_severity (i : issue) : string :=
  match i with
  | NameMismatch sev _ _ _ _ _ => severity_str sev
  | IncorporationDateMismatch _ _ _ _ => "high"
  | NameChangeDateMismatch _ _ _ _ _ _ => "medium"
  | MultipleNameChanges _ _ _ _ => "medium"
  | NamesMissingFromOverview _ _ _ _ => "high"
  end.

(** ['document']: [None] when the issue has no such key. *)
Definition issue_document (i : issue) : option (option string) :=
  match i with
  | NameMismatch _ d _ _ _ _ | IncorporationDateMismatch d _ _ _ | NameChangeDateMismatch d _ _ _ _ _
  | MultipleNameChanges d _ _ _ => Some d
  | NamesMissingFromOverview _ _ _ _ => None
  end.

(** ['message'], which only two kinds of issue have. *)
Definition issue_message (i : issue) : option string :=
  match i with
  | MultipleNameChanges _ _ _ m | NamesMissingFromOverview m _ _ _ => Some m
  | _ => None
  end.

(** [', '.join(names)]. *)
Definition join_comma (names : list string) : string := String.concat ", " names.

(** [_format_expected], lines 198-204. *)
Definition format_expected (i : issue) : string :=
  match i with
  | NameMismatch _ _ expected_names _ _ _ => join_comma expected_names
  | IncorporationDateMismatch _ expected_date _ _ | NameChangeDateMismatch _ expected_date _ _ _ _ => expected_date
  | _ => ""
  end.

(** [_format_found], lines 206-212. *)
Definition format_found (i : issue) : string :=
  match i with
  | NameMismatch _ _ _ found_name _ _ => found_name
  | IncorporationDateMismatch _ _ found_date _ | NameChangeDateMismatch _ _ found_date _ _ _ => found_date
  | _ => ""
  end.

(** [str(n)] of a count. *)
Definition nat_str (n : nat) : string := str_of_Z (Z.of_nat n).

(** The file [csv.DictWriter] writes: the header, then the rows; nothing
    when there is no row (the [if rows:] of each export). *)
Definition export_file (header : list string) (rows : list (list string)) : option text :=
  match rows with
  | [] => None
  | _ => Some (write_rows (map (map tx) (header :: rows)))
  end.

Section Exporter.
(** [str(round(1.0 - best_similarity, 3))]. *)
Variable confidence_str : Q -> string.

Definition issue_confidence (i : issue) : string :=
  match i with NameMismatch _ _ _ _ best _ => confidence_str best | _ => "" end.

(** ** [export_mismatches], lines 18-83 *)

Definition mismatch_header : list string :=
  ["Company Number"; "Company Name"; "Mismatch Type"; "Severity"; "Document"; "Expected"; "Found";
   "Confidence"; "Message"].

(** Lines 48-58 for one mismatch; [None] is written as an empty field. *)
Definition mismatch_row (cr : company_result) (i : issue) : list string :=
  [cr_company_number cr; default "" (cr_company_name cr); issue_type i; issue_severity i;
   default "" (default None (issue_document i)); format_expected i; format_found i; issue_confidence i;
   default "" (issue_message i)].

(** Lines 61-72: the row of a company without mismatches. *)
Definition no_mismatch_row (cr : company_result) : list string :=
  [cr_company_number cr; default "" (cr_company_name cr); "None"; "N/A"; ""; ""; ""; ""; "No mismatches detected"].

(** Lines 40-72 for one company. *)
Definition company_rows (cr : company_result) : list (list string) :=
  match r_mismatches (cr_mismatches cr) with
  | [] => [no_mismatch_row cr]
  | ms => mismatch_row cr <$> ms
  end.

Definition mismatch_rows (results : list company_result) : list (list string) := concat (company_rows <$> results).

Definition export_mismatches {N} (r : batch N) (output_file : string) : string * option text :=
  (output_file, export_file mismatch_header (mismatch_rows (b_results r))).
End Exporter.

(** ** [export_network], lines 85-146 *)

Definition network_header : list string :=
  ["Company Number"; "Company Name"; "Director Name"; "Date of Birth"; "Role"; "Depth"].

(** Lines 117-124: [f"{month}/{year}"] with ['?'] for a missing key. *)
Definition dob_str (d : dob) : string :=
  default "?" (str_of_Z <$> dob_month d) +:+ "/" +:+ default "?" (str_of_Z <$> dob_year d).

(** Lines 110-124: the date of birth of the director's first appointment. *)
Definition connection_dob (n : network) (c : connection) : string :=
  match dict_get (directors n) (cn_director_id c) with
  | Some d =>
      match dr_appointments d with
      | first_appt :: _ => match ar_date_of_birth first_appt with Some d => dob_str d | None => "N/A" end
      | [] => "N/A"
      end
  | None => "N/A"
  end.

Definition network_row (n : network) (c : connection) : list string :=
  [cn_company_number c; default "" (cn_company_name c); cn_director_name c; connection_dob n c; cn_role c;
   str_of_Z (cn_depth c)].

Definition export_network (n : network) (output_file : string) : string * option text :=
  (output_file, export_file network_header (network_row n <$> connections n)).

(** ** [export_summary], lines 148-196 *)

Definition summary_header : list string :=
  ["Company Number"; "Company Name"; "Company Status"; "Total Filings"; "Relevant Filings"; "Parsed Documents";
   "Total Mismatches"; "Name Mismatches"; "Date Mismatches"; "Missing Filings"; "Extra Names"].

Definition summary_row (cr : company_result) : list string :=
  let s := r_summary (cr_mismatches cr) in
  [cr_company_number cr; default "" (cr_company_name cr); default "" (cr_company_status cr);
   nat_str (cr_total_filings cr); nat_str (cr_relevant_filings cr); nat_str (cr_parsed_documents cr);
   nat_str (total_mismatches s); nat_str (name_mismatches s); nat_str (date_mismatches s);
   nat_str (missing_filings s); nat_str (extra_names s)].

Definition export_summary {N} (r : batch N) (output_file : string) : string * option text :=
  (output_file, export_file summary_header (summary_row <$> b_results r)).

(** ** Reading back an export *)

Lemma map_tx_nonempty (rows : list (list string)) :
  Forall (fun r => r <> []) rows -> Forall (fun r => r <> []) (map (map tx) rows).
Proof.
  intros H. apply Forall_forall. intros r' (r & -> & Hr)%list_elem_of_fmap.
  rewrite Forall_forall in H. specialize (H r Hr). by destruct r.
Qed.

(** What [csv.reader] gives back from the file an export writes: nothing
    when there is no row, else the header and the rows. *)
Lemma export_file_read header rows :
  header <> [] -> Forall (fun r => r <> []) rows ->
  read_csv <$> export_file header rows =
    match rows with [] => None | _ => Some (Some (map (map tx) (header :: rows))) end.
Proof.
  intros Hh Hr. destruct rows as [|r rows]; [done|]. cbn [export_file fmap option_fmap option_map].
  f_equal. apply read_write_csv, map_tx_nonempty. by constructor.
Qed.

Lemma width_nonempty (w : nat) (rows : list (list string)) :
  Forall (fun r => length r = S w) rows -> Forall (fun r => r <> []) rows.
Proof. intros H. eapply Forall_impl; [exact H|]. by intros [|x r]. Qed.

Section MismatchExport.
Variable confidence_str : Q -> string.

Lemma company_rows_width cr :
  Forall (fun row => length row = length mismatch_header) (company_rows confidence_str cr).
Proof.
  unfold company_rows. destruct (r_mismatches (cr_mismatches cr)) as [|i ms]; [by repeat constructor|].
  apply Forall_forall. by intros row (j & -> & _)%list_elem_of_fmap.
Qed.

Lemma length_company_rows cr :
  length (company_rows confidence_str cr) = Nat.max 1 (length (r_mismatches (cr_mismatches cr))).
Proof.
  unfold company_rows. destruct (r_mismatches (cr_mismatches cr)) as [|i ms]; [done|].
  rewrite length_fmap. cbn [length]. lia.
Qed.

Lemma mismatch_rows_width results :
  Forall (fun row => length row = length mismatch_header) (mismatch_rows confidence_str results).
Proof. unfold mismatch_rows. apply Forall_concat, Forall_fmap, Forall_forall. intros cr _. apply company_rows_width. Qed.

(** What reading back the file of [export_mismatches] gives. *)
Lemma export_mismatches_read {N} (r : batch N) output_file :
  read_csv <$> (export_mismatches confidence_str r output_file).2 =
    match b_results r with
    | [] => None
    | _ => Some (Some (map (map tx) (mismatch_header :: mismatch_rows confidence_str (b_results r))))
    end.
Proof.
  unfold export_mismatches. cbn [snd].
  rewrite export_file_read by (done || exact (width_nonempty 8 _ (mismatch_rows_width _))).
  unfold mismatch_rows. destruct (b_results r) as [|cr rs]; [done|].
  cbn [fmap list_fmap concat]. pose proof (length_company_rows cr) as Hl.
  by destruct (company_rows confidence_str cr); [cbn in Hl; lia|].
Qed.
End MismatchExport.

(** C22: [export_mismatches] writes the file at [output_file] only when the
    batch has results; reading it back gives the header and, for each
    company in order, one row per mismatch or the single row "None" when
    it has none, each row with one field per column: the file has
    [sum max(1, #mismatches)] rows after the header, whatever the fields
    hold (commas, quotes, line breaks). *)
Theorem export_mismatches_roundtrip {N} confidence_str (r : batch N) output_file :
  (export_mismatches confidence_str r output_file).1 = output_file /\
  read_csv <$> (export_mismatches confidence_str r output_file).2 =
    match b_results r with
    | [] => None
    | _ => Some (Some (map (map tx) (mismatch_header :: mismatch_rows confidence_str (b_results r))))
    end /\
  Forall (fun row => length row = length mismatch_header) (mismatch_rows confidence_str (b_results r)) /\
  length (mismatch_rows confidence_str (b_results r)) =
    sum_list ((fun cr => Nat.max 1 (length (r_mismatches (cr_mismatches cr)))) <$> b_results r).
Proof.
  split; [done|]. split_and!; [apply export_mismatches_read|apply mismatch_rows_width|].
  unfold mismatch_rows. induction (b_results r) as [|cr rs IH]; [done|].
  cbn [fmap list_fmap concat sum_list_with sum_list]. rewrite length_app, IH, length_company_rows. done.
Qed.

(** ** The date-of-birth column of the network export *)

(** Every connection's [director_id] names a director of the snapshot
    with at least one appointment: the lookup of lines 111-118 finds the
    first appointment. *)
Definition dirs_ok (n : network) : Prop :=
  forall cn, cn ∈ connections n ->
    exists dr a apps, dict_get (directors n) (cn_director_id cn) = Some dr /\ dr_appointments dr = a :: apps.

Lemma add_director_appointment_eq dirs oid name a :
  exists dr a' apps, dict_get (add_director_appointment dirs oid name a) oid = Some dr /\
    dr_appointments dr = a' :: apps.
Proof.
  unfold add_director_appointment.
  assert (H1 : exists dr0, dict_get (if dict_mem dirs oid then dirs else dict_set dirs oid (DirectorRec name [] 0)) oid = Some dr0).
  { unfold dict_mem. destruct (dict_get dirs oid) eqn:E; cbn [negb]; [by eexists|].
    rewrite dict_get_set_eq. by eexists. }
  destruct H1 as [dr0 ->]. rewrite dict_get_set_eq. cbn [dr_appointments].
  destruct (dr_appointments dr0) as [|x l]; by do 3 eexists.
Qed.

Lemma add_director_appointment_ne dirs oid name a k :
  k <> oid -> dict_get (add_director_appointment dirs oid name a) k = dict_get dirs k.
Proof.
  intros Hne. unfold add_director_appointment.
  destruct (dict_mem dirs oid); [case_match; by rewrite ?dict_get_set_ne by done|].
  rewrite dict_get_set_eq, !dict_get_set_ne by done. done.
Qed.

Lemma record_officer_dirs c p d o n : dirs_ok n -> dirs_ok (record_officer c p d o n).
Proof.
  intros H cn. cbn [record_officer connections directors].
  rewrite elem_of_app, list_elem_of_singleton. intros [Hin| ->]; [|apply add_director_appointment_eq].
  destruct (decide (cn_director_id cn = officer_key o)) as [-> | Hne]; [apply add_director_appointment_eq|].
  rewrite add_director_appointment_ne by done. by apply H.
Qed.

Lemma fold_record_officer_dirs c p d offs n :
  dirs_ok n -> dirs_ok (fold_left (fun n o => record_officer c p d o n) offs n).
Proof. revert n. induction offs as [|o offs IH]; intros n Hn; [done|]. apply IH, record_officer_dirs, Hn. Qed.

Section NetworkExport.
Context {RS : Type} `{api : Registry RS} (cfg : scan_config).

Lemma dirs_step (st st' : scan_state RS) : step_spec cfg st st' -> dirs_ok (net st) -> dirs_ok (net st').
Proof.
  intros [c d q _ _ Hn _ _|c d q p offs _ _ _ _ Hn _ _] H; rewrite Hn; [done|].
  by apply fold_record_officer_dirs.
Qed.

Lemma dirs_reach seeds (rs0 : RS) st : scan_reach cfg (init_state cfg seeds rs0) st -> dirs_ok (net st).
Proof.
  induction 1 as [|st Hr IH Hc]; [intros cn Hin; cbn in Hin; set_solver|].
  eapply dirs_step; [by apply scan_step_spec|done].
Qed.
End NetworkExport.

(** C23: on every snapshot [scan_network] returns, reading back the file
    [export_network] writes gives the header and one row per connection,
    in order, and the "Date of Birth" of each row is that of the first
    appointment recorded for its [director_id] ("N/A" when that
    appointment has none): the lookup of the director never misses, so
    "N/A" never stands for a missing director. *)
Theorem export_network_dob {RS} `{api : Registry RS} cfg fuel seeds (rs0 : RS) st output_file :
  scan_network cfg fuel seeds rs0 = Some st ->
  read_csv <$> (export_network (net st) output_file).2 =
    match connections (net st) with
    | [] => None
    | _ => Some (Some (map (map tx) (network_header :: (network_row (net st) <$> connections (net st)))))
    end /\
  forall cn, cn ∈ connections (net st) ->
    exists dr a apps, dict_get (directors (net st)) (cn_director_id cn) = Some dr /\ dr_appointments dr = a :: apps /\
      connection_dob (net st) cn = default "N/A" (dob_str <$> ar_date_of_birth a).
Proof.
  unfold scan_network. destruct (scan_loop cfg fuel _) as [st'|] eqn:Hrun; [|done]. intros [= <-].
  pose proof (dirs_reach cfg seeds rs0 st' (scan_loop_reach cfg fuel _ _ _ (reach_init _ _) Hrun)) as Hd.
  split.
  - unfold export_network. cbn [snd]. rewrite export_file_read; [by destruct (connections _)|done|].
    apply (width_nonempty 5). apply Forall_fmap, Forall_forall. done.
  - intros cn Hin. destruct (Hd cn Hin) as (dr & a & apps & Hget & Happs).
    exists dr, a, apps. split_and!; [done|done|]. unfold connection_dob. cbn [directors net with_net finalize] in *.
    rewrite Hget, Happs. by destruct (ar_date_of_birth a).
Qed.

(** ** Exports without rows *)

Lemma export_file_none header rows : export_file header rows = None <-> rows = [].
Proof. by destruct rows. Qed.

(** Every company of the results has at least one row. *)
Lemma mismatch_rows_nil confidence_str results : mismatch_rows confidence_str results = [] <-> results = [].
Proof.
  split; [|by intros ->]. destruct results as [|cr crs]; [done|]. unfold mismatch_rows. cbn [fmap list_fmap concat].
  intros Hnil. apply app_eq_nil in Hnil as [Hr _].
  pose proof (length_company_rows confidence_str cr) as Hl. rewrite Hr in Hl. cbn in Hl. lia.
Qed.

(** C24: each exporter returns the path it was given, and writes a file
    exactly when it has a row: [export_mismatches] and [export_summary]
    write nothing exactly when the batch has no result (a company without
    mismatches still gets its 'No mismatches detected' row), and
    [export_network] writes nothing exactly when the network has no
    connection, although the docstrings promise the path of the created
    CSV file. *)
Theorem exports_without_rows {N} confidence_str (r : batch N) n f1 f2 f3 :
  (export_mismatches confidence_str r f1).1 = f1 /\ (export_summary r f2).1 = f2 /\ (export_network n f3).1 = f3 /\
  ((export_mismatches confidence_str r f1).2 = None <-> b_results r = []) /\
  ((export_summary r f2).2 = None <-> b_results r = []) /\
  ((export_network n f3).2 = None <-> connections n = []).
Proof.
  unfold export_mismatches, export_summary, export_network. cbn [fst snd].
  rewrite !export_file_none, mismatch_rows_nil.
  split_and!; try done; split; try (intros ->; done); apply fmap_nil_inv.
Qed.
