(* ===== verification/Reports.v ===== *)
(** * The text reports: [MismatchDetector.generate_report] and
    [NetworkScanner.generate_network_report]

    Both build a list of lines and return ["\n".join(report)]; the list is
    [report_lines] and [network_report_lines], the string
    [generate_report] and [generate_network_report].  An f-string shows
    [None] as ["None"]; a line written [f"\n..."] begins with a line
    feed.  The network report calls [find_shared_directors] and
    [find_company_clusters] (whose fuel never runs out, by
    [find_company_clusters_spec]) and shows the first ten directors with
    their first five companies and the first five clusters with their
    first ten companies.  [lf_count] counts the line feeds of a string,
    [line_count] the lines [print] shows, which bound the network report. *)

From S2P Require Import Prelude PyString Registry Mismatch Scanner StableSort PostAnalysis Clusters BatchProcessor CsvExport.

(** The line feed character, and a string of it. *)
Definition LF_char : ascii := ascii_of_nat 10.
Definition nl : string := String LF_char EmptyString.

(** [s * n]. *)
Fixpoint str_repeat (n : nat) (s : string) : string :=
  match n with O => "" | S n' => s +:+ str_repeat n' s end.

Definition rule (c : string) : string := str_repeat 80 c.

(** [f"{x}"] of an optional string. *)
Definition py_opt_str (o : option string) : string := default "None" o.

(** [str.join] with a separator. *)
Definition join_with (sep : string) (l : list string) : string := String.concat sep l.

(** ** [generate_report], mismatch_detector.py lines 368-426 *)

(** [mismatch.get('document', 'N/A')]: no key, [None], or a name. *)
Definition report_document (i : issue) : string :=
  match issue_document i with None => "N/A" | Some d => py_opt_str d end.

(** The header line of one issue, line 405. *)
Definition issue_header (i : issue) : string :=
  nl +:+ "[" +:+ str_upper (issue_severity i) +:+ "] " +:+ issue_type i.

(** Lines 403-418 for one issue. *)
Definition issue_lines (i : issue) : list string :=
  [issue_header i; "  Document: " +:+ report_document i] ++
  match i with
  | NameMismatch _ _ expected_names found_name _ _ =>
      ["  Expected: " +:+ join_with ", " expected_names; "  Found: " +:+ found_name]
  | IncorporationDateMismatch _ expected_date found_date days
  | NameChangeDateMismatch _ expected_date found_date days _ _ =>
      ["  Expected Date: " +:+ expected_date; "  Found Date: " +:+ found_date;
       "  Difference: " +:+ str_of_Z days +:+ " days"]
  | _ => []
  end ++
  match issue_message i with Some m => ["  " +:+ m] | None => [] end.

Definition report_lines (r : Mismatch.result) : list string :=
  let s := r_summary r in
  [rule "="; "MISMATCH DETECTION REPORT"; rule "=";
   "Company: " +:+ py_opt_str (r_company_name r);
   "Company Number: " +:+ py_opt_str (r_company_number r);
   "Checked: " +:+ r_checked_at r; "";
   "SUMMARY"; rule "-";
   "Total Mismatches: " +:+ nat_str (total_mismatches s);
   "  - Name Mismatches: " +:+ nat_str (name_mismatches s);
   "  - Date Mismatches: " +:+ nat_str (date_mismatches s);
   "  - Missing Filings: " +:+ nat_str (missing_filings s);
   "  - Extra Names: " +:+ nat_str (extra_names s); ""] ++
  match r_mismatches r with
  | [] => ["No mismatches detected. All data appears consistent."]
  | ms => ["DETECTED ISSUES"; rule "-"] ++ concat (issue_lines <$> ms)
  end ++
  [""; rule "="].

Definition generate_report (r : Mismatch.result) : string := join_with nl (report_lines r).

(** ** [generate_network_report], network_scanner.py lines 309-363 *)

Definition director_lines (d : shared_director) : list string :=
  [nl +:+ sd_director_name d; "  Companies: " +:+ nat_str (sd_company_count d)] ++
  ((fun c => "    - " +:+ py_opt_str (sc_company_name c) +:+ " (" +:+ sc_company_number c +:+ ") as " +:+ sc_role c)
     <$> take 5 (sd_companies d)).

Definition shared_lines (shared : list shared_director) : list string :=
  match shared with
  | [] => []
  | _ => ["TOP SHARED DIRECTORS"; rule "-"] ++ concat (director_lines <$> take 10 shared)
  end.

(** [network['companies'].get(company_num, {}).get('company_name')]. *)
Definition cluster_company_line (n : network) (c : string) : string :=
  "  - " +:+ py_opt_str (dict_get (companies n) c ≫= Scanner.cr_company_name) +:+ " (" +:+ c +:+ ")".

(** One cluster, numbered from 1. *)
Definition cluster_lines (n : network) (i : nat) (cluster : list string) : list string :=
  (nl +:+ "Cluster " +:+ nat_str i +:+ " (" +:+ nat_str (length cluster) +:+ " companies):") ::
  (cluster_company_line n <$> take 10 cluster).

Fixpoint enumerate_lines (n : network) (i : nat) (cls : list (list string)) : list string :=
  match cls with
  | [] => []
  | cl :: cls' => cluster_lines n i cl ++ enumerate_lines n (S i) cls'
  end.

Definition clusters_lines (n : network) (clusters : list (list string)) : list string :=
  match clusters with
  | [] => []
  | _ => ["COMPANY CLUSTERS"; rule "-"] ++ enumerate_lines n 1 (take 5 clusters)
  end.

Definition network_report_lines (n : network) (clusters : list (list string)) : list string :=
  let s := stats n in
  [rule "="; "DIRECTOR NETWORK ANALYSIS"; rule "=";
   "Seed Companies: " +:+ join_with ", " (seed_companies n);
   "Max Depth: " +:+ str_of_Z (net_max_depth n); "";
   "STATISTICS"; rule "-";
   "Total Companies: " +:+ nat_str (total_companies s);
   "Total Directors: " +:+ nat_str (total_directors s);
   "Total Connections: " +:+ nat_str (total_connections s);
   "Depth Reached: " +:+ str_of_Z (depth_reached s); ""] ++
  shared_lines (find_shared_directors n) ++ [""] ++
  clusters_lines n clusters ++ [""; rule "="].

(** [None] only when the traversal of [find_company_clusters] runs out of
    fuel, which never happens. *)
Definition generate_network_report (iter : gset string -> list string) (n : network) : option string :=
  (fun cls => join_with nl (network_report_lines n cls)) <$> find_company_clusters iter n.

(** ** Counting the lines of a report

    [report.count('\n')] and the number of lines [print(report)] shows.
    The network report is bounded in lines when the strings it copies
    from the network (seed numbers, company numbers and names, director
    names and roles) hold no line feed: [network_lf_free] tests this. *)
Fixpoint lf_count (s : string) : nat :=
  match s with
  | EmptyString => 0
  | String c s' => (if Ascii.eqb c LF_char then 1 else 0) + lf_count s'
  end.

Definition line_count (s : string) : nat := S (lf_count s).

Definition lf_free (s : string) : bool := lf_count s =? 0.

Definition shared_company_ok (c : shared_company) : bool :=
  lf_free (sc_company_number c) && lf_free (py_opt_str (sc_company_name c)) && lf_free (sc_role c).

Definition shared_director_ok (d : shared_director) : bool :=
  lf_free (sd_director_name d) && forallb shared_company_ok (sd_companies d).

Definition network_lf_free (n : network) : bool :=
  forallb lf_free (seed_companies n) &&
  forallb (fun cn => lf_free (cn_company_number cn)) (connections n) &&
  forallb (fun kv => lf_free (py_opt_str (Scanner.cr_company_name kv.2))) (companies n) &&
  forallb (fun kv => shared_director_ok (shared_entry kv)) (directors n).

(** ** The issues of a mismatch report *)

(** A line written [f"\n..."]. *)
Definition starts_nl (s : string) : bool :=
  match s with String c _ => bool_decide (c = LF_char) | EmptyString => false end.

Lemma filter_concat {A} (f : A -> bool) (ls : list (list A)) :
  List.filter f (concat ls) = concat (List.filter f <$> ls).
Proof. induction ls as [|l ls IH]; [done|]. cbn [concat fmap list_fmap]. by rewrite List.filter_app, IH. Qed.

Lemma issue_lines_headers i : List.filter starts_nl (issue_lines i) = [issue_header i].
Proof. destruct i; cbn; rewrite ?bool_decide_true by done; reflexivity. Qed.

Lemma concat_singletons {A} (l : list A) : concat ((fun x => [x]) <$> l) = l.
Proof. induction l as [|x l IH]; [done|]. cbn. by rewrite IH. Qed.

Lemma filter_none_nl (lines : list string) :
  Forall (fun s => starts_nl s = false) lines -> List.filter starts_nl lines = [].
Proof. induction 1 as [|s l Hs _ IH]; [done|]. cbn. by rewrite Hs. Qed.

Lemma issues_headers ms : concat (List.filter starts_nl <$> (issue_lines <$> ms)) = issue_header <$> ms.
Proof. induction ms as [|i ms IH]; [done|]. cbn [fmap list_fmap concat]. by rewrite issue_lines_headers, IH. Qed.

(** The lines of [generate_report] that begin with a line feed are
    exactly the headers ["\n[SEVERITY] type"] of the result's mismatches,
    one per mismatch and in their order: every other line (title, summary,
    the indented details of an issue, its message) begins with another
    character, whatever the names, dates and messages hold. *)
Theorem report_issue_headers r :
  List.filter starts_nl (report_lines r) = issue_header <$> r_mismatches r.
Proof.
  unfold report_lines. rewrite !List.filter_app.
  rewrite (filter_none_nl [""; rule "="]) by repeat constructor.
  rewrite filter_none_nl by repeat constructor.
  destruct (r_mismatches r) as [|i ms]; [by rewrite filter_none_nl by repeat constructor|].
  rewrite List.filter_app, (filter_none_nl ["DETECTED ISSUES"; rule "-"]) by repeat constructor.
  rewrite filter_concat, issues_headers. cbn [app]. by rewrite app_nil_r.
Qed.

(** ** The lines of the network report *)

Lemma forallb_elem {A} (f : A -> bool) (l : list A) x : forallb f l = true -> x ∈ l -> f x = true.
Proof. intros Hf Hx. by apply (proj1 (forallb_forall f l) Hf), list_elem_of_In. Qed.

Lemma lf_free_spec s : lf_free s = true <-> lf_count s = 0.
Proof. apply Nat.eqb_eq. Qed.

Lemma lf_count_app (a b : string) : lf_count (a +:+ b) = lf_count a + lf_count b.
Proof. induction a as [|c a IH]; [done|]. rewrite str_app_cons. cbn [lf_count]. rewrite IH. lia. Qed.

Lemma lf_count_concat (sep : string) (l : list string) :
  lf_count (String.concat sep l) = (length l - 1) * lf_count sep + sum_list_with lf_count l.
Proof.
  induction l as [|x [|y l] IH]; [done|cbn; lia|].
  change (String.concat sep (x :: y :: l)) with (x +:+ sep +:+ String.concat sep (y :: l)).
  rewrite !lf_count_app, IH. cbn [length sum_list_with]. nia.
Qed.

Lemma digit_not_lf k : k < 10 -> Ascii.eqb (ascii_of_nat (48 + k)) LF_char = false.
Proof.
  intros Hk. apply Ascii.eqb_neq. intros H. apply (f_equal nat_of_ascii) in H.
  unfold LF_char in H. rewrite !nat_ascii_embedding in H by lia. lia.
Qed.

Lemma lf_count_digits fuel : forall n acc, lf_count (digits_of_pos fuel n acc) = lf_count acc.
Proof.
  induction fuel as [|f IH]; intros n acc; [done|]. cbn [digits_of_pos].
  assert (Hd : lf_count (String (ascii_of_nat (48 + Z.to_nat (n mod 10))) acc) = lf_count acc).
  { cbn [lf_count]. rewrite digit_not_lf; [done|]. pose proof (Z.mod_pos_bound n 10). lia. }
  destruct (n <? 10)%Z; [done|]. by rewrite IH.
Qed.

Lemma lf_count_str_of_Z z : lf_count (str_of_Z z) = 0.
Proof. unfold str_of_Z. destruct (z <? 0)%Z; cbn [lf_count]; rewrite lf_count_digits; reflexivity. Qed.

Lemma lf_count_nat_str k : lf_count (nat_str k) = 0.
Proof. apply lf_count_str_of_Z. Qed.

Lemma lf_count_repeat k s : lf_count (str_repeat k s) = k * lf_count s.
Proof. induction k as [|k IH]; [done|]. cbn [str_repeat]. rewrite lf_count_app, IH. lia. Qed.

Lemma lf_count_cons_other c s : Ascii.eqb c LF_char = false -> lf_count (String c s) = lf_count s.
Proof. intros Hc. cbn [lf_count]. by rewrite Hc. Qed.

Lemma lf_count_nl : lf_count nl = 1.
Proof. reflexivity. Qed.

Lemma lf_count_empty : lf_count "" = 0.
Proof. reflexivity. Qed.

Lemma lf_count_None : lf_count (py_opt_str None) = 0.
Proof. reflexivity. Qed.

Lemma sum_lines_cons s l : sum_list_with line_count (s :: l) = S (lf_count s) + sum_list_with line_count l.
Proof. reflexivity. Qed.

Lemma sum_lines_nil : sum_list_with line_count [] = 0.
Proof. reflexivity. Qed.

Create Rewrite HintDb lf_rw.
#[export] Hint Rewrite lf_count_app lf_count_nat_str lf_count_str_of_Z lf_count_repeat
  lf_count_nl lf_count_empty lf_count_None sum_lines_cons sum_lines_nil @sum_list_with_app : lf_rw.
#[export] Hint Rewrite lf_count_cons_other using reflexivity : lf_rw.

(** The line feeds of a line built from literals, numbers and strings
    known to hold none. *)
Ltac lf_solve := unfold rule in *; autorewrite with lf_rw in *; lia.

Lemma lf_count_join_free sep l :
  lf_count sep = 0 -> Forall (fun s => lf_count s = 0) l -> lf_count (join_with sep l) = 0.
Proof.
  intros Hs Hl. unfold join_with. rewrite lf_count_concat, Hs, Nat.mul_0_r.
  induction Hl as [|x l Hx _ IH]; cbn [sum_list_with]; lia.
Qed.

Lemma sum_line_count (l : list string) : sum_list_with line_count l = length l + sum_list_with lf_count l.
Proof. induction l as [|x l IH]; [done|]. cbn [sum_list_with length]. unfold line_count at 1. lia. Qed.

(** ["\n".join(report)] shows the lines of its entries, one after the
    other: an entry [f"\n..."] adds an empty line. *)
Lemma line_count_join (l : list string) :
  l <> [] -> line_count (join_with nl l) = sum_list_with line_count l.
Proof.
  intros Hl. unfold join_with, line_count at 1. rewrite lf_count_concat, sum_line_count.
  change (lf_count nl) with 1. destruct l; [done|]. cbn [length]. lia.
Qed.

Lemma lines_fmap_single {A} (f : A -> string) (l : list A) :
  Forall (fun x => lf_count (f x) = 0) l -> sum_list_with line_count (f <$> l) = length l.
Proof.
  induction 1 as [|x l Hx _ IH]; [done|]. cbn [fmap list_fmap sum_list_with length].
  change (line_count (f x)) with (S (lf_count (f x))). lia.
Qed.

Lemma lines_concat_le {A} (f : A -> list string) (k : nat) (l : list A) :
  Forall (fun x => sum_list_with line_count (f x) <= k) l ->
  sum_list_with line_count (concat (f <$> l)) <= k * length l.
Proof.
  induction 1 as [|x l Hx _ IH]; [cbn; lia|]. cbn [fmap list_fmap concat length].
  rewrite sum_list_with_app. lia.
Qed.

Lemma director_lines_lines d : shared_director_ok d = true -> sum_list_with line_count (director_lines d) <= 8.
Proof.
  unfold shared_director_ok. intros [Hn%lf_free_spec Hc]%andb_true_iff.
  unfold director_lines. rewrite sum_list_with_app, lines_fmap_single, length_take.
  - lf_solve.
  - apply Forall_take, Forall_forall. intros c Hin. pose proof (forallb_elem _ _ _ Hc Hin) as Hok.
    unfold shared_company_ok in Hok. rewrite !andb_true_iff, !lf_free_spec in Hok. lf_solve.
Qed.

Lemma shared_lines_lines shared :
  Forall (fun d => shared_director_ok d = true) shared -> sum_list_with line_count (shared_lines shared) <= 82.
Proof.
  intros Hs. unfold shared_lines. destruct shared as [|d ds]; [cbn; lia|].
  assert (Hc : sum_list_with line_count (concat (director_lines <$> take 10 (d :: ds))) <= 8 * length (take 10 (d :: ds)))
    by (apply lines_concat_le, Forall_take; eapply Forall_impl; [exact Hs|exact director_lines_lines]).
  rewrite length_take in Hc. cbn [length] in Hc. lf_solve.
Qed.

(** The directors the report lists copy their names and appointments
    from [network['directors']]. *)
Lemma find_shared_directors_ok n :
  forallb (fun kv => shared_director_ok (shared_entry kv)) (directors n) = true ->
  Forall (fun d => shared_director_ok d = true) (find_shared_directors n).
Proof.
  intros Hd. unfold find_shared_directors.
  destruct (sort_desc_spec sd_company_count (shared_candidates n)) as (_ & -> & _).
  apply Forall_forall. intros d (kv & -> & Hkv)%list_elem_of_fmap.
  apply list_elem_of_filter in Hkv as [_ Hkv]. exact (forallb_elem _ _ _ Hd Hkv).
Qed.

Section ClusterLines.
Variable n : network.
Hypothesis names_free : forall c v, (c, v) ∈ companies n -> lf_count (py_opt_str (Scanner.cr_company_name v)) = 0.

Lemma cluster_lines_lines i K :
  Forall (fun c => lf_count c = 0) K -> sum_list_with line_count (cluster_lines n i K) <= 12.
Proof.
  intros HK. unfold cluster_lines. rewrite sum_lines_cons, lines_fmap_single, length_take.
  - lf_solve.
  - apply Forall_take. eapply Forall_impl; [exact HK|]. intros c Hc. unfold cluster_company_line.
    destruct (dict_get (companies n) c) as [v|] eqn:Hv; cbn [mbind option_bind]; [|lf_solve].
    pose proof (names_free c v (dict_get_in _ _ _ Hv)). lf_solve.
Qed.

Lemma enumerate_lines_lines i cls :
  Forall (Forall (fun c => lf_count c = 0)) cls -> sum_list_with line_count (enumerate_lines n i cls) <= 12 * length cls.
Proof.
  intros Hcls. revert i. induction Hcls as [|K cls HK _ IH]; intros i; [cbn; lia|].
  cbn [enumerate_lines length]. rewrite sum_list_with_app.
  pose proof (cluster_lines_lines i K HK). specialize (IH (S i)). lia.
Qed.

Lemma clusters_lines_lines cls :
  Forall (Forall (fun c => lf_count c = 0)) cls -> sum_list_with line_count (clusters_lines n cls) <= 62.
Proof.
  intros Hcls. unfold clusters_lines. destruct cls as [|K cls]; [cbn; lia|].
  pose proof (enumerate_lines_lines 1 (take 5 (K :: cls)) ltac:(by apply Forall_take)) as He.
  rewrite length_take in He. cbn [length] in He. lf_solve.
Qed.
End ClusterLines.

(** C25: for every iteration order of the sets, [generate_network_report]
    returns a report (the traversal of [find_company_clusters] never runs
    out of fuel), and when no seed, company number, company name, director
    name or role of the network holds a line feed, [print] shows it on at
    most 160 lines whatever the size of the network: at most ten directors
    with five companies each and five clusters with ten companies each are
    listed, in 145 entries of which the 15 written [f"\n..."] add an empty
    line each. *)
Theorem generate_network_report_bounded iter n :
  (forall s x, x ∈ iter s <-> x ∈ s) -> network_lf_free n = true ->
  exists report, generate_network_report iter n = Some report /\ line_count report <= 160.
Proof.
  intros Hiter Hfree. unfold network_lf_free in Hfree.
  rewrite !andb_true_iff in Hfree. destruct Hfree as [[[Hseed Hconn] Hcomp] Hdir].
  destruct (components_some iter Hiter (build_graph (connections n)) (dict_keys (companies n))) as [res Hres].
  set (cls := sort_desc length res.2).
  assert (Hf : find_company_clusters iter n = Some cls) by (unfold find_company_clusters; by rewrite Hres).
  assert (Hcl : Forall (Forall (fun c => lf_count c = 0)) cls).
  { apply Forall_forall. intros K HK. apply Forall_forall. intros a Ha.
    destruct (find_company_clusters_members iter n cls Hiter Hf K a HK Ha) as (c & Hc & <-).
    exact (proj1 (lf_free_spec _) (forallb_elem _ _ _ Hconn Hc)). }
  assert (Hnames : forall c v, (c, v) ∈ companies n -> lf_count (py_opt_str (Scanner.cr_company_name v)) = 0)
    by (intros c v Hcv; exact (proj1 (lf_free_spec _) (forallb_elem _ _ (c, v) Hcomp Hcv))).
  assert (Hj : lf_count (join_with ", " (seed_companies n)) = 0).
  { apply lf_count_join_free; [done|]. apply Forall_forall. intros s Hs.
    exact (proj1 (lf_free_spec _) (forallb_elem _ _ _ Hseed Hs)). }
  unfold generate_network_report. rewrite Hf. eexists. split; [done|].
  rewrite line_count_join by (unfold network_report_lines; cbn [app]; discriminate).
  pose proof (shared_lines_lines _ (find_shared_directors_ok n Hdir)) as H1.
  pose proof (clusters_lines_lines n Hnames cls Hcl) as H2.
  unfold network_report_lines. lf_solve.
Qed.
