(* ===== verification/ExportScenarios.v ===== *)
(** * The CSV exports and the text reports on concrete runs

    The mismatch export of a batch run whose company name holds a comma
    and whose other company has a mismatch with a message, written out
    character by character; the exports of a run without results; the
    network export of the specification's shared-director crawl (the
    witness of [export_network_dob]) and of a crawl where two officers
    with the same name and appointment date but different dates of birth
    are merged into one identity; the mismatch report of the data of
    src/test_mismatch.py and the network report of the shared-director
    crawl. *)

From Stdlib Require Import QArith.
From S2P Require Import Prelude PyString Registry Csv Mismatch MismatchScenarios Scanner ScannerFrame ScannerProps Scenarios Clusters BatchProcessor BatchProps BatchScenarios CsvExport Reports.

Module ExportFixtures.
Import BatchFixtures Fixtures.

Definition acme : company_result :=
  CompanyResult "00000001" "t0" (Some "ACME, LIMITED") (Some "active") 3 1 1 no_mismatches.

Definition renamed_issue : issue :=
  MultipleNameChanges (Some "NM01.pdf") 2 [("A LIMITED", "B LIMITED"); ("B LIMITED", "C LIMITED")]
    "Document contains 2 name changes".

Definition beta : company_result :=
  CompanyResult "00000002" "t0" (Some "BETA LIMITED") (Some "active") 5 2 2
    (Result None None "t0" [renamed_issue] [] (Summary 1 0 0 0 0)).

(** The client of the batch run: [acme] and [beta] by number. *)
Definition client (c : string) (_ : bool) : SM nat company_result := fun s =>
  (Ok (if bool_decide (c = "00000001") then acme else beta), s).

Definition batch_run : batch Z :=
  (process_companies client scan_depth "t0" ["00000001"; "00000002"] false 1 true false None 0).1.1.

Definition empty_run : batch Z :=
  (process_companies client scan_depth "t0" [] false 1 true false None 0).1.1.

Definition confidence (q : Q) : string := "0.0".

(** Two officers named JOHN SMITH appointed on the same day, born in 1970
    and in 1980, the second reached through the search of the first. *)
Definition dob_off (m y : Z) : officer :=
  Officer (Some "JOHN SMITH") (Some "director") (Some "2020-01-01") None (Some (Dob (Some m) (Some y))).

Definition twins_db : registry_db := RegistryDb
  [("AA111111", prof "ALPHA LIMITED" "active");
   ("BB222222", prof "BETA LIMITED" "active")]%string
  [("AA111111", [dob_off 5 1970]);
   ("BB222222", [dob_off 7 1980])]%string
  [("JOHN SMITH", [hit "JOHN SMITH" "/officers/JS1/appointments"])]%string
  [("JS1", [appt "AA111111" "active"; appt "BB222222" "active"])]%string.

Definition twins_net : network :=
  Eval vm_compute in match run twins_db cfg_depth1 smith_seeds with Some st => net st | None => init_network [] 0 end.
End ExportFixtures.

Import Fixtures ExportFixtures.

Lemma export_network_dob_witness :
  scan_network (api := smith_api) cfg_depth1 100 smith_seeds tt = Some smith_final /\
  read_csv <$> (export_network (net smith_final) "network.csv").2 =
    Some (Some (map (map tx) (network_header :: (network_row (net smith_final) <$> connections (net smith_final))))) /\
  forall cn, cn ∈ connections (net smith_final) ->
    exists dr a apps, dict_get (directors (net smith_final)) (cn_director_id cn) = Some dr /\
      dr_appointments dr = a :: apps /\
      connection_dob (net smith_final) cn = default "N/A" (dob_str <$> ar_date_of_birth a).
Proof.
  assert (H : scan_network (api := smith_api) cfg_depth1 100 smith_seeds tt = Some smith_final)
    by (vm_compute; reflexivity).
  split; [exact H|].
  exact (export_network_dob (api := smith_api) cfg_depth1 100 smith_seeds tt smith_final "network.csv" H).
Defined.

(** The exports on concrete runs.  The mismatch export of a batch run
    writes the header, the row "None" of a company without mismatches
    with its name, which holds a comma, between double quotes, and one
    row per mismatch with its type, severity, document and message; the
    exports of a run without results write no file and still return the
    path they were given; in the network export of a crawl that merged two
    JOHN SMITHs appointed on the same day, both rows carry the date of
    birth of the first (5/1970), although the second was born in 1980.
    The text reports: the network report of the shared-director crawl is,
    line by line, the one the Python code prints (JOHN SMITH with his two
    companies, one cluster of two); in the mismatch report of the data of
    src/test_mismatch.py only the four issue headers contain a line feed,
    the missing-names issue has no document ("N/A"), and its message holds
    the two characters backslash and n where line breaks were meant. *)
Example export_scenario :
  (export_mismatches confidence batch_run "m.csv").2 =
    Some (tx "Company Number,Company Name,Mismatch Type,Severity,Document,Expected,Found,Confidence,Message" ++
          [CR; LF] ++
          tx "00000001," ++ [QUOTE] ++ tx "ACME, LIMITED" ++ [QUOTE] ++ tx ",None,N/A,,,,,No mismatches detected" ++
          [CR; LF] ++
          tx "00000002,BETA LIMITED,multiple_name_changes,medium,NM01.pdf,,,,Document contains 2 name changes" ++
          [CR; LF]) /\
  export_mismatches confidence empty_run "m.csv" = ("m.csv"%string, None) /\
  export_summary empty_run "s.csv" = ("s.csv"%string, None) /\
  (connection_dob twins_net <$> connections twins_net) = ["5/1970"; "5/1970"]%string /\
  (ar_date_of_birth <$> concat (dr_appointments <$> dict_values (directors twins_net))) =
    [Some (Dob (Some 5) (Some 1970)); Some (Dob (Some 7) (Some 1980))]%Z /\
  (network_report_lines (net smith_final) <$> find_company_clusters elements (net smith_final)) =
    Some [rule "="; "DIRECTOR NETWORK ANALYSIS"; rule "=";
          "Seed Companies: AA111111"; "Max Depth: 1"; ""; "STATISTICS"; rule "-";
          "Total Companies: 2"; "Total Directors: 1"; "Total Connections: 2"; "Depth Reached: 1"; "";
          "TOP SHARED DIRECTORS"; rule "-";
          nl +:+ "JOHN SMITH"; "  Companies: 2";
          "    - ALPHA LIMITED (AA111111) as director"; "    - BETA LIMITED (BB222222) as director"; "";
          "COMPANY CLUSTERS"; rule "-";
          nl +:+ "Cluster 1 (2 companies):"; "  - ALPHA LIMITED (AA111111)"; "  - BETA LIMITED (BB222222)"; "";
          rule "="]%string /\
  List.filter (str_contains nl) (report_lines MismatchFixtures.test_result) =
    [nl +:+ "[CRITICAL] name_mismatch"; nl +:+ "[CRITICAL] name_mismatch"; nl +:+ "[CRITICAL] name_mismatch";
     nl +:+ "[HIGH] names_in_filings_missing_from_overview"]%string /\
  "  Document: N/A"%string ∈ report_lines MismatchFixtures.test_result /\
  existsb (str_contains "\n\n=== NAMES IN FILING HISTORY") (report_lines MismatchFixtures.test_result) = true.
Proof. split_and!; try (vm_compute; reflexivity). apply (bool_decide_unpack _). vm_compute. reflexivity. Qed.

Lemma generate_network_report_bounded_witness :
  (forall (s : gset string) x, x ∈ elements s <-> x ∈ s) /\ network_lf_free (net smith_final) = true /\
  exists report, generate_network_report elements (net smith_final) = Some report /\ line_count report <= 160.
Proof.
  assert (H : forall (s : gset string) x, x ∈ elements s <-> x ∈ s) by (intros s x; apply elem_of_elements).
  assert (Hf : network_lf_free (net smith_final) = true) by (vm_compute; reflexivity).
  split_and!; [exact H|exact Hf|]. exact (generate_network_report_bounded elements (net smith_final) H Hf).
Defined.

