(* ===== verification/RepoTests.v ===== *)
(** * The repository's tests, run on the model

    src/tests/test_name_parser.py asserts what [normalize_name],
    [compare_names] and [extract_names] return on a few inputs; its
    assertions are stated here of the model for every similarity measure
    that scores ACME against XYZ as [difflib] does (below 0.85) and every
    iteration order of the extracted set.  src/test_mismatch.py runs
    [detect_mismatches] on a dummy profile and two documents and prints
    SUCCESS when mismatches are found; [test_mismatch_output] is what it
    prints, one block of four lines per mismatch. *)

From Stdlib Require Import QArith.
From S2P Require Import Prelude PyString Regex NameParser Mismatch MismatchScenarios BatchProcessor CsvExport Reports.

(** The text of [test_extract_names], lines 43-49, a triple-quoted string
    with its line breaks and indentation. *)
Definition test_extract_names_text : string :=
  join_with nl ["";
    "    Certificate of Incorporation";
    "    ";
    "    Company Name: ACME TRADING LIMITED";
    "    ";
    "    This certifies that the company was incorporated on 01/01/2020.";
    "    "].

(** The names the patterns and the sections scan return on it, before the
    set removes duplicates. *)
Definition test_extract_names_found : list string :=
  ["ACME TRADING LIMITED THIS CERTIFIES THAT THE COMPANY WAS INCORPORATED ON"; "ACME TRADING LIMITED"].

(** [any(needle in name for name in names)]. *)
Definition any_contains (needle : string) (names : list string) : bool := existsb (str_contains needle) names.

(** The documents of src/test_mismatch.py, lines 33-46, without the
    re-registration application [MismatchScenarios] adds. *)
Definition test_mismatch_documents : list parsed_doc :=
  [MismatchFixtures.incorporation_doc; MismatchFixtures.name_change_doc].

(** ** What [test_mismatch_detection] prints, lines 17-19 and 50-73

    One string per [print] call.  [repr] of a string and [json.dumps] of
    the result are parameters: the model does not escape strings. *)
Section Output.
Variable str_repr : string -> string.
Variable dumps : result -> string.

(** [repr] of an element that is a string or [None]. *)
Definition opt_repr (o : option string) : string :=
  match o with Some s => str_repr s | None => "None" end.

(** [repr] of a list: [list.__repr__]. *)
Definition list_repr (l : list (option string)) : string :=
  "[" +:+ join_with ", " (map opt_repr l) +:+ "]".

(** ["="*60]. *)
Definition rule60 : string := str_repeat 60 "=".

(** The four lines of the loop body, lines 67-70. *)
Definition mismatch_lines (i : nat) (m : issue) : list string :=
  [nl +:+ "   Mismatch #" +:+ nat_str i +:+ ":";
   "   Type: " +:+ issue_type m;
   "   Severity: " +:+ issue_severity m;
   "   Message: " +:+ substring 0 200 (default "N/A" (issue_message m)) +:+ "..."].

(** [for i, mismatch in enumerate(ms, i)]. *)
Fixpoint enum_lines (i : nat) (ms : list issue) : list string :=
  match ms with
  | [] => []
  | m :: ms' => mismatch_lines i m ++ enum_lines (S i) ms'
  end.

(** The whole output, given the profile, the documents and the result
    [detect_mismatches] returned on them. *)
Definition test_mismatch_output (p : company) (docs : list parsed_doc) (r : result) : list string :=
  [nl +:+ rule60; "🧪 MISMATCH DETECTION TEST"; rule60 +:+ nl;
   "📋 Test Data:";
   "   Company: " +:+ py_opt_str (co_name p) +:+ " (" +:+ py_opt_str (co_number p) +:+ ")";
   "   Official Names: " +:+ list_repr (co_name p :: map pn_name (co_previous p));
   "   Documents: " +:+ nat_str (length docs);
   "";
   "✅ Mismatch Detection Result:"; dumps r;
   nl +:+ rule60] ++
  match r_mismatches r with
  | [] => ["❌ ERROR: No mismatches found (should have found some!)"]
  | ms => ("✅ SUCCESS: Found " +:+ nat_str (length ms) +:+ " mismatch(es)") :: enum_lines 1 ms
  end ++ [rule60 +:+ nl].
End Output.

Lemma extract_names_test_text iter :
  (forall s x, x ∈ iter s <-> x ∈ s) ->
  forall n, n ∈ extract_names iter (tx test_extract_names_text) <-> n ∈ test_extract_names_found.
Proof.
  intros Hiter n. unfold extract_names. rewrite Hiter, elem_of_list_to_set.
  assert (H : concat (pattern_names (tx test_extract_names_text) <$> NAME_PATTERNS) ++
              extract_from_sections (tx test_extract_names_text) = test_extract_names_found)
    by (vm_compute; reflexivity).
  by rewrite H.
Qed.

(** The assertions of src/tests/test_name_parser.py hold of the
    model: [normalize_name] maps "ACME LTD", "acme limited" and "ACME
    LIMITED" with two spaces to "ACME LIMITED"; [compare_names] scores
    identical names 1.0 and a match, matches "ACME LTD" with "ACME
    LIMITED", and does not match "ACME LIMITED" with "XYZ LIMITED" when
    the similarity measure scores them below 0.85 (difflib's ratio gives
    16/23); [extract_names] of the test's certificate returns a name
    containing "ACME TRADING LIMITED", for every iteration order, but
    also the sentence fragment that the case-insensitive pattern runs
    into across the line break. *)
Theorem test_name_parser_passes ratio iter :
  (ratio (tx "ACME LIMITED") (tx "XYZ LIMITED") < 85 # 100)%Q ->
  (forall s x, x ∈ iter s <-> x ∈ s) ->
  normalize_name "ACME LTD" = "ACME LIMITED"%string /\
  normalize_name "acme limited" = "ACME LIMITED"%string /\
  normalize_name "ACME  LIMITED" = "ACME LIMITED"%string /\
  compare_names ratio (tx "ACME LIMITED") (tx "ACME LIMITED") = (1%Q, true) /\
  (compare_names ratio (tx "ACME LTD") (tx "ACME LIMITED")).2 = true /\
  (compare_names ratio (tx "ACME LIMITED") (tx "XYZ LIMITED")).2 = false /\
  0 < length (extract_names iter (tx test_extract_names_text)) /\
  any_contains "ACME TRADING LIMITED" (extract_names iter (tx test_extract_names_text)) = true /\
  "ACME TRADING LIMITED THIS CERTIFIES THAT THE COMPANY WAS INCORPORATED ON"%string
    ∈ extract_names iter (tx test_extract_names_text).
Proof.
  intros Hlt Hiter.
  assert (Hin : "ACME TRADING LIMITED"%string ∈ extract_names iter (tx test_extract_names_text))
    by (apply extract_names_test_text; [done|]; right; left).
  split_and!; try (vm_compute; reflexivity).
  - unfold compare_names. rewrite bool_decide_false by (vm_compute; congruence).
    change (normalize_t (tx "ACME LIMITED")) with (tx "ACME LIMITED").
    change (normalize_t (tx "XYZ LIMITED")) with (tx "XYZ LIMITED").
    destruct (Qle_bool _ _) eqn:Hq; [apply Qle_bool_iff in Hq; exfalso; exact (Qlt_not_le _ _ Hlt Hq)|].
    vm_compute. reflexivity.
  - destruct (extract_names iter _) as [|x l]; [by apply not_elem_of_nil in Hin|]. cbn. lia.
  - apply existsb_exists. exists "ACME TRADING LIMITED"%string. split; [by apply list_elem_of_In|].
    vm_compute. reflexivity.
  - apply extract_names_test_text; [done|]. left.
Qed.

Lemma test_name_parser_passes_witness :
  (ratio_zero (tx "ACME LIMITED") (tx "XYZ LIMITED") < 85 # 100)%Q /\
  (forall (s : gset string) x, x ∈ elements s <-> x ∈ s) /\
  (compare_names ratio_zero (tx "ACME LIMITED") (tx "XYZ LIMITED")).2 = false /\
  any_contains "ACME TRADING LIMITED" (extract_names elements (tx test_extract_names_text)) = true.
Proof.
  assert (Hr : (ratio_zero (tx "ACME LIMITED") (tx "XYZ LIMITED") < 85 # 100)%Q) by (vm_compute; reflexivity).
  assert (He : forall (s : gset string) x, x ∈ elements s <-> x ∈ s) by (intros s x; apply elem_of_elements).
  destruct (test_name_parser_passes ratio_zero elements Hr He) as (_ & _ & _ & _ & _ & H1 & _ & H2 & _).
  split_and!; [exact Hr|exact He|exact H1|exact H2].
Defined.

(** [test_mismatch_detection] finds mismatches, so the script prints its
    SUCCESS line: the two names of the documents that are not in the
    profile, and one missing-names issue. *)
Example test_mismatch_success :
  let r := detect_mismatches MismatchFixtures.parse_len MismatchFixtures.compare_days MismatchFixtures.iso_z
             MismatchFixtures.days_z ratio_zero "2024-01-01T00:00:00" MismatchFixtures.test_company tt
             test_mismatch_documents in
  r_mismatches r <> [] /\ length (r_mismatches r) = 3 /\
  omap mismatch_name (r_mismatches r) = ["ORIGINAL COMPANY NAME LIMITED"; "HIDDEN NAME LTD"]%string.
Proof. split_and!; vm_compute; try reflexivity. discriminate. Qed.

(** The loop prints four lines per mismatch. *)
Lemma enum_lines_length i ms : length (enum_lines i ms) = 4 * length ms.
Proof.
  revert i; induction ms as [|m ms IH]; intros i; [done|].
  cbn [enum_lines length]; rewrite length_app, IH; cbn; lia.
Qed.

(** The [k]-th block of four lines (from 0) reports the [k]-th mismatch,
    numbered [i + k]. *)
Lemma enum_lines_block i ms k m :
  ms !! k = Some m -> take 4 (drop (4 * k) (enum_lines i ms)) = mismatch_lines (i + k) m.
Proof.
  revert i k; induction ms as [|m' ms IH]; intros i [|k] Hk; [done|done| |].
  - injection Hk as ->; rewrite Nat.add_0_r; reflexivity.
  - replace (4 * S k) with (4 + 4 * k) by lia.
    rewrite Nat.add_succ_r; exact (IH (S i) k Hk).
Qed.

(** What the script prints on its fixture, with [repr] quoting a string
    in single quotes: the official names, the SUCCESS line with the
    three mismatches and the first of them. *)
Example test_mismatch_output_fixture :
  let r := detect_mismatches MismatchFixtures.parse_len MismatchFixtures.compare_days MismatchFixtures.iso_z
             MismatchFixtures.days_z ratio_zero "2024-01-01T00:00:00" MismatchFixtures.test_company tt
             test_mismatch_documents in
  let out := test_mismatch_output (fun s => "'" +:+ s +:+ "'") (fun _ => "{}")
               MismatchFixtures.test_company test_mismatch_documents r in
  length out = 25 /\
  out !! 5 = Some "   Official Names: ['TEST COMPANY LIMITED', 'OLD NAME LIMITED']"%string /\
  out !! 11 = Some "✅ SUCCESS: Found 3 mismatch(es)"%string /\
  out !! 13 = Some "   Type: name_mismatch"%string.
Proof. split_and!; vm_compute; reflexivity. Qed.
