(* ===== verification/Base64.v ===== *)
(** * [base64.b64encode] and its inverse

    The standard alphabet of RFC 4648, which Python's [base64.b64encode]
    uses: every three bytes become four characters, the bits of the bytes
    taken six at a time with [Z.shiftr], [Z.land], [Z.shiftl] and
    [Z.lor], and a last group of one or two bytes is padded with ['=']. A
    byte is an [ascii] character (a [str] encoded to bytes, one byte per
    character).  [b64decode] is the decoder the encoding is meant to be
    inverted by; [b64decode_encode] shows that it is, and
    [length_b64encode] that the encoding has [4 * ceil(n / 3)]
    characters. *)

From S2P Require Import Prelude.

Definition b64_alphabet : string :=
  "ABCDEFGHIJKLMNOPQRSTUVWXYZabcdefghijklmnopqrstuvwxyz0123456789+/".

Definition PAD : ascii := "="%char.

(** The character of a six-bit index. *)
Definition b64_char (i : Z) : ascii :=
  match String.get (Z.to_nat i) b64_alphabet with Some c => c | None => PAD end.

(** The byte value of a character. *)
Definition byte (c : ascii) : Z := Z.of_nat (nat_of_ascii c).

Definition of_byte (z : Z) : ascii := ascii_of_nat (Z.to_nat z).

(** The four characters of three bytes. *)
Definition enc3 (a b c : Z) : list ascii :=
  [b64_char (Z.shiftr a 2);
   b64_char (Z.lor (Z.shiftl (Z.land a 3) 4) (Z.shiftr b 4));
   b64_char (Z.lor (Z.shiftl (Z.land b 15) 2) (Z.shiftr c 6));
   b64_char (Z.land c 63)].

Fixpoint b64_encode_list (l : list ascii) : list ascii :=
  match l with
  | a :: b :: c :: rest => enc3 (byte a) (byte b) (byte c) ++ b64_encode_list rest
  | [a; b] => take 3 (enc3 (byte a) (byte b) 0) ++ [PAD]
  | [a] => take 2 (enc3 (byte a) 0 0) ++ [PAD; PAD]
  | [] => []
  end.

(** [base64.b64encode(s.encode()).decode()]. *)
Definition b64encode (s : string) : string := string_of_list_ascii (b64_encode_list (list_ascii_of_string s)).

(** ** The decoder *)

Fixpoint index_in (c : ascii) (s : string) (i : Z) : option Z :=
  match s with
  | EmptyString => None
  | String c' s' => if bool_decide (c = c') then Some i else index_in c s' (i + 1)
  end.

Definition b64_index (c : ascii) : option Z := index_in c b64_alphabet 0.

Definition dec3 (i j k l : Z) : list Z :=
  [Z.lor (Z.shiftl i 2) (Z.shiftr j 4);
   Z.lor (Z.shiftl (Z.land j 15) 4) (Z.shiftr k 2);
   Z.lor (Z.shiftl (Z.land k 3) 6) l].

Fixpoint b64_decode_list (l : list ascii) : option (list ascii) :=
  match l with
  | [] => Some []
  | [c1; c2; c3; c4] =>
      if bool_decide (c3 = PAD) && bool_decide (c4 = PAD) then
        i ← b64_index c1; j ← b64_index c2; Some (of_byte <$> take 1 (dec3 i j 0 0))
      else if bool_decide (c4 = PAD) then
        i ← b64_index c1; j ← b64_index c2; k ← b64_index c3; Some (of_byte <$> take 2 (dec3 i j k 0))
      else
        i ← b64_index c1; j ← b64_index c2; k ← b64_index c3; m ← b64_index c4;
        Some (of_byte <$> dec3 i j k m)
  | c1 :: c2 :: c3 :: c4 :: rest =>
      i ← b64_index c1; j ← b64_index c2; k ← b64_index c3; m ← b64_index c4;
      r ← b64_decode_list rest; Some ((of_byte <$> dec3 i j k m) ++ r)
  | _ => None
  end.

Definition b64decode (s : string) : option string :=
  string_of_list_ascii <$> b64_decode_list (list_ascii_of_string s).

(** ** Bits *)

Local Open Scope Z_scope.

Lemma byte_range c : (0 <= byte c < 256)%Z.
Proof. unfold byte. pose proof (nat_ascii_bounded c). lia. Qed.

Lemma of_byte_byte c : of_byte (byte c) = c.
Proof. unfold of_byte, byte. rewrite Nat2Z.id. apply ascii_nat_embedding. Qed.

(** The bits of [x * 2^k] and of [y < 2^k] do not overlap. *)
Lemma land_shiftl_small x y k : (0 <= k -> 0 <= y < 2 ^ k -> Z.land (Z.shiftl x k) y = 0)%Z.
Proof.
  intros Hk Hy. apply Z.bits_inj'. intros n Hn. rewrite Z.land_spec, Z.bits_0.
  destruct (Z.lt_ge_cases n k); [by rewrite Z.shiftl_spec_low|].
  destruct (Z.eq_dec y 0) as [->|Hy0]; [by rewrite Z.bits_0, andb_false_r|].
  rewrite (Z.bits_above_log2 y n); [by rewrite andb_false_r|lia|].
  assert (Z.log2 y < k) by (apply Z.log2_lt_pow2; lia). lia.
Qed.

Lemma lor_shiftl_small x y k :
  (0 <= k -> 0 <= y < 2 ^ k -> Z.lor (Z.shiftl x k) y = x * 2 ^ k + y)%Z.
Proof.
  intros Hk Hy. pose proof (land_shiftl_small x y k Hk Hy) as H0.
  rewrite <- Z.lxor_lor by done. rewrite <- Z.add_nocarry_lxor by done.
  by rewrite Z.shiftl_mul_pow2.
Qed.

(** The six-bit indices of three bytes, and what the decoder rebuilds from them. *)
Lemma dec3_enc3 a b c :
  0 <= a < 256 -> 0 <= b < 256 -> 0 <= c < 256 ->
  let i := Z.shiftr a 2 in
  let j := Z.lor (Z.shiftl (Z.land a 3) 4) (Z.shiftr b 4) in
  let k := Z.lor (Z.shiftl (Z.land b 15) 2) (Z.shiftr c 6) in
  let m := Z.land c 63 in
  (0 <= i < 64 /\ 0 <= j < 64 /\ 0 <= k < 64 /\ 0 <= m < 64) /\ dec3 i j k m = [a; b; c].
Proof.
  intros Ha Hb Hc i j k m.
  assert (Hi : i = a / 4) by (subst i; by rewrite Z.shiftr_div_pow2).
  assert (Hj : j = a mod 4 * 16 + b / 16).
  { subst j. change 3 with (Z.ones 2). rewrite Z.land_ones, Z.shiftr_div_pow2 by lia.
    rewrite lor_shiftl_small; [done|lia|]. change (2 ^ 4) with 16. Z.div_mod_to_equations. lia. }
  assert (Hk : k = b mod 16 * 4 + c / 64).
  { subst k. change 15 with (Z.ones 4). rewrite Z.land_ones, Z.shiftr_div_pow2 by lia.
    rewrite lor_shiftl_small; [done|lia|]. change (2 ^ 2) with 4. Z.div_mod_to_equations. lia. }
  assert (Hm : m = c mod 64) by (subst m; change 63 with (Z.ones 6); by rewrite Z.land_ones).
  split.
  - rewrite Hi, Hj, Hk, Hm. Z.div_mod_to_equations. lia.
  - unfold dec3. change 3 with (Z.ones 2). change 15 with (Z.ones 4).
    rewrite !Z.land_ones, !Z.shiftr_div_pow2 by lia. rewrite Hi, Hj, Hk, Hm.
    change (2 ^ 2) with 4. change (2 ^ 4) with 16.
    rewrite !lor_shiftl_small; try (change (2 ^ 2) with 4 || change (2 ^ 4) with 16 || change (2 ^ 6) with 64);
      try (Z.div_mod_to_equations; lia).
    f_equal; [|f_equal; [|f_equal]]; change (2 ^ 2) with 4; change (2 ^ 4) with 16; change (2 ^ 6) with 64;
      Z.div_mod_to_equations; lia.
Qed.

Lemma b64_index_char i : 0 <= i < 64 -> b64_index (b64_char i) = Some i /\ b64_char i <> PAD.
Proof.
  intros Hi. rewrite <- (Z2Nat.id i) by lia. assert (Hn : (Z.to_nat i < 64)%nat) by lia.
  generalize (Z.to_nat i) Hn. clear i Hi Hn. intros n Hn.
  assert (H : forallb (fun n => bool_decide (b64_index (b64_char (Z.of_nat n)) = Some (Z.of_nat n) /\
                                            b64_char (Z.of_nat n) <> PAD)) (seq 0 64) = true)
    by (vm_compute; reflexivity).
  rewrite forallb_forall in H. specialize (H n (proj2 (in_seq 64 0 n) ltac:(lia))). by apply bool_decide_eq_true in H.
Qed.

Lemma of_byte_bytes a b c : of_byte <$> [byte a; byte b; byte c] = [a; b; c].
Proof. cbn. by rewrite !of_byte_byte. Qed.

(** Decoding the four characters of three bytes [a b c]: the first [n]
    bytes come back for the [n] the padding keeps. *)
Lemma decode_enc3 a b c (i j k m : Z) :
  0 <= a < 256 -> 0 <= b < 256 -> 0 <= c < 256 ->
  enc3 a b c = [b64_char i; b64_char j; b64_char k; b64_char m] ->
  b64_index (b64_char i) = Some (Z.shiftr a 2) /\
  b64_index (b64_char j) = Some (Z.lor (Z.shiftl (Z.land a 3) 4) (Z.shiftr b 4)) /\
  b64_index (b64_char k) = Some (Z.lor (Z.shiftl (Z.land b 15) 2) (Z.shiftr c 6)) /\
  b64_index (b64_char m) = Some (Z.land c 63) /\
  b64_char k <> PAD /\ b64_char m <> PAD.
Proof.
  intros Ha Hb Hc E. destruct (dec3_enc3 a b c Ha Hb Hc) as [(Hi & Hj & Hk & Hm) _].
  injection E as Ei Ej Ek Em. rewrite <- Ei, <- Ej, <- Ek, <- Em.
  destruct (b64_index_char _ Hi), (b64_index_char _ Hj), (b64_index_char _ Hk), (b64_index_char _ Hm).
  split_and!; done.
Qed.

Lemma b64_decode_list_group c1 c2 c3 c4 y ys :
  b64_decode_list (c1 :: c2 :: c3 :: c4 :: y :: ys) =
    (i ← b64_index c1; j ← b64_index c2; k ← b64_index c3; m ← b64_index c4;
     r ← b64_decode_list (y :: ys); Some ((of_byte <$> dec3 i j k m) ++ r)).
Proof. reflexivity. Qed.

Lemma b64_encode_list_nil l : b64_encode_list l = [] -> l = [].
Proof.
  destruct l as [|a [|b [|c l]]]; intros H; [done|..]; apply (f_equal length) in H;
    cbn [b64_encode_list] in H; rewrite length_app in H; cbn in H; lia.
Qed.

Theorem b64_decode_encode_list l : b64_decode_list (b64_encode_list l) = Some l.
Proof.
  remember (length l) as n eqn:Hn. revert l Hn. induction n as [n IH] using lt_wf_ind. intros l ->.
  destruct l as [|a [|b [|c rest]]]; [done| | |].
  - pose proof (byte_range a) as Ha. destruct (dec3_enc3 (byte a) 0 0 Ha ltac:(lia) ltac:(lia)) as [(Hi & Hj & _) Hd].
    destruct (decode_enc3 (byte a) 0 0 _ _ _ _ Ha ltac:(lia) ltac:(lia) eq_refl) as (Ei & Ej & _).
    cbn [b64_encode_list]. unfold enc3 at 1. cbn [take app b64_decode_list].
    rewrite !bool_decide_true by done. cbn [andb]. rewrite Ei, Ej. cbn [mbind option_bind].
    rewrite (Hd : dec3 _ _ 0 0 = _). cbn. by rewrite of_byte_byte.
  - pose proof (byte_range a) as Ha. pose proof (byte_range b) as Hb.
    destruct (dec3_enc3 (byte a) (byte b) 0 Ha Hb ltac:(lia)) as [_ Hd].
    destruct (decode_enc3 (byte a) (byte b) 0 _ _ _ _ Ha Hb ltac:(lia) eq_refl) as (Ei & Ej & Ek & _ & Hk & _).
    cbn [b64_encode_list]. unfold enc3 at 1. cbn [take app b64_decode_list].
    rewrite (bool_decide_false (b64_char _ = PAD)) by exact Hk. cbn [andb].
    rewrite bool_decide_true by done. rewrite Ei, Ej, Ek. cbn [mbind option_bind].
    rewrite (Hd : dec3 _ _ _ 0 = _). cbn. by rewrite !of_byte_byte.
  - pose proof (byte_range a) as Ha. pose proof (byte_range b) as Hb. pose proof (byte_range c) as Hc.
    destruct (dec3_enc3 (byte a) (byte b) (byte c) Ha Hb Hc) as [_ Hd].
    destruct (decode_enc3 (byte a) (byte b) (byte c) _ _ _ _ Ha Hb Hc eq_refl) as (Ei & Ej & Ek & Em & Hk & Hm).
    cbn [b64_encode_list]. destruct (b64_encode_list rest) as [|y ys] eqn:Er.
    + apply b64_encode_list_nil in Er as ->. rewrite app_nil_r. unfold enc3 at 1. cbn [b64_decode_list].
      rewrite (bool_decide_false (b64_char (Z.lor _ (Z.shiftr (byte c) 6)) = PAD)) by exact Hk. cbn [andb].
      rewrite bool_decide_false by exact Hm. rewrite Ei, Ej, Ek, Em. cbn [mbind option_bind].
      rewrite Hd. by rewrite of_byte_bytes.
    + unfold enc3 at 1. cbn [app]. rewrite b64_decode_list_group, Ei, Ej, Ek, Em. cbn [mbind option_bind].
      rewrite <- Er, (IH (length rest)) by (cbn; lia). cbn [mbind option_bind].
      rewrite Hd, of_byte_bytes. done.
Qed.

Lemma length_b64_encode_list l : length (b64_encode_list l) = (4 * ((length l + 2) / 3))%nat.
Proof.
  remember (length l) as n eqn:Hn. revert l Hn. induction n as [n IH] using lt_wf_ind. intros l ->.
  destruct l as [|a [|b [|c rest]]]; [done..|]. cbn [b64_encode_list length]. rewrite length_app.
  rewrite (IH (length rest)) by (cbn; lia). unfold enc3. cbn [length].
  replace (S (S (S (length rest))) + 2)%nat with (length rest + 2 + 1 * 3)%nat by lia.
  rewrite Nat.div_add by lia. lia.
Qed.

Lemma length_string_of_list_ascii l : String.length (string_of_list_ascii l) = length l.
Proof. induction l as [|c l IH]; [done|]. cbn. by rewrite IH. Qed.

(** [base64.b64encode] of a string is decoded back to it by
    [b64decode], and it has [4 * ceil(n / 3)] characters for [n] bytes:
    every group of three bytes gives four characters of the alphabet, and
    the padding makes the last group four characters long. *)
Theorem b64decode_encode s :
  b64decode (b64encode s) = Some s /\
  String.length (b64encode s) = (4 * ((String.length s + 2) / 3))%nat.
Proof.
  unfold b64decode, b64encode. rewrite list_ascii_of_string_of_list_ascii, b64_decode_encode_list.
  split; [cbn; by rewrite string_of_list_ascii_of_string|].
  rewrite length_string_of_list_ascii, length_b64_encode_list.
  rewrite <- (string_of_list_ascii_of_string s) at 2. by rewrite length_string_of_list_ascii.
Qed.
