(* ===== verification/Json.v ===== *)
(** * JSON values and Python's subscripts on them

    The values [json.loads] returns and [json.dumps] and [requests]
    take: [None], booleans, integers, floats (a decimal [m * 10^e]),
    strings, lists and dicts (their items in order).  [j[k]] and [j[i]]
    raise Python's [KeyError], [IndexError] or [TypeError], with the
    message [str(e)] shows; [f"{j}"] shows a scalar as Python prints it
    and a container by its [repr], a parameter. *)

From S2P Require Import Prelude.

Inductive json :=
| JNull
| JBool (b : bool)
| JInt (z : Z)
| JFloat (m e : Z)
| JStr (s : string)
| JList (l : list json)
| JObj (fields : list (string * json)).

(** The name [type(j).__name__] gives. *)
Definition json_type (j : json) : string :=
  match j with
  | JNull => "NoneType" | JBool _ => "bool" | JInt _ => "int" | JFloat _ _ => "float"
  | JStr _ => "str" | JList _ => "list" | JObj _ => "dict"
  end.

Definition not_subscriptable (j : json) : exn :=
  Exn ("'" +:+ json_type j +:+ "' object is not subscriptable").

(** [j[k]] for a string key. *)
Definition json_key (k : string) (j : json) : result json :=
  match j with
  | JObj fs => match dict_get fs k with Some v => Ok v | None => Err (Exn ("'" +:+ k +:+ "'")) end
  | JList _ => Err (Exn "list indices must be integers or slices, not str")
  | JStr _ => Err (Exn "string indices must be integers, not 'str'")
  | _ => Err (not_subscriptable j)
  end.

(** [j[i]] for an index [i >= 0]. *)
Definition json_index (i : nat) (j : json) : result json :=
  match j with
  | JList l => match l !! i with Some v => Ok v | None => Err (Exn "list index out of range") end
  | JObj fs => Err (Exn (str_of_Z (Z.of_nat i)))
  | JStr s => match String.get i s with
              | Some c => Ok (JStr (String c EmptyString))
              | None => Err (Exn "string index out of range")
              end
  | _ => Err (not_subscriptable j)
  end.

Section Show.
(** [repr] of a list or a dict. *)
Variable py_repr : json -> string.

(** [f"{j}"]. *)
Definition py_fstr (j : json) : string :=
  match j with
  | JNull => "None"
  | JBool b => if b then "True" else "False"
  | JInt z => str_of_Z z
  | JStr s => s
  | _ => py_repr j
  end.
End Show.
