(* ===== verification/AiExtraction.v ===== *)
(** * The vision-model extraction of [PDFProcessor]: src/pdf_processor.py
      lines 122-259

    [extract_with_ai] sends the first pages of a PDF, as JPEG images, to
    the vision model of [Config.AI_PROVIDER]: [_extract_with_xai] posts
    each of the first three pages to the XAI chat-completions endpoint
    with [requests], [_extract_with_openai] sends the first page through
    the [openai] module.  Each page image is saved as a temporary file of
    [Config.CACHE_DIR], read back, base64-encoded into a [data:] URL and
    removed after the call; every exception of the body is caught,
    printed, and turned into an empty text.

    The effects are explicit in a small state-and-exception monad [AM]
    over [ai_world]: the files of the cache directory (path to bytes),
    the requests posted, the module-level [openai.api_key] and the
    printed lines.  The rendering of the pages ([convert_from_path]),
    [requests.post], [response.json()], [openai.ChatCompletion.create]
    and the [repr] of JSON containers are parameters; base64 is
    [Base64.b64encode]. *)

From S2P Require Import Prelude PyString Base64 Json Config.

(** ** Effects *)

(** [requests.Response]: the status and the body text. *)
Record http_response := HttpResponse { status_code : Z; resp_text : string }.

(** A request posted: URL, headers, JSON body. *)
Definition post_call : Type := string * list (string * string) * json.

Record ai_world := AiWorld {
  aw_files : pydict string string;
  aw_posts : list post_call;
  aw_openai_key : string;
  aw_log : list string
}.

Definition AM (A : Type) : Type := ai_world -> result A * ai_world.

#[export] Instance am_ret : MRet AM := fun A a w => (Ok a, w).
#[export] Instance am_bind : MBind AM := fun A B f m w =>
  match m w with
  | (Ok a, w') => f a w'
  | (Err e, w') => (Err e, w')
  end.

Definition lift {A} (r : result A) : AM A := fun w => (r, w).

(** [try: m except Exception as e: h(e)]: the effects of [m] up to the
    exception stay. *)
Definition try_except {A} (m : AM A) (h : exn -> AM A) : AM A := fun w =>
  match m w with
  | (Err e, w') => h e w'
  | r => r
  end.

(** [print(line)]. *)
Definition log_line (line : string) : AM unit := fun w =>
  (Ok tt, AiWorld (aw_files w) (aw_posts w) (aw_openai_key w) (aw_log w ++ [line])).

(** [image.save(path, 'JPEG')]: the file is created or overwritten. *)
Definition save_file (path data : string) : AM unit := fun w =>
  (Ok tt, AiWorld (dict_set (aw_files w) path data) (aw_posts w) (aw_openai_key w) (aw_log w)).

Definition no_such_file (path : string) : exn :=
  Exn ("[Errno 2] No such file or directory: '" +:+ path +:+ "'").

(** [open(path, 'rb').read()]. *)
Definition read_file (path : string) : AM string := fun w =>
  match dict_get (aw_files w) path with
  | Some d => (Ok d, w)
  | None => (Err (no_such_file path), w)
  end.

(** [Path.unlink()]. *)
Definition unlink (path : string) : AM unit := fun w =>
  match dict_get (aw_files w) path with
  | Some _ => (Ok tt, AiWorld (dict_del (aw_files w) path) (aw_posts w) (aw_openai_key w) (aw_log w))
  | None => (Err (no_such_file path), w)
  end.

Definition set_openai_key (k : string) : AM unit := fun w =>
  (Ok tt, AiWorld (aw_files w) (aw_posts w) k (aw_log w)).

Definition get_openai_key : AM string := fun w => (Ok (aw_openai_key w), w).

(** ** Paths *)

(** [Path(p).name]: the last component. *)
Definition path_name (p : string) : string :=
  default "" (last (filter Config.kept_part (str_split "/" p))).

Fixpoint index_of (c : ascii) (l : text) : option nat :=
  match l with
  | [] => None
  | x :: l' => if bool_decide (x = c) then Some O else S <$> index_of c l'
  end.

(** [Path(p).stem]: the name without its last suffix, a suffix being a
    dot at [i] with [0 < i < len(name) - 1]. *)
Definition path_stem (p : string) : string :=
  let name := tx (path_name p) in
  match index_of "." (rev name) with
  | Some j =>
      if (1 <=? j)%nat && (j <? length name - 1)%nat
      then string_of_list_ascii (rev (drop (S j) (rev name)))
      else path_name p
  | None => path_name p
  end.

(** ** The requests *)

Definition XAI_PROMPT : string :=
  "Extract all text from this Companies House document. Focus on: company names, dates, registration numbers, and director information. Return only the extracted text, no explanations.".

Definition OPENAI_PROMPT : string :=
  "Extract all text from this document, preserving structure and formatting. Focus on company names, dates, and registration details.".

Definition DATA_URL_PREFIX : string := "data:image/jpeg;base64,".

(** The [messages] of both calls: a text part and an image part. *)
Definition image_messages (prompt image_b64 : string) : json :=
  JList [JObj [("role", JStr "user");
               ("content", JList [JObj [("type", JStr "text"); ("text", JStr prompt)];
                                  JObj [("type", JStr "image_url");
                                        ("image_url", JObj [("url", JStr (DATA_URL_PREFIX +:+ image_b64))])]])]].

(** [result['choices'][0]['message']['content']], or the attributes
    [response.choices[0].message.content] of an [openai] object. *)
Definition message_content (j : json) : result json :=
  ((json_key "choices" j ≫= json_index 0) ≫= json_key "message") ≫= json_key "content".

Definition page_header (idx : nat) : string :=
  "--- Page " +:+ str_of_Z (Z.of_nat (S idx)) +:+ " ---" +:+ String (ascii_of_nat 10) EmptyString.

Definition sep2 : string := String (ascii_of_nat 10) (String (ascii_of_nat 10) EmptyString).

(** What the server reads from a request body: the bytes of the base64
    [data:] URL of [messages[0]['content'][1]['image_url']['url']]. *)
Definition request_image (body : json) : option string :=
  match ((((json_key "messages" body ≫= json_index 0) ≫= json_key "content") ≫= json_index 1)
           ≫= json_key "image_url") ≫= json_key "url" with
  | Ok (JStr url) => strip_prefix DATA_URL_PREFIX url ≫= b64decode
  | _ => None
  end.

Section Extract.
Variable cfg : Config.t.
(** [convert_from_path(pdf_path, dpi=200)]: the JPEG bytes of each page,
    or the exception of an unreadable file.  [first_page=1, last_page=k]
    keeps the first [k]. *)
Variable pdf_images : string -> result (list string).
(** [requests.post(url, headers=..., json=...)]: a connection error raises. *)
Variable post : string -> list (string * string) -> json -> result http_response.
(** [response.json()]. *)
Variable json_loads : string -> result json.
(** [openai.ChatCompletion.create(model=..., messages=..., max_tokens=...)]
    with the module's [api_key]. *)
Variable chat_create : string -> string -> json -> Z -> result json.
(** [repr] of a JSON list or dict. *)
Variable py_repr : json -> string.

Definition xai_url : string := Config.XAI_BASE_URL cfg +:+ "/chat/completions".

Definition xai_headers (key : string) : list (string * string) :=
  [("Content-Type", "application/json"); ("Authorization", "Bearer " +:+ key)].

Definition xai_body (image_b64 : string) : json :=
  JObj [("model", JStr (Config.XAI_MODEL cfg)); ("messages", image_messages XAI_PROMPT image_b64);
        ("temperature", JFloat 3 (-1)); ("max_tokens", JInt 1500)].

Definition post_json (url : string) (headers : list (string * string)) (body : json) : AM http_response := fun w =>
  match post url headers body with
  | Ok r => (Ok r, AiWorld (aw_files w) (aw_posts w ++ [(url, headers, body)]) (aw_openai_key w) (aw_log w))
  | Err e => (Err e, AiWorld (aw_files w) (aw_posts w ++ [(url, headers, body)]) (aw_openai_key w) (aw_log w))
  end.

(** [Config.CACHE_DIR / f"temp_{pdf_path.stem}_p{idx}.jpg"]. *)
Definition xai_temp (stem : string) (idx : nat) : string :=
  Config.path_join (Config.CACHE_DIR cfg) ("temp_" +:+ stem +:+ "_p" +:+ str_of_Z (Z.of_nat idx) +:+ ".jpg").

(** The answer to one page, lines 193-199: the page's text of a 200, else
    the two printed lines. *)
Definition xai_answer (idx : nat) (r : http_response) (all_text : list string) : AM (list string) :=
  if (status_code r =? 200)%Z then
    c ← lift (json_loads (resp_text r) ≫= message_content);
    mret (all_text ++ [page_header idx +:+ py_fstr py_repr c])
  else
    _ ← log_line ("⚠️  XAI API error on page " +:+ str_of_Z (Z.of_nat (S idx)) +:+ ": " +:+ str_of_Z (status_code r));
    _ ← log_line ("   Response: " +:+ resp_text r);
    mret all_text.

(** The loop of lines 154-202 over the page images, from index [idx]. *)
Fixpoint xai_pages (key stem : string) (idx : nat) (images : list string) (all_text : list string)
    : AM (list string) :=
  match images with
  | [] => mret all_text
  | image :: images' =>
      let temp_image := xai_temp stem idx in
      _ ← save_file temp_image image;
      data ← read_file temp_image;
      r ← post_json xai_url (xai_headers key) (xai_body (b64encode data));
      all_text' ← xai_answer idx r all_text;
      _ ← unlink temp_image;
      xai_pages key stem (S idx) images' all_text'
  end.

(** [api_key or default]. *)
Definition key_or (api_key : option string) (default_key : string) : string :=
  if truthy_opt api_key then default "" api_key else default_key.

(** [_extract_with_xai], lines 139-210. *)
Definition extract_with_xai (pdf_path : string) (api_key : option string) : AM string :=
  try_except
    (let key := key_or api_key (Config.XAI_API_KEY cfg) in
     if negb (truthy_str key) then lift (Err (Exn "XAI API key required for AI extraction")) else
     images ← lift (take 3 <$> pdf_images pdf_path);
     all_text ← xai_pages key (path_stem pdf_path) 0 images [];
     mret (String.concat sep2 all_text))
    (fun e => _ ← log_line ("❌ XAI extraction failed: " +:+ exn_msg e); mret ""%string).

(** [Config.CACHE_DIR / f"temp_{pdf_path.stem}.jpg"]. *)
Definition openai_temp (stem : string) : string :=
  Config.path_join (Config.CACHE_DIR cfg) ("temp_" +:+ stem +:+ ".jpg").

(** [_encode_image], lines 259-263. *)
Definition encode_image (image_path : string) : AM string :=
  data ← read_file image_path; mret (b64encode data).

(** [_extract_with_openai], lines 212-253: the key is stored in the
    [openai] module before it is checked; [images[0]] raises on a
    document without pages. *)
Definition extract_with_openai (pdf_path : string) (api_key : option string) : AM json :=
  try_except
    (_ ← set_openai_key (key_or api_key (Config.OPENAI_API_KEY cfg));
     key ← get_openai_key;
     if negb (truthy_str key) then lift (Err (Exn "OpenAI API key required for AI extraction")) else
     images ← lift (take 1 <$> pdf_images pdf_path);
     let temp_image := openai_temp (path_stem pdf_path) in
     image ← lift (match images with i :: _ => Ok i | [] => Err (Exn "list index out of range") end);
     _ ← save_file temp_image image;
     _ ← read_file temp_image;
     image_b64 ← encode_image temp_image;
     response ← lift (chat_create key "gpt-4-vision-preview" (image_messages OPENAI_PROMPT image_b64) 2000);
     _ ← unlink temp_image;
     lift (message_content response))
    (fun e => _ ← log_line ("OpenAI extraction failed: " +:+ exn_msg e); mret (JStr "")).

(** [extract_with_ai], lines 122-137. *)
Definition extract_with_ai (pdf_path : string) (api_key : option string) : AM json :=
  if bool_decide (Config.AI_PROVIDER cfg = "xai"%string) then s ← extract_with_xai pdf_path api_key; mret (JStr s)
  else extract_with_openai pdf_path api_key.

(** [text.strip()] needs a [str]: the [openai] answer may be [None]. *)
Definition as_text (j : json) : result string :=
  match j with
  | JStr t => Ok t
  | _ => Err (Exn ("'" +:+ json_type j +:+ "' object has no attribute 'strip'"))
  end.

Definition NL : string := String (ascii_of_nat 10) EmptyString.

(** [test_ai_extraction] of src/test_ai_extraction.py, lines 12-31, after
    [PDFProcessor()]. *)
Definition test_ai_extraction : AM unit :=
  let pdf_file := "data/01002769/V8WwtKQFwH6q04Yzz-jkzNaRahDgEYt2gQfN6sEGWcc.pdf" in
  _ ← log_line (NL +:+ "🤖 Testing AI Extraction (Grok)" +:+ NL);
  try_except
    (j ← extract_with_ai pdf_file None;
     text ← lift (as_text j);
     let text_len := length (strip_t (tx text)) in
     _ ← log_line "✅ AI Extraction Successful!";
     _ ← log_line ("   Extracted: " +:+ str_of_Z (Z.of_nat text_len) +:+ " characters" +:+ NL);
     log_line ("   Sample:" +:+ NL +:+ substring 0 500 text +:+ NL))
    (fun e => _ ← log_line "❌ AI Extraction Failed!"; log_line ("   Error: " +:+ exn_msg e +:+ NL)).

(** ** What the loop computes, page by page *)

(** The reply to one page: [Some] content of a 200, [None] for another
    status, an exception of the post, of [response.json()] or of the
    subscripts. *)
Definition page_reply (key image : string) : result (option json) :=
  r ← post xai_url (xai_headers key) (xai_body (b64encode image));
  if (status_code r =? 200)%Z then Some <$> (json_loads (resp_text r) ≫= message_content) else mret None.

(** The texts [all_text] collects from the replies, numbered from [idx]. *)
Fixpoint page_texts (idx : nat) (replies : list (option json)) : list string :=
  match replies with
  | [] => []
  | Some c :: rs => (page_header idx +:+ py_fstr py_repr c) :: page_texts (S idx) rs
  | None :: rs => page_texts (S idx) rs
  end.

(** The requests the loop posts for the page images. *)
Definition page_posts (key : string) (images : list string) : list post_call :=
  (fun image => (xai_url, xai_headers key, xai_body (b64encode image))) <$> images.

(** The cache directory once the temporary files of pages [idx..idx+n-1]
    are removed. *)
Definition without_temps (stem : string) (idx n : nat) (files : pydict string string) : pydict string string :=
  foldl (fun f i => dict_del f (xai_temp stem i)) files (seq idx n).



(** ** The effects of the loop *)

Lemma am_bind_run {A B} (m : AM A) (f : A -> AM B) w :
  (m ≫= f) w = match m w with (Ok a, w') => f a w' | (Err e, w') => (Err e, w') end.
Proof. reflexivity. Qed.

Lemma am_ret_run {A} (a : A) w : (mret a : AM A) w = (Ok a, w).
Proof. reflexivity. Qed.

(** Run the next effects of a computation on a concrete world. *)
Ltac am_steps :=
  try unfold save_file, read_file, log_line, unlink, lift, set_openai_key, get_openai_key;
  repeat ((rewrite am_bind_run) || (rewrite am_ret_run) || (progress cbn [aw_files aw_posts aw_openai_key aw_log])).

(** The loop over pages that all get a reply it can read, followed by
    the rest of the pages. *)
Lemma xai_pages_ok_app key stem images replies :
  Forall2 (fun image o => page_reply key image = Ok o) images replies ->
  forall idx acc w rest, exists log, xai_pages key stem idx (images ++ rest) acc w =
    xai_pages key stem (idx + length images) rest (acc ++ page_texts idx replies)
      (AiWorld (without_temps stem idx (length images) (aw_files w)) (aw_posts w ++ page_posts key images)
         (aw_openai_key w) (aw_log w ++ log)).
Proof.
  induction 1 as [|image o images replies Hr _ IH]; intros idx acc [files posts okey log] rest.
  - exists []. cbn. by rewrite !app_nil_r, Nat.add_0_r.
  - unfold page_reply in Hr. destruct (post _ _ _) as [r|e] eqn:Ep; [|discriminate].
    cbn [xai_pages app]. am_steps. rewrite dict_get_set_eq. am_steps. unfold post_json. rewrite Ep. am_steps.
    cbn [mbind result_bind] in Hr. unfold xai_answer.
    destruct (status_code r =? 200)%Z;
      [destruct (json_loads (resp_text r) ≫= message_content) as [c|e] eqn:Ec; [|discriminate]|];
      injection Hr as <-; am_steps; rewrite dict_get_set_eq, dict_del_set;
      (edestruct IH as [log' ->]; eexists; cbn [length]; rewrite Nat.add_succ_r, <- Nat.add_succ_l;
       cbn; by rewrite <- !app_assoc).
Qed.

Lemma xai_pages_ok key stem images replies idx acc w :
  Forall2 (fun image o => page_reply key image = Ok o) images replies ->
  exists log, xai_pages key stem idx images acc w =
    (Ok (acc ++ page_texts idx replies),
     AiWorld (without_temps stem idx (length images) (aw_files w)) (aw_posts w ++ page_posts key images)
       (aw_openai_key w) (aw_log w ++ log)).
Proof.
  intros HF. destruct (xai_pages_ok_app key stem images replies HF idx acc w []) as [log Hl]. rewrite app_nil_r in Hl.
  exists log. by rewrite Hl.
Qed.

(** The page whose post raises, or whose 200 reply cannot be read, ends
    the loop with its temporary file still in the cache directory. *)
Lemma xai_pages_fail key stem image rest e idx acc w :
  page_reply key image = Err e ->
  xai_pages key stem idx (image :: rest) acc w =
    (Err e, AiWorld (dict_set (aw_files w) (xai_temp stem idx) image)
              (aw_posts w ++ page_posts key [image]) (aw_openai_key w) (aw_log w)).
Proof.
  intros Hr. unfold page_reply in Hr. destruct w as [files posts okey log].
  cbn [xai_pages]. am_steps. rewrite dict_get_set_eq. am_steps. unfold post_json.
  destruct (post _ _ _) as [r|e'] eqn:Ep; [|by injection Hr as ->]. am_steps.
  cbn [mbind result_bind] in Hr. unfold xai_answer.
  destruct (status_code r =? 200)%Z; [|discriminate].
  destruct (json_loads (resp_text r) ≫= message_content) as [c|e'] eqn:Ec; [discriminate|].
  injection Hr as ->. am_steps. done.
Qed.

Lemma without_temps_S stem idx n files :
  without_temps stem idx (S n) files = without_temps stem (S idx) n (dict_del files (xai_temp stem idx)).
Proof. reflexivity. Qed.

Lemma without_temps_other stem idx n files p :
  (forall i, idx <= i < idx + n -> p <> xai_temp stem i) ->
  dict_get (without_temps stem idx n files) p = dict_get files p.
Proof.
  revert idx files. induction n as [|n IH]; intros idx files Hp; [done|].
  rewrite without_temps_S.
  rewrite IH by (intros i Hi; apply Hp; lia). apply dict_get_del_ne. intros Heq. apply (Hp idx); [lia|by rewrite Heq].
Qed.

Lemma without_temps_removed stem idx n files i :
  idx <= i < idx + n -> dict_get (without_temps stem idx n files) (xai_temp stem i) = None.
Proof.
  revert idx files i. induction n as [|n IH]; intros idx files i Hi; [lia|].
  rewrite without_temps_S.
  destruct (decide (i = idx)) as [->|Hne]; [|apply IH; lia].
  destruct (decide (xai_temp stem idx ∈ (xai_temp stem <$> seq (S idx) n))) as [Hin|Hnin].
  - apply list_elem_of_fmap in Hin as (j & Hj & Hin). apply list_elem_of_In, in_seq in Hin.
    rewrite Hj. apply IH. lia.
  - rewrite without_temps_other; [apply dict_get_del_eq|].
    intros j Hj Heq. apply Hnin. rewrite Heq. apply list_elem_of_fmap_2, list_elem_of_In, in_seq. lia.
Qed.

(** C38: when the key is set and every one of the first three pages gets
    a reply that can be read, [_extract_with_xai] posts one request per
    page, in order, with the page's image, returns the texts of the 200
    replies as ["--- Page i ---\n<content>"] blocks joined by blank lines
    (pages with another status are skipped but keep their number), and
    leaves the cache directory as it found it, without the temporary
    images. *)
Theorem extract_with_xai_pages pdf_path api_key pages replies w :
  truthy_str (key_or api_key (Config.XAI_API_KEY cfg)) = true ->
  pdf_images pdf_path = Ok pages ->
  Forall2 (fun image o => page_reply (key_or api_key (Config.XAI_API_KEY cfg)) image = Ok o) (take 3 pages) replies ->
  exists w', extract_with_xai pdf_path api_key w = (Ok (String.concat sep2 (page_texts 0 replies)), w') /\
    aw_posts w' = aw_posts w ++ page_posts (key_or api_key (Config.XAI_API_KEY cfg)) (take 3 pages) /\
    (forall i, i < length (take 3 pages) -> dict_get (aw_files w') (xai_temp (path_stem pdf_path) i) = None) /\
    (forall p, (forall i, i < length (take 3 pages) -> p <> xai_temp (path_stem pdf_path) i) ->
       dict_get (aw_files w') p = dict_get (aw_files w) p) /\
    aw_openai_key w' = aw_openai_key w.
Proof.
  intros Hkey Himg HF. unfold extract_with_xai, try_except. rewrite Hkey. cbn [negb].
  rewrite am_bind_run. unfold lift. rewrite Himg. cbn [fmap result_fmap].
  rewrite am_bind_run. destruct (xai_pages_ok _ (path_stem pdf_path) _ _ 0 [] w HF) as [log ->].
  eexists. split; [reflexivity|]. cbn [aw_posts aw_files aw_openai_key]. split_and!; [done| | |done].
  - intros i Hi. apply without_temps_removed. lia.
  - intros p Hp. apply without_temps_other. intros i Hi. apply Hp. lia.
Qed.

(** C39: a page whose request raises, or whose 200 reply [response.json()]
    or the subscripts [['choices'][0]['message']['content']] cannot read,
    makes [_extract_with_xai] print the exception and return the empty
    text: the texts of the pages before it are lost, the later pages are
    never sent, and that page's temporary image stays in the cache
    directory. *)
Theorem extract_with_xai_failure pdf_path api_key pages pre image rest replies e w :
  truthy_str (key_or api_key (Config.XAI_API_KEY cfg)) = true ->
  pdf_images pdf_path = Ok pages ->
  take 3 pages = pre ++ image :: rest ->
  Forall2 (fun image o => page_reply (key_or api_key (Config.XAI_API_KEY cfg)) image = Ok o) pre replies ->
  page_reply (key_or api_key (Config.XAI_API_KEY cfg)) image = Err e ->
  exists w', extract_with_xai pdf_path api_key w = (Ok ""%string, w') /\
    dict_get (aw_files w') (xai_temp (path_stem pdf_path) (length pre)) = Some image /\
    aw_posts w' = aw_posts w ++ page_posts (key_or api_key (Config.XAI_API_KEY cfg)) (pre ++ [image]) /\
    last (aw_log w') = Some ("❌ XAI extraction failed: " +:+ exn_msg e).
Proof.
  intros Hkey Himg Hsplit HF He. unfold extract_with_xai, try_except. rewrite Hkey. cbn [negb].
  rewrite am_bind_run. unfold lift. rewrite Himg. cbn [fmap result_fmap]. rewrite Hsplit.
  rewrite am_bind_run. destruct (xai_pages_ok_app _ (path_stem pdf_path) _ _ HF 0 [] w (image :: rest)) as [log ->].
  rewrite (xai_pages_fail _ _ _ _ e) by done. am_steps. eexists. split; [reflexivity|]. cbn [aw_files aw_posts aw_log].
  split_and!.
  - by rewrite dict_get_set_eq.
  - unfold page_posts. by rewrite fmap_app, app_assoc.
  - by rewrite last_snoc.
Qed.

(** Without a key ([api_key] and [Config.XAI_API_KEY] both empty),
    or when the PDF cannot be rendered, [_extract_with_xai] posts
    nothing, writes no file and returns the empty text after printing
    the exception. *)
Theorem extract_with_xai_errors pdf_path api_key w :
  (truthy_str (key_or api_key (Config.XAI_API_KEY cfg)) = false ->
   extract_with_xai pdf_path api_key w =
     (Ok ""%string, AiWorld (aw_files w) (aw_posts w) (aw_openai_key w)
                      (aw_log w ++ ["❌ XAI extraction failed: XAI API key required for AI extraction"]))) /\
  (forall e, truthy_str (key_or api_key (Config.XAI_API_KEY cfg)) = true -> pdf_images pdf_path = Err e ->
   extract_with_xai pdf_path api_key w =
     (Ok ""%string, AiWorld (aw_files w) (aw_posts w) (aw_openai_key w) (aw_log w ++ ["❌ XAI extraction failed: " +:+ exn_msg e]))).
Proof.
  unfold extract_with_xai, try_except. split; [intros Hkey|intros e Hkey Himg]; rewrite Hkey; cbn [negb].
  - unfold lift. am_steps. done.
  - rewrite am_bind_run. unfold lift. rewrite Himg. cbn [fmap result_fmap]. am_steps. done.
Qed.

(** C40: [_extract_with_openai] stores the key in the [openai] module and
    sends the first page only.  When the call answers, the temporary
    image is removed and the content of the first choice is returned
    (the empty text when the answer has no such content); when the call
    raises, the empty text is returned and the temporary image stays in
    the cache directory; a document without pages raises [IndexError]
    before any file is written. *)
Theorem extract_with_openai_outcome pdf_path api_key w :
  truthy_str (key_or api_key (Config.OPENAI_API_KEY cfg)) = true ->
  (forall image pages resp, pdf_images pdf_path = Ok (image :: pages) ->
   chat_create (key_or api_key (Config.OPENAI_API_KEY cfg)) "gpt-4-vision-preview"
     (image_messages OPENAI_PROMPT (b64encode image)) 2000 = Ok resp ->
   exists log, extract_with_openai pdf_path api_key w =
     (Ok (match message_content resp with Ok c => c | Err _ => JStr "" end),
      AiWorld (dict_del (aw_files w) (openai_temp (path_stem pdf_path))) (aw_posts w)
        (key_or api_key (Config.OPENAI_API_KEY cfg)) (aw_log w ++ log))) /\
  (forall image pages e, pdf_images pdf_path = Ok (image :: pages) ->
   chat_create (key_or api_key (Config.OPENAI_API_KEY cfg)) "gpt-4-vision-preview"
     (image_messages OPENAI_PROMPT (b64encode image)) 2000 = Err e ->
   extract_with_openai pdf_path api_key w =
     (Ok (JStr ""), AiWorld (dict_set (aw_files w) (openai_temp (path_stem pdf_path)) image) (aw_posts w)
        (key_or api_key (Config.OPENAI_API_KEY cfg)) (aw_log w ++ ["OpenAI extraction failed: " +:+ exn_msg e]))) /\
  (pdf_images pdf_path = Ok [] ->
   extract_with_openai pdf_path api_key w =
     (Ok (JStr ""), AiWorld (aw_files w) (aw_posts w) (key_or api_key (Config.OPENAI_API_KEY cfg))
        (aw_log w ++ ["OpenAI extraction failed: list index out of range"]))).
Proof.
  intros Hkey. unfold extract_with_openai, encode_image, try_except.
  split_and!; [intros image pages resp Himg Hc|intros image pages e Himg Hc|intros Himg];
    am_steps; rewrite Hkey; cbn [negb]; am_steps; rewrite Himg;
    cbn [fmap result_fmap take]; am_steps; [| |done];
    rewrite dict_get_set_eq; am_steps; rewrite dict_get_set_eq; am_steps; rewrite Hc; am_steps;
    [rewrite dict_get_set_eq, dict_del_set|done].
  destruct (message_content resp) as [c|e]; am_steps; [by exists []; rewrite app_nil_r|].
  by eexists.
Qed.

(** The script src/test_ai_extraction.py reports a successful
    extraction of 0 characters whenever the XAI extractor fails, for a
    missing key as for a connection error or an unreadable reply: the
    extractor catches its own exceptions and returns the empty text, so
    the script's [except] branch is never taken on that path. *)
Theorem test_ai_extraction_masks_failure w :
  Config.AI_PROVIDER cfg = "xai"%string ->
  (extract_with_xai "data/01002769/V8WwtKQFwH6q04Yzz-jkzNaRahDgEYt2gQfN6sEGWcc.pdf" None
     (log_line (NL +:+ "🤖 Testing AI Extraction (Grok)" +:+ NL) w).2).1 = Ok ""%string ->
  exists w', test_ai_extraction w = (Ok tt, w') /\
    exists pre, aw_log w' = pre ++ ["✅ AI Extraction Successful!"; "   Extracted: 0 characters" +:+ NL;
                                   "   Sample:" +:+ NL +:+ NL]%string.
Proof.
  intros Hp Hx. unfold test_ai_extraction, try_except, extract_with_ai. rewrite am_bind_run.
  rewrite bool_decide_true by done. cbn [fst snd] in Hx.
  destruct (log_line _ w) as [[] w1] eqn:E1; [|discriminate]. cbn [fst snd] in Hx.
  rewrite am_bind_run. destruct (extract_with_xai _ None w1) as [r w2] eqn:E2. cbn [fst] in Hx. subst r.
  am_steps. rewrite E2, am_ret_run. cbn [as_text]. am_steps. eexists. split; [reflexivity|]. cbn [aw_log].
  exists (aw_log w2). rewrite <- !app_assoc. reflexivity.
Qed.

End Extract.



Lemma strip_prefix_self p b : strip_prefix p (p +:+ b) = Some b.
Proof. induction p as [|c p IH]; [done|]. rewrite str_app_cons. cbn. by rewrite bool_decide_true. Qed.

(** The image a request of [_extract_with_xai] carries is the page's
    bytes: the server reading [messages[0].content[1].image_url.url]
    strips the [data:image/jpeg;base64,] prefix and decodes exactly the
    image that was saved and read back. *)
Theorem xai_request_image cfg image : request_image (xai_body cfg (b64encode image)) = Some image.
Proof.
  unfold request_image.
  change (((((json_key "messages" (xai_body cfg (b64encode image)) ≫= json_index 0) ≫= json_key "content")
             ≫= json_index 1) ≫= json_key "image_url") ≫= json_key "url")
    with (Ok (JStr (DATA_URL_PREFIX +:+ b64encode image)) : result json).
  cbv iota beta. rewrite strip_prefix_self. apply b64decode_encode.
Qed.
