(* ===== verification/AiScenarios.v ===== *)
(** * The configuration and the vision-model extraction on concrete inputs

    A configuration read from an environment with an XAI key and an
    OpenAI key; an XAI server that answers from the image it decodes out
    of the request (a 500 for one page, a reply without [choices] for
    another); the runs of [_extract_with_xai] and [_extract_with_openai]
    that are the witnesses of the theorems of [AiExtraction], and the
    environments that make [Config.from_env] fail. *)

From S2P Require Import Prelude PyString Base64 Json Config AiExtraction.

Module AiFixtures.

Definition env : pydict string string := [("XAI_API_KEY", "xai-key"); ("OPENAI_API_KEY", "sk-key")]%string.

Definition fallback : Config.t :=
  Config.Make "" "" "" "" 0 0 "" false "" 0 "" "" "" "" "" "" "" "" "" None 0 0 0 0 "" 0 "" "" "".

Definition cfg : Config.t :=
  match Config.from_env env "/app/src/core" with Ok c => c | Err _ => fallback end.

(** [cfg] without keys. *)
Definition cfg0 : Config.t :=
  match Config.from_env [] "/app/src/core" with Ok c => c | Err _ => fallback end.

Definition reply (c : string) : json :=
  JObj [("choices", JList [JObj [("message", JObj [("content", JStr c)])]])].

(** The server decodes the image of the request: page [P2] fails with a
    500, the others are answered with a body naming the image. *)
Definition post (_ : string) (_ : list (string * string)) (body : json) : result http_response :=
  match request_image body with
  | Some img => if String.eqb img "P2" then Ok (HttpResponse 500 "boom") else Ok (HttpResponse 200 img)
  | None => Err (Exn "Connection aborted.")
  end.

(** [response.json()]: the body of page [P3] is an empty object. *)
Definition loads (s : string) : result json :=
  if String.eqb s "P3" then Ok (JObj []) else Ok (reply ("text of " +:+ s)).

Definition pages_ok (_ : string) : result (list string) := Ok ["P1"; "P2"; "P4"; "P5"]%string.
Definition pages_bad (_ : string) : result (list string) := Ok ["P1"; "P3"; "P4"]%string.
Definition unreadable (_ : string) : result (list string) := Err (Exn "Unable to get page count.").

Definition chat (_ _ : string) (_ : json) (_ : Z) : result json := Ok (reply "page one").

Definition repr (_ : json) : string := "".

Definition w0 : ai_world := AiWorld [("/app/src/core/cache/profile_1.json", "{}")]%string [] "" [].

End AiFixtures.
Import AiFixtures.

Lemma extract_with_xai_pages_witness :
  truthy_str (key_or None (Config.XAI_API_KEY cfg)) = true /\
  pages_ok "/docs/NM01.pdf" = Ok ["P1"; "P2"; "P4"; "P5"]%string /\
  Forall2 (fun image o => page_reply cfg post loads (key_or None (Config.XAI_API_KEY cfg)) image = Ok o)
    (take 3 ["P1"; "P2"; "P4"; "P5"]%string) [Some (JStr "text of P1"); None; Some (JStr "text of P4")] /\
  exists w', extract_with_xai cfg pages_ok post loads repr "/docs/NM01.pdf" None w0 =
      (Ok (String.concat sep2 (page_texts repr 0 [Some (JStr "text of P1"); None; Some (JStr "text of P4")])), w') /\
    aw_posts w' = aw_posts w0 ++ page_posts cfg (key_or None (Config.XAI_API_KEY cfg)) (take 3 ["P1"; "P2"; "P4"; "P5"]%string) /\
    (forall i, i < length (take 3 ["P1"; "P2"; "P4"; "P5"]%string) ->
       dict_get (aw_files w') (xai_temp cfg (path_stem "/docs/NM01.pdf") i) = None) /\
    (forall p, (forall i, i < length (take 3 ["P1"; "P2"; "P4"; "P5"]%string) -> p <> xai_temp cfg (path_stem "/docs/NM01.pdf") i) ->
       dict_get (aw_files w') p = dict_get (aw_files w0) p) /\
    aw_openai_key w' = aw_openai_key w0.
Proof.
  assert (H1 : truthy_str (key_or None (Config.XAI_API_KEY cfg)) = true) by reflexivity.
  assert (H2 : pages_ok "/docs/NM01.pdf" = Ok ["P1"; "P2"; "P4"; "P5"]%string) by reflexivity.
  assert (H3 : Forall2 (fun image o => page_reply cfg post loads (key_or None (Config.XAI_API_KEY cfg)) image = Ok o)
    (take 3 ["P1"; "P2"; "P4"; "P5"]%string) [Some (JStr "text of P1"); None; Some (JStr "text of P4")])
    by (repeat constructor; vm_compute; reflexivity).
  split; [exact H1|]. split; [exact H2|]. split; [exact H3|].
  exact (extract_with_xai_pages cfg pages_ok post loads repr "/docs/NM01.pdf" None _ _ w0 H1 H2 H3).
Defined.

Lemma extract_with_xai_failure_witness :
  truthy_str (key_or None (Config.XAI_API_KEY cfg)) = true /\
  pages_bad "/docs/NM01.pdf" = Ok ["P1"; "P3"; "P4"]%string /\
  take 3 ["P1"; "P3"; "P4"]%string = ["P1"%string] ++ "P3"%string :: ["P4"%string] /\
  Forall2 (fun image o => page_reply cfg post loads (key_or None (Config.XAI_API_KEY cfg)) image = Ok o)
    ["P1"]%string [Some (JStr "text of P1")] /\
  page_reply cfg post loads (key_or None (Config.XAI_API_KEY cfg)) "P3" = Err (Exn "'choices'") /\
  exists w', extract_with_xai cfg pages_bad post loads repr "/docs/NM01.pdf" None w0 = (Ok ""%string, w') /\
    dict_get (aw_files w') (xai_temp cfg (path_stem "/docs/NM01.pdf") (length ["P1"]%string)) = Some "P3"%string /\
    aw_posts w' = aw_posts w0 ++ page_posts cfg (key_or None (Config.XAI_API_KEY cfg)) (["P1"%string] ++ ["P3"%string]) /\
    last (aw_log w') = Some ("❌ XAI extraction failed: " +:+ exn_msg (Exn "'choices'")).
Proof.
  assert (H1 : truthy_str (key_or None (Config.XAI_API_KEY cfg)) = true) by reflexivity.
  assert (H2 : pages_bad "/docs/NM01.pdf" = Ok ["P1"; "P3"; "P4"]%string) by reflexivity.
  assert (H3 : take 3 ["P1"; "P3"; "P4"]%string = ["P1"%string] ++ "P3"%string :: ["P4"%string]) by reflexivity.
  assert (H4 : Forall2 (fun image o => page_reply cfg post loads (key_or None (Config.XAI_API_KEY cfg)) image = Ok o)
    ["P1"]%string [Some (JStr "text of P1")]) by (repeat constructor; vm_compute; reflexivity).
  assert (H5 : page_reply cfg post loads (key_or None (Config.XAI_API_KEY cfg)) "P3" = Err (Exn "'choices'"))
    by (vm_compute; reflexivity).
  split; [exact H1|]. split; [exact H2|]. split; [exact H3|]. split; [exact H4|]. split; [exact H5|].
  exact (extract_with_xai_failure cfg pages_bad post loads repr "/docs/NM01.pdf" None _ _ _ _ _ _ w0 H1 H2 H3 H4 H5).
Defined.

Lemma extract_with_xai_errors_witness :
  truthy_str (key_or None (Config.XAI_API_KEY cfg0)) = false /\
  extract_with_xai cfg0 pages_ok post loads repr "/docs/NM01.pdf" None w0 =
    (Ok ""%string, AiWorld (aw_files w0) (aw_posts w0) (aw_openai_key w0)
       (aw_log w0 ++ ["❌ XAI extraction failed: XAI API key required for AI extraction"])) /\
  truthy_str (key_or None (Config.XAI_API_KEY cfg)) = true /\
  unreadable "/docs/NM01.pdf" = Err (Exn "Unable to get page count.") /\
  extract_with_xai cfg unreadable post loads repr "/docs/NM01.pdf" None w0 =
    (Ok ""%string, AiWorld (aw_files w0) (aw_posts w0) (aw_openai_key w0)
       (aw_log w0 ++ ["❌ XAI extraction failed: " +:+ exn_msg (Exn "Unable to get page count.")])).
Proof.
  assert (H1 : truthy_str (key_or None (Config.XAI_API_KEY cfg0)) = false) by reflexivity.
  assert (H2 : truthy_str (key_or None (Config.XAI_API_KEY cfg)) = true) by reflexivity.
  assert (H3 : unreadable "/docs/NM01.pdf" = Err (Exn "Unable to get page count.")) by reflexivity.
  split; [exact H1|]. split; [exact (proj1 (extract_with_xai_errors cfg0 pages_ok post loads repr "/docs/NM01.pdf" None w0) H1)|].
  split; [exact H2|]. split; [exact H3|].
  exact (proj2 (extract_with_xai_errors cfg unreadable post loads repr "/docs/NM01.pdf" None w0) _ H2 H3).
Defined.

Lemma extract_with_openai_outcome_witness :
  truthy_str (key_or None (Config.OPENAI_API_KEY cfg)) = true /\
  pages_ok "/docs/NM01.pdf" = Ok ("P1" :: ["P2"; "P4"; "P5"])%string /\
  chat (key_or None (Config.OPENAI_API_KEY cfg)) "gpt-4-vision-preview"
    (image_messages OPENAI_PROMPT (b64encode "P1")) 2000 = Ok (reply "page one") /\
  exists log, extract_with_openai cfg pages_ok chat "/docs/NM01.pdf" None w0 =
    (Ok (match message_content (reply "page one") with Ok c => c | Err _ => JStr "" end),
     AiWorld (dict_del (aw_files w0) (openai_temp cfg (path_stem "/docs/NM01.pdf"))) (aw_posts w0)
       (key_or None (Config.OPENAI_API_KEY cfg)) (aw_log w0 ++ log)).
Proof.
  assert (H1 : truthy_str (key_or None (Config.OPENAI_API_KEY cfg)) = true) by reflexivity.
  assert (H2 : pages_ok "/docs/NM01.pdf" = Ok ("P1" :: ["P2"; "P4"; "P5"])%string) by reflexivity.
  assert (H3 : chat (key_or None (Config.OPENAI_API_KEY cfg)) "gpt-4-vision-preview"
    (image_messages OPENAI_PROMPT (b64encode "P1")) 2000 = Ok (reply "page one")) by reflexivity.
  split; [exact H1|]. split; [exact H2|]. split; [exact H3|].
  exact (proj1 (extract_with_openai_outcome cfg pages_ok chat "/docs/NM01.pdf" None w0 H1) _ _ _ H2 H3).
Defined.

Lemma from_env_error_witness :
  (exists k s e, k ∈ ["RATE_LIMIT_REQUESTS"; "RATE_LIMIT_PERIOD"; "FLASK_PORT"]%string /\
     dict_get [("FLASK_PORT", "80a")]%string k = Some s /\ Config.py_int s = Err e) /\
  exists e, Config.from_env [("FLASK_PORT", "80a")]%string "/app" = Err e.
Proof.
  assert (H : exists k s e, k ∈ ["RATE_LIMIT_REQUESTS"; "RATE_LIMIT_PERIOD"; "FLASK_PORT"]%string /\
     dict_get [("FLASK_PORT", "80a")]%string k = Some s /\ Config.py_int s = Err e).
  { exists "FLASK_PORT"%string, "80a"%string, (Exn "invalid literal for int() with base 10: '80a'").
    split_and!; [set_solver|reflexivity|reflexivity]. }
  split; [exact H|]. exact (proj2 (Config.from_env_error [("FLASK_PORT", "80a")]%string "/app") H).
Defined.

Lemma test_ai_extraction_masks_failure_witness :
  Config.AI_PROVIDER cfg0 = "xai"%string /\
  exists w', test_ai_extraction cfg0 pages_ok post loads chat repr w0 = (Ok tt, w') /\
    exists pre, aw_log w' = pre ++ ["✅ AI Extraction Successful!"; "   Extracted: 0 characters" +:+ NL;
                                   "   Sample:" +:+ NL +:+ NL]%string.
Proof.
  assert (H1 : Config.AI_PROVIDER cfg0 = "xai"%string) by reflexivity.
  split; [exact H1|]. apply (test_ai_extraction_masks_failure cfg0 pages_ok post loads chat repr w0 H1).
  vm_compute. reflexivity.
Defined.

(** The runs in full: the page answered 500 is skipped and keeps its
    number, the cache directory ends as it began; a reply without
    [choices] on page 2 loses page 1 and leaves [temp_NM01_p1.jpg];
    the configuration's directories and stems. *)
Example ai_extraction_scenario :
  extract_with_xai cfg pages_ok post loads repr "/docs/NM01.pdf" None w0 =
    (Ok ("--- Page 1 ---" +:+ String (ascii_of_nat 10) "text of P1" +:+ sep2 +:+
         "--- Page 3 ---" +:+ String (ascii_of_nat 10) "text of P4")%string,
     AiWorld (aw_files w0)
       (page_posts cfg "xai-key" ["P1"; "P2"; "P4"]%string) ""
       ["⚠️  XAI API error on page 2: 500"; "   Response: boom"]%string) /\
  aw_files (extract_with_xai cfg pages_bad post loads repr "/docs/NM01.pdf" None w0).2 =
     aw_files w0 ++ [("/app/src/core/cache/temp_NM01_p1.jpg"%string, "P3"%string)] /\
  Config.DATA_DIR cfg = "/app/src/core/data"%string /\
  Config.path_norm "//srv/./data//" = "//srv/data"%string /\
  Config.py_int " -1_000 " = Ok (-1000)%Z /\
  (path_stem "/x/.bashrc", path_stem "a.tar.gz", path_stem "a.") = (".bashrc", "a.tar", "a.")%string.
Proof. split_and!; vm_compute; reflexivity. Qed.
