(* ===== verification/GitHub.v ===== *)
(** * [GitHubStorage] of src/core/github_storage.py

    The class keeps scan results in the repository Signal-Watch/signal-watch
    through the GitHub contents API: [push_company_data] writes
    [results/<company>/<folder>/latest.json] (with the file's [sha] when it
    exists, so that the API accepts the update) and an archive copy named
    by the timestamp, [get_company_data] reads the raw file back,
    [list_available_companies] and [get_company_history] list directories,
    [push_file_to_github] writes any local file.

    The repository is modelled as the API behaves: a store of files by
    path, each with its base64 content and its [sha]; a GET of a file
    answers 200 with the file, of a directory 200 with its entries (one per
    file directly in it, one per subdirectory), otherwise 404; a PUT needs
    a token, creates a missing file (201) and updates an existing one only
    when the request carries its current [sha] (200), and answers 422
    otherwise; when the network is down every request raises.  The blob
    hash, [json.dumps], [response.json()] and the clock are parameters.
    The class's printed messages are kept in a log. *)

From S2P Require Import Prelude PyString Base64 Json.

(** ** The repository behind the contents API *)

Record gh_file := GhFile { gf_content : string; gf_sha : string }.

Record world := World {
  w_files : pydict string gh_file;
  w_up : bool;
  w_log : list string
}.

Definition log (m : string) (w : world) : world := World (w_files w) (w_up w) (w_log w ++ [m]).

(** One entry of a directory listing. *)
Record dir_entry := DirEntry {
  de_name : string;
  de_type : string;
  de_download_url : option string;
  de_size : nat
}.

Inductive body :=
| BFile (f : gh_file)
| BDir (entries : list dir_entry)
| BRaw (s : string)
| BText (s : string).

Record response := Response { status : Z; rbody : body }.

(** A commit of the contents API. *)
Record commit := Commit { cm_message : string; cm_content : string; cm_branch : string; cm_sha : option string }.

Definition connection_error : exn := Exn "Connection aborted.".

Definition raw_base_url : string := "https://raw.githubusercontent.com/Signal-Watch/signal-watch/main".

Definition add_entry (es : list dir_entry) (e : dir_entry) : list dir_entry :=
  if bool_decide (de_name e ∈ de_name <$> es) then es else es ++ [e].

(** The entries of directory [dir]. *)
Definition listing (files : pydict string gh_file) (dir : string) : list dir_entry :=
  fold_left (fun es '(p, f) =>
    match strip_prefix (dir +:+ "/") p with
    | Some rest =>
        match str_split "/" rest with
        | [name] => add_entry es (DirEntry name "file" (Some (raw_base_url +:+ "/" +:+ p))
                                    (default 0 (String.length <$> b64decode (gf_content f))))
        | name :: _ :: _ => add_entry es (DirEntry name "dir" None 0)
        | [] => es
        end
    | None => es
    end) files [].

Section Api.
(** The blob hash GitHub gives a content. *)
Variable blob_sha : string -> string.

Definition api_get (path : string) (w : world) : result response :=
  if negb (w_up w) then Err connection_error
  else match dict_get (w_files w) path with
       | Some f => Ok (Response 200 (BFile f))
       | None =>
           match listing (w_files w) path with
           | [] => Ok (Response 404 (BText "Not Found"))
           | es => Ok (Response 200 (BDir es))
           end
       end.

Definition api_get_raw (path : string) (w : world) : result response :=
  if negb (w_up w) then Err connection_error
  else match dict_get (w_files w) path ≫= fun f => b64decode (gf_content f) with
       | Some s => Ok (Response 200 (BRaw s))
       | None => Ok (Response 404 (BText "404: Not Found"))
       end.

Definition api_put (authorized : bool) (path : string) (c : commit) (w : world) : result (response * world) :=
  if negb (w_up w) then Err connection_error
  else if negb authorized then Ok (Response 401 (BText "Requires authentication"), w)
  else
    let f := GhFile (cm_content c) (blob_sha (cm_content c)) in
    let w' := World (dict_set (w_files w) path f) (w_up w) (w_log w) in
    match dict_get (w_files w) path with
    | None => Ok (Response 201 (BFile f), w')
    | Some old =>
        match cm_sha c with
        | None => Ok (Response 422 (BText "sha wasn't supplied"), w)
        | Some sha =>
            if bool_decide (sha = gf_sha old) then Ok (Response 200 (BFile f), w')
            else Ok (Response 409 (BText "does not match"), w)
        end
    end.
End Api.

(** ** Strings *)

(** [s.replace(old, new)]: every occurrence, left to right. *)
Fixpoint str_replace_fuel (fuel : nat) (old new s : string) : string :=
  match fuel with
  | O => s
  | S fuel' =>
      match strip_prefix old s with
      | Some rest => new +:+ str_replace_fuel fuel' old new rest
      | None => match s with EmptyString => EmptyString | String c s' => String c (str_replace_fuel fuel' old new s') end
      end
  end.

Definition str_replace (old new s : string) : string := str_replace_fuel (S (String.length s)) old new s.

Definition str_ends_with (suf s : string) : bool := bool_decide (suffix (tx suf) (tx s)).

(** [a < b] on strings: code points, lexicographically. *)
Fixpoint str_ltb (a b : string) : bool :=
  match a, b with
  | EmptyString, String _ _ => true
  | String c a', String c' b' =>
      if (nat_of_ascii c <? nat_of_ascii c')%nat then true
      else if bool_decide (c = c') then str_ltb a' b' else false
  | _, EmptyString => false
  end.

(** ** The class *)

Record history_entry := HistoryEntry {
  he_filename : string;
  he_timestamp : string;
  he_download_url : option string;
  he_size : nat
}.

(** [sorted(scans, key=lambda x: x['timestamp'], reverse=True)], stable. *)
Fixpoint insert_by_timestamp (e : history_entry) (l : list history_entry) : list history_entry :=
  match l with
  | [] => [e]
  | x :: l' => if str_ltb (he_timestamp x) (he_timestamp e) then e :: l else x :: insert_by_timestamp e l'
  end.

Definition sort_by_timestamp (l : list history_entry) : list history_entry :=
  fold_left (fun acc e => insert_by_timestamp e acc) l [].

(** [self.github_token = github_token or Config.GITHUB_TOKEN], line 29. *)
Definition init_token (github_token config_token : option string) : option string :=
  if truthy_opt github_token then github_token else config_token.

Definition latest_path (company_number folder_suffix : string) : string :=
  "results/" +:+ company_number +:+ "/" +:+ folder_suffix +:+ "/latest.json".

Definition archive_path (company_number folder_suffix timestamp : string) : string :=
  "results/" +:+ company_number +:+ "/" +:+ folder_suffix +:+ "/" +:+ timestamp +:+ ".json".

Definition body_text (b : body) : string :=
  match b with BRaw s | BText s => s | _ => "" end.

Definition ok_status (r : response) : bool := bool_decide (status r = 200%Z) || bool_decide (status r = 201%Z).

Section Storage.
Variable blob_sha : string -> string.
(** [json.dumps(results, indent=2, ensure_ascii=False)]. *)
Variable json_dumps : json -> string.
(** [response.json()]. *)
Variable json_loads : string -> result json.
(** [f"{v}"] of a value that is not a string. *)
Variable py_str : json -> string.

Definition check_company_exists (company_number folder_suffix : string) (w : world) : bool :=
  match api_get (latest_path company_number folder_suffix) w with
  | Ok r => bool_decide (status r = 200%Z)
  | Err _ => false
  end.

Definition get_company_data (company_number folder_suffix : string) (w : world) : option json * world :=
  match api_get_raw (latest_path company_number folder_suffix) w with
  | Err e => (None, log ("Error fetching data from GitHub: " +:+ exn_msg e) w)
  | Ok r =>
      if bool_decide (status r = 200%Z) then
        match json_loads (body_text (rbody r)) with
        | Ok v => (Some v, w)
        | Err e => (None, log ("Error fetching data from GitHub: " +:+ exn_msg e) w)
        end
      else (None, w)
  end.

(** [_get_file_sha], lines 153-162: a failed request, a directory or a
    missing file give [None]. *)
Definition get_file_sha (path : string) (w : world) : option string :=
  match api_get path w with
  | Ok (Response 200 (BFile f)) => Some (gf_sha f)
  | _ => None
  end.

Definition folder_of (results : pydict string json) : string :=
  match dict_get results "_folder_type" with
  | Some (JStr s) => s
  | Some v => py_str v
  | None => "Directors"
  end.

Definition scan_metadata (company_number scanned_at timestamp : string) : json :=
  JObj [("company_number", JStr company_number); ("scanned_at", JStr scanned_at);
        ("scan_timestamp", JStr timestamp); ("version", JStr "1.0")].

(** [push_company_data], lines 81-151.  The dict passed in is changed in
    place ([results['_metadata'] = ...]): the second component is the
    caller's dict afterwards. *)
Definition push_company_data (token : option string) (company_number : string) (results : pydict string json)
    (timestamp scanned_at : string) (w : world) : bool * pydict string json * world :=
  if negb (truthy_opt token) then (false, results, log "GitHub token not configured. Cannot push to repository." w)
  else
    let folder_suffix := folder_of results in
    let file_path := latest_path company_number folder_suffix in
    let results' := dict_set results "_metadata" (scan_metadata company_number scanned_at timestamp) in
    let encoded_content := b64encode (json_dumps (JObj results')) in
    let sha := get_file_sha file_path w in
    let c := Commit ("Add scan results for company " +:+ company_number) encoded_content "main" sha in
    match api_put blob_sha true file_path c w with
    | Err e => (false, results', log ("Error pushing to GitHub: " +:+ exn_msg e) w)
    | Ok (r, w1) =>
        if ok_status r then
          let w2 := log ("✅ Pushed results to GitHub: " +:+ file_path) w1 in
          let c' := Commit ("Archive scan results for company " +:+ company_number +:+ " - " +:+ timestamp)
                      encoded_content "main" None in
          match api_put blob_sha true (archive_path company_number folder_suffix timestamp) c' w2 with
          | Err e => (false, results', log ("Error pushing to GitHub: " +:+ exn_msg e) w2)
          | Ok (_, w3) => (true, results', w3)
          end
        else (false, results', log ("❌ Failed to push to GitHub: " +:+ str_of_Z (status r) +:+ " - " +:+
                                     body_text (rbody r)) w1)
    end.

(** Iterating over a file's JSON object yields its keys, strings, and
    [item['type']] on a string raises. *)
Definition string_index_error : string := "string indices must be integers".

Definition list_available_companies (w : world) : list string * world :=
  match api_get "results" w with
  | Err e => ([], log ("Error listing companies: " +:+ exn_msg e) w)
  | Ok (Response 200 (BDir es)) => (de_name <$> filter (fun e => de_type e = "dir"%string) es, w)
  | Ok (Response 200 (BFile _)) => ([], log ("Error listing companies: " +:+ string_index_error) w)
  | Ok _ => ([], w)
  end.

Definition history_of (e : dir_entry) : history_entry :=
  HistoryEntry (de_name e) (str_replace ".json" "" (de_name e)) (de_download_url e) (de_size e).

Definition get_company_history (company_number : string) (w : world) : list history_entry * world :=
  match api_get ("results/" +:+ company_number) w with
  | Err e => ([], log ("Error getting company history: " +:+ exn_msg e) w)
  | Ok (Response 200 (BDir es)) =>
      (sort_by_timestamp (history_of <$> filter (fun e => str_ends_with ".json" (de_name e) = true /\
                                                          de_name e <> "latest.json"%string) es), w)
  | Ok (Response 200 (BFile _)) => ([], log ("Error getting company history: " +:+ string_index_error) w)
  | Ok _ => ([], w)
  end.

(** [push_file_to_github], lines 215-255; [local_files] is the local
    file system. *)
Definition push_file_to_github (token : option string) (file_path local_file_path commit_message : string)
    (local_files : string -> option string) (w : world) : bool * world :=
  if negb (truthy_opt token) then (false, w)
  else match local_files local_file_path with
       | None => (false, log ("Error pushing file to GitHub: [Errno 2] No such file or directory: '" +:+
                             local_file_path +:+ "'") w)
       | Some content =>
           let sha := get_file_sha file_path w in
           let c := Commit commit_message (b64encode content) "main" sha in
           match api_put blob_sha true file_path c w with
           | Err e => (false, log ("Error pushing file to GitHub: " +:+ exn_msg e) w)
           | Ok (r, w') => (ok_status r, w')
           end
       end.
End Storage.
