(* ===== verification/GitHubProps.v ===== *)
(** * Theorems of the GitHub storage

    A push with a token to a reachable repository succeeds whatever the
    repository holds, because the update carries the [sha] that
    [_get_file_sha] read, and [get_company_data] then returns the pushed
    dict with its [_metadata] (through [b64decode_encode] and a [json]
    round trip); the caller's dict is changed in place; without a token
    nothing is written.  The repositories reachable by pushes, a step
    relation, only hold files two levels below [results/<company>], so
    [get_company_history], which lists [results/<company>] itself, never
    finds a scan. *)

From S2P Require Import Prelude PyString Base64 Json GitHub.

(** ** The contents API *)

Section ApiLemmas.
Variable blob_sha : string -> string.

Lemma api_put_up p c w :
  w_up w = true ->
  exists r w', api_put blob_sha true p c w = Ok (r, w') /\ w_up w' = true /\
    ((ok_status r = true /\ w_files w' = dict_set (w_files w) p (GhFile (cm_content c) (blob_sha (cm_content c)))) \/
     (ok_status r = false /\ w' = w)).
Proof.
  intros Hup. unfold api_put. rewrite Hup. cbn [negb].
  destruct (dict_get (w_files w) p) as [old|]; [|by do 2 eexists; split_and!; [done|done|left]].
  destruct (cm_sha c) as [sha|]; [|by do 2 eexists; split_and!; [done|done|right]].
  case_bool_decide; do 2 eexists; split_and!; [done|done|left|done|done|right]; done.
Qed.

(** The [sha] that [_get_file_sha] reads makes the update go through. *)
Lemma api_put_read_sha p m content br w :
  w_up w = true ->
  exists r w', api_put blob_sha true p (Commit m content br (get_file_sha p w)) w = Ok (r, w') /\
    ok_status r = true /\ w_up w' = true /\ w_log w' = w_log w /\
    w_files w' = dict_set (w_files w) p (GhFile content (blob_sha content)).
Proof.
  intros Hup. unfold api_put, get_file_sha, api_get. rewrite Hup. cbn [negb cm_sha cm_content].
  destruct (dict_get (w_files w) p) as [old|] eqn:E.
  - rewrite bool_decide_true by done. by do 2 eexists.
  - destruct (listing (w_files w) p); by do 2 eexists.
Qed.

Lemma log_files m w : w_files (log m w) = w_files w.
Proof. done. Qed.

Lemma log_up m w : w_up (log m w) = w_up w.
Proof. done. Qed.
End ApiLemmas.

(** ** Pushing and reading back *)

Section Push.
Variable blob_sha : string -> string.
Variable json_dumps : json -> string.
Variable py_str : json -> string.

(** With a token and a reachable repository the push succeeds, the
    caller's dict gains its [_metadata], and [latest.json] holds the
    encoded dump of the new dict. *)
Lemma push_latest token n results ts iso w
    (results' := dict_set results "_metadata" (scan_metadata n iso ts))
    (fp := latest_path n (folder_of py_str results)) :
  truthy_opt token = true -> w_up w = true ->
  exists sha w', push_company_data blob_sha json_dumps py_str token n results ts iso w = (true, results', w') /\
    w_up w' = true /\ dict_get (w_files w') fp = Some (GhFile (b64encode (json_dumps (JObj results'))) sha).
Proof.
  intros Htok Hup. unfold push_company_data. rewrite Htok. cbn [negb]. fold fp. fold results'.
  destruct (api_put_read_sha blob_sha fp ("Add scan results for company " +:+ n)
              (b64encode (json_dumps (JObj results'))) "main" w Hup) as (r & w1 & -> & -> & Hup1 & _ & Hf1).
  set (c' := Commit _ _ _ None).
  destruct (api_put_up blob_sha (archive_path n (folder_of py_str results) ts) c'
              (log ("✅ Pushed results to GitHub: " +:+ fp) w1) Hup1) as (r2 & w3 & Hput2 & Hup3 & Hcase).
  rewrite Hput2.
  exists (blob_sha (b64encode (json_dumps (JObj results')))), w3. split_and!; [done|done|].
  destruct Hcase as [[_ ->]| [_ ->]]; [|by rewrite log_files, Hf1, dict_get_set_eq].
  rewrite log_files. destruct (decide (archive_path n (folder_of py_str results) ts = fp)) as [<-|Hne].
  - by rewrite dict_get_set_eq.
  - rewrite dict_get_set_ne by done. by rewrite Hf1, dict_get_set_eq.
Qed.
End Push.

Section Roundtrip.
Variable blob_sha : string -> string.
Variable json_dumps : json -> string.
Variable json_loads : string -> result json.
Variable py_str : json -> string.

(** C26: with a token and a reachable repository, [push_company_data]
    succeeds whatever the repository already holds (an existing
    [latest.json] is updated with the [sha] read first), the caller's
    dict gains the [_metadata] entry, and afterwards
    [check_company_exists] is true and [get_company_data] returns the
    pushed dict: base64 reads back what was written, and so does JSON
    when [json.loads] parses the dump of this dict. *)
Theorem push_company_data_roundtrip token n results ts iso w :
  truthy_opt token = true -> w_up w = true ->
  json_loads (json_dumps (JObj (dict_set results "_metadata" (scan_metadata n iso ts)))) =
    Ok (JObj (dict_set results "_metadata" (scan_metadata n iso ts))) ->
  exists w', push_company_data blob_sha json_dumps py_str token n results ts iso w =
      (true, dict_set results "_metadata" (scan_metadata n iso ts), w') /\
    (get_company_data json_loads n (folder_of py_str results) w').1 =
      Some (JObj (dict_set results "_metadata" (scan_metadata n iso ts))) /\
    check_company_exists n (folder_of py_str results) w' = true.
Proof.
  intros Htok Hup Hjson. destruct (push_latest blob_sha json_dumps py_str token n results ts iso w Htok Hup)
    as (sha & w' & -> & Hup' & Hget).
  exists w'. split_and!; [done| |].
  - unfold get_company_data, api_get_raw. rewrite Hup', Hget. cbn [negb mbind option_bind gf_content].
    rewrite (proj1 (b64decode_encode _)). cbn. by rewrite Hjson.
  - unfold check_company_exists, api_get. by rewrite Hup', Hget.
Qed.
End Roundtrip.

(** ** Paths *)

Lemma strip_prefix_slash x n r :
  slash_free x = true -> slash_free n = true ->
  strip_prefix (x +:+ "/") (n +:+ String "/" r) = if bool_decide (x = n) then Some r else None.
Proof.
  revert n. induction x as [|c x IH]; intros n Hx Hn; destruct n as [|c' n]; rewrite ?str_app_cons, ?str_app_nil.
  - cbn. by rewrite bool_decide_true, bool_decide_true.
  - cbn [slash_free] in Hn. apply andb_true_iff in Hn as [Hc _]. apply negb_true_iff in Hc. cbn [strip_prefix].
    rewrite bool_decide_false by (intros <-; by rewrite bool_decide_true in Hc). by rewrite bool_decide_false.
  - cbn [slash_free] in Hx. apply andb_true_iff in Hx as [Hc _]. apply negb_true_iff in Hc. cbn [strip_prefix].
    rewrite bool_decide_false by (intros ->; by rewrite bool_decide_true in Hc). by rewrite bool_decide_false.
  - cbn [slash_free] in Hx, Hn. apply andb_true_iff in Hx as [_ Hx]. apply andb_true_iff in Hn as [_ Hn].
    cbn [strip_prefix]. case_bool_decide as E; [subst c'; rewrite IH by done|by rewrite bool_decide_false by congruence].
    destruct (decide (x = n)) as [->|Hne]; [by rewrite !bool_decide_true|by rewrite !bool_decide_false by congruence].
Qed.

Lemma slash_free_not_app n a b : slash_free n = true -> n <> a +:+ String "/" b.
Proof.
  revert n. induction a as [|c a IH]; intros n Hn ->; rewrite ?str_app_cons, ?str_app_nil in Hn; cbn in Hn;
    [by rewrite bool_decide_true in Hn|].
  apply andb_true_iff in Hn as [_ Hn]. by apply (IH _ Hn).
Qed.

(** [results/<company>/<folder>/<name>], with a company number and a
    folder without ['/'], the folder not named like a JSON file. *)
Definition deep_path (p : string) : Prop :=
  exists n folder name, slash_free n = true /\ slash_free folder = true /\ str_ends_with ".json" folder = false /\
    p = "results/" +:+ n +:+ "/" +:+ folder +:+ "/" +:+ name.

Definition repo_ok (w : world) : Prop := forall p, p ∈ dict_keys (w_files w) -> deep_path p.

Lemma add_entry_Forall (P : dir_entry -> Prop) es e : Forall P es -> P e -> Forall P (add_entry es e).
Proof. intros Hes He. unfold add_entry. case_bool_decide; [done|]. apply Forall_app. by split; [|constructor]. Qed.

(** The listing of [results/<company>] holds only the folders. *)
Lemma listing_folders (files : pydict string gh_file) x :
  (forall p, p ∈ dict_keys files -> deep_path p) -> slash_free x = true ->
  Forall (fun e => str_ends_with ".json" (de_name e) = false) (listing files ("results/" +:+ x)).
Proof.
  intros Hd Hx. unfold listing. generalize (@List.Forall_nil dir_entry (fun e => str_ends_with ".json" (de_name e) = false)).
  generalize (@nil dir_entry). induction files as [|[p f] files IH]; intros es Hes; [done|].
  cbn [fold_left]. apply IH; [intros q Hq; apply Hd; by right|].
  destruct (Hd p ltac:(by left)) as (n & folder & name & Hn & Hf & Hj & ->).
  rewrite str_app_assoc, strip_prefix_app. change ("/" +:+ ?r) with (String "/" r).
  rewrite strip_prefix_slash by done. case_bool_decide; [|done].
  change ("/" +:+ name) with (String "/" name). rewrite str_split_slash by done. pose proof (str_split_nonempty "/" name).
  destruct (str_split "/" name); [done|]. by apply add_entry_Forall.
Qed.

Lemma api_put_keys bs auth path c w r w' :
  api_put bs auth path c w = Ok (r, w') -> forall p, p ∈ dict_keys (w_files w') -> p ∈ dict_keys (w_files w) \/ p = path.
Proof.
  unfold api_put. intros Hput p Hp.
  destruct (w_up w); cbn [negb] in Hput; [|discriminate].
  destruct auth; cbn [negb] in Hput; [|injection Hput as _ <-; by left].
  assert (Hset : p ∈ dict_keys (dict_set (w_files w) path (GhFile (cm_content c) (bs (cm_content c)))) ->
                 p ∈ dict_keys (w_files w) \/ p = path) by (intros Hin; apply dict_keys_set in Hin; tauto).
  destruct (dict_get (w_files w) path); [destruct (cm_sha c) as [sha|]; [case_bool_decide|]|];
    injection Hput as _ <-; auto.
Qed.

Section History.
Variable blob_sha : string -> string.
Variable json_dumps : json -> string.
Variable json_loads : string -> result json.
Variable py_str : json -> string.

(** A push writes at most [latest.json] and the archive copy. *)
Lemma push_keys token n results ts iso w p :
  p ∈ dict_keys (w_files (push_company_data blob_sha json_dumps py_str token n results ts iso w).2) ->
  p ∈ dict_keys (w_files w) \/ p = latest_path n (folder_of py_str results) \/
  p = archive_path n (folder_of py_str results) ts.
Proof.
  unfold push_company_data. destruct (truthy_opt token); cbn [negb]; [|by left].
  destruct (api_put _ _ (latest_path _ _) _ _) as [[r w1]|e] eqn:E1; cbn [snd]; [|by left].
  pose proof (api_put_keys _ _ _ _ _ _ _ E1) as K1.
  destruct (ok_status r); [|intros Hp; destruct (K1 p Hp); auto].
  destruct (api_put _ _ (archive_path _ _ _) _ _) as [[r2 w3]|e] eqn:E2; cbn [snd];
    [|intros Hp; destruct (K1 p Hp); auto].
  intros Hp. destruct (api_put_keys _ _ _ _ _ _ _ E2 p Hp) as [Hp'|]; [|auto].
  destruct (K1 p Hp'); auto.
Qed.

(** The repositories the storage can produce: an empty one, then pushes
    of slash-free company numbers into slash-free folders not named like
    JSON files, reads that only print, and the network going up or down. *)
Inductive pushed : world -> Prop :=
| pushed_empty up : pushed (World [] up [])
| pushed_push w token n results ts iso :
    pushed w -> slash_free n = true -> slash_free (folder_of py_str results) = true ->
    str_ends_with ".json" (folder_of py_str results) = false ->
    pushed (push_company_data blob_sha json_dumps py_str token n results ts iso w).2
| pushed_log w m : pushed w -> pushed (log m w)
| pushed_network w up : pushed w -> pushed (World (w_files w) up (w_log w)).

Lemma pushed_repo_ok w : pushed w -> repo_ok w.
Proof.
  induction 1 as [up|w token n results ts iso _ IH Hn Hf Hj|w m _ IH|w up _ IH]; intros p Hp.
  - by apply not_elem_of_nil in Hp.
  - destruct (push_keys token n results ts iso w p Hp) as [Hin|[->| ->]]; [by apply IH| |].
    + exists n, (folder_of py_str results), "latest.json". done.
    + exists n, (folder_of py_str results), (ts +:+ ".json"). done.
  - by apply IH.
  - by apply IH.
Qed.
End History.

Lemma dict_get_keys {V} (d : pydict string V) k v : dict_get d k = Some v -> k ∈ dict_keys d.
Proof. intros H. apply dict_get_in in H. by apply (list_elem_of_fmap_2 fst) in H. Qed.

(** C27: in every repository the storage produces, [get_company_history]
    of a company returns no scan: [push_company_data] writes into
    [results/<company>/<folder>/], and the history lists
    [results/<company>] itself, which holds only the folders. *)
Theorem get_company_history_after_pushes blob_sha json_dumps py_str w n :
  pushed blob_sha json_dumps py_str w -> slash_free n = true -> (get_company_history n w).1 = [].
Proof.
  intros Hw Hn. pose proof (pushed_repo_ok blob_sha json_dumps py_str w Hw) as Hok.
  unfold get_company_history, api_get. destruct (w_up w); cbn [negb]; [|done].
  destruct (dict_get (w_files w) ("results/" +:+ n)) as [f|] eqn:E.
  - destruct (Hok _ (dict_get_keys _ _ _ E)) as (n' & folder & name & _ & _ & _ & Hp).
    apply str_app_cancel in Hp. change ("/" +:+ ?r) with (String "/" r) in Hp.
    by destruct (slash_free_not_app n n' _ Hn Hp).
  - pose proof (listing_folders (w_files w) n Hok Hn) as Hl.
    destruct (listing (w_files w) ("results/" +:+ n)) as [|e es]; [done|]. cbn [fst].
    rewrite filter_none; [done|]. eapply Forall_impl; [exact Hl|]. cbn. intros x Hx [Hx' _]. congruence.
Qed.
