(* ===== verification/GitHubScenarios.v ===== *)
(** * The GitHub storage on a concrete repository

    An empty reachable repository, a blob hash, a [json.dumps] that writes
    Python's compact notation and a [json.loads] that reads back the dumps
    of the pushed dicts; two pushes of the same company (the second one
    updates [latest.json] with its [sha]), a file pushed directly under
    [results/<company>], and a push without a token. *)

From S2P Require Import Prelude PyString Base64 Json GitHub GitHubProps.

Module GitHubFixtures.
Definition DQ : string := String (ascii_of_nat 34) EmptyString.

(** [json.dumps] with Python's separators. *)
Fixpoint dumps (v : json) : string :=
  match v with
  | JNull => "null"
  | JBool b => if b then "true" else "false"
  | JInt z => str_of_Z z
  | JFloat m e => str_of_Z m +:+ "e" +:+ str_of_Z e
  | JStr s => DQ +:+ s +:+ DQ
  | JList l => "[" +:+ String.concat ", " (map dumps l) +:+ "]"
  | JObj fs => "{" +:+ String.concat ", " (map (fun '(k, x) => DQ +:+ k +:+ DQ +:+ ": " +:+ dumps x) fs) +:+ "}"
  end.

Definition blob_sha (s : string) : string := "sha" +:+ str_of_Z (Z.of_nat (String.length s)).

Definition py_str (v : json) : string := dumps v.

Definition token : option string := Some "ghp_token".

Definition results0 : pydict string json :=
  [("company_number", JStr "00000001"); ("mismatches", JList [])].

Definition empty : world := World [] true [].

Definition push (n : string) (r : pydict string json) (ts iso : string) (w : world) : bool * pydict string json * world :=
  push_company_data blob_sha dumps py_str token n r ts iso w.

Definition w1 : world := (push "00000001" results0 "20240101_120000" "2024-01-01T12:00:00" empty).2.
Definition w2 : world := (push "00000001" results0 "20240102_120000" "2024-01-02T12:00:00" w1).2.

(** The dicts the pushes wrote, which [json.loads] reads back. *)
Definition pushed1 : json := JObj (dict_set results0 "_metadata" (scan_metadata "00000001" "2024-01-01T12:00:00" "20240101_120000")).
Definition pushed2 : json := JObj (dict_set results0 "_metadata" (scan_metadata "00000001" "2024-01-02T12:00:00" "20240102_120000")).

Definition loads (s : string) : result json :=
  if bool_decide (s = dumps pushed1) then Ok pushed1
  else if bool_decide (s = dumps pushed2) then Ok pushed2
  else Err (Exn "Expecting value: line 1 column 1 (char 0)").

(** A local JSON file pushed with [push_file_to_github]. *)
Definition local_files (p : string) : option string :=
  if bool_decide (p = "exports/scan.json") then Some "{}" else None.

Definition w3 : world :=
  (push_file_to_github blob_sha token "results/00000001/20240103_120000.json" "exports/scan.json" "Add scan"
     local_files w2).2.
End GitHubFixtures.

Import GitHubFixtures.

Lemma push_company_data_roundtrip_witness :
  truthy_opt token = true /\ w_up w1 = true /\
  loads (dumps (JObj (dict_set results0 "_metadata" (scan_metadata "00000001" "2024-01-02T12:00:00" "20240102_120000")))) =
    Ok (JObj (dict_set results0 "_metadata" (scan_metadata "00000001" "2024-01-02T12:00:00" "20240102_120000"))) /\
  exists w', push_company_data blob_sha dumps py_str token "00000001" results0 "20240102_120000" "2024-01-02T12:00:00" w1 =
      (true, dict_set results0 "_metadata" (scan_metadata "00000001" "2024-01-02T12:00:00" "20240102_120000"), w') /\
    (get_company_data loads "00000001" (folder_of py_str results0) w').1 =
      Some (JObj (dict_set results0 "_metadata" (scan_metadata "00000001" "2024-01-02T12:00:00" "20240102_120000"))) /\
    check_company_exists "00000001" (folder_of py_str results0) w' = true.
Proof.
  assert (H1 : truthy_opt token = true) by reflexivity.
  assert (H2 : w_up w1 = true) by (vm_compute; reflexivity).
  assert (H3 : loads (dumps (JObj (dict_set results0 "_metadata" (scan_metadata "00000001" "2024-01-02T12:00:00" "20240102_120000")))) =
    Ok (JObj (dict_set results0 "_metadata" (scan_metadata "00000001" "2024-01-02T12:00:00" "20240102_120000"))))
    by (vm_compute; reflexivity).
  split_and!; [exact H1|exact H2|exact H3|].
  exact (push_company_data_roundtrip blob_sha dumps loads py_str token "00000001" results0 "20240102_120000"
           "2024-01-02T12:00:00" w1 H1 H2 H3).
Defined.

Lemma pushed_w2 : pushed blob_sha dumps py_str w2.
Proof. repeat apply pushed_push; try (vm_compute; reflexivity). apply pushed_empty. Qed.

Lemma get_company_history_after_pushes_witness :
  pushed blob_sha dumps py_str w2 /\ slash_free "00000001" = true /\ (get_company_history "00000001" w2).1 = [].
Proof.
  assert (Hn : slash_free "00000001" = true) by reflexivity.
  split_and!; [exact pushed_w2|exact Hn|].
  exact (get_company_history_after_pushes blob_sha dumps py_str w2 "00000001" pushed_w2 Hn).
Defined.

(** The storage on a concrete repository.  Two pushes of the same
    company both succeed, the second one updating [latest.json], which then
    holds the second scan; the archive keeps both timestamps; the history
    of the company is empty, although two scans were archived, while a
    file pushed directly under [results/<company>] is listed by it; the
    company is listed as available; the pushed dict of the caller gains
    [_metadata]; a push without a token writes nothing and prints why. *)
Example github_storage_scenario :
  (push "00000001" results0 "20240101_120000" "2024-01-01T12:00:00" empty).1.1 = true /\
  (push "00000001" results0 "20240102_120000" "2024-01-02T12:00:00" w1).1.1 = true /\
  (get_company_data loads "00000001" "Directors" w2).1 = Some pushed2 /\
  dict_keys (w_files w2) =
    ["results/00000001/Directors/latest.json"; "results/00000001/Directors/20240101_120000.json";
     "results/00000001/Directors/20240102_120000.json"]%string /\
  (get_company_history "00000001" w2).1 = [] /\
  (he_timestamp <$> (get_company_history "00000001" w3).1) = ["20240103_120000"]%string /\
  (list_available_companies w2).1 = ["00000001"]%string /\
  (push "00000001" results0 "20240101_120000" "2024-01-01T12:00:00" empty).1.2 =
    results0 ++ [("_metadata", scan_metadata "00000001" "2024-01-01T12:00:00" "20240101_120000")] /\
  push_company_data blob_sha dumps py_str None "00000001" results0 "t" "i" empty =
    (false, results0, World [] true ["GitHub token not configured. Cannot push to repository."%string]).
Proof. split_and!; vm_compute; reflexivity. Qed.
