(* ===== verification/Cli.v ===== *)
(** * The command-line interface: src/core/cli.py

    [main] checks the API key and runs one command: [scan] (the batch
    processor over the companies given, its summary, the results file and
    an optional export), [export] (the exporters on a saved results
    file), [resume] (the batch processor from a checkpoint file),
    [network] (the crawler, its report and its snapshot file) and
    [search] (the client's company search).  The command line is taken as
    parsed by [argparse], its defaults filled in.  The components the
    commands create ([BatchProcessor], [NetworkScanner],
    [CompaniesHouseClient]) are the functions of their models, threading
    one state; the files are a dict from path to content and the printed
    lines a list.  The JSON and HTML exporters, which have no source in
    the repository, and the timestamps are parameters. *)

From Stdlib Require Import QArith.
From S2P Require Import Prelude PyString Registry Scanner ApiClient Mismatch BatchProcessor Csv CsvExport Reports.

Local Notation result := Prelude.result.

(** ** The parsed command line *)

Inductive export_format := FmtCsv | FmtJson | FmtHtml.

Record scan_args := ScanArgs {
  sa_company : option string;
  sa_companies : option string;
  sa_expand_network : bool;
  sa_max_depth : Z;
  sa_export : option export_format
}.

Inductive command :=
| CmdScan (a : scan_args)
| CmdExport (results : string) (format : export_format)
| CmdResume (checkpoint_file : string)
| CmdNetwork (companies : string) (max_depth max_companies : Z)
| CmdSearch (query : string)
| CmdHelp.

(** [--max-depth] defaults to 2 (lines 195 and 214). *)
Definition scan_defaults : scan_args := ScanArgs None None false 2 None.

(** ** The files and the output *)

Inductive file_content :=
| ResultsFile (r : batch network)
| NetworkFile (n : network)
| CsvFile (t : text).

Record cli_world (St : Type) := CliWorld {
  cw_state : St;
  cw_files : pydict string file_content;
  cw_stdout : list string
}.
Arguments CliWorld {St} _ _ _.
Arguments cw_state {St} _.
Arguments cw_files {St} _.
Arguments cw_stdout {St} _.

Definition print {St} (line : string) (w : cli_world St) : cli_world St :=
  CliWorld (cw_state w) (cw_files w) (cw_stdout w ++ [line]).

Definition dump_json {St} (path : string) (c : file_content) (w : cli_world St) : cli_world St :=
  CliWorld (cw_state w) (dict_set (cw_files w) path c) (cw_stdout w).

(** [c.strip()] *)
Definition str_strip (s : string) : string := string_of_list_ascii (strip_t (tx s)).

(** [[c.strip() for c in args.companies.split(',')]], lines 19 and 143. *)
Definition parse_company_list (s : string) : list string := str_strip <$> str_split "," s.

(** [Config.validate_api_key], src/core/config.py lines 70-77. *)
Definition validate_api_key (key : string) : result bool :=
  if negb (truthy_str key) then
    Err (Exn "COMPANIES_HOUSE_API_KEY not found. Please set it in .env file or environment variables.")
  else Ok true.

(** ** The commands *)

Section Commands.
Context {St : Type}.
(** The batch processor's calls: [_process_single_company] and the
    network scan of [process_companies]. *)
Variable process_one : string -> bool -> SM St company_result.
Variable batch_scan : list string -> Z -> bool -> SM St network.
(** [NetworkScanner().scan_network(seeds, max_depth, max_companies)]. *)
Variable network_scan : list string -> Z -> Z -> SM St network.
(** [CompaniesHouseClient().get_company_search(query)]. *)
Variable company_search : string -> SM St (list company_hit).
(** The set iteration order of [find_company_clusters]. *)
Variable iter : gset string -> list string.
Variable confidence_str : Q -> string.
(** [Config.DATA_DIR], [Config.EXPORTS_DIR], the time stamps. *)
Variables data_dir exports_dir now stamp : string.
(** [JSONExporter().export_full_results], [HTMLExporter().export_report]
    and [export_embeddable_widget]: the paths they return. *)
Variables json_export html_export html_widget : batch network -> string.
Variable help_text : string.

Definition network_statistics (n : network) : Z * Z * Z :=
  (Z.of_nat (total_companies (stats n)), Z.of_nat (total_directors (stats n)), Z.of_nat (total_connections (stats n))).

Definition save_export (o : string * option text) (w : cli_world St) : cli_world St :=
  match o.2 with Some t => dump_json o.1 (CsvFile t) w | None => w end.

(** [cmd_export_results], lines 74-98. *)
Definition cmd_export_results (r : batch network) (format : export_format) (w : cli_world St) : cli_world St :=
  match format with
  | FmtCsv =>
      let m := export_mismatches confidence_str r (exports_dir +:+ "/mismatches_" +:+ stamp +:+ ".csv") in
      let w1 := print ("   CSV: " +:+ m.1) (save_export m w) in
      let s := export_summary r (exports_dir +:+ "/summary_" +:+ stamp +:+ ".csv") in
      let w2 := print ("   Summary CSV: " +:+ s.1) (save_export s w1) in
      match b_network r with
      | Some n =>
          let e := export_network n (exports_dir +:+ "/network_" +:+ stamp +:+ ".csv") in
          print ("   Network CSV: " +:+ e.1) (save_export e w2)
      | None => w2
      end
  | FmtJson => print ("   JSON: " +:+ json_export r) w
  | FmtHtml => print ("   Embeddable Widget: " +:+ html_widget r) (print ("   HTML Report: " +:+ html_export r) w)
  end.

Definition format_name (f : export_format) : string :=
  match f with FmtCsv => "csv" | FmtJson => "json" | FmtHtml => "html" end.

(** The company numbers of [scan], lines 18-25: [--companies] first,
    then [--company]; [None] prints the error and returns. *)
Definition scan_companies (a : scan_args) : option (list string) :=
  match sa_companies a, sa_company a with
  | Some cs, _ => if truthy_str cs then Some (parse_company_list cs)
                  else match sa_company a with Some c => if truthy_str c then Some [c] else None | None => None end
  | None, Some c => if truthy_str c then Some [c] else None
  | None, None => None
  end.

(** [cmd_scan], lines 14-71.  The checkpoint file of the run is a new
    timestamped one, so the run starts from no checkpoint. *)
Definition cmd_scan (a : scan_args) (w : cli_world St) : cli_world St :=
  let w0 := print "🔍 SignalWatch - Scanning companies..." w in
  match scan_companies a with
  | None => print "Error: No company numbers provided" w0
  | Some company_numbers =>
      let w1 := print ("📋 Companies to scan: " +:+ nat_str (length company_numbers)) w0 in
      let '(results, checkpoint, s1) :=
        process_companies process_one batch_scan now company_numbers (sa_expand_network a) (sa_max_depth a)
          true false None (cw_state w1) in
      let w2 := CliWorld s1 (cw_files w1) (cw_stdout w1) in
      let w3 := match checkpoint with
                | Some cp => dump_json (data_dir +:+ "/checkpoint_" +:+ stamp +:+ ".json") (ResultsFile cp) w2
                | None => w2
                end in
      let summary := get_processing_summary network_statistics results in
      let w4 := print ("   Total mismatches: " +:+ nat_str (ps_total_mismatches summary))
                  (print ("   Companies with mismatches: " +:+ nat_str (ps_companies_with_mismatches summary))
                    (print ("   Total companies: " +:+ nat_str (ps_total_companies summary))
                      (print (nl +:+ "✅ Scan Complete!") w3))) in
      let w5 := match b_network results with
                | Some n =>
                    print ("   Total connections: " +:+ nat_str (total_connections (stats n)))
                      (print ("   Unique directors: " +:+ nat_str (total_directors (stats n)))
                        (print ("   Connected companies: " +:+ nat_str (total_companies (stats n)))
                          (print (nl +:+ "🕸️  Network Analysis:") w4)))
                | None => w4
                end in
      let output_file := data_dir +:+ "/latest_results.json" in
      let w6 := print (nl +:+ "💾 Results saved to: " +:+ output_file) (dump_json output_file (ResultsFile results) w5) in
      match sa_export a with
      | Some f => cmd_export_results results f (print (nl +:+ "📤 Exporting to " +:+ format_name f +:+ "...") w6)
      | None => w6
      end
  end.

(** [cmd_export], lines 101-110: a missing or unreadable results file
    raises. *)
Definition cmd_export (results_path : string) (format : export_format) (w : cli_world St) : result (cli_world St) :=
  let w0 := print ("📤 Exporting results from " +:+ results_path +:+ "...") w in
  match dict_get (cw_files w0) results_path with
  | Some (ResultsFile r) => Ok (print "✅ Export complete!" (cmd_export_results r format w0))
  | Some _ => Err (Exn "Expecting a results object")
  | None => Err (Exn ("[Errno 2] No such file or directory: '" +:+ results_path +:+ "'"))
  end.

Definition checkpoint_of (f : option file_content) : option (batch network) :=
  match f with Some (ResultsFile r) => Some r | _ => None end.

(** [cmd_resume], lines 113-129: [resume_from_checkpoint] rewrites the
    checkpoint file. *)
Definition cmd_resume (checkpoint_file : string) (w : cli_world St) : result (cli_world St) :=
  let w0 := print ("🔄 Resuming from checkpoint: " +:+ checkpoint_file) w in
  match resume_from_checkpoint process_one batch_scan now checkpoint_file
          (checkpoint_of (dict_get (cw_files w0) checkpoint_file)) (cw_state w0) with
  | Err e => Err e
  | Ok (_, cp, s1) =>
      let w1 := CliWorld s1 (cw_files w0) (cw_stdout w0) in
      let w2 := match cp with Some c => dump_json checkpoint_file (ResultsFile c) w1 | None => w1 end in
      Ok (print "💾 Results saved to checkpoint file" (print "✅ Processing resumed and completed!" w2))
  end.

(** [cmd_network], lines 132-155. *)
Definition cmd_network (companies : string) (max_depth max_companies : Z) (w : cli_world St) : result (cli_world St) :=
  let w0 := print "🕸️  Scanning director network..." w in
  let company_numbers := parse_company_list companies in
  let w1 := print ("📋 Seed companies: " +:+ nat_str (length company_numbers)) w0 in
  let '(n, s1) := network_scan company_numbers max_depth max_companies (cw_state w1) in
  match n with
  | Err e => Err e
  | Ok network =>
      let w2 := CliWorld s1 (cw_files w1) (cw_stdout w1) in
      match generate_network_report iter network with
      | None => Err (Exn "maximum recursion depth exceeded")
      | Some report =>
          let output_file := data_dir +:+ "/network_results.json" in
          Ok (print (nl +:+ "💾 Network data saved to: " +:+ output_file)
                (dump_json output_file (NetworkFile network) (print report w2)))
      end
  end.

(** One result of [cmd_search], lines 166-169: a missing number raises
    [KeyError]. *)
Definition search_lines (h : company_hit) : result (list string) :=
  match ch_company_number h with
  | None => Err (Exn "'company_number'")
  | Some num =>
      match ch_title h with
      | None => Err (Exn "'title'")
      | Some title =>
          Ok (("   " +:+ num +:+ ": " +:+ title) ::
              match ch_company_status h with
              | Some st => if truthy_str st then ["      Status: " +:+ st] else []
              | None => []
              end)
      end
  end.

Fixpoint search_all (hs : list company_hit) : result (list string) :=
  match hs with
  | [] => Ok []
  | h :: hs' =>
      match search_lines h with
      | Err e => Err e
      | Ok ls => match search_all hs' with Err e => Err e | Ok rest => Ok (ls ++ rest) end
      end
  end.

(** [cmd_search], lines 158-169. *)
Definition cmd_search (query : string) (w : cli_world St) : result (cli_world St) :=
  let w0 := print ("🔎 Searching for: " +:+ query) w in
  let '(r, s1) := company_search query (cw_state w0) in
  match r with
  | Err e => Err e
  | Ok results =>
      let w1 := print (nl +:+ "📋 Found " +:+ nat_str (length results) +:+ " results:")
                  (CliWorld s1 (cw_files w0) (cw_stdout w0)) in
      match search_all (take 10 results) with
      | Err e => Err e
      | Ok ls => Ok (CliWorld (cw_state w1) (cw_files w1) (cw_stdout w1 ++ ls))
      end
  end.

(** [main], lines 172-242: an uncaught exception is [Err]. *)
Definition main (api_key : string) (cmd : command) (w : cli_world St) : result (cli_world St) :=
  match validate_api_key api_key with
  | Err e => Ok (print ("❌ Error: " +:+ exn_msg e) w)
  | Ok _ =>
      match cmd with
      | CmdScan a => Ok (cmd_scan a w)
      | CmdExport path f => cmd_export path f w
      | CmdResume path => cmd_resume path w
      | CmdNetwork cs d m => cmd_network cs d m w
      | CmdSearch q => cmd_search q w
      | CmdHelp => Ok (print help_text w)
      end
  end.

(** ** What [scan] writes *)

Lemma print_files l (w : cli_world St) : cw_files (print l w) = cw_files w.
Proof. done. Qed.

Lemma print_state l (w : cli_world St) : cw_state (print l w) = cw_state w.
Proof. done. Qed.

Lemma save_export_get o q (w : cli_world St) :
  q <> o.1 -> dict_get (cw_files (save_export o w)) q = dict_get (cw_files w) q.
Proof. intros Hq. unfold save_export. destruct o.2; [|done]. cbn. by rewrite dict_get_set_ne. Qed.

Lemma save_export_state o (w : cli_world St) : cw_state (save_export o w) = cw_state w.
Proof. unfold save_export. by destruct o.2. Qed.

(** An export writes only the three CSV files and leaves the client state. *)
Lemma cmd_export_results_get r f q (w : cli_world St) :
  q <> exports_dir +:+ "/mismatches_" +:+ stamp +:+ ".csv" -> q <> exports_dir +:+ "/summary_" +:+ stamp +:+ ".csv" ->
  q <> exports_dir +:+ "/network_" +:+ stamp +:+ ".csv" ->
  dict_get (cw_files (cmd_export_results r f w)) q = dict_get (cw_files w) q.
Proof.
  intros H1 H2 H3. destruct f; [|done|done]. unfold cmd_export_results, export_mismatches, export_summary, export_network.
  destruct (b_network r);
    repeat (rewrite print_files || (rewrite save_export_get by (cbn [fst]; done))); done.
Qed.

Lemma cmd_export_results_state r f (w : cli_world St) : cw_state (cmd_export_results r f w) = cw_state w.
Proof.
  destruct f; [|done|done]. unfold cmd_export_results.
  destruct (b_network r); repeat (rewrite print_state || rewrite save_export_state); done.
Qed.

Lemma cmd_export_results_mismatches r (w : cli_world St) :
  NoDup [exports_dir +:+ "/mismatches_" +:+ stamp +:+ ".csv"; exports_dir +:+ "/summary_" +:+ stamp +:+ ".csv";
         exports_dir +:+ "/network_" +:+ stamp +:+ ".csv"] ->
  b_results r <> [] ->
  exists t, dict_get (cw_files (cmd_export_results r FmtCsv w)) (exports_dir +:+ "/mismatches_" +:+ stamp +:+ ".csv") =
      Some (CsvFile t) /\
    read_csv t = Some (map (map tx) (mismatch_header :: mismatch_rows confidence_str (b_results r))).
Proof.
  intros Hnd Hne. apply NoDup_cons in Hnd as [Hm Hnd]. rewrite !elem_of_cons in Hm.
  pose proof (export_mismatches_read confidence_str r (exports_dir +:+ "/mismatches_" +:+ stamp +:+ ".csv")) as Hr.
  destruct (b_results r) as [|cr rs] eqn:Eb; [done|].
  destruct (export_mismatches confidence_str r _) as [p [t|]] eqn:E; cbn in Hr; [|done].
  injection Hr as Hr. exists t. split; [|done].
  assert (Hp : p = exports_dir +:+ "/mismatches_" +:+ stamp +:+ ".csv") by (unfold export_mismatches in E; congruence).
  unfold cmd_export_results. rewrite E.
  subst p. destruct (b_network r);
    repeat (rewrite print_files || (rewrite save_export_get by (cbn [fst]; intros Ex; apply Hm; auto)));
    unfold save_export; cbn [fst snd cw_files dump_json]; by rewrite dict_get_set_eq.
Qed.
End Commands.

Section ScanClaim.
Context {St : Type}.
Variable process_one : string -> bool -> SM St company_result.
Variable batch_scan : list string -> Z -> bool -> SM St network.
Variable confidence_str : Q -> string.
Variables data_dir exports_dir now stamp : string.
Variables json_export html_export html_widget : batch network -> string.

(** C28: [scan] processes the company numbers its arguments give (the
    stripped fields of [--companies], else [--company]) from no
    checkpoint, leaves the client state of that run, saves its results in
    [latest_results.json], and with [--export csv] writes a mismatches CSV
    that reads back as the header and the rows of those results, when the
    output paths differ. *)
Theorem cmd_scan_results (a : scan_args) (w : cli_world St) ns :
  scan_companies a = Some ns ->
  NoDup [data_dir +:+ "/latest_results.json"; exports_dir +:+ "/mismatches_" +:+ stamp +:+ ".csv";
         exports_dir +:+ "/summary_" +:+ stamp +:+ ".csv"; exports_dir +:+ "/network_" +:+ stamp +:+ ".csv"] ->
  let run := process_companies process_one batch_scan now ns (sa_expand_network a) (sa_max_depth a) true false None
               (cw_state w) in
  let w' := cmd_scan process_one batch_scan confidence_str data_dir exports_dir now stamp
              json_export html_export html_widget a w in
  cw_state w' = run.2 /\
  dict_get (cw_files w') (data_dir +:+ "/latest_results.json") = Some (ResultsFile run.1.1) /\
  (sa_export a = Some FmtCsv -> b_results run.1.1 <> [] ->
   exists t, dict_get (cw_files w') (exports_dir +:+ "/mismatches_" +:+ stamp +:+ ".csv") = Some (CsvFile t) /\
     read_csv t = Some (map (map tx) (mismatch_header :: mismatch_rows confidence_str (b_results run.1.1)))).
Proof.
  intros Hns Hnd run w'. subst run w'. unfold cmd_scan. rewrite Hns.
  destruct (process_companies _ _ _ _ _ _ _ _ _ _) as [[r cp] s1]. cbn [fst snd].
  apply NoDup_cons in Hnd as [Hl Hnd]. rewrite !elem_of_cons in Hl.
  set (w6 := print _ (dump_json (data_dir +:+ "/latest_results.json") (ResultsFile r) _)).
  assert (H6 : dict_get (cw_files w6) (data_dir +:+ "/latest_results.json") = Some (ResultsFile r) /\ cw_state w6 = s1).
  { subst w6. cbn. rewrite dict_get_set_eq. split; [done|]. by destruct (b_network r), cp. }
  destruct H6 as [H6 S6]. destruct (sa_export a) as [f|]; [|by split_and!].
  split_and!.
  - by rewrite cmd_export_results_state.
  - rewrite cmd_export_results_get by tauto. done.
  - intros [= ->] Hne. by apply cmd_export_results_mismatches.
Qed.
End ScanClaim.
