(* ===== verification/CliScenarios.v ===== *)
(** * The command-line interface on concrete runs

    [scan --companies "00000001, 00000002" --export csv] with the batch
    client of [ExportScenarios] (the witness of [cmd_scan_results]); the
    error paths of [main] without an API key, of [scan] without
    companies and of [search] on a result without a company number; the
    splitting of [--companies] that keeps an empty field. *)

From Stdlib Require Import QArith.
From S2P Require Import Prelude PyString Registry Scanner ApiClient Mismatch BatchProcessor Csv CsvExport Reports BatchScenarios ExportScenarios Cli.

Local Notation result := Prelude.result.

Module CliFixtures.
Import ExportFixtures.

Definition net_scan (ns : list string) (d : Z) (_ : bool) : SM nat network := fun s => (Ok (init_network ns d), s).
Definition no_net (_ : list string) (_ _ : Z) : SM nat network := fun s => (Err (Exn "unused"), s).
Definition search (_ : string) : SM nat (list company_hit) := fun s =>
  (Ok [CompanyHit (Some "ACME LIMITED") (Some "00000001") (Some "active");
       CompanyHit (Some "BETA LIMITED") None None], S s).
Definition path (_ : batch network) : string := "out".

Definition scan_csv : scan_args := ScanArgs (Some "00000001")  (Some "00000001, 00000002") false 1 (Some FmtCsv).
Definition no_companies : scan_args := ScanArgs None (Some "") false 2 None.

(** What a finished command shows. *)
Definition on_ok {A B} (f : A -> B) (r : result A) : result B :=
  match r with Ok a => Ok (f a) | Err e => Err e end.

Definition w0 : cli_world nat := CliWorld 0 [] [].

Definition run_main (key : string) (c : command) : result (cli_world nat) :=
  main client net_scan no_net search elements confidence "data" "exports" "t0" "stamp" path path path "help" key c w0.
End CliFixtures.
Import CliFixtures ExportFixtures.

Lemma cmd_scan_results_witness :
  scan_companies scan_csv = Some ["00000001"; "00000002"]%string /\
  NoDup ["data" +:+ "/latest_results.json"; "exports" +:+ "/mismatches_" +:+ "stamp" +:+ ".csv";
         "exports" +:+ "/summary_" +:+ "stamp" +:+ ".csv"; "exports" +:+ "/network_" +:+ "stamp" +:+ ".csv"]%string /\
  let run := process_companies client net_scan "t0" ["00000001"; "00000002"]%string (sa_expand_network scan_csv)
               (sa_max_depth scan_csv) true false None (cw_state w0) in
  let w' := cmd_scan client net_scan confidence "data" "exports" "t0" "stamp" path path path scan_csv w0 in
  cw_state w' = run.2 /\
  dict_get (cw_files w') ("data" +:+ "/latest_results.json") = Some (ResultsFile run.1.1) /\
  (sa_export scan_csv = Some FmtCsv -> b_results run.1.1 <> [] ->
   exists t, dict_get (cw_files w') ("exports" +:+ "/mismatches_" +:+ "stamp" +:+ ".csv") = Some (CsvFile t) /\
     read_csv t = Some (map (map tx) (mismatch_header :: mismatch_rows confidence (b_results run.1.1)))).
Proof.
  assert (H1 : scan_companies scan_csv = Some ["00000001"; "00000002"]%string) by reflexivity.
  assert (H2 : NoDup ["data" +:+ "/latest_results.json"; "exports" +:+ "/mismatches_" +:+ "stamp" +:+ ".csv";
         "exports" +:+ "/summary_" +:+ "stamp" +:+ ".csv"; "exports" +:+ "/network_" +:+ "stamp" +:+ ".csv"]%string)
    by (apply (bool_decide_unpack _); vm_compute; reflexivity).
  split; [exact H1|]. split; [exact H2|].
  exact (cmd_scan_results client net_scan confidence "data" "exports" "t0" "stamp" path path path scan_csv w0 _ H1 H2).
Defined.

(** The CLI on concrete command lines.  Without an API key [main] prints
    the error and runs no command; [scan] with an empty [--companies] and
    no [--company] prints its error and writes nothing; [scan --companies
    "00000001, 00000002" --export csv] writes the checkpoint, the results
    and the two CSV files of a run without a network (no network CSV);
    [search] raises [KeyError] on a hit without a company number;
    [export] of a missing file raises; a blank field of [--companies]
    becomes an empty company number. *)
Example cli_scenario :
  on_ok cw_stdout (run_main "" (CmdScan scan_csv)) =
    Ok ["❌ Error: COMPANIES_HOUSE_API_KEY not found. Please set it in .env file or environment variables."]%string /\
  on_ok (dict_keys ∘ cw_files) (run_main "" (CmdScan scan_csv)) = Ok [] /\
  on_ok cw_stdout (run_main "k" (CmdScan no_companies)) =
    Ok ["🔍 SignalWatch - Scanning companies..."; "Error: No company numbers provided"]%string /\
  on_ok (dict_keys ∘ cw_files) (run_main "k" (CmdScan no_companies)) = Ok [] /\
  on_ok (dict_keys ∘ cw_files) (run_main "k" (CmdScan scan_csv)) =
    Ok ["data/checkpoint_stamp.json"; "data/latest_results.json"; "exports/mismatches_stamp.csv";
        "exports/summary_stamp.csv"]%string /\
  on_ok cw_stdout (run_main "k" (CmdSearch "acme")) = Err (Exn "'company_number'") /\
  on_ok cw_stdout (run_main "k" (CmdExport "x.json" FmtCsv)) =
    Err (Exn "[Errno 2] No such file or directory: 'x.json'") /\
  parse_company_list "a, ,b" = ["a"; ""; "b"]%string.
Proof. split_and!; vm_compute; reflexivity. Qed.
